(** * miigaik_mapper: the mapping-resolution and offer-attribute pipeline

    A shallow embedding of [apps/mapper/utils/utils.py] and of
    [apps/ozon/library/ozon_manage_offers/params_manager.py], and the
    properties of the mapping resolver, the equal-value auto-mapper, the unit
    index and the Ozon offer attribute builder that were checked on it.

    Conventions of the embedding.
    - A Python [str] is a list of Unicode code points ([list N]); literals are
      written as UTF-8 text and decoded by [u].
    - A Python [dict] is an association list in insertion order: assignment to
      an existing key keeps the key's position, a new key goes to the end.
    - A queryset is the list of the rows it yields, in the order of the table.
    - A raised exception is the [Raise] case of [res]; a function that can
      raise returns [res]. *)

From Stdlib Require Import List ZArith NArith QArith Qround Bool String Ascii Lia.
Import ListNotations.

Set Implicit Arguments.
Close Scope Q_scope.
Local Open Scope list_scope.

(* ===================================================================== *)
(** * Python values                                                       *)
(* ===================================================================== *)

Module Py.

(** ** Strings *)

Abbreviation str := (list N) (only parsing).

(** UTF-8 decoding, used to write string constants as text. *)
Fixpoint utf8 (bs : list N) : str :=
  match bs with
  | [] => []
  | b0 :: t0 =>
    if (b0 <? 0x80)%N then b0 :: utf8 t0
    else
      match t0 with
      | [] => [b0]
      | b1 :: t1 =>
        if (b0 <? 0xE0)%N
        then ((b0 - 0xC0) * 64 + (b1 - 0x80))%N :: utf8 t1
        else
          match t1 with
          | [] => [b0; b1]
          | b2 :: t2 =>
            if (b0 <? 0xF0)%N
            then ((b0 - 0xE0) * 4096 + (b1 - 0x80) * 64 + (b2 - 0x80))%N
                   :: utf8 t2
            else
              match t2 with
              | [] => [b0; b1; b2]
              | b3 :: t3 =>
                ((b0 - 0xF0) * 262144 + (b1 - 0x80) * 4096
                 + (b2 - 0x80) * 64 + (b3 - 0x80))%N :: utf8 t3
              end
          end
      end
  end.

Definition u (s : string) : str :=
  utf8 (map N_of_ascii (list_ascii_of_string s)).

(** ** Keys with a boolean equality *)

Class EqKey (K : Type) := {
  keyb : K -> K -> bool;
  keyb_eq : forall a b, keyb a b = true <-> a = b
}.

Lemma keyb_refl {K} `{EqKey K} (a : K) : keyb a a = true.
Proof. apply keyb_eq. reflexivity. Qed.

Lemma keyb_neq {K} `{EqKey K} (a b : K) : keyb a b = false <-> a <> b.
Proof.
  split.
  - intros Hf Heq. apply keyb_eq in Heq. congruence.
  - intros Hn. destruct (keyb a b) eqn:E; [|reflexivity].
    apply keyb_eq in E. contradiction.
Qed.

#[export] Instance EqKey_N : EqKey N := {| keyb := N.eqb; keyb_eq := N.eqb_eq |}.
#[export] Instance EqKey_Z : EqKey Z := {| keyb := Z.eqb; keyb_eq := Z.eqb_eq |}.

Fixpoint list_eqb {A} (eqb : A -> A -> bool) (l1 l2 : list A) : bool :=
  match l1, l2 with
  | [], [] => true
  | a :: l1', b :: l2' => eqb a b && list_eqb eqb l1' l2'
  | _, _ => false
  end.

Lemma list_eqb_eq {A} `{EqKey A} (l1 l2 : list A) :
  list_eqb keyb l1 l2 = true <-> l1 = l2.
Proof.
  revert l2. induction l1 as [|a l1 IH]; intros [|b l2]; simpl;
    try (split; congruence).
  rewrite andb_true_iff, keyb_eq, IH. split.
  - intros [-> ->]. reflexivity.
  - intros E. injection E as -> ->. split; reflexivity.
Qed.

#[export] Instance EqKey_list {A} `{EqKey A} : EqKey (list A) :=
  {| keyb := list_eqb keyb; keyb_eq := list_eqb_eq |}.

Definition option_eqb {A} (eqb : A -> A -> bool) (o1 o2 : option A) : bool :=
  match o1, o2 with
  | None, None => true
  | Some a, Some b => eqb a b
  | _, _ => false
  end.

Lemma option_eqb_eq {A} `{EqKey A} (o1 o2 : option A) :
  option_eqb keyb o1 o2 = true <-> o1 = o2.
Proof.
  destruct o1 as [a|], o2 as [b|]; simpl; try (split; congruence).
  rewrite keyb_eq. split; congruence.
Qed.

#[export] Instance EqKey_option {A} `{EqKey A} : EqKey (option A) :=
  {| keyb := option_eqb keyb; keyb_eq := option_eqb_eq |}.

Definition pair_eqb {A B} (ea : A -> A -> bool) (eb : B -> B -> bool)
  (p q : A * B) : bool := ea (fst p) (fst q) && eb (snd p) (snd q).

Lemma pair_eqb_eq {A B} `{EqKey A} `{EqKey B} (p q : A * B) :
  pair_eqb keyb keyb p q = true <-> p = q.
Proof.
  destruct p as [a b], q as [c d]. unfold pair_eqb. simpl.
  rewrite andb_true_iff, !keyb_eq. split.
  - intros [-> ->]. reflexivity.
  - intros E. injection E as -> ->. split; reflexivity.
Qed.

#[export] Instance EqKey_pair {A B} `{EqKey A} `{EqKey B} : EqKey (A * B) :=
  {| keyb := pair_eqb keyb keyb; keyb_eq := pair_eqb_eq |}.

(** ** Dictionaries *)

Section Dict.
Context {K V : Type} `{EqKey K}.

(** [d.get(k)] *)
Fixpoint dict_get (k : K) (d : list (K * V)) : option V :=
  match d with
  | [] => None
  | (k', v) :: d' => if keyb k k' then Some v else dict_get k d'
  end.

(** [k in d] *)
Definition dict_mem (k : K) (d : list (K * V)) : bool :=
  match dict_get k d with Some _ => true | None => false end.

(** [d[k] = v] *)
Fixpoint dict_set (k : K) (v : V) (d : list (K * V)) : list (K * V) :=
  match d with
  | [] => [(k, v)]
  | (k', v') :: d' =>
    if keyb k k' then (k', v) :: d' else (k', v') :: dict_set k v d'
  end.

(** [d.pop(k)] on a key that may be absent, the popped value dropped *)
Fixpoint dict_pop (k : K) (d : list (K * V)) : list (K * V) :=
  match d with
  | [] => []
  | (k', v') :: d' =>
    if keyb k k' then d' else (k', v') :: dict_pop k d'
  end.

Definition dict_keys (d : list (K * V)) : list K := map fst d.
Definition dict_values (d : list (K * V)) : list V := map snd d.

(** [dict(pairs)] *)
Definition dict_of (pairs : list (K * V)) : list (K * V) :=
  fold_left (fun d kv => dict_set (fst kv) (snd kv) d) pairs [].

Lemma dict_get_set_same k v d : dict_get k (dict_set k v d) = Some v.
Proof.
  induction d as [|[k' v'] d IH]; simpl.
  - rewrite keyb_refl. reflexivity.
  - destruct (keyb k k') eqn:E; simpl; rewrite E; auto.
Qed.

Lemma dict_get_set_other k k' v d :
  k' <> k -> dict_get k' (dict_set k v d) = dict_get k' d.
Proof.
  intros Hne. pose proof (proj2 (keyb_neq k' k) Hne) as Hb.
  induction d as [|[k2 v2] d IH]; simpl.
  - rewrite Hb. reflexivity.
  - destruct (keyb k k2) eqn:E; simpl.
    + apply keyb_eq in E. subst k2. rewrite Hb. reflexivity.
    + rewrite IH. reflexivity.
Qed.

Lemma dict_get_set k k' v d :
  dict_get k' (dict_set k v d) = if keyb k' k then Some v else dict_get k' d.
Proof.
  destruct (keyb k' k) eqn:E.
  - apply keyb_eq in E. subst. apply dict_get_set_same.
  - apply keyb_neq in E. apply dict_get_set_other. exact E.
Qed.

Lemma dict_mem_set k k' v d :
  dict_mem k' (dict_set k v d) = keyb k' k || dict_mem k' d.
Proof.
  unfold dict_mem. rewrite dict_get_set. destruct (keyb k' k); reflexivity.
Qed.

Lemma dict_get_In k v d : dict_get k d = Some v -> In (k, v) d.
Proof.
  induction d as [|[k' v'] d IH]; simpl; [discriminate|].
  destruct (keyb k k') eqn:E.
  - apply keyb_eq in E. subst. intros [= ->]. left. reflexivity.
  - intros Hg. right. auto.
Qed.

Lemma dict_mem_keys k d : dict_mem k d = true <-> In k (dict_keys d).
Proof.
  unfold dict_mem, dict_keys.
  induction d as [|[k' v'] d IH]; simpl.
  - split; [discriminate | tauto].
  - destruct (keyb k k') eqn:E.
    + apply keyb_eq in E. subst. split; auto.
    + apply keyb_neq in E. rewrite IH. split; [auto|].
      intros [Heq|Hin]; [congruence | exact Hin].
Qed.

Lemma dict_keys_set k v d :
  dict_keys (dict_set k v d) =
  if dict_mem k d then dict_keys d else dict_keys d ++ [k].
Proof.
  unfold dict_mem, dict_keys.
  induction d as [|[k' v'] d IH]; simpl; [reflexivity|].
  destruct (keyb k k') eqn:E; simpl; [reflexivity|].
  rewrite IH. destruct (dict_get k d); reflexivity.
Qed.
Lemma dict_set_set k v1 v2 d : dict_set k v2 (dict_set k v1 d) = dict_set k v2 d.
Proof.
  induction d as [|[k' v'] d IH]; simpl.
  - rewrite keyb_refl. reflexivity.
  - destruct (keyb k k') eqn:E; simpl; rewrite E; [reflexivity|].
    rewrite IH. reflexivity.
Qed.

Lemma dict_mem_get k d : dict_mem k d = false <-> dict_get k d = None.
Proof. unfold dict_mem. destruct (dict_get k d); split; congruence. Qed.

End Dict.

(** [dict K V]: dictionaries with keys in [K] and values in [V]. *)
Abbreviation dict K V := (list (K * V)) (only parsing).

(** ** Exceptions *)

Inductive exn : Type :=
| KeyError
| IndexError
| ValueError
| TypeError
| AttributeError
| ZeroDivisionError
| DoesNotExist
| MultipleObjectsReturned
| ValidationError
| IntegrityError.

Inductive res (A : Type) : Type :=
| Ok (a : A)
| Raise (e : exn).
Arguments Ok {A} a.
Arguments Raise {A} e.

Definition bind {A B} (c : res A) (k : A -> res B) : res B :=
  match c with
  | Ok a => k a
  | Raise e => Raise e
  end.

(** A [for] loop over [l] whose body may raise. *)
Fixpoint for_each {A S} (body : S -> A -> res S) (l : list A) (s : S) : res S :=
  match l with
  | [] => Ok s
  | a :: l' => bind (body s a) (for_each body l')
  end.

End Py.

Export Py.

Declare Scope py_scope.
Delimit Scope py_scope with py.
Notation "x <- c ;; k" := (bind c (fun x => k))
  (at level 61, c at next level, right associativity) : py_scope.
Local Open Scope py_scope.

(* ===================================================================== *)
(** * String methods and numeric conversions                              *)
(* ===================================================================== *)

Module PyStr.

(** [str.isspace] of one code point: the characters [str.strip] removes. *)
Definition is_space (c : N) : bool :=
  ((0x09 <=? c) && (c <=? 0x0D) || (0x1C <=? c) && (c <=? 0x20)
   || (c =? 0x85) || (c =? 0xA0) || (c =? 0x1680)
   || (0x2000 <=? c) && (c <=? 0x200A)
   || (c =? 0x2028) || (c =? 0x2029) || (c =? 0x202F) || (c =? 0x205F)
   || (c =? 0x3000))%N.

Fixpoint lstrip (s : str) : str :=
  match s with
  | [] => []
  | c :: s' => if is_space c then lstrip s' else s
  end.

Definition rstrip (s : str) : str := rev (lstrip (rev s)).

(** [s.strip()] *)
Definition strip (s : str) : str := rstrip (lstrip s).

(** [s.replace(old, new)] for a one-character [old]. *)
Definition replace (old : N) (new : str) (s : str) : str :=
  flat_map (fun c => if (c =? old)%N then new else [c]) s.

(** The uppercase mapping of one code point. [str.upper] applies the
    Unicode mapping to each code point independently, and one code point can
    map to several. *)
Class Unicode := { upper_cp : N -> str }.

(** [s.upper()] *)
Definition upper `{Unicode} (s : str) : str := flat_map upper_cp s.

(** The uppercase mapping on Basic Latin, Latin-1 Supplement and the basic
    Cyrillic block; the instance leaves every other code point unchanged. It
    is used to run the examples, whose strings stay inside these blocks. *)
Definition upper_cp_latin_cyrillic (c : N) : str :=
  if ((0x61 <=? c) && (c <=? 0x7A))%N then [(c - 0x20)%N]
  else if (c =? 0xB5)%N then [0x39C%N]
  else if (c =? 0xDF)%N then [0x53%N; 0x53%N]
  else if ((0xE0 <=? c) && (c <=? 0xFE) && negb (c =? 0xF7))%N
       then [(c - 0x20)%N]
  else if (c =? 0xFF)%N then [0x178%N]
  else if ((0x430 <=? c) && (c <=? 0x44F))%N then [(c - 0x20)%N]
  else if ((0x450 <=? c) && (c <=? 0x45F))%N then [(c - 0x50)%N]
  else [c].

#[export] Instance LatinCyrillic : Unicode :=
  {| upper_cp := upper_cp_latin_cyrillic |}.

(** [sub in s] *)
Fixpoint starts_with (p s : str) : bool :=
  match p, s with
  | [], _ => true
  | _ :: _, [] => false
  | a :: p', b :: s' => (a =? b)%N && starts_with p' s'
  end.

Fixpoint contains (sub s : str) : bool :=
  starts_with sub s ||
  match s with
  | [] => false
  | _ :: s' => contains sub s'
  end.

(** [s[:n]] and [s[-n:]] for a non-negative [n], and [s[:-1]] *)
Definition take (n : nat) (s : str) : str := firstn n s.
Definition take_last (n : nat) (s : str) : str :=
  skipn (List.length s - n) s.
Definition drop_last (s : str) : str := removelast s.

(** [s.split(sep)[-1]] for a one-character [sep]: what follows the last
    separator, the whole string when there is none. *)
Fixpoint after_last (sep : N) (s : str) : str :=
  match s with
  | [] => []
  | c :: s' =>
    if existsb (N.eqb sep) s' then after_last sep s'
    else if (c =? sep)%N then s' else s
  end.

(** Decimal digits of a natural number, most significant first. *)
Fixpoint digits_fuel (fuel : nat) (n : N) (acc : str) : str :=
  match fuel with
  | O => acc
  | S fuel' =>
    let acc' := (0x30 + n mod 10)%N :: acc in
    if (n <? 10)%N then acc' else digits_fuel fuel' (n / 10)%N acc'
  end.

Definition str_of_N (n : N) : str := digits_fuel (S (N.to_nat (N.log2 n))) n [].

(** [str(z)] of an [int] *)
Definition str_of_Z (z : Z) : str :=
  match z with
  | Z0 => [0x30%N]
  | Zpos p => str_of_N (Npos p)
  | Zneg p => 0x2D%N :: str_of_N (Npos p)
  end.

(** ASCII decimal digits. [int] and the pattern [\d] also accept the other
    Unicode decimal digits, which are outside the model. *)
Definition is_digit (c : N) : bool := ((0x30 <=? c) && (c <=? 0x39))%N.

(** Digits with single underscores between them. *)
Fixpoint int_digits (acc : Z) (after_digit : bool) (s : str) : option Z :=
  match s with
  | [] => if after_digit then Some acc else None
  | c :: s' =>
    if is_digit c then int_digits (acc * 10 + Z.of_N (c - 0x30)) true s'
    else if (c =? 0x5F)%N && after_digit then int_digits acc false s'
    else None
  end.

(** [int(s)]: white space around, an optional sign, decimal digits; [None]
    stands for [ValueError]. *)
Definition int_of_str (s : str) : option Z :=
  match strip s with
  | c :: s' =>
    if (c =? 0x2D)%N then option_map Z.opp (int_digits 0 false s')
    else if (c =? 0x2B)%N then int_digits 0 false s'
    else int_digits 0 false (c :: s')
  | [] => None
  end.

End PyStr.

Export PyStr.

Module PyNum.

(** Python's [float] and the conversions between numbers and text. The
    development is parametric in them: binary64 arithmetic, [float(s)],
    [round] and [str] of a float are taken as given. *)
Class Numbers := {
  float : Type;
  (** [float(z)] of an [int] *)
  float_of_Z : Z -> float;
  (** [x == 0], which is also the falsity of [x] *)
  float_is_zero : float -> bool;
  (** [x / y] for a divisor that is not zero *)
  float_div : float -> float -> float;
  float_mul : float -> float -> float;
  (** [round(x, n)] *)
  float_round : float -> Z -> float;
  (** [str(x)] *)
  float_str : float -> str;
  (** [float(s)]; [None] stands for [ValueError] *)
  float_parse : str -> option float;
  (** [int(x)] of a float; [None] for an infinity or a NaN *)
  float_to_Z : float -> option Z
}.

(** [x / y] *)
Definition truediv `{Numbers} (x y : float) : res float :=
  if float_is_zero y then Raise ZeroDivisionError else Ok (float_div x y).

(** [float(s)] and [int(s)] *)
Definition py_float `{Numbers} (s : str) : res float :=
  match float_parse s with Some x => Ok x | None => Raise ValueError end.

Definition py_int (s : str) : res Z :=
  match int_of_str s with Some z => Ok z | None => Raise ValueError end.

End PyNum.

Export PyNum.

(** An exact decimal stand-in for the numeric types, used to run the
    examples: rationals in lowest terms for [float], and a parser that
    accepts an optional sign and ASCII digits with one decimal point.
    Exponents, infinities, NaN and binary rounding are outside it; every
    general statement below holds for all instances of [Numbers]. *)
Module Decimal.
Local Open Scope Q_scope.

Fixpoint digits_value (acc : Z) (s : str) : option Z :=
  match s with
  | [] => Some acc
  | c :: s' =>
    if is_digit c then digits_value (acc * 10 + Z.of_N (c - 0x30)) s'
    else None
  end.

Definition signed {A} (parse : str -> option A) (neg : A -> A) (s : str)
  : option A :=
  match s with
  | c :: s' =>
    if (c =? 0x2D)%N then option_map neg (parse s')
    else if (c =? 0x2B)%N then parse s'
    else parse s
  | [] => None
  end.

Fixpoint split_point (s : str) : str * option str :=
  match s with
  | [] => ([], None)
  | c :: s' =>
    if (c =? 0x2E)%N then ([], Some s')
    else let (a, b) := split_point s' in (c :: a, b)
  end.

Definition unsigned_float (s : str) : option Q :=
  let (ip, fp) := split_point s in
  let fp := match fp with Some f => f | None => [] end in
  match ip ++ fp with
  | [] => None
  | ds =>
    match digits_value 0 ds with
    | Some n => Some (Qred (n # Pos.of_nat (10 ^ List.length fp)))
    | None => None
    end
  end.

Definition float_parse (s : str) : option Q :=
  signed unsigned_float Qopp (strip s).

(** [round(x, n)]: to the nearest multiple of [10^-n], ties to even. *)
Definition float_round (x : Q) (n : Z) : Q :=
  let scale := inject_Z (10 ^ Z.max n 0) in
  let y := x * scale in
  let f := Qfloor y in
  let d := y - inject_Z f in
  let r :=
    match d ?= (1 # 2) with
    | Lt => f
    | Gt => (f + 1)%Z
    | Eq => if Z.even f then f else (f + 1)%Z
    end in
  Qred (inject_Z r / scale).

Fixpoint fraction_digits (fuel : nat) (r den : Z) : str :=
  match fuel with
  | O => []
  | S fuel' =>
    if (r =? 0)%Z then []
    else (0x30 + Z.to_N (r * 10 / den))%N
           :: fraction_digits fuel' (r * 10 mod den)%Z den
  end.

(** [str(x)]: the integer part, a point and up to seventeen decimals. *)
Definition float_str (x : Q) : str :=
  let n := Z.abs (Qnum x) in
  let den := Zpos (Qden x) in
  let frac := fraction_digits 17 (n mod den)%Z den in
  (if (Qnum x <? 0)%Z then [0x2D%N] else [])
  ++ str_of_Z (n / den)%Z ++ [0x2E%N]
  ++ match frac with [] => [0x30%N] | _ => frac end.

#[export] Instance numbers : Numbers := {|
  float := Q;
  float_of_Z := inject_Z;
  float_is_zero := fun x => Qeq_bool x 0;
  float_div := fun x y => Qred (x / y);
  float_mul := fun x y => Qred (x * y);
  PyNum.float_round := float_round;
  PyNum.float_str := float_str;
  PyNum.float_parse := float_parse;
  float_to_Z := fun x => Some (Z.quot (Qnum x) (Zpos (Qden x)))
|}.

Example float_parse_comma :
  float_parse (replace 0x2C (u ".") (u "2,5")) = Some (5 # 2).
Proof. reflexivity. Qed.

Example float_str_50 :
  float_str (float_round (float_mul (5 # 1) (10 # 1)) 10) = u "50.0".
Proof. reflexivity. Qed.

Example float_str_third :
  float_str (float_round (float_div (1 # 1) (3 # 1)) 10) = u "0.3333333333".
Proof. vm_compute. reflexivity. Qed.

End Decimal.

(* ===================================================================== *)
(** * apps/mapper/utils/utils.py                                          *)
(* ===================================================================== *)

Module Mapper.

(** [Upper] of the database, the SQL function behind the [value_upper]
    annotations. *)
Class Sql := { sql_upper : str -> str }.

Section Utils.
Context `{Unicode} `{Numbers} `{Sql}.

(** ** Unit index *)

(** A row of [ValueUnitMap], over the type [F] of its multiplier. *)
Record ValueUnitMap (F : Type) : Type := {
  value_unit_from_id : Z;
  value_unit_to_id : Z;
  multiplier : F
}.

(** Keys are pairs of unit ids; a mapping entry whose attribute has no unit
    looks the index up with [None] in that position. *)
Definition unit_key : Type := (option Z * option Z)%type.

Definition unit_key_of (from_id to_id : Z) : unit_key :=
  (Some from_id, Some to_id).

Definition get_unit_map_row (result : dict unit_key float) (unit_map : ValueUnitMap float)
  : res (dict unit_key float) :=
  let result :=
    dict_set (unit_key_of (value_unit_from_id unit_map)
                          (value_unit_to_id unit_map))
             (multiplier unit_map) result in
  inverse <- truediv (float_of_Z 1) (multiplier unit_map) ;;
  Ok (dict_set (unit_key_of (value_unit_to_id unit_map)
                            (value_unit_from_id unit_map))
               inverse result).

(** [get_unit_map()], over the rows of [ValueUnitMap.objects.all()]. *)
Definition get_unit_map (rows : list (ValueUnitMap float)) : res (dict unit_key float) :=
  for_each get_unit_map_row rows [].

(** ** The attribute map *)

(** [market_value.source_id or 0]: the source id when it is a non-empty
    string, the integer 0 otherwise. *)
Inductive value_id : Type :=
| IntId (z : Z)
| StrId (s : str).

(** An entry of a [values_map] list. *)
Record value_data : Type := {
  vd_value : str;
  vd_dictionary_value_id : value_id;
  vd_deleted : bool
}.

(** The data of one attribute mapping. [values_map] is [None] when the
    dictionary has no such key. *)
Record mapping_data : Type := {
  source_id : str;
  dictionary_id : option Z;
  data_type : option str;
  mapping_id : Z;
  from_unit_id : option Z;
  to_unit_id : option Z;
  is_rich_content : bool;
  ignore_data_type : bool;
  deleted : bool;
  values_map : option (dict str (list value_data))
}.

Abbreviation attribute_map_type := (dict str (dict Z mapping_data))
  (only parsing).

(** Truth value of a nullable integer id. *)
Definition id_true (o : option Z) : bool :=
  match o with
  | Some z => negb (z =? 0)%Z
  | None => false
  end.

(** ** get_mapped_values *)

(** A resolved assignment. [mv_deleted] is [None] on the non-dictionary path,
    whose dictionary has no [deleted] key. *)
Record mapped_value : Type := {
  value : str;
  dictionary_value_id : value_id;
  mv_deleted : option bool;
  attribute_source_id : str;
  mv_data_type : option str;
  mv_is_rich_content : bool;
  mv_ignore_data_type : bool
}.

Record mapped_values : Type := {
  values : dict str (list mapped_value);
  unmapped_attributes : list str;
  unmapped_value_attributes : list str;
  empty_value_attributes : list str;
  type_error_attributes : list str;
  mapped_with_deleted : list str;
  mapped_with_deleted_value : list str
}.

Definition initial_result : mapped_values := {|
  values := [];
  unmapped_attributes := [];
  unmapped_value_attributes := [];
  empty_value_attributes := [];
  type_error_attributes := [];
  mapped_with_deleted := [];
  mapped_with_deleted_value := []
|}.

Definition with_values (f : dict str (list mapped_value) -> dict str (list mapped_value))
  (r : mapped_values) : mapped_values := {|
  values := f (values r);
  unmapped_attributes := unmapped_attributes r;
  unmapped_value_attributes := unmapped_value_attributes r;
  empty_value_attributes := empty_value_attributes r;
  type_error_attributes := type_error_attributes r;
  mapped_with_deleted := mapped_with_deleted r;
  mapped_with_deleted_value := mapped_with_deleted_value r
|}.

Definition append_unmapped_attributes (x : str) (r : mapped_values) := {|
  values := values r;
  unmapped_attributes := unmapped_attributes r ++ [x];
  unmapped_value_attributes := unmapped_value_attributes r;
  empty_value_attributes := empty_value_attributes r;
  type_error_attributes := type_error_attributes r;
  mapped_with_deleted := mapped_with_deleted r;
  mapped_with_deleted_value := mapped_with_deleted_value r
|}.

Definition append_unmapped_value_attributes (x : str) (r : mapped_values) := {|
  values := values r;
  unmapped_attributes := unmapped_attributes r;
  unmapped_value_attributes := unmapped_value_attributes r ++ [x];
  empty_value_attributes := empty_value_attributes r;
  type_error_attributes := type_error_attributes r;
  mapped_with_deleted := mapped_with_deleted r;
  mapped_with_deleted_value := mapped_with_deleted_value r
|}.

Definition append_empty_value_attributes (x : str) (r : mapped_values) := {|
  values := values r;
  unmapped_attributes := unmapped_attributes r;
  unmapped_value_attributes := unmapped_value_attributes r;
  empty_value_attributes := empty_value_attributes r ++ [x];
  type_error_attributes := type_error_attributes r;
  mapped_with_deleted := mapped_with_deleted r;
  mapped_with_deleted_value := mapped_with_deleted_value r
|}.

Definition append_type_error_attributes (x : str) (r : mapped_values) := {|
  values := values r;
  unmapped_attributes := unmapped_attributes r;
  unmapped_value_attributes := unmapped_value_attributes r;
  empty_value_attributes := empty_value_attributes r;
  type_error_attributes := type_error_attributes r ++ [x];
  mapped_with_deleted := mapped_with_deleted r;
  mapped_with_deleted_value := mapped_with_deleted_value r
|}.

Definition append_mapped_with_deleted_value (x : str) (r : mapped_values) := {|
  values := values r;
  unmapped_attributes := unmapped_attributes r;
  unmapped_value_attributes := unmapped_value_attributes r;
  empty_value_attributes := empty_value_attributes r;
  type_error_attributes := type_error_attributes r;
  mapped_with_deleted := mapped_with_deleted r;
  mapped_with_deleted_value := mapped_with_deleted_value r ++ [x]
|}.

(** [d.setdefault(k, []).append(x)] *)
Definition setdefault_append {A} (k : str) (x : A) (d : dict str (list A))
  : dict str (list A) :=
  match dict_get k d with
  | Some l => dict_set k (l ++ [x]) d
  | None => dict_set k [x] d
  end.

(** The dictionary built from a [values_map] entry and the mapping's
    [attribute_source_id], [data_type], [is_rich_content] and
    [ignore_data_type]. *)
Definition dictionary_value (mapping_for_market : mapping_data)
  (values_map : value_data) : mapped_value := {|
  value := vd_value values_map;
  dictionary_value_id := vd_dictionary_value_id values_map;
  mv_deleted := Some (vd_deleted values_map);
  attribute_source_id := source_id mapping_for_market;
  mv_data_type := data_type mapping_for_market;
  mv_is_rich_content := is_rich_content mapping_for_market;
  mv_ignore_data_type := ignore_data_type mapping_for_market
|}.

(** The body of [for values_map in values_maps[upper_value]]. *)
Definition append_dictionary_value (attr_name : str)
  (mapping_for_market : mapping_data) (result : mapped_values)
  (values_map : value_data) : mapped_values :=
  if vd_deleted values_map then result
  else with_values
         (setdefault_append attr_name
            (dictionary_value mapping_for_market values_map)) result.

Definition plain_value (mapping_for_market : mapping_data) (v : str)
  : mapped_value := {|
  value := v;
  dictionary_value_id := IntId 0;
  mv_deleted := None;
  attribute_source_id := source_id mapping_for_market;
  mv_data_type := data_type mapping_for_market;
  mv_is_rich_content := is_rich_content mapping_for_market;
  mv_ignore_data_type := ignore_data_type mapping_for_market
|}.

(** The truth value of [value_unit_map.get(key)]. *)
Definition usable_multiplier (multiplier : option float) : option float :=
  match multiplier with
  | Some m => if float_is_zero m then None else Some m
  | None => None
  end.

(** The body of [for mapping_for_market in attribute_mapping_data.values()]. *)
Definition map_for_market (value_unit_map : dict unit_key float)
  (attr_name attr_value upper_value : str)
  (result : mapped_values) (mapping_for_market : mapping_data)
  : res mapped_values :=
  if deleted mapping_for_market then Ok result
  else
    let attribute_source_id := source_id mapping_for_market in
    if keyb attr_value [] then
      Ok (append_empty_value_attributes attribute_source_id result)
    else if id_true (dictionary_id mapping_for_market) then
      match values_map mapping_for_market with
      | None => Raise KeyError
      | Some values_maps =>
        match dict_get upper_value values_maps with
        | None =>
          Ok (append_unmapped_value_attributes attribute_source_id result)
        | Some matching =>
          let result :=
            fold_left (append_dictionary_value attr_name mapping_for_market)
                      matching result in
          if dict_mem attr_name (values result) then Ok result
          else Ok (append_mapped_with_deleted_value attribute_source_id result)
        end
      end
    else
      let multiplier :=
        dict_get (from_unit_id mapping_for_market,
                  to_unit_id mapping_for_market) value_unit_map in
      match usable_multiplier multiplier with
      | Some m =>
        match float_parse (replace 0x2C (u ".") attr_value) with
        | Some num_value =>
          let v := float_str (float_round (float_mul num_value m) 10) in
          Ok (with_values
                (setdefault_append attr_name (plain_value mapping_for_market v))
                result)
        | None => Ok (append_type_error_attributes attribute_source_id result)
        end
      | None =>
        Ok (with_values
              (setdefault_append attr_name
                 (plain_value mapping_for_market attr_value))
              result)
      end.

(** The body of [for attr_value in attr_values]. *)
Definition map_value (value_unit_map : dict unit_key float)
  (attribute_map : attribute_map_type) (attr_name : str)
  (result : mapped_values) (attr_value : str) : res mapped_values :=
  let upper_value := upper attr_value in
  match dict_get attr_name attribute_map with
  | None | Some [] => Ok (append_unmapped_attributes attr_name result)
  | Some attribute_mapping_data =>
    for_each (map_for_market value_unit_map attr_name attr_value upper_value)
             (dict_values attribute_mapping_data) result
  end.

(** The body of [for attr_name, attr_values in feed_attribute_values.items()]. *)
Definition map_attribute (value_unit_map : dict unit_key float)
  (attribute_map : attribute_map_type)
  (result : mapped_values) (item : str * list str) : res mapped_values :=
  for_each (map_value value_unit_map attribute_map (fst item)) (snd item) result.

(** [get_mapped_values(attribute_map, feed_attribute_values)], with the rows
    of [ValueUnitMap] that [get_unit_map()] reads. *)
Definition get_mapped_values (unit_rows : list (ValueUnitMap float))
  (attribute_map : attribute_map_type)
  (feed_attribute_values : dict str (list str)) : res mapped_values :=
  value_unit_map <- get_unit_map unit_rows ;;
  for_each (map_attribute value_unit_map attribute_map)
           feed_attribute_values initial_result.

(** ** Tables *)

(** The rows of the models, with the fields the functions below read.
    Foreign keys hold the id of the row they point to. A [source_id] of a
    marketplace attribute is a string; rows with a NULL there are not
    modelled. *)
Record FeedCategory : Type := {
  fc_id : Z;
  fc_feed_id : Z
}.

Record FeedCategoryAttribute : Type := {
  fca_id : Z;
  fca_category_id : Z;
  fca_name : str;
  fca_unit_id : option Z
}.

Record FeedCategoryAttributeValue : Type := {
  fcav_id : Z;
  fcav_attribute_id : Z;
  fcav_value : str
}.

Record MarketAttribute : Type := {
  ma_id : Z;
  ma_name : str;
  ma_source_id : str;
  ma_dictionary_id : option Z;
  ma_data_type : option str;
  ma_unit_id : option Z;
  ma_is_rich_content : bool;
  ma_ignore_data_type : bool;
  ma_disabled : bool;
  ma_map_equal_values : bool;
  ma_default_value_id : option Z
}.

Record MarketCategoryAttribute : Type := {
  mca_id : Z;
  mca_category_id : Z;
  mca_attribute_id : Z;
  mca_required : bool;
  mca_deleted : bool
}.

Record MarketAttributeValue : Type := {
  mav_id : Z;
  mav_dictionary_id : Z;
  mav_source_id : option str;
  mav_value : str;
  mav_deleted : bool
}.

Record AttributeMap : Type := {
  am_id : Z;
  am_category_map_id : Z;
  am_feed_attribute_id : Z;
  am_marketplace_attribute_id : Z
}.

Record ValueMap : Type := {
  vm_id : Z;
  vm_attribute_map_id : Z;
  vm_feed_attribute_value_id : Z;
  vm_marketplace_attribute_value_id : option Z
}.

Record database (F : Type) : Type := {
  feed_categories : list FeedCategory;
  feed_attributes : list FeedCategoryAttribute;
  feed_values : list FeedCategoryAttributeValue;
  market_attributes : list MarketAttribute;
  market_category_attributes : list MarketCategoryAttribute;
  market_values : list MarketAttributeValue;
  attribute_maps : list AttributeMap;
  value_maps : list ValueMap;
  value_unit_maps : list (ValueUnitMap F)
}.

(** The row a foreign key points to. *)
Definition by_id {A} (id_of : A -> Z) (table : list A) (id : Z) : option A :=
  find (fun row => (id_of row =? id)%Z) table.

(** [[f(x) for x in l if f(x) is not None]]: an inner join drops the rows
    whose related row is missing. *)
Definition filter_map {A B} (f : A -> option B) (l : list A) : list B :=
  flat_map (fun a => match f a with Some b => [b] | None => [] end) l.

(** ** normalize_string *)

Definition normalize_string (string : str) : str :=
  replace 0xA0 (u " ") (upper (strip string)).

(** ** standardize_str *)

(** [standardize_str(convert)] of the feed attributes fetcher, by which the
    stored and the incoming names of feed attributes are compared:
    [convert.upper().replace('Ё', 'Е').replace('\xa0', ' ')]. *)
Definition standardize_str (convert : str) : str :=
  replace 0xA0 (u " ") (replace 0x401 [0x415%N] (upper convert)).

(** ** get_category_attribute_map *)

(** An [AttributeMap] row with [feed_attribute],
    [marketplace_attribute] and [marketplace_attribute.attribute]. *)
Record attribute_map_row : Type := {
  attr_map : AttributeMap;
  feed_attribute : FeedCategoryAttribute;
  marketplace_attribute : MarketCategoryAttribute;
  market_attribute : MarketAttribute
}.

Definition select_attribute_map (db : database float) (am : AttributeMap)
  : option attribute_map_row :=
  match by_id fca_id (feed_attributes db) (am_feed_attribute_id am),
        by_id mca_id (market_category_attributes db)
              (am_marketplace_attribute_id am) with
  | Some fa, Some mca =>
    match by_id ma_id (market_attributes db) (mca_attribute_id mca) with
    | Some ma =>
      Some {| attr_map := am; feed_attribute := fa;
              marketplace_attribute := mca; market_attribute := ma |}
    | None => None
    end
  | _, _ => None
  end.

(** [AttributeMap.objects.select_related(...).filter(category_map__pk=...,
    marketplace_attribute__attribute__disabled=False)] *)
Definition attribute_map_queryset (db : database float) (category_mapping_id : Z)
  : list attribute_map_row :=
  filter
    (fun row =>
       (am_category_map_id (attr_map row) =? category_mapping_id)%Z
       && negb (ma_disabled (market_attribute row)))
    (filter_map (select_attribute_map db) (attribute_maps db)).

Definition new_mapping_data (row : attribute_map_row) : mapping_data := {|
  source_id := ma_source_id (market_attribute row);
  dictionary_id := ma_dictionary_id (market_attribute row);
  data_type := ma_data_type (market_attribute row);
  mapping_id := am_id (attr_map row);
  from_unit_id := fca_unit_id (feed_attribute row);
  to_unit_id := ma_unit_id (market_attribute row);
  is_rich_content := ma_is_rich_content (market_attribute row);
  ignore_data_type := ma_ignore_data_type (market_attribute row);
  deleted := mca_deleted (marketplace_attribute row);
  values_map := None
|}.

Definition with_values_map (vm : option (dict str (list value_data)))
  (m : mapping_data) : mapping_data := {|
  source_id := source_id m;
  dictionary_id := dictionary_id m;
  data_type := data_type m;
  mapping_id := mapping_id m;
  from_unit_id := from_unit_id m;
  to_unit_id := to_unit_id m;
  is_rich_content := is_rich_content m;
  ignore_data_type := ignore_data_type m;
  deleted := deleted m;
  values_map := vm
|}.

(** The body of [for attr_map in attribute_map_queryset]. *)
Definition add_attribute_mapping (attribute_map_data : attribute_map_type)
  (row : attribute_map_row) : attribute_map_type :=
  let feed_attribute_name := normalize_string (fca_name (feed_attribute row)) in
  let by_mapping :=
    match dict_get feed_attribute_name attribute_map_data with
    | Some d => d
    | None => []
    end in
  let map_data :=
    match dict_get (am_id (attr_map row)) by_mapping with
    | Some existing => existing
    | None => new_mapping_data row
    end in
  let map_data :=
    if id_true (dictionary_id map_data)
    then with_values_map (Some []) map_data
    else map_data in
  dict_set feed_attribute_name
           (dict_set (am_id (attr_map row)) map_data by_mapping)
           attribute_map_data.

(** A [ValueMap] row with [attribute_map], [feed_attribute_value],
    [feed_attribute_value.attribute] and [marketplace_attribute_value]. *)
Record value_map_row : Type := {
  val_map : ValueMap;
  val_attribute_map : attribute_map_row;
  feed_value : FeedCategoryAttributeValue;
  feed_value_attribute : FeedCategoryAttribute;
  market_value : option MarketAttributeValue
}.

Definition select_value_map (db : database float) (vm : ValueMap)
  : option value_map_row :=
  match by_id am_id (attribute_maps db) (vm_attribute_map_id vm) with
  | Some am =>
    match select_attribute_map db am,
          by_id fcav_id (feed_values db) (vm_feed_attribute_value_id vm) with
    | Some am_row, Some fv =>
      match by_id fca_id (feed_attributes db) (fcav_attribute_id fv) with
      | Some fa =>
        Some {| val_map := vm; val_attribute_map := am_row;
                feed_value := fv; feed_value_attribute := fa;
                market_value :=
                  match vm_marketplace_attribute_value_id vm with
                  | Some id => by_id mav_id (market_values db) id
                  | None => None
                  end |}
      | None => None
      end
    | _, _ => None
    end
  | None => None
  end.

(** [ValueMap.objects.select_related(...).filter(
    attribute_map__category_map__pk=...,
    attribute_map__marketplace_attribute__attribute__disabled=False)] *)
Definition value_map_queryset (db : database float) (category_mapping_id : Z)
  : list value_map_row :=
  filter
    (fun row =>
       (am_category_map_id (attr_map (val_attribute_map row))
        =? category_mapping_id)%Z
       && negb (ma_disabled (market_attribute (val_attribute_map row))))
    (filter_map (select_value_map db) (value_maps db)).

(** [market_value.source_id or 0] *)
Definition source_id_or_0 (source : option str) : value_id :=
  match source with
  | Some (c :: s) => StrId (c :: s)
  | Some [] | None => IntId 0
  end.

(** The body of [for val_map in value_map_queryset]. *)
Definition add_value_mapping (attribute_map_data : attribute_map_type)
  (row : value_map_row) : res attribute_map_type :=
  let feed_attribute_name :=
    normalize_string (fca_name (feed_value_attribute row)) in
  match dict_get feed_attribute_name attribute_map_data with
  | None => Raise KeyError
  | Some by_mapping =>
    match dict_get (vm_attribute_map_id (val_map row)) by_mapping with
    | None => Raise KeyError
    | Some map_data =>
      match values_map map_data with
      | None => Ok attribute_map_data
      | Some attr_values =>
        match market_value row with
        | None => Raise AttributeError
        | Some mv =>
          let entry :=
            {| vd_value := mav_value mv;
               vd_dictionary_value_id := source_id_or_0 (mav_source_id mv);
               vd_deleted := mav_deleted mv |} in
          let attr_values :=
            setdefault_append (upper (fcav_value (feed_value row))) entry
                              attr_values in
          Ok (dict_set feed_attribute_name
                (dict_set (vm_attribute_map_id (val_map row))
                          (with_values_map (Some attr_values) map_data)
                          by_mapping)
                attribute_map_data)
        end
      end
    end
  end.

(** [get_category_attribute_map(category_mapping_id)] *)
Definition get_category_attribute_map (db : database float) (category_mapping_id : Z)
  : res attribute_map_type :=
  let attribute_map_data :=
    fold_left add_attribute_mapping
              (attribute_map_queryset db category_mapping_id) [] in
  for_each add_value_mapping (value_map_queryset db category_mapping_id)
           attribute_map_data.

(** ** Creating value mappings *)

Definition with_value_maps (rows : list ValueMap) (db : database float) : database float := {|
  feed_categories := feed_categories db;
  feed_attributes := feed_attributes db;
  feed_values := feed_values db;
  market_attributes := market_attributes db;
  market_category_attributes := market_category_attributes db;
  market_values := market_values db;
  attribute_maps := attribute_maps db;
  value_maps := rows;
  value_unit_maps := value_unit_maps db
|}.

(** The (attribute_map, feed_attribute_value, marketplace_attribute_value)
    triple of a row. *)
Definition triple (vm : ValueMap) : Z * Z * option Z :=
  (vm_attribute_map_id vm, vm_feed_attribute_value_id vm,
   vm_marketplace_attribute_value_id vm).

Definition same_triple (attribute_map_id feed_value_id marketplace_value_id : Z)
  (vm : ValueMap) : bool :=
  keyb (triple vm) (attribute_map_id, feed_value_id, Some marketplace_value_id).

(** The id the table gives to a new row. *)
Definition next_id (rows : list ValueMap) : Z :=
  (1 + fold_right Z.max 0 (map vm_id rows))%Z.

(** [ValueMap.objects.create(attribute_map_id=..., feed_attribute_value_id=...,
    marketplace_attribute_value_id=...)]: the check of [ValueMap.save], then
    the insertion, which the foreign key to the marketplace value and
    [unique_together] can refuse. *)
Definition create_value_map (db : database float)
  (attribute_map_id feed_value_id marketplace_value_id : Z) : res (database float) :=
  match by_id am_id (attribute_maps db) attribute_map_id,
        by_id fcav_id (feed_values db) feed_value_id with
  | Some attribute_map, Some feed_value =>
    if negb (am_feed_attribute_id attribute_map
             =? fcav_attribute_id feed_value)%Z
    then Raise ValidationError
    else
      match by_id mav_id (market_values db) marketplace_value_id with
      | None => Raise IntegrityError
      | Some _ =>
        if existsb (same_triple attribute_map_id feed_value_id
                                marketplace_value_id) (value_maps db)
        then Raise IntegrityError
        else
          Ok (with_value_maps
                (value_maps db ++
                 [{| vm_id := next_id (value_maps db);
                     vm_attribute_map_id := attribute_map_id;
                     vm_feed_attribute_value_id := feed_value_id;
                     vm_marketplace_attribute_value_id :=
                       Some marketplace_value_id |}])
                db)
      end
  | _, _ => Raise DoesNotExist
  end.

(** [ValueMap.objects.get_or_create(...)] on the same three fields. *)
Definition get_or_create_value_map (db : database float)
  (attribute_map_id feed_value_id marketplace_value_id : Z) : res (database float) :=
  match filter (same_triple attribute_map_id feed_value_id marketplace_value_id)
               (value_maps db) with
  | [] => create_value_map db attribute_map_id feed_value_id marketplace_value_id
  | [_] => Ok db
  | _ :: _ :: _ => Raise MultipleObjectsReturned
  end.

(** [create_val_mappings(val_mappings)] *)
Definition create_val_mappings (db : database float)
  (val_mappings : dict Z (dict Z Z)) : res (database float) :=
  for_each
    (fun db (item : Z * dict Z Z) =>
       for_each
         (fun db (pair : Z * Z) =>
            get_or_create_value_map db (fst item) (fst pair) (snd pair))
         (snd item) db)
    val_mappings db.

(** ** Equal values, batch scope *)

(** The value of [unmapped_values_dict[attribute_map_id]]: the key
    [mp_values] may be absent. *)
Record unmapped_entry : Type := {
  entry_unmapped_feed_values : list (Z * str);
  entry_mp_values : option (list (Z * str))
}.

(** [get_equal_values(unmapped_dict)] *)
Definition first_equal (mp_values : list (Z * str)) (feed_value : Z * str)
  : option (Z * str) :=
  find (fun mp_value => keyb (snd feed_value) (snd mp_value)) mp_values.

Definition equal_values_of (attribute_map_id : Z)
  (mp_values : list (Z * str))
  (mapping : dict Z (dict Z Z)) (feed_value : Z * str) : dict Z (dict Z Z) :=
  match first_equal mp_values feed_value with
  | Some mp_value =>
    let inner :=
      match dict_get attribute_map_id mapping with
      | Some d => d
      | None => []
      end in
    dict_set attribute_map_id (dict_set (fst feed_value) (fst mp_value) inner)
             mapping
  | None => mapping
  end.

Definition get_equal_values (unmapped_dict : dict Z unmapped_entry)
  : dict Z (dict Z Z) :=
  fold_left
    (fun mapping (item : Z * unmapped_entry) =>
       match entry_mp_values (snd item),
             entry_unmapped_feed_values (snd item) with
       | Some (mp :: mps), fv :: fvs =>
         fold_left (equal_values_of (fst item) (mp :: mps)) (fv :: fvs) mapping
       | _, _ => mapping
       end)
    unmapped_dict [].

(** [AttributeMap.objects.filter(feed_attribute__category__feed_id=feed_id,
    marketplace_attribute__attribute__map_equal_values=True)], then the
    mappings whose marketplace attribute has [map_equal_values] and a
    dictionary. *)
Definition feed_id_of (db : database float) (row : attribute_map_row) : option Z :=
  option_map fc_feed_id
    (by_id fc_id (feed_categories db) (fca_category_id (feed_attribute row))).

Definition equal_values_attr_maps (db : database float) (feed_id : Z)
  : list attribute_map_row :=
  filter
    (fun row =>
       ma_map_equal_values (market_attribute row)
       && id_true (ma_dictionary_id (market_attribute row)))
    (filter
       (fun row =>
          keyb (feed_id_of db row) (Some feed_id)
          && ma_map_equal_values (market_attribute row))
       (filter_map (select_attribute_map db) (attribute_maps db))).

Definition mem_Z (x : Z) (l : list Z) : bool := existsb (Z.eqb x) l.

(** [get_both_values_for_unmapped(feed_id)] *)
Definition get_both_values_for_unmapped (db : database float) (feed_id : Z)
  : res (dict Z unmapped_entry) :=
  let attr_maps := equal_values_attr_maps db feed_id in
  let feed_attr_ids :=
    map (fun row => am_feed_attribute_id (attr_map row)) attr_maps in
  let mp_attributes_dict_ids : dict Z (option Z) :=
    fold_left
      (fun d row =>
         dict_set (am_id (attr_map row))
                  (ma_dictionary_id (market_attribute row)) d)
      attr_maps [] in
  let mapped_feed_values_ids :=
    map vm_feed_attribute_value_id
        (filter (fun vm => mem_Z (vm_attribute_map_id vm)
                                 (dict_keys mp_attributes_dict_ids))
                (value_maps db)) in
  let unmapped_feed_values :=
    map (fun fv => (fcav_attribute_id fv, fcav_id fv, sql_upper (fcav_value fv)))
        (filter (fun fv => mem_Z (fcav_attribute_id fv) feed_attr_ids
                           && negb (mem_Z (fcav_id fv) mapped_feed_values_ids))
                (feed_values db)) in
  let unmapped_values_dict :=
    fold_left
      (fun d row =>
         let unmapped_feed_attribute_values :=
           filter_map
             (fun v : Z * Z * str =>
                if (fst (fst v) =? am_feed_attribute_id (attr_map row))%Z
                then Some (snd (fst v), snd v) else None)
             unmapped_feed_values in
         match unmapped_feed_attribute_values with
         | [] => d
         | _ :: _ =>
           dict_set (am_id (attr_map row))
                    {| entry_unmapped_feed_values :=
                         unmapped_feed_attribute_values;
                       entry_mp_values := None |} d
         end)
      attr_maps [] in
  let marketplace_values :=
    map (fun mv => (mav_dictionary_id mv, mav_id mv, sql_upper (mav_value mv)))
        (filter (fun mv => existsb (keyb (Some (mav_dictionary_id mv)))
                                   (dict_values mp_attributes_dict_ids)
                           && negb (mav_deleted mv))
                (market_values db)) in
  for_each
    (fun d attribute_map_id =>
       match dict_get attribute_map_id mp_attributes_dict_ids,
             dict_get attribute_map_id d with
       | Some dictionary_id, Some entry =>
         let mp_attribute_values :=
           filter_map
             (fun v : Z * Z * str =>
                if keyb (Some (fst (fst v))) dictionary_id
                then Some (snd (fst v), snd v) else None)
             marketplace_values in
         match mp_attribute_values with
         | [] => Ok d
         | _ :: _ =>
           Ok (dict_set attribute_map_id
                 {| entry_unmapped_feed_values :=
                      entry_unmapped_feed_values entry;
                    entry_mp_values := Some mp_attribute_values |} d)
         end
       | _, _ => Raise KeyError
       end)
    (dict_keys unmapped_values_dict) unmapped_values_dict.

(** [map_attribute_equal_values_v2(feed_id)] *)
Definition map_attribute_equal_values_v2 (db : database float) (feed_id : Z)
  : res (database float) :=
  values_for_map <- get_both_values_for_unmapped db feed_id ;;
  create_val_mappings db (get_equal_values values_for_map).

(** ** Equal values, single-mapping scope *)

(** [a or b] on nullable integer ids. *)
Definition id_or (a b : option Z) : option Z := if id_true a then a else b.

(** [attribute_map.marketplace_attribute.attribute] *)
Definition market_attribute_of (db : database float) (attribute_map : AttributeMap)
  : option MarketAttribute :=
  match by_id mca_id (market_category_attributes db)
              (am_marketplace_attribute_id attribute_map) with
  | Some mca => by_id ma_id (market_attributes db) (mca_attribute_id mca)
  | None => None
  end.

(** The body of [for feed_value_value, feed_value_id in
    unmapped_feed_values.items()]. *)
Definition map_equal_value (attribute_map_id : Z)
  (marketplace_attribute : MarketAttribute) (marketplace_values : dict str Z)
  (db : database float) (item : str * Z) : res (database float) :=
  let marketplace_value_id :=
    id_or (dict_get (fst item) marketplace_values)
          (ma_default_value_id marketplace_attribute) in
  match marketplace_value_id with
  | Some id =>
    if (id =? 0)%Z then Ok db
    else create_value_map db attribute_map_id (snd item) id
  | None => Ok db
  end.

(** [map_attribute_equal_values(attribute_map_id)] *)
Definition map_attribute_equal_values (db : database float) (attribute_map_id : Z)
  : res (database float) :=
  match by_id am_id (attribute_maps db) attribute_map_id with
  | None => Raise DoesNotExist
  | Some attribute_map =>
    match market_attribute_of db attribute_map with
    | None => Raise DoesNotExist
    | Some marketplace_attribute =>
      if negb (ma_map_equal_values marketplace_attribute
               && id_true (ma_dictionary_id marketplace_attribute))
      then Ok db
      else
        let mapped_feed_values_ids :=
          map vm_feed_attribute_value_id
              (filter (fun vm => (vm_attribute_map_id vm =? attribute_map_id)%Z)
                      (value_maps db)) in
        let unmapped_feed_values : dict str Z :=
          dict_of
            (map (fun fv => (sql_upper (fcav_value fv), fcav_id fv))
                 (filter
                    (fun fv =>
                       (fcav_attribute_id fv
                        =? am_feed_attribute_id attribute_map)%Z
                       && negb (mem_Z (fcav_id fv) mapped_feed_values_ids))
                    (feed_values db))) in
        let marketplace_values : dict str Z :=
          dict_of
            (map (fun mv => (sql_upper (mav_value mv), mav_id mv))
                 (filter
                    (fun mv =>
                       keyb (Some (mav_dictionary_id mv))
                            (ma_dictionary_id marketplace_attribute)
                       && negb (mav_deleted mv))
                    (market_values db))) in
        for_each
          (map_equal_value attribute_map_id marketplace_attribute
                           marketplace_values)
          unmapped_feed_values db
    end
  end.

End Utils.

Abbreviation attribute_map_type := (dict str (dict Z mapping_data))
  (only parsing).

End Mapper.

(* ===================================================================== *)
(** * apps/mapper/utils/utils.py: the category tree                       *)
(* ===================================================================== *)

Module CategoryTree.

Section Tree.
(** The values of a serialized category, which serve as dictionary keys;
    [none] is [None]. *)
Context {V : Type} `{EqKey V}.
Variable none : V.

(** A category is a dictionary with the keys [parent] and [id]. *)
Definition category : Type := dict str V.

(** [{**c, 'children': children}] *)
Inductive tree : Type :=
| Node (fields : category) (children : list tree).

Definition fields_of (t : tree) : category :=
  match t with Node fields _ => fields end.

Definition children_of (t : tree) : list tree :=
  match t with Node _ children => children end.

(** What building the tree gives: a result, a [KeyError], or a
    [RecursionError] when the calls nest deeper than the limit. *)
Inductive built (A : Type) : Type :=
| Built (a : A)
| NoKey
| TooDeep.
Arguments Built {A} a.
Arguments NoKey {A}.
Arguments TooDeep {A}.

(** [categories_by_parent[k].append(c)] on a [defaultdict(list)] *)
Definition append_to (k : V) (c : category) (d : dict V (list category))
  : dict V (list category) :=
  match dict_get k d with
  | Some l => dict_set k (l ++ [c]) d
  | None => dict_set k [c] d
  end.

(** The loop that fills [categories_by_parent]. *)
Fixpoint by_parent (categories : list category) (d : dict V (list category))
  : built (dict V (list category)) :=
  match categories with
  | [] => Built d
  | c :: rest =>
    match dict_get (u "parent") c with
    | Some parent => by_parent rest (append_to parent c d)
    | None => NoKey
    end
  end.

(** [categories_by_parent[parent_id]]: a missing key reads as the empty
    list. *)
Definition lookup (d : dict V (list category)) (parent_id : V)
  : list category :=
  match dict_get parent_id d with
  | Some l => l
  | None => []
  end.

(** [_make_tree(parent_id)], with the number of nested calls still
    allowed. *)
Fixpoint _make_tree (limit : nat) (d : dict V (list category)) (parent_id : V)
  : built (list tree) :=
  match limit with
  | O => TooDeep
  | S limit' =>
    (fix each (l : list category) : built (list tree) :=
       match l with
       | [] => Built []
       | c :: rest =>
         match dict_get (u "id") c with
         | None => NoKey
         | Some id =>
           match _make_tree limit' d id with
           | Built children =>
             match each rest with
             | Built trees => Built (Node c children :: trees)
             | NoKey => NoKey
             | TooDeep => TooDeep
             end
           | NoKey => NoKey
           | TooDeep => TooDeep
           end
         end
       end) (lookup d parent_id)
  end.

(** [make_marketplace_category_tree(categories)] *)
Definition make_marketplace_category_tree (limit : nat)
  (categories : list category) : built (list tree) :=
  match by_parent categories [] with
  | Built d => _make_tree limit d none
  | NoKey => NoKey
  | TooDeep => TooDeep
  end.

End Tree.

Arguments Built {A} a.
Arguments NoKey {A}.
Arguments TooDeep {A}.

End CategoryTree.

(* ===================================================================== *)
(** * Properties of the unit index and of the resolver                    *)
(* ===================================================================== *)

(* ===================================================================== *)
(** * apps/ozon/library/ozon_manage_offers/params_manager.py              *)
(* ===================================================================== *)

Module Ozon.
Import Mapper.

(** ** Offers *)

(** The values an offer document holds, over the type [F] of its floats. *)
#[warnings="-register-all"]
Inductive pyval (F : Type) : Type :=
| PNone
| PBool (b : bool)
| PInt (z : Z)
| PFloat (x : F)
| PStr (s : str)
| PList (l : list (pyval F))
| PDict (d : list (str * pyval F)).
Arguments PNone {F}.
Arguments PBool {F} b.
Arguments PInt {F} z.
Arguments PStr {F} s.

(** Functions of the project and of its libraries that are not part of the
    sources read here: [remove_prohibited_characters] of
    [apps.utils.string_utils], the HTML clean-up of [_clear_annotation_tags]
    (BeautifulSoup), and [str] of a list or of a dictionary. *)
Class External (F : Type) := {
  remove_prohibited_characters : str -> str;
  _clear_annotation_tags : str -> str;
  container_str : pyval F -> str
}.

(** ** More string methods *)

(** [s.split(sep)] for a non-empty [sep]; [skip] counts the characters of a
    separator still to pass, [cur] holds the current piece, reversed. *)
Fixpoint split_from (sep : str) (skip : nat) (cur : str) (s : str) : list str :=
  match s with
  | [] => [rev cur]
  | c :: s' =>
    match skip with
    | S k => split_from sep k cur s'
    | O =>
      if starts_with sep s
      then rev cur :: split_from sep (List.length sep - 1) [] s'
      else split_from sep 0 (c :: cur) s'
    end
  end.

Definition split (sep : str) (s : str) : list str := split_from sep 0 [] s.

(** [sep.join(l)] *)
Fixpoint join (sep : str) (l : list str) : str :=
  match l with
  | [] => []
  | [s] => s
  | s :: l' => s ++ sep ++ join sep l'
  end.

Fixpoint take_while (p : N -> bool) (s : str) : str :=
  match s with
  | [] => []
  | c :: s' => if p c then c :: take_while p s' else []
  end.

Fixpoint drop_while (p : N -> bool) (s : str) : str :=
  match s with
  | [] => []
  | c :: s' => if p c then drop_while p s' else s
  end.

(** ** The state of [OzonOfferParamsManager] *)

(** An entry of [_ozon_attributes], as [get_market_category_attributes]
    builds it. *)
Record ozon_attribute : Type := {
  oa_required : bool;
  oa_disabled : bool;
  oa_dictionary_id : option Z;
  oa_name : str
}.

(** An element of a [values] list of [_attributes_values]. *)
Record value_item (F : Type) : Type := {
  item_value : pyval F;
  item_dictionary_value_id : Z
}.

(** A value of [_attributes_values]. *)
Record attribute_values (F : Type) : Type := {
  complex_id : Z;
  id : Z;
  values_of : list (value_item F)
}.

(** A value of an inner dictionary of [_complex_attributes_values]; the
    elements of its [values] hold a value only. *)
Record complex_values (F : Type) : Type := {
  cx_complex_id : Z;
  cx_id : Z;
  cx_values : list (pyval F)
}.

(** Keys of the inner dictionaries of [_complex_attributes_values]: integers
    from [_add_complex_attribute_value], the string [VIDEO_NAME_ID] from
    [add_name_to_complex_video]. *)
Inductive complex_key : Type :=
| IntKey (z : Z)
| StrKey (s : str).

Definition complex_key_eqb (a b : complex_key) : bool :=
  match a, b with
  | IntKey x, IntKey y => keyb x y
  | StrKey x, StrKey y => keyb x y
  | _, _ => false
  end.

Lemma complex_key_eqb_eq (a b : complex_key) :
  complex_key_eqb a b = true <-> a = b.
Proof.
  destruct a as [x|x], b as [y|y]; cbn [complex_key_eqb];
    try (split; congruence); rewrite keyb_eq; split; congruence.
Qed.

#[export] Instance EqKey_complex_key : EqKey complex_key :=
  {| keyb := complex_key_eqb; keyb_eq := complex_key_eqb_eq |}.

(** The fields of the manager that offer processing reads and writes.
    [_attributes_errors] is [None] until the first offer is processed. *)
Record manager (F : Type) : Type := {
  ozon_category_id : str;
  market_category_deleted : bool;
  _attribute_map : attribute_map_type;
  _ozon_attributes : dict str ozon_attribute;
  _required_ozon_attributes : list str;
  _attributes_values : dict Z (attribute_values F);
  _complex_attributes_values : dict Z (dict complex_key (complex_values F));
  _attributes_errors : option (dict str str);
  _tags_errors : dict str str
}.

(** The dictionary [_collect_offer_parameters] returns. *)
Record offer_info (F : Type) : Type := {
  barcode : pyval F;
  category_id : str;
  name : str;
  offer_id : pyval F;
  price : pyval F;
  old_price : pyval F;
  vat : pyval F;
  height : option str;
  depth : option str;
  width : option str;
  dimension_unit : str;
  weight : pyval F;
  weight_unit : str;
  images : list (pyval F);
  primary_image : pyval F;
  images360 : list str;
  attributes : list (attribute_values F);
  complex_attributes : list (list (complex_values F));
  attributes_errors : option (dict str str);
  tags_errors : dict str str;
  ozon_attributes_data : dict str ozon_attribute;
  ready_for_import : bool
}.

Section Builder.
Context `{Unicode} `{Numbers} `{Sql} `{External float}.

Abbreviation value := (pyval float) (only parsing).
Abbreviation offer_dict := (dict str (pyval float)) (only parsing).

(** Truth value of an offer value. *)
Definition truthy (v : value) : bool :=
  match v with
  | PNone => false
  | PBool b => b
  | PInt z => negb (z =? 0)%Z
  | PFloat x => negb (float_is_zero x)
  | PStr s => negb (keyb s [])
  | PList l => match l with [] => false | _ :: _ => true end
  | PDict d => match d with [] => false | _ :: _ => true end
  end.

(** [offer.get(key)] *)
Definition get (offer : offer_dict) (key : str) : value :=
  match dict_get key offer with
  | Some v => v
  | None => PNone
  end.

(** [_get(offer, key, default)] *)
Definition _get (offer : offer_dict) (key : str) (default : value) : value :=
  match get offer key with
  | PNone => default
  | v => v
  end.

(** [str(v)] *)
Definition py_str (v : value) : str :=
  match v with
  | PNone => u "None"
  | PBool true => u "True"
  | PBool false => u "False"
  | PInt z => str_of_Z z
  | PFloat x => float_str x
  | PStr s => s
  | PList _ | PDict _ => container_str v
  end.

(** [v == s] for a string [s] *)
Definition eq_str (v : value) (s : str) : bool :=
  match v with
  | PStr s' => keyb s' s
  | _ => false
  end.

(** ** parse_dimensions *)

(** [str(int(float(v or '0') * 10))] *)
Definition dimension_part (v : str) : option str :=
  match float_parse (match v with [] => u "0" | _ => v end) with
  | Some x =>
    match float_to_Z (float_mul x (float_of_Z 10)) with
    | Some z => Some (str_of_Z z)
    | None => None
    end
  | None => None
  end.

Definition zero_dimensions : str * str * str := (u "0", u "0", u "0").

(** [parse_dimensions(dimensions)]: any exception gives three zeros; a value
    that is not a string has no [replace]. *)
Definition parse_dimensions (dimensions : value) : str * str * str :=
  match dimensions with
  | PStr s =>
    match map dimension_part (split (u "/") (replace 0x2C (u ".") s)) with
    | [Some length; Some width; Some height] => (length, width, height)
    | _ => zero_dimensions
    end
  | _ => zero_dimensions
  end.

(** ** Constants *)

(** A value of [OZON_ATTRIBUTES_IDS]: one id or a list of ids. *)
Inductive attribute_ids : Type :=
| OneId (s : str)
| ManyIds (l : list str).

Definition OZON_ATTRIBUTES_IDS : dict str attribute_ids := [
  (u "group", ManyIds [u "8292"; u "10289"]);
  (u "weight", OneId (u "4497"));
  (u "length", OneId (u "9454"));
  (u "width", OneId (u "9455"));
  (u "height", OneId (u "9456"));
  (u "model", OneId (u "9048"));
  (u "annotation", OneId (u "4191"));
  (u "name", OneId (u "4180"));
  (u "vendorCode", OneId (u "9024"))
].

Definition VIDEO_URL_ID : str := u "21841".
Definition VIDEO_NAME_ID : str := u "21837".
Definition VIDEO_COMPLEX_ID : Z := 100001.
Definition TYPE_SOURCE_ID : str := u "8229".
Definition COMPLEX_ATTRIBUTE_IDS : list str := [VIDEO_URL_ID; VIDEO_NAME_ID].
Definition TN_VED_CODE_SUBSTRING : str := u "ТН ВЭД".
Definition MODEL_YEAR_PARAM : str := upper (u "Модельный год").
Definition MODEL_YEAR_PARAM_INT : str := MODEL_YEAR_PARAM ++ u " INT".

Definition VAT_BY_CODE : dict str str :=
  [(u "5", u "0.0"); (u "2", u "0.1"); (u "7", u "0.2")].

(** ** Field updates *)

Definition with_required (l : list str) (m : manager float) : manager float := {|
  ozon_category_id := ozon_category_id m;
  market_category_deleted := market_category_deleted m;
  _attribute_map := _attribute_map m;
  _ozon_attributes := _ozon_attributes m;
  _required_ozon_attributes := l;
  _attributes_values := _attributes_values m;
  _complex_attributes_values := _complex_attributes_values m;
  _attributes_errors := _attributes_errors m;
  _tags_errors := _tags_errors m
|}.

Definition with_attributes_values (d : dict Z (attribute_values float))
  (m : manager float) : manager float := {|
  ozon_category_id := ozon_category_id m;
  market_category_deleted := market_category_deleted m;
  _attribute_map := _attribute_map m;
  _ozon_attributes := _ozon_attributes m;
  _required_ozon_attributes := _required_ozon_attributes m;
  _attributes_values := d;
  _complex_attributes_values := _complex_attributes_values m;
  _attributes_errors := _attributes_errors m;
  _tags_errors := _tags_errors m
|}.

Definition with_complex_attributes_values
  (d : dict Z (dict complex_key (complex_values float)))
  (m : manager float) : manager float := {|
  ozon_category_id := ozon_category_id m;
  market_category_deleted := market_category_deleted m;
  _attribute_map := _attribute_map m;
  _ozon_attributes := _ozon_attributes m;
  _required_ozon_attributes := _required_ozon_attributes m;
  _attributes_values := _attributes_values m;
  _complex_attributes_values := d;
  _attributes_errors := _attributes_errors m;
  _tags_errors := _tags_errors m
|}.

Definition with_attribute_map (d : attribute_map_type)
  (m : manager float) : manager float := {|
  ozon_category_id := ozon_category_id m;
  market_category_deleted := market_category_deleted m;
  _attribute_map := d;
  _ozon_attributes := _ozon_attributes m;
  _required_ozon_attributes := _required_ozon_attributes m;
  _attributes_values := _attributes_values m;
  _complex_attributes_values := _complex_attributes_values m;
  _attributes_errors := _attributes_errors m;
  _tags_errors := _tags_errors m
|}.

Definition with_attributes_errors (e : option (dict str str))
  (m : manager float) : manager float := {|
  ozon_category_id := ozon_category_id m;
  market_category_deleted := market_category_deleted m;
  _attribute_map := _attribute_map m;
  _ozon_attributes := _ozon_attributes m;
  _required_ozon_attributes := _required_ozon_attributes m;
  _attributes_values := _attributes_values m;
  _complex_attributes_values := _complex_attributes_values m;
  _attributes_errors := e;
  _tags_errors := _tags_errors m
|}.

Definition with_tags_errors (e : dict str str)
  (m : manager float) : manager float := {|
  ozon_category_id := ozon_category_id m;
  market_category_deleted := market_category_deleted m;
  _attribute_map := _attribute_map m;
  _ozon_attributes := _ozon_attributes m;
  _required_ozon_attributes := _required_ozon_attributes m;
  _attributes_values := _attributes_values m;
  _complex_attributes_values := _complex_attributes_values m;
  _attributes_errors := _attributes_errors m;
  _tags_errors := e
|}.

(** [self._tags_errors[tag] = error] *)
Definition tag_error (tag error : str) (m : manager float) : manager float :=
  with_tags_errors (dict_set tag error (_tags_errors m)) m.

(** ** Adding attribute values *)

(** [_remove_ozon_attribute_from_required(source_id)]: every occurrence
    goes. *)
Definition _remove_ozon_attribute_from_required (m : manager float)
  (source_id : str) : manager float :=
  with_required
    (filter (fun s => negb (keyb s source_id)) (_required_ozon_attributes m)) m.

(** [int(dictionary_value_id)] of what the callers pass: a source id that
    may be [None], or the integer 0. *)
Definition int_of_value_id (dictionary_value_id : option value_id) : res Z :=
  match dictionary_value_id with
  | None => Raise TypeError
  | Some (IntId z) => Ok z
  | Some (StrId s) => py_int s
  end.

(** The default of the parameter [dictionary_value_id]. *)
Definition default_dictionary_value_id : option value_id := Some (StrId (u "0")).

(** [_add_attribute_value(attribute_source_id, value, dictionary_value_id)] *)
Definition _add_attribute_value (m : manager float) (attribute_source_id : str)
  (v : value) (dictionary_value_id : option value_id) : res (manager float) :=
  key <- py_int attribute_source_id ;;
  let entry :=
    match dict_get key (_attributes_values m) with
    | Some e => e
    | None => {| complex_id := 0; id := key; values_of := [] |}
    end in
  dv <- int_of_value_id dictionary_value_id ;;
  let entry := {|
    complex_id := complex_id entry;
    id := id entry;
    values_of := values_of entry ++
                 [{| item_value := v; item_dictionary_value_id := dv |}]
  |} in
  Ok (_remove_ozon_attribute_from_required
        (with_attributes_values (dict_set key entry (_attributes_values m)) m)
        attribute_source_id).

(** [_add_complex_attribute_value(attribute_source_id, value, complex_id)] *)
Definition _add_complex_attribute_value (m : manager float)
  (attribute_source_id : str) (v : value) (complex : Z) : res (manager float) :=
  let by_id :=
    match dict_get complex (_complex_attributes_values m) with
    | Some d => d
    | None => []
    end in
  key <- py_int attribute_source_id ;;
  let entry :=
    match dict_get (IntKey key) by_id with
    | Some e => e
    | None => {| cx_complex_id := complex; cx_id := key; cx_values := [] |}
    end in
  let entry := {|
    cx_complex_id := cx_complex_id entry;
    cx_id := cx_id entry;
    cx_values := cx_values entry ++ [v]
  |} in
  Ok (_remove_ozon_attribute_from_required
        (with_complex_attributes_values
           (dict_set complex (dict_set (IntKey key) entry by_id)
                     (_complex_attributes_values m)) m)
        attribute_source_id).

(** [add_name_to_complex_video(name)] *)
Definition add_name_to_complex_video (m : manager float) (name : str)
  : res (manager float) :=
  match dict_get VIDEO_COMPLEX_ID (_complex_attributes_values m) with
  | None => Raise KeyError
  | Some by_id =>
    key <- py_int VIDEO_NAME_ID ;;
    Ok (with_complex_attributes_values
          (dict_set VIDEO_COMPLEX_ID
             (dict_set (StrKey VIDEO_NAME_ID)
                {| cx_complex_id := VIDEO_COMPLEX_ID; cx_id := key;
                   cx_values := [PStr name] |} by_id)
             (_complex_attributes_values m)) m)
  end.

(** [convert_complex_attributes()] *)
Definition convert_complex_attributes (m : manager float)
  : list (list (complex_values float)) :=
  map (fun item : Z * dict complex_key (complex_values float) =>
         dict_values (snd item))
      (_complex_attributes_values m).

(** [_convert_attribute_value(value, _type)] *)
Definition _convert_attribute_value (v : str) (_type : option str) : res str :=
  if keyb _type (Some (u "Decimal")) then
    x <- py_float (replace 0x2C (u ".") v) ;; Ok (float_str x)
  else if keyb _type (Some (u "Integer")) then
    z <- py_int v ;; Ok (str_of_Z z)
  else Ok (remove_prohibited_characters v).

(** [process_video_url(attr_url)] *)
Definition process_video_url (attr_url : str) : str :=
  let base_url := u "youtube.com/watch?v=" in
  let base_url_full := u "https://www.youtube.com/watch?v=" in
  let shorten_base_url := u "youtu.be/" in
  if negb (contains (u ".") attr_url) then base_url_full ++ attr_url
  else if contains base_url attr_url
  then base_url_full ++ nth 1 (split base_url attr_url) []
  else if contains shorten_base_url attr_url
  then base_url_full ++ nth 1 (split shorten_base_url attr_url) []
  else attr_url.

(** ** Customs codes *)

Definition is_code_char (c : N) : bool :=
  (is_digit c || (c =? 0x20) || (c =? 0x2E))%N.

(** The leftmost match of [\d[\d .]{2,}\d]: a digit, then the longest run of
    digits, spaces and points that ends in a digit and has at least three
    characters. *)
Fixpoint search_code (s : str) : option str :=
  match s with
  | [] => None
  | c :: s' =>
    if is_digit c then
      let run :=
        rev (drop_while (fun d => negb (is_digit d))
                        (rev (take_while is_code_char s'))) in
      if (3 <=? List.length run)%nat then Some (c :: run) else search_code s'
    else search_code s'
  end.

(** [_extract_tn_ved_code(code)] *)
Definition _extract_tn_ved_code (code : str) : str :=
  match search_code code with
  | None => []
  | Some found => replace 0x20 [] found
  end.

(** A value of [values_by_code]. *)
Record code_value : Type := {
  cv_value : str;
  cv_dictionary_value_id : option str
}.

(** [values_by_code] for the dictionary of one attribute. *)
Definition values_by_code_of (db : database float) (dictionary : option Z)
  : dict str code_value :=
  fold_left
    (fun d attr_value =>
       dict_set (_extract_tn_ved_code (mav_value attr_value))
                {| cv_value := mav_value attr_value;
                   cv_dictionary_value_id := mav_source_id attr_value |} d)
    (filter (fun attr_value =>
               keyb (Some (mav_dictionary_id attr_value)) dictionary
               && negb (mav_deleted attr_value))
            (market_values db))
    [].

(** The [while len(tn_ved_code_part) >= 4] loop: [rounds] is the number of
    lengths from that of the part down to 4. *)
Inductive code_search : Type :=
| CodeFound (v : code_value)
| CodeNotFound (tn_ved_code_part : str).

Fixpoint tn_ved_while (values_by_code : dict str code_value)
  (tn_ved_code_part : str) (rounds : nat) : code_search :=
  match rounds with
  | O => CodeNotFound tn_ved_code_part
  | S rounds' =>
    match dict_get tn_ved_code_part values_by_code with
    | Some v => CodeFound v
    | None => tn_ved_while values_by_code (drop_last tn_ved_code_part) rounds'
    end
  end.

(** [f'{tn_ved_code[:4]}00'] *)
Definition first_four_00 (tn_ved_code : value) : res str :=
  match tn_ved_code with
  | PStr s => Ok (take 4 s ++ u "00")
  | PList l => Ok (container_str (PList (firstn 4 l)) ++ u "00")
  | _ => Raise TypeError
  end.

(** What the loops find for one customs code of the offer. *)
Definition tn_ved_lookup (values_by_code : dict str code_value)
  (tn_ved_code : value) : res (option code_value) :=
  let tn_ved_code_part := py_str tn_ved_code in
  match tn_ved_while values_by_code tn_ved_code_part
                     (List.length tn_ved_code_part - 3) with
  | CodeFound v => Ok (Some v)
  | CodeNotFound tn_ved_code_part =>
    if (List.length tn_ved_code_part =? 3)%nat then
      tn_ved_code_part <- first_four_00 tn_ved_code ;;
      Ok (dict_get tn_ved_code_part values_by_code)
    else Ok None
  end.

(** The body of [for tn_ved_code in tn_ved_codes]. *)
Definition add_tn_ved_code (values_by_code : dict str code_value)
  (ozon_attr_id : str) (m : manager float) (tn_ved_code : value)
  : res (manager float) :=
  found <- tn_ved_lookup values_by_code tn_ved_code ;;
  match found with
  | Some v =>
    _add_attribute_value m ozon_attr_id (PStr (cv_value v))
                         (option_map StrId (cv_dictionary_value_id v))
  | None => Ok m
  end.

(** The customs codes of the offer, as a list. *)
Definition tn_ved_codes_of (offer : offer_dict) : list value :=
  let tn_ved_codes := _get offer (u "tn-ved-codes") (PDict []) in
  let tn_ved_codes :=
    match tn_ved_codes with
    | PDict d =>
      match dict_get (u "tn-ved-code") d with
      | Some v => v
      | None => PList []
      end
    | v => v
    end in
  match tn_ved_codes with
  | PList l => l
  | v => [v]
  end.

(** [_add_tn_ved_codes(offer)]: the manager and the [errors] of the result. *)
Definition _add_tn_ved_codes (db : database float) (m : manager float)
  (offer : offer_dict) : res (manager float * dict str str) :=
  let tn_ved_codes := tn_ved_codes_of offer in
  let tn_ved_attributes :=
    filter (fun item : str * ozon_attribute =>
              contains TN_VED_CODE_SUBSTRING (oa_name (snd item)))
           (_ozon_attributes m) in
  m <- for_each
         (fun m (item : str * ozon_attribute) =>
            let values_by_code :=
              values_by_code_of db (oa_dictionary_id (snd item)) in
            for_each (add_tn_ved_code values_by_code (fst item)) tn_ved_codes m)
         tn_ved_attributes m ;;
  let errors :=
    fold_left
      (fun errors (item : str * ozon_attribute) =>
         if negb (existsb (keyb (fst item)) (_required_ozon_attributes m))
         then errors
         else match tn_ved_codes with
              | [] => dict_set (fst item) (u "missing") errors
              | _ :: _ => dict_set (fst item) (u "not_found") errors
              end)
      tn_ved_attributes [] in
  Ok (m, errors).

(** ** Errors and required-field fallbacks *)

(** [add_error(source_id, error)] of [_collect_attributes] *)
Definition add_error (m : manager float) (errors : dict str str)
  (source_id error : str) : dict str str :=
  match dict_get source_id (_ozon_attributes m) with
  | None => errors
  | Some data =>
    if oa_required data then dict_set source_id error errors else errors
  end.

(** The loop of [add_if_exists] over the ids of one key. *)
Fixpoint add_if_exists_ids (m : manager float) (errors : dict str str)
  (attribute_source_ids : list str) (v : value)
  : res (manager float * dict str str) :=
  match attribute_source_ids with
  | [] => Ok (m, errors)
  | attribute_source_id :: rest =>
    if negb (dict_mem attribute_source_id (_ozon_attributes m))
    then add_if_exists_ids m errors rest v
    else
      match v with
      | PNone => Ok (m, add_error m errors attribute_source_id (u "missing"))
      | _ =>
        let errors :=
          if eq_str v []
          then add_error m errors attribute_source_id (u "empty")
          else errors in
        m <- _add_attribute_value m attribute_source_id v
                                  default_dictionary_value_id ;;
        add_if_exists_ids m errors rest v
      end
  end.

(** [add_if_exists(attribute_key, value)] *)
Definition add_if_exists (st : manager float * dict str str)
  (attribute_key : str) (v : value) : res (manager float * dict str str) :=
  match dict_get attribute_key OZON_ATTRIBUTES_IDS with
  | None => Raise KeyError
  | Some (OneId s) => add_if_exists_ids (fst st) (snd st) [s] v
  | Some (ManyIds l) => add_if_exists_ids (fst st) (snd st) l v
  end.

(** ** Final consolidation *)

(** [mappings]: for each marketplace attribute source id of the attribute
    map, the feed attribute name and the mapping id that come last. *)
Definition mappings_of (attribute_map : attribute_map_type)
  : dict str (str * Z) :=
  fold_left
    (fun mappings (item : str * dict Z mapping_data) =>
       fold_left
         (fun mappings (inner : Z * mapping_data) =>
            dict_set (source_id (snd inner)) (fst item, fst inner) mappings)
         (snd item) mappings)
    attribute_map [].

(** The body of [for required_attr_source_id in
    self._required_ozon_attributes]. *)
Definition consolidate_required (m : manager float)
  (mappings : dict str (str * Z)) (feed_params_values : dict str (list str))
  (errors : dict str str) (required_attr_source_id : str)
  : res (dict str str) :=
  if dict_mem required_attr_source_id errors then Ok errors
  else
    match dict_get required_attr_source_id (_ozon_attributes m) with
    | None => Raise KeyError
    | Some required_attribute_data =>
      if oa_disabled required_attribute_data then
        Ok (match dict_get required_attr_source_id errors with
            | Some _ => errors
            | None => dict_set required_attr_source_id (u "logical") errors
            end)
      else
        match dict_get required_attr_source_id mappings with
        | None => Ok (dict_set required_attr_source_id (u "unmapped") errors)
        | Some mapping =>
          let feed_attribute_name := fst mapping in
          if negb (dict_mem feed_attribute_name feed_params_values)
          then Ok (dict_set required_attr_source_id (u "missing") errors)
          else Ok (dict_set required_attr_source_id (u "unknown err") errors)
        end
    end.

(** The consolidation that ends [_collect_attributes]. *)
Definition consolidate (m : manager float)
  (feed_params_values : dict str (list str)) (errors : dict str str)
  : res (dict str str) :=
  let mappings := mappings_of (_attribute_map m) in
  for_each (consolidate_required m mappings feed_params_values)
           (_required_ozon_attributes m) errors.

(** ** _collect_attributes *)

(** [d.setdefault(k, []).append(x)] on [feed_params_values] *)
Definition append_param (k x : str) (d : dict str (list str))
  : dict str (list str) := setdefault_append k x d.

(** The body of [for param in offer_params]. *)
Definition collect_param (feed_params_values : dict str (list str))
  (param : value) : res (dict str (list str)) :=
  if negb (truthy param) then Ok feed_params_values
  else
    match param with
    | PDict d =>
      match dict_get (u "@name") d with
      | None => Raise KeyError
      | Some (PStr param_name) =>
        match dict_get (u "#text") d with
        | None =>
          Ok (append_param (normalize_string param_name) (strip [])
                           feed_params_values)
        | Some (PStr text) =>
          Ok (append_param (normalize_string param_name) (strip text)
                           feed_params_values)
        | Some _ => Raise AttributeError
        end
      | Some _ => Raise AttributeError
      end
    | _ => Raise TypeError
    end.

(** The body of [for tag, value in offer.items()]. *)
Definition collect_tag (feed_params_values : dict str (list str))
  (item : str * value) : dict str (list str) :=
  let tag := upper (strip (fst item)) in
  match snd item with
  | PStr s => append_param tag (strip s) feed_params_values
  | PBool _ | PInt _ | PFloat _ =>
    append_param tag (py_str (snd item)) feed_params_values
  | _ => feed_params_values
  end.

(** [('20' + model_year.split('-')[-1])[-4:]] *)
Definition ozon_model_year (model_year : str) : str :=
  take_last 4 (u "20" ++ after_last 0x2D model_year).

(** The parameters and scalar tags of the offer, by normalized name. *)
Definition feed_params_values_of (offer : offer_dict)
  : res (dict str (list str)) :=
  let offer_params :=
    match _get offer (u "param") (PList []) with
    | PList l => l
    | v => [v]
    end in
  feed_params_values <- for_each collect_param offer_params [] ;;
  let feed_params_values := fold_left collect_tag offer feed_params_values in
  match dict_get MODEL_YEAR_PARAM feed_params_values with
  | Some model_years =>
    Ok (dict_set MODEL_YEAR_PARAM_INT (map ozon_model_year model_years)
                 feed_params_values)
  | None => Ok feed_params_values
  end.

(** The body of [for mapping_id in
    list(self._attribute_map[MODEL_YEAR_PARAM].keys())]. *)
Definition move_model_year_mapping (attribute_map : attribute_map_type)
  (mapping_id : Z) : res attribute_map_type :=
  match dict_get MODEL_YEAR_PARAM attribute_map with
  | None => Raise KeyError
  | Some by_mapping =>
    match dict_get mapping_id by_mapping with
    | None => Raise KeyError
    | Some mapping_data =>
      match values_map mapping_data with
      | Some _ => Ok attribute_map
      | None =>
        let for_int :=
          match dict_get MODEL_YEAR_PARAM_INT attribute_map with
          | Some d => d
          | None => []
          end in
        let attribute_map :=
          dict_set MODEL_YEAR_PARAM_INT
                   (dict_set mapping_id mapping_data for_int) attribute_map in
        match dict_get MODEL_YEAR_PARAM attribute_map with
        | None => Raise KeyError
        | Some by_mapping =>
          Ok (dict_set MODEL_YEAR_PARAM (dict_pop mapping_id by_mapping)
                       attribute_map)
        end
      end
    end
  end.

Definition move_model_year_mappings (attribute_map : attribute_map_type)
  : res attribute_map_type :=
  match dict_get MODEL_YEAR_PARAM attribute_map with
  | Some by_mapping =>
    for_each move_model_year_mapping (dict_keys by_mapping) attribute_map
  | None => Ok attribute_map
  end.

(** [value_data['dictionary_value_id'] == 0] *)
Definition is_zero_id (i : value_id) : bool :=
  match i with
  | IntId z => (z =? 0)%Z
  | StrId _ => false
  end.

(** The loop [for value_data in values_data]; a value that cannot be
    converted records [bad_value] and leaves the loop. *)
Fixpoint add_values_data (m : manager float) (errors : dict str str)
  (values_data : list mapped_value) : res (manager float * dict str str) :=
  match values_data with
  | [] => Ok (m, errors)
  | value_data :: rest =>
    let val_source_id := attribute_source_id value_data in
    if existsb (keyb val_source_id) COMPLEX_ATTRIBUTE_IDS then
      let v :=
        if keyb val_source_id VIDEO_URL_ID
        then process_video_url (Mapper.value value_data)
        else Mapper.value value_data in
      m <- _add_complex_attribute_value m (attribute_source_id value_data)
                                        (PStr v) VIDEO_COMPLEX_ID ;;
      add_values_data m errors rest
    else if is_zero_id (dictionary_value_id value_data)
            && negb (mv_is_rich_content value_data)
            && negb (mv_ignore_data_type value_data)
    then
      match _convert_attribute_value (Mapper.value value_data)
                                     (mv_data_type value_data) with
      | Ok v =>
        m <- _add_attribute_value m (attribute_source_id value_data) (PStr v)
                                  (Some (dictionary_value_id value_data)) ;;
        add_values_data m errors rest
      | Raise ValueError =>
        Ok (m, add_error m errors (attribute_source_id value_data)
                         (u "bad_value"))
      | Raise e => Raise e
      end
    else
      m <- _add_attribute_value m (attribute_source_id value_data)
                                (PStr (Mapper.value value_data))
                                (Some (dictionary_value_id value_data)) ;;
      add_values_data m errors rest
  end.

(** The name the required-field fallback uses. [name_parts] is a [map]
    iterator: [all] consumes it, and the [join] that follows finds it empty. *)
Definition fallback_name (offer : offer_dict) : value :=
  let name := get offer (u "name") in
  if truthy name then name
  else if forallb (fun tn => truthy (get offer tn))
                  [u "typePrefix"; u "vendor"; u "model"]
  then PStr (join (u " ") [])
  else name.

(** The weight fallback, with its [try] for [ValueError]. *)
Definition add_weight (m : manager float) (errors : dict str str)
  (offer : offer_dict) : res (manager float * dict str str) :=
  let weight := _get offer (u "weight") (PInt 0) in
  let attempt :=
    x <- py_float (replace 0x2C (u ".") (py_str weight)) ;;
    add_if_exists (m, errors) (u "weight")
      (PStr (float_str (float_mul x (float_of_Z 1000)))) in
  match attempt with
  | Raise ValueError =>
    if existsb (keyb (u "4497")) (_required_ozon_attributes m)
    then Ok (m, dict_set (u "4497") (u "bad_value") errors)
    else Ok (m, errors)
  | r => r
  end.

(** [errors.update(other)] *)
Definition dict_update (errors other : dict str str) : dict str str :=
  fold_left (fun d kv => dict_set (fst kv) (snd kv) d) other errors.

(** [_collect_attributes(offer)] *)
Definition _collect_attributes (db : database float) (m : manager float)
  (offer : offer_dict) : res (manager float) :=
  let errors : dict str str := [] in
  feed_params_values <- feed_params_values_of offer ;;
  attribute_map <- move_model_year_mappings (_attribute_map m) ;;
  let m := with_attribute_map attribute_map m in
  marketplace_attributes_values <-
    get_mapped_values (value_unit_maps db) (_attribute_map m)
                      feed_params_values ;;
  st <- for_each
          (fun st (values_data : list mapped_value) =>
             add_values_data (fst st) (snd st) values_data)
          (dict_values (values marketplace_attributes_values)) (m, errors) ;;
  let m := fst st in
  let errors := snd st in
  let errors :=
    fold_left (fun e s => add_error m e s (u "mapped_with_deleted_value"))
              (mapped_with_deleted_value marketplace_attributes_values)
              errors in
  let errors :=
    fold_left (fun e s => add_error m e s (u "unmapped_val"))
              (unmapped_value_attributes marketplace_attributes_values)
              errors in
  let errors :=
    fold_left (fun e s => add_error m e s (u "empty"))
              (empty_value_attributes marketplace_attributes_values) errors in
  let errors :=
    fold_left (fun e s => add_error m e s (u "bad_value"))
              (type_error_attributes marketplace_attributes_values) errors in
  st <- add_if_exists (m, errors) (u "name") (fallback_name offer) ;;
  st <- add_if_exists st (u "vendorCode") (get offer (u "vendorCode")) ;;
  offer_id <- match dict_get (u "@id") offer with
              | Some v => Ok v
              | None => Raise KeyError
              end ;;
  st <- add_if_exists st (u "group")
          (match dict_get (u "@group_id") offer with
           | Some v => v
           | None => PStr (u "b2b-" ++ py_str offer_id)
           end) ;;
  let '(length, width, height) :=
    parse_dimensions (get offer (u "dimensions")) in
  st <- add_if_exists st (u "length") (PStr length) ;;
  st <- add_if_exists st (u "width") (PStr width) ;;
  st <- add_if_exists st (u "height") (PStr height) ;;
  st <- add_weight (fst st) (snd st) offer ;;
  st <- add_if_exists st (u "model") (get offer (u "model")) ;;
  st <- (if truthy (get offer (u "description")) then
           match get offer (u "description") with
           | PStr description =>
             add_if_exists st (u "annotation")
               (PStr (_clear_annotation_tags
                        (remove_prohibited_characters description)))
           | _ => Raise TypeError
           end
         else Ok st) ;;
  tn_ved_result <- _add_tn_ved_codes db (fst st) offer ;;
  let m := fst tn_ved_result in
  let errors :=
    match snd tn_ved_result with
    | [] => snd st
    | tn_ved_errors => dict_update (snd st) tn_ved_errors
    end in
  let m := _remove_ozon_attribute_from_required m TYPE_SOURCE_ID in
  errors <- consolidate m feed_params_values errors ;;
  Ok (with_attributes_errors (Some errors) m).

(** ** _collect_offer_parameters *)

(** The assignments that open [_collect_offer_parameters]. *)
Definition reset_offer_state (m : manager float) : manager float := {|
  ozon_category_id := ozon_category_id m;
  market_category_deleted := market_category_deleted m;
  _attribute_map := _attribute_map m;
  _ozon_attributes := _ozon_attributes m;
  _required_ozon_attributes :=
    map fst (filter (fun item : str * ozon_attribute => oa_required (snd item))
                    (_ozon_attributes m));
  _attributes_values := [];
  _complex_attributes_values := [];
  _attributes_errors := _attributes_errors m;
  _tags_errors := []
|}.

(** The offer name: [@name], else a true [name], else a true [model]. *)
Definition offer_name (offer : offer_dict) : value :=
  match dict_get (u "@name") offer with
  | Some v => v
  | None =>
    if dict_mem (u "name") offer && truthy (get offer (u "name"))
    then get offer (u "name")
    else if dict_mem (u "model") offer && truthy (get offer (u "model"))
    then get offer (u "model")
    else PStr []
  end.

(** [remove_prohibited_characters(name)]; a name that is not a string is
    taken to raise [TypeError]. *)
Definition valid_name_of (name : value) : res str :=
  match name with
  | PStr s => Ok (remove_prohibited_characters s)
  | _ => Raise TypeError
  end.

(** The weight of the offer in grams, the raw value when it is not a
    number. *)
Definition offer_weight (m : manager float) (offer : offer_dict)
  : value * manager float :=
  let weight := _get offer (u "weight") (PInt 0) in
  match float_parse (replace 0x2C (u ".") (py_str weight)) with
  | Some x => (PFloat (float_mul x (float_of_Z 1000)), m)
  | None => (weight, tag_error (u "weight") (u "bad_value") m)
  end.

(** The VAT rate, with its tag error. *)
Definition offer_vat (m : manager float) (offer : offer_dict)
  : res (value * manager float) :=
  let vat := _get offer (u "vat") (PStr (u "VAT_20")) in
  if eq_str vat [] then Ok (vat, tag_error (u "vat") (u "missing") m)
  else if eq_str vat (u "NO_VAT") then Ok (PStr (u "0"), m)
  else
    match vat with
    | PList _ | PDict _ => Raise TypeError
    | PStr s =>
      match dict_get s VAT_BY_CODE with
      | Some rate => Ok (PStr rate, m)
      | None =>
        match int_of_str (after_last 0x5F s) with
        | Some z =>
          Ok (PStr (float_str (float_div (float_of_Z z) (float_of_Z 100))), m)
        | None => Ok (vat, tag_error (u "vat") (u "bad_value") m)
        end
      end
    | _ => Raise AttributeError
    end.

(** [images[1:15]] *)
Definition images_1_15 {A} (l : list A) : list A := firstn 14 (skipn 1 l).

(** What [_collect_offer_parameters] derives from the tags of the offer
    before it collects the attributes. *)
Record offer_tags (F : Type) : Type := {
  tags_valid_name : str;
  tags_depth : option str;
  tags_width : option str;
  tags_height : option str;
  tags_weight : pyval F;
  tags_images : list (pyval F);
  tags_images360 : list str
}.

(** The part of [_collect_offer_parameters] before [_collect_attributes]:
    name, dimensions, weight and images, with their tag errors.
    [parse_dimensions] handles every exception itself, so the handler that
    would record [bad_value] for the dimensions never runs. *)
Definition collect_tags (m : manager float) (offer : offer_dict)
  : res (offer_tags float * manager float) :=
  let name := offer_name offer in
  let m :=
    if negb (truthy name)
    then tag_error (u "@name/name/model") (u "missing") m else m in
  valid_name <- valid_name_of name ;;
  let '(dims, m) :=
    if truthy (get offer (u "dimensions")) then
      let '(depth, width, height) :=
        parse_dimensions (get offer (u "dimensions")) in
      ((Some depth, Some width, Some height), m)
    else ((None, None, None), tag_error (u "dimensions") (u "missing") m) in
  let '(depth, width, height) := dims in
  let '(weight, m) := offer_weight m offer in
  let images :=
    match _get offer (u "picture") (PList []) with
    | PList l => l
    | v => [v]
    end in
  let m :=
    match images with
    | [] => tag_error (u "picture") (u "missing") m
    | first :: _ =>
      if negb (truthy first) then tag_error (u "picture") (u "empty") m else m
    end in
  let images360 :=
    match get offer (u "images360") with
    | PStr (c :: s) => split (u ",") (c :: s)
    | _ => []
    end in
  Ok ({| tags_valid_name := valid_name;
         tags_depth := depth;
         tags_width := width;
         tags_height := height;
         tags_weight := weight;
         tags_images := images;
         tags_images360 := images360 |}, m).

(** The part of [_collect_offer_parameters] after [_collect_attributes]:
    VAT, price, category, the video name, and the returned dictionary. *)
Definition build_info (tags : offer_tags float) (m : manager float)
  (offer : offer_dict) : res (offer_info float * manager float) :=
  vat_m <- offer_vat m offer ;;
  let '(vat, m) := vat_m in
  let price := get offer (u "price") in
  let m :=
    match price with
    | PNone => tag_error (u "price") (u "missed") m
    | _ => m
    end in
  let m :=
    if market_category_deleted m
    then tag_error (u "Категория") (u "mapped_with_deleted") m else m in
  let video_attr :=
    match dict_get VIDEO_COMPLEX_ID (_complex_attributes_values m) with
    | Some d => d
    | None => []
    end in
  video_url_id <- py_int VIDEO_URL_ID ;;
  video_name_id <- py_int VIDEO_NAME_ID ;;
  m <- (if dict_mem (IntKey video_url_id) video_attr
           && negb (dict_mem (IntKey video_name_id) video_attr)
        then add_name_to_complex_video m (tags_valid_name tags) else Ok m) ;;
  offer_id <- match dict_get (u "@id") offer with
              | Some v => Ok v
              | None => Raise KeyError
              end ;;
  Ok ({| barcode := _get offer (u "barcode") (PStr []);
         category_id := ozon_category_id m;
         name := tags_valid_name tags;
         offer_id := offer_id;
         price := price;
         old_price := _get offer (u "oldprice") (PStr []);
         vat := vat;
         height := tags_height tags;
         depth := tags_depth tags;
         width := tags_width tags;
         dimension_unit := u "mm";
         weight := tags_weight tags;
         weight_unit := u "g";
         images := images_1_15 (tags_images tags);
         primary_image :=
           match tags_images tags with first :: _ => first | [] => PStr [] end;
         images360 := tags_images360 tags;
         attributes := dict_values (_attributes_values m);
         complex_attributes := convert_complex_attributes m;
         attributes_errors := _attributes_errors m;
         tags_errors := _tags_errors m;
         ozon_attributes_data := _ozon_attributes m;
         ready_for_import :=
           match _required_ozon_attributes m, _tags_errors m with
           | [], [] => true
           | _, _ => false
           end |}, m).

(** [_collect_offer_parameters(offer)]: the returned dictionary and the
    manager it leaves. *)
Definition _collect_offer_parameters (db : database float) (m : manager float)
  (offer : offer_dict) : res (offer_info float * manager float) :=
  let m := reset_offer_state m in
  tags_m <- collect_tags m offer ;;
  m <- _collect_attributes db (snd tags_m) offer ;;
  build_info (fst tags_m) m offer.

(** The loop of [collect_offer_import_params] over the offers. *)
Fixpoint collect_offers (db : database float) (m : manager float)
  (offers : list offer_dict) : res (list (offer_info float) * manager float) :=
  match offers with
  | [] => Ok ([], m)
  | offer :: rest =>
    r <- _collect_offer_parameters db m offer ;;
    rs <- collect_offers db (snd r) rest ;;
    Ok (fst r :: fst rs, snd rs)
  end.

End Builder.
End Ozon.

Unset Implicit Arguments.

Module MapperFacts.
Import Mapper.

(** ** Loops that may raise *)

Lemma for_each_app {A S} (body : S -> A -> res S) (l1 l2 : list A) (s : S) :
  for_each body (l1 ++ l2) s = bind (for_each body l1 s) (for_each body l2).
Proof.
  revert s. induction l1 as [|a l1 IH]; intros s; simpl; [reflexivity|].
  destruct (body s a) as [s1|e]; simpl; [apply IH | reflexivity].
Qed.

Lemma for_each_invariant {A S} (P : S -> Prop) (body : S -> A -> res S)
  (l : list A) :
  (forall s a s', In a l -> P s -> body s a = Ok s' -> P s') ->
  forall s s', P s -> for_each body l s = Ok s' -> P s'.
Proof.
  induction l as [|a l IH]; intros Hstep s s' Hs; simpl.
  - intros [= <-]. exact Hs.
  - destruct (body s a) as [s1|e] eqn:E; simpl; [|discriminate].
    apply IH.
    + intros s2 b s3 Hb. apply Hstep. right. exact Hb.
    + apply (Hstep s a s1); [left; reflexivity | exact Hs | exact E].
Qed.

Lemma for_each_returns {A S} (body : S -> A -> res S) (l : list A) :
  (forall s a, In a l -> exists s', body s a = Ok s') ->
  forall s, exists s', for_each body l s = Ok s'.
Proof.
  induction l as [|a l IH]; intros Hstep s; simpl.
  - exists s. reflexivity.
  - destruct (Hstep s a (or_introl eq_refl)) as [s1 ->]. simpl.
    apply IH. intros s2 b Hb. apply Hstep. right. exact Hb.
Qed.

Section UnitIndex.
Context `{Numbers}.

Definition nonzero_multipliers (rows : list (ValueUnitMap float)) : Prop :=
  forall r, In r rows -> float_is_zero (multiplier r) = false.

(** Two rows relate the same two units, in either order. *)
Definition same_units (r r' : ValueUnitMap float) : Prop :=
  (value_unit_from_id r' = value_unit_from_id r /\
   value_unit_to_id r' = value_unit_to_id r) \/
  (value_unit_from_id r' = value_unit_to_id r /\
   value_unit_to_id r' = value_unit_from_id r).

Lemma unit_key_of_inj a b c d :
  unit_key_of a b = unit_key_of c d -> a = c /\ b = d.
Proof. unfold unit_key_of. intros [= -> ->]. split; reflexivity. Qed.

Lemma get_unit_map_row_nonzero result r :
  float_is_zero (multiplier r) = false ->
  get_unit_map_row result r =
  Ok (dict_set (unit_key_of (value_unit_to_id r) (value_unit_from_id r))
        (float_div (float_of_Z 1) (multiplier r))
        (dict_set (unit_key_of (value_unit_from_id r) (value_unit_to_id r))
           (multiplier r) result)).
Proof.
  intros Hnz. unfold get_unit_map_row, truediv. rewrite Hnz. reflexivity.
Qed.

Lemma get_unit_map_row_zero result r :
  float_is_zero (multiplier r) = true ->
  get_unit_map_row result r = Raise ZeroDivisionError.
Proof.
  intros Hz. unfold get_unit_map_row, truediv. rewrite Hz. reflexivity.
Qed.

Lemma unit_rows_returns rows result :
  nonzero_multipliers rows ->
  exists index, for_each get_unit_map_row rows result = Ok index.
Proof.
  intros Hnz. apply for_each_returns. intros s r Hr.
  rewrite get_unit_map_row_nonzero by (apply Hnz; exact Hr). eauto.
Qed.

Lemma unit_rows_zero rows r result :
  In r rows -> float_is_zero (multiplier r) = true ->
  for_each get_unit_map_row rows result = Raise ZeroDivisionError.
Proof.
  intros Hin Hz. revert result.
  induction rows as [|r0 rows IH]; intros result; [contradiction|].
  simpl. destruct (float_is_zero (multiplier r0)) eqn:E0.
  - rewrite get_unit_map_row_zero by exact E0. reflexivity.
  - rewrite get_unit_map_row_nonzero by exact E0. simpl.
    destruct Hin as [->|Hin]; [congruence|]. apply IH. exact Hin.
Qed.

(** Later rows leave alone a key that none of them writes. *)
Lemma unit_rows_frame rows k :
  (forall r, In r rows ->
     k <> unit_key_of (value_unit_from_id r) (value_unit_to_id r) /\
     k <> unit_key_of (value_unit_to_id r) (value_unit_from_id r)) ->
  forall result index,
    for_each get_unit_map_row rows result = Ok index ->
    dict_get k index = dict_get k result.
Proof.
  intros Hk result index Hrun.
  apply (for_each_invariant
           (fun s => dict_get k s = dict_get k result)
           get_unit_map_row rows) with (s := result); auto.
  intros s r s' Hr Hs Hstep.
  destruct (Hk r Hr) as [H1 H2].
  unfold get_unit_map_row in Hstep.
  destruct (truediv (float_of_Z 1) (multiplier r)) as [inv|e]; simpl in Hstep;
    [|discriminate].
  injection Hstep as <-.
  rewrite !dict_get_set_other by assumption. exact Hs.
Qed.

(** C8, as the code has it. When no stored multiplier is zero the index is
    built, and a stored conversion that no later row overwrites (no later row
    relates the same two units, in either order) is found in it: the
    reciprocal under [(to, from)], and the factor under [(from, to)] when the
    two units differ. A row from a unit to itself writes one key twice and
    leaves the reciprocal there. *)
Theorem get_unit_map_last_writer_wins (before after : list (ValueUnitMap float))
  (r : ValueUnitMap float) :
  nonzero_multipliers (before ++ r :: after) ->
  (forall r', In r' after -> ~ same_units r r') ->
  exists index,
    get_unit_map (before ++ r :: after) = Ok index /\
    dict_get (unit_key_of (value_unit_to_id r) (value_unit_from_id r)) index
      = Some (float_div (float_of_Z 1) (multiplier r)) /\
    (value_unit_from_id r <> value_unit_to_id r ->
     dict_get (unit_key_of (value_unit_from_id r) (value_unit_to_id r)) index
       = Some (multiplier r)).
Proof.
  intros Hnz Hlater. unfold get_unit_map.
  rewrite for_each_app.
  destruct (unit_rows_returns before []) as [mid Hmid].
  { intros x Hx. apply Hnz. apply in_or_app. left. exact Hx. }
  rewrite Hmid. simpl.
  rewrite get_unit_map_row_nonzero
    by (apply Hnz; apply in_or_app; right; left; reflexivity).
  simpl.
  match goal with
  | |- exists index, for_each _ _ ?s = _ /\ _ =>
    destruct (unit_rows_returns after s) as [index Hindex]
  end.
  { intros x Hx. apply Hnz. apply in_or_app. right. right. exact Hx. }
  exists index. split; [exact Hindex|]. split.
  - rewrite (unit_rows_frame after) with (2 := Hindex).
    + apply dict_get_set_same.
    + intros r' Hr'. specialize (Hlater r' Hr'). unfold same_units in Hlater.
      split; intros E; apply unit_key_of_inj in E; destruct E as [E1 E2];
        apply Hlater; [right | left]; split; congruence.
  - intros Hdiff.
    rewrite (unit_rows_frame after) with (2 := Hindex).
    + rewrite dict_get_set_other.
      * apply dict_get_set_same.
      * intros E. apply unit_key_of_inj in E. destruct E as [E1 E2].
        congruence.
    + intros r' Hr'. specialize (Hlater r' Hr'). unfold same_units in Hlater.
      split; intros E; apply unit_key_of_inj in E; destruct E as [E1 E2];
        apply Hlater; [left | right]; split; congruence.
Qed.

(** The index is built exactly when no stored multiplier is zero. *)
Lemma get_unit_map_returns rows :
  nonzero_multipliers rows -> exists index, get_unit_map rows = Ok index.
Proof. intros Hnz. apply unit_rows_returns. exact Hnz. Qed.

(** A stored multiplier of zero makes [get_unit_map] raise. *)
Lemma get_unit_map_zero_multiplier rows r :
  In r rows -> float_is_zero (multiplier r) = true ->
  get_unit_map rows = Raise ZeroDivisionError.
Proof. intros Hin Hz. apply unit_rows_zero with (r := r); assumption. Qed.

End UnitIndex.

Section Resolver.
Context `{Unicode} `{Numbers}.

(** C4, on the code. A stored conversion whose factor is zero is not
    treated as absent: [get_unit_map] divides by it, so the resolver raises
    [ZeroDivisionError] whatever the attribute map and the feed values are,
    and no raw value passes through. *)
Theorem get_mapped_values_zero_multiplier rows r attribute_map feed :
  In r rows -> float_is_zero (multiplier r) = true ->
  get_mapped_values rows attribute_map feed = Raise ZeroDivisionError.
Proof.
  intros Hin Hz. unfold get_mapped_values.
  rewrite (get_unit_map_zero_multiplier rows r Hin Hz). reflexivity.
Qed.

Definition old_values (name : str) (r : mapped_values) : list mapped_value :=
  match dict_get name (values r) with Some l => l | None => [] end.

Definition live (matching : list value_data) : list value_data :=
  filter (fun e => negb (vd_deleted e)) matching.

Lemma setdefault_append_set {A} (k : str) (x : A) (d : dict str (list A)) :
  setdefault_append k x d =
  dict_set k (match dict_get k d with Some l => l | None => [] end ++ [x]) d.
Proof. unfold setdefault_append. destruct (dict_get k d); reflexivity. Qed.

Lemma with_values_setdefault_append name x r :
  with_values (setdefault_append name x) r =
  with_values (dict_set name (old_values name r ++ [x])) r.
Proof.
  unfold with_values, old_values. rewrite setdefault_append_set. reflexivity.
Qed.

(** The loop over the matching entries appends, in order, one assignment per
    entry that is not deleted, and touches nothing else. *)
Lemma fold_append_dictionary_value name m matching r :
  fold_left (append_dictionary_value name m) matching r =
  match live matching with
  | [] => r
  | l => with_values
           (dict_set name (old_values name r ++ map (dictionary_value m) l)) r
  end.
Proof.
  revert r. induction matching as [|e matching IH]; intros r; simpl.
  - reflexivity.
  - unfold append_dictionary_value at 2. unfold live. simpl.
    destruct (vd_deleted e); simpl.
    + apply IH.
    + rewrite IH. unfold live.
      rewrite !with_values_setdefault_append.
      destruct (filter (fun e0 => negb (vd_deleted e0)) matching) as [|e1 l].
      * reflexivity.
      * unfold with_values, old_values. simpl.
        rewrite dict_get_set_same, dict_set_set, <- app_assoc. reflexivity.
Qed.

(** What one dictionary-backed, non-deleted mapping does with a raw value
    that its value map knows. *)
Lemma map_for_market_dictionary_hit value_unit_map name raw r m values_maps
  matching :
  deleted m = false ->
  raw <> [] ->
  id_true (dictionary_id m) = true ->
  values_map m = Some values_maps ->
  dict_get (upper raw) values_maps = Some matching ->
  map_for_market value_unit_map name raw (upper raw) r m =
  Ok (let r' := fold_left (append_dictionary_value name m) matching r in
      if dict_mem name (values r) || negb (forallb vd_deleted matching)
      then r'
      else append_mapped_with_deleted_value (source_id m) r').
Proof.
  intros Hdel Hraw Hdict Hvm Hget. unfold map_for_market.
  rewrite Hdel, Hdict, Hvm, Hget.
  assert (@keyb str _ raw [] = false) as -> by (apply keyb_neq; exact Hraw).
  rewrite fold_append_dictionary_value.
  assert (forallb vd_deleted matching = true <-> live matching = []) as Hlive.
  { unfold live. clear. induction matching as [|e l IH]; simpl.
    - tauto.
    - destruct (vd_deleted e); simpl; [exact IH|]. split; discriminate. }
  destruct (live matching) as [|e l] eqn:El.
  - rewrite (proj2 Hlive eq_refl). simpl. rewrite orb_false_r. simpl.
    destruct (dict_mem name (values r)); reflexivity.
  - destruct (forallb vd_deleted matching) eqn:Ef.
    { pose proof (proj1 Hlive eq_refl). discriminate. }
    simpl. rewrite orb_true_r.
    rewrite dict_mem_set, keyb_refl. reflexivity.
Qed.

(** Every dictionary-backed mapping carries its [values_map], as the maps
    built by [get_category_attribute_map] do. *)
Definition dictionaries_have_values_map (attribute_map : attribute_map_type)
  : Prop :=
  forall name maps id m,
    In (name, maps) attribute_map -> In (id, m) maps ->
    id_true (dictionary_id m) = true -> values_map m <> None.

Lemma map_for_market_mapped_with_deleted value_unit_map name raw up r m r' :
  map_for_market value_unit_map name raw up r m = Ok r' ->
  mapped_with_deleted r' = mapped_with_deleted r.
Proof.
  unfold map_for_market.
  destruct (deleted m); [intros [= <-]; reflexivity|].
  destruct (keyb raw []); [intros [= <-]; reflexivity|].
  destruct (id_true (dictionary_id m)).
  - destruct (values_map m) as [vm|]; [|discriminate].
    destruct (dict_get up vm) as [matching|]; [|intros [= <-]; reflexivity].
    rewrite fold_append_dictionary_value.
    destruct (live matching);
      match goal with
      | |- (if ?b then _ else _) = _ -> _ =>
        destruct b; intros [= <-]; reflexivity
      end.
  - destruct (usable_multiplier _) as [mult|].
    + destruct (float_parse _); intros [= <-]; reflexivity.
    + intros [= <-]; reflexivity.
Qed.

Lemma map_for_market_returns value_unit_map name raw up r m :
  (id_true (dictionary_id m) = true -> values_map m <> None) ->
  exists r', map_for_market value_unit_map name raw up r m = Ok r'.
Proof.
  intros Hwf. unfold map_for_market.
  destruct (deleted m); [eauto|].
  destruct (keyb raw []); [eauto|].
  destruct (id_true (dictionary_id m)).
  - destruct (values_map m) as [vm|]; [|exfalso; apply Hwf; reflexivity].
    destruct (dict_get up vm) as [matching|]; [|eauto].
    match goal with |- context [if ?b then _ else _] => destruct b end; eauto.
  - destruct (usable_multiplier _) as [mult|]; [|eauto].
    destruct (float_parse _); eauto.
Qed.

Lemma map_value_mapped_with_deleted value_unit_map attribute_map name r raw r' :
  map_value value_unit_map attribute_map name r raw = Ok r' ->
  mapped_with_deleted r' = mapped_with_deleted r.
Proof.
  unfold map_value.
  destruct (dict_get name attribute_map) as [[|entry maps]|];
    try (intros [= <-]; reflexivity).
  intros Hrun.
  apply (for_each_invariant
           (fun s => mapped_with_deleted s = mapped_with_deleted r)
           _ _) with (3 := Hrun); [|reflexivity].
  intros s m s' _ Hs Hstep.
  rewrite (map_for_market_mapped_with_deleted _ _ _ _ _ _ _ Hstep). exact Hs.
Qed.

Lemma map_value_returns value_unit_map attribute_map name r raw :
  dictionaries_have_values_map attribute_map ->
  exists r', map_value value_unit_map attribute_map name r raw = Ok r'.
Proof.
  intros Hwf. unfold map_value.
  destruct (dict_get name attribute_map) as [[|entry maps]|] eqn:Eget;
    try (eexists; reflexivity).
  apply for_each_returns. intros s m Hm.
  apply map_for_market_returns.
  unfold dict_values in Hm. apply in_map_iff in Hm.
  destruct Hm as [[id m'] [Heq Hin]]. simpl in Heq. subst m'.
  apply (Hwf name (entry :: maps) id m); [|exact Hin].
  apply dict_get_In. exact Eget.
Qed.

(** C9. The result carries a bucket [mapped_with_deleted] next to the six
    the resolver fills, and it is the empty list in every result: for every
    input, whatever [get_mapped_values] returns has it empty, and the
    function does return when no stored multiplier is zero and every
    dictionary-backed mapping carries its value map. *)
Theorem mapped_with_deleted_stays_empty (rows : list (ValueUnitMap float))
  (attribute_map : attribute_map_type) (feed : dict str (list str)) :
  (forall r, get_mapped_values rows attribute_map feed = Ok r ->
             mapped_with_deleted r = []) /\
  (nonzero_multipliers rows ->
   dictionaries_have_values_map attribute_map ->
   exists r, get_mapped_values rows attribute_map feed = Ok r).
Proof.
  unfold get_mapped_values. split.
  - intros r. destruct (get_unit_map rows) as [index|e]; simpl; [|discriminate].
    intros Hrun.
    apply (for_each_invariant (fun s => mapped_with_deleted s = []) _ _)
      with (3 := Hrun); [|reflexivity].
    intros s [name raws] s' _ Hs Hstep. unfold map_attribute in Hstep.
    simpl in Hstep.
    apply (for_each_invariant (fun s => mapped_with_deleted s = []) _ _)
      with (3 := Hstep); [|exact Hs].
    intros s1 raw s2 _ Hs1 Hstep1.
    rewrite (map_value_mapped_with_deleted _ _ _ _ _ _ Hstep1). exact Hs1.
  - intros Hnz Hwf. destruct (get_unit_map_returns _ Hnz) as [index ->]. simpl.
    apply for_each_returns. intros s [name raws] _. unfold map_attribute.
    apply for_each_returns. intros s1 raw _.
    apply map_value_returns. exact Hwf.
Qed.

End Resolver.

Section Reader.
Context `{Unicode} `{Numbers}.

(** *** What [normalize_string] keeps *)

Lemma lstrip_keeps c s : is_space c = false -> In c s -> In c (lstrip s).
Proof.
  intros Hc. induction s as [|a s IH]; cbn [lstrip In]; [tauto|].
  destruct (is_space a) eqn:Ea.
  - intros [Heq|Hin]; [|auto]. subst a. congruence.
  - intros Hin. exact Hin.
Qed.

Lemma strip_keeps c s : is_space c = false -> In c s -> In c (strip s).
Proof.
  intros Hc Hin. unfold strip, rstrip.
  apply -> in_rev. apply lstrip_keeps; [exact Hc|].
  apply -> in_rev. apply lstrip_keeps; assumption.
Qed.

Lemma upper_keeps c s : upper_cp c = [c] -> In c s -> In c (upper s).
Proof.
  intros Hc Hin. unfold upper. apply in_flat_map. exists c.
  split; [exact Hin|]. rewrite Hc. left. reflexivity.
Qed.

Lemma replace_keeps c old new s :
  c <> old -> In c s -> In c (replace old new s).
Proof.
  intros Hc Hin. unfold replace. apply in_flat_map. exists c.
  split; [exact Hin|].
  destruct (N.eqb_spec c old); [contradiction|]. left. reflexivity.
Qed.

(** A code point that is its own uppercase, is not white space and is not
    the no-break space survives normalization. *)
Lemma normalize_string_keeps c name :
  upper_cp c = [c] -> is_space c = false ->
  In c name -> In c (normalize_string name).
Proof.
  intros Hup Hsp Hin. unfold normalize_string.
  apply replace_keeps.
  - intros ->. discriminate Hsp.
  - apply upper_keeps; [exact Hup|]. apply strip_keeps; assumption.
Qed.

(** *** Keys of the attribute map *)

(** The map has an entry for mapping [id] under [name]. *)
Definition has_entry (data : attribute_map_type) (name : str) (id : Z) : Prop :=
  exists by_mapping,
    dict_get name data = Some by_mapping /\ dict_mem id by_mapping = true.

Lemma has_entry_mem data name id :
  has_entry data name id -> dict_mem name data = true.
Proof. intros [bm [Hget _]]. unfold dict_mem. rewrite Hget. reflexivity. Qed.

Lemma has_entry_set data name id name' id' m bm :
  dict_get name' data = Some bm \/ (dict_get name' data = None /\ bm = []) ->
  has_entry data name id ->
  has_entry (dict_set name' (dict_set id' m bm) data) name id.
Proof.
  intros Hbm [bm0 [Hget Hmem]]. unfold has_entry.
  rewrite dict_get_set. destruct (keyb name name') eqn:E.
  - apply keyb_eq in E. subst name'. eexists. split; [reflexivity|].
    rewrite dict_mem_set.
    destruct Hbm as [Hbm|[Hbm _]]; rewrite Hget in Hbm; [|discriminate].
    injection Hbm as <-. rewrite Hmem.
    apply orb_true_r.
  - exists bm0. split; assumption.
Qed.

Lemma add_attribute_mapping_adds data row :
  has_entry (add_attribute_mapping data row)
            (normalize_string (fca_name (feed_attribute row)))
            (am_id (attr_map row)).
Proof.
  unfold add_attribute_mapping, has_entry.
  rewrite dict_get_set_same. eexists. split; [reflexivity|].
  rewrite dict_mem_set, keyb_refl. reflexivity.
Qed.

Lemma add_attribute_mapping_keeps data row name id :
  has_entry data name id -> has_entry (add_attribute_mapping data row) name id.
Proof.
  intros He. unfold add_attribute_mapping.
  apply has_entry_set; [|exact He].
  destruct (dict_get _ data); [left | right]; auto.
Qed.

Lemma attribute_mappings_added rows : forall data row,
  In row rows ->
  has_entry (fold_left add_attribute_mapping rows data)
            (normalize_string (fca_name (feed_attribute row)))
            (am_id (attr_map row)).
Proof.
  assert (Hkeep : forall rows data name id,
             has_entry data name id ->
             has_entry (fold_left add_attribute_mapping rows data) name id).
  { clear rows. induction rows as [|r rows IH]; intros data name id He; simpl;
      [exact He|]. apply IH. apply add_attribute_mapping_keeps. exact He. }
  induction rows as [|r rows IH]; intros data row Hin; [contradiction|].
  simpl. destruct Hin as [->|Hin].
  - apply Hkeep. apply add_attribute_mapping_adds.
  - apply IH. exact Hin.
Qed.

Lemma add_value_mapping_keeps data row data' name id :
  add_value_mapping data row = Ok data' ->
  has_entry data name id -> has_entry data' name id.
Proof.
  unfold add_value_mapping.
  destruct (dict_get _ data) as [bm|] eqn:Ebm; [|discriminate].
  destruct (dict_get _ bm) as [m|]; [|discriminate].
  destruct (values_map m); [|intros [= <-]; auto].
  destruct (market_value row); [|discriminate].
  intros [= <-] He. apply has_entry_set; [left; exact Ebm | exact He].
Qed.

Lemma add_value_mapping_returns data row :
  has_entry data (normalize_string (fca_name (feed_value_attribute row)))
            (vm_attribute_map_id (val_map row)) ->
  market_value row <> None ->
  exists data', add_value_mapping data row = Ok data'.
Proof.
  intros [bm [Hget Hmem]] Hmv. unfold add_value_mapping. rewrite Hget.
  unfold dict_mem in Hmem.
  destruct (dict_get _ bm) as [m|]; [|discriminate].
  destruct (values_map m); [|eauto].
  destruct (market_value row); [eauto | contradiction].
Qed.

(** *** The joins *)

Lemma by_id_some {A} (id_of : A -> Z) table id row :
  by_id id_of table id = Some row -> In row table /\ id_of row = id.
Proof.
  unfold by_id. intros Hf. apply find_some in Hf. destruct Hf as [Hin Heq].
  split; [exact Hin|]. apply Z.eqb_eq. exact Heq.
Qed.

Lemma in_filter_map {A B} (f : A -> option B) l a b :
  In a l -> f a = Some b -> In b (filter_map f l).
Proof.
  intros Hin Hf. unfold filter_map. apply in_flat_map. exists a.
  split; [exact Hin|]. rewrite Hf. left. reflexivity.
Qed.

Lemma in_filter_map_inv {A B} (f : A -> option B) l b :
  In b (filter_map f l) -> exists a, In a l /\ f a = Some b.
Proof.
  unfold filter_map. intros Hin. apply in_flat_map in Hin.
  destruct Hin as [a [Ha Hb]]. exists a. split; [exact Ha|].
  destruct (f a); [|contradiction]. destruct Hb as [->|[]]. reflexivity.
Qed.

(** The rows of [ValueMap] obey the check of [ValueMap.save]: the feed value
    belongs to the feed attribute of the attribute mapping; and they have a
    marketplace value. *)
Definition value_maps_saved (db : database float) (category_mapping_id : Z) : Prop :=
  forall row, In row (value_map_queryset db category_mapping_id) ->
    fcav_attribute_id (feed_value row)
      = am_feed_attribute_id (attr_map (val_attribute_map row))
    /\ market_value row <> None.

Lemma value_map_row_entry db category_mapping_id row :
  In row (value_map_queryset db category_mapping_id) ->
  fcav_attribute_id (feed_value row)
    = am_feed_attribute_id (attr_map (val_attribute_map row)) ->
  In (val_attribute_map row) (attribute_map_queryset db category_mapping_id)
  /\ feed_value_attribute row = feed_attribute (val_attribute_map row)
  /\ vm_attribute_map_id (val_map row) = am_id (attr_map (val_attribute_map row)).
Proof.
  unfold value_map_queryset, attribute_map_queryset.
  intros Hin Hsave. apply filter_In in Hin. destruct Hin as [Hin Hfilter].
  apply in_filter_map_inv in Hin. destruct Hin as [vm [Hvm Hsel]].
  unfold select_value_map in Hsel.
  destruct (by_id am_id (attribute_maps db) (vm_attribute_map_id vm))
    as [am|] eqn:Eam; [|discriminate].
  destruct (select_attribute_map db am) as [am_row|] eqn:Erow; [|discriminate].
  destruct (by_id fcav_id (feed_values db) (vm_feed_attribute_value_id vm))
    as [fv|]; [|discriminate].
  destruct (by_id fca_id (feed_attributes db) (fcav_attribute_id fv))
    as [fa|] eqn:Efa; [|discriminate].
  injection Hsel as <-. simpl in *.
  apply by_id_some in Eam. destruct Eam as [Ham Hid].
  assert (attr_map am_row = am /\
          by_id fca_id (feed_attributes db) (am_feed_attribute_id am)
            = Some (feed_attribute am_row)) as [Hmap Hfeed].
  { unfold select_attribute_map in Erow.
    destruct (by_id fca_id (feed_attributes db) (am_feed_attribute_id am));
      [|discriminate].
    destruct (by_id mca_id _ _); [|discriminate].
    destruct (by_id ma_id _ _); [|discriminate].
    injection Erow as <-. simpl. auto. }
  split; [|split].
  - apply filter_In. split; [|exact Hfilter].
    apply in_filter_map with (a := am); assumption.
  - rewrite Hmap in Hsave. rewrite Hsave, Hfeed in Efa. congruence.
  - rewrite Hmap. congruence.
Qed.

(** C5, as the code has it. The Mapping Graph Reader keys the attribute map
    by [normalize_string] of the feed attribute name: trimmed, uppercased and
    with the no-break space replaced, and nothing else. The Cyrillic capital
    IO (U+0401), which is its own uppercase, is not replaced: a feed
    attribute whose name contains it is keyed by a name that still contains
    it, where the claim, and [standardize_str] for the names of the same
    feed attributes, have the IE. *)
Theorem attribute_map_keys_keep_io (db : database float) (category_mapping_id : Z) :
  upper_cp 0x401 = [0x401%N] ->
  value_maps_saved db category_mapping_id ->
  exists data,
    get_category_attribute_map db category_mapping_id = Ok data /\
    forall row, In row (attribute_map_queryset db category_mapping_id) ->
      let name := fca_name (feed_attribute row) in
      dict_mem (replace 0xA0 (u " ") (upper (strip name))) data = true /\
      (In 0x401%N name -> In 0x401%N (replace 0xA0 (u " ") (upper (strip name)))).
Proof.
  intros Hio Hsaved. unfold get_category_attribute_map.
  set (data0 := fold_left add_attribute_mapping
                  (attribute_map_queryset db category_mapping_id) []).
  set (Inv := fun data : attribute_map_type =>
         forall row, In row (attribute_map_queryset db category_mapping_id) ->
           has_entry data (normalize_string (fca_name (feed_attribute row)))
                     (am_id (attr_map row))).
  assert (Inv data0) as Hinit.
  { intros row Hrow. apply attribute_mappings_added. exact Hrow. }
  assert (forall rows data,
             (forall r, In r rows ->
                In r (value_map_queryset db category_mapping_id)) ->
             Inv data ->
             exists data', for_each add_value_mapping rows data = Ok data'
                           /\ Inv data') as Hloop.
  { induction rows as [|r rows IH]; intros data Hsub Hinv; simpl.
    - eauto.
    - assert (In r (value_map_queryset db category_mapping_id)) as Hr
          by (apply Hsub; left; reflexivity).
      destruct (Hsaved r Hr) as [Hattr Hmv].
      destruct (value_map_row_entry _ _ _ Hr Hattr) as [Hqs [Hfa Hid]].
      destruct (add_value_mapping_returns data r) as [data1 Hstep].
      + rewrite Hfa, Hid. apply Hinv. exact Hqs.
      + exact Hmv.
      + rewrite Hstep. simpl. apply IH.
        * intros r' Hr'. apply Hsub. right. exact Hr'.
        * intros row Hrow.
          apply (add_value_mapping_keeps _ _ _ _ _ Hstep). apply Hinv. exact Hrow. }
  destruct (Hloop (value_map_queryset db category_mapping_id) data0)
    as [data [Hrun Hinv]]; [auto | exact Hinit |].
  exists data. split; [exact Hrun|].
  intros row Hrow. cbv zeta. split.
  - apply has_entry_mem with (id := am_id (attr_map row)).
    apply Hinv. exact Hrow.
  - intros Hin. apply (normalize_string_keeps _ _ Hio eq_refl Hin).
Qed.

End Reader.
End MapperFacts.

(** ** The resolver on concrete inputs *)

Module MapperExamples.
Import Mapper MapperFacts.
Local Open Scope Q_scope.
#[local] Existing Instance Decimal.numbers.

Definition conversion (from_id to_id : Z) (m : Q) : ValueUnitMap float :=
  {| value_unit_from_id := from_id; value_unit_to_id := to_id;
     multiplier := m |}.

(** Two stored conversions between the same units, one in each direction. *)
Definition both_directions : list (ValueUnitMap float) :=
  [conversion 1 2 (2 # 1); conversion 2 1 (3 # 1)].

Example both_directions_index :
  get_unit_map both_directions =
  Ok [(unit_key_of 1 2, 1 # 3); (unit_key_of 2 1, 3 # 1)].
Proof. reflexivity. Qed.

(** C8 as stated fails: the conversion from unit 1 to unit 2 with factor 2 is
    stored, and the index holds 1/3 under (1, 2). *)
Lemma unit_index_entry_overwritten :
  exists index,
    get_unit_map both_directions = Ok index /\
    In (conversion 1 2 (2 # 1)) both_directions /\
    dict_get (unit_key_of 1 2) index <> Some (2 # 1).
Proof.
  eexists. split; [reflexivity|]. split; [left; reflexivity|].
  vm_compute. discriminate.
Qed.

Lemma get_unit_map_last_writer_wins_witness :
  exists index,
    get_unit_map [conversion 1 2 (10 # 1); conversion 2 3 (5 # 1)] = Ok index /\
    dict_get (unit_key_of 2 1) index = Some (float_div (float_of_Z 1) (10 # 1)) /\
    (1%Z <> 2%Z -> dict_get (unit_key_of 1 2) index = Some (10 # 1)).
Proof.
  apply (@get_unit_map_last_writer_wins _ []
           [conversion 2 3 (5 # 1)] (conversion 1 2 (10 # 1))).
  - intros r [<-|[<-|[]]]; reflexivity.
  - intros r' [<-|[]] [[E _]|[_ E]]; simpl in E; discriminate E.
Defined.

(** A non-dictionary mapping from unit 1 to unit 2. *)
Definition length_mapping : mapping_data := {|
  source_id := u "9454";
  dictionary_id := None;
  data_type := Some (u "Decimal");
  mapping_id := 7;
  from_unit_id := Some 1%Z;
  to_unit_id := Some 2%Z;
  is_rich_content := false;
  ignore_data_type := false;
  deleted := false;
  values_map := None
|}.

Definition length_map : attribute_map_type :=
  [(u "LENGTH", [(7%Z, length_mapping)])].

(** With the factor 10 the raw value is converted. *)
Example length_converted :
  option_map (fun r : mapped_values => map value (old_values (u "LENGTH") r))
    (match get_mapped_values [conversion 1 2 (10 # 1)] length_map
             [(u "LENGTH", [u "5"])] with
     | Ok r => Some r
     | Raise _ => None
     end)
  = Some [u "50.0"].
Proof. vm_compute. reflexivity. Qed.

Lemma get_mapped_values_zero_multiplier_witness :
  get_mapped_values [conversion 1 2 0] length_map [(u "LENGTH", [u "5"])]
  = Raise ZeroDivisionError.
Proof.
  apply (@get_mapped_values_zero_multiplier _ _
           [conversion 1 2 0] (conversion 1 2 0)).
  - left. reflexivity.
  - reflexivity.
Defined.

(** Two dictionary-backed mappings of one feed attribute: the value map of
    the first resolves RED, that of the second knows RED only through a
    deleted marketplace value. *)
Definition colour_mapping (id : Z) (source : str) (dictionary : Z)
  (entries : list value_data) : mapping_data := {|
  source_id := source;
  dictionary_id := Some dictionary;
  data_type := Some (u "String");
  mapping_id := id;
  from_unit_id := None;
  to_unit_id := None;
  is_rich_content := false;
  ignore_data_type := false;
  deleted := false;
  values_map := Some [(u "RED", entries)]
|}.

Definition red_alive : value_data :=
  {| vd_value := u "red"; vd_dictionary_value_id := StrId (u "11");
     vd_deleted := false |}.

Definition red_deleted : value_data :=
  {| vd_value := u "crimson"; vd_dictionary_value_id := StrId (u "22");
     vd_deleted := true |}.

Definition first_mapping := colour_mapping 1 (u "100") 5 [red_alive].
Definition second_mapping := colour_mapping 2 (u "200") 6 [red_deleted].

Definition two_colour_mappings : attribute_map_type :=
  [(u "COLOR", [(1%Z, first_mapping); (2%Z, second_mapping)])].

(** Alone, the second mapping is reported. *)
Example second_mapping_alone :
  get_mapped_values [] [(u "COLOR", [(2%Z, second_mapping)])]
    [(u "COLOR", [u "red"])]
  = Ok {| values := [];
          unmapped_attributes := [];
          unmapped_value_attributes := [];
          empty_value_attributes := [];
          type_error_attributes := [];
          mapped_with_deleted := [];
          mapped_with_deleted_value := [u "200"] |}.
Proof. vm_compute. reflexivity. Qed.

(** C1, on the code. Every value-map entry that matches the raw value for
    attribute 200 is deleted, yet 200 is not recorded under
    [mapped_with_deleted_value]: the first mapping under the same name has
    already put a value under COLOR, and the resolver tests the name. *)
Theorem deleted_value_hidden_by_sibling_mapping :
  get_mapped_values [] two_colour_mappings [(u "COLOR", [u "red"])]
  = Ok {| values := [(u "COLOR", [dictionary_value first_mapping red_alive])];
          unmapped_attributes := [];
          unmapped_value_attributes := [];
          empty_value_attributes := [];
          type_error_attributes := [];
          mapped_with_deleted := [];
          mapped_with_deleted_value := [] |}
  /\ values_map second_mapping = Some [(upper (u "red"), [red_deleted])]
  /\ forallb vd_deleted [red_deleted] = true.
Proof. vm_compute. repeat split. Qed.

Lemma mapped_with_deleted_stays_empty_witness :
  exists r,
    get_mapped_values [conversion 1 2 (10 # 1)] two_colour_mappings
      [(u "COLOR", [u "red"; u ""])] = Ok r /\
    mapped_with_deleted r = [].
Proof.
  destruct (mapped_with_deleted_stays_empty [conversion 1 2 (10 # 1)]
              two_colour_mappings [(u "COLOR", [u "red"; u ""])])
    as [Hempty Hreturns].
  destruct Hreturns as [r Hr].
  - intros x [<-|[]]. reflexivity.
  - intros name maps id m [E|[]] Hm _.
    injection E as <- <-.
    destruct Hm as [E|[E|[]]]; injection E as <- <-; discriminate.
  - exists r. split; [exact Hr | exact (Hempty r Hr)].
Defined.


(** A category mapping with one attribute mapping, from the feed attribute
    "Ёмкость" to a marketplace attribute without dictionary. *)
Definition volume_db : database float := {|
  feed_categories := [{| fc_id := 1; fc_feed_id := 1 |}];
  feed_attributes :=
    [{| fca_id := 1; fca_category_id := 1; fca_name := u "Ёмкость";
        fca_unit_id := None |}];
  feed_values := [];
  market_attributes :=
    [{| ma_id := 1; ma_name := u "Объем"; ma_source_id := u "5000";
        ma_dictionary_id := None; ma_data_type := Some (u "String");
        ma_unit_id := None; ma_is_rich_content := false;
        ma_ignore_data_type := false; ma_disabled := false;
        ma_map_equal_values := false; ma_default_value_id := None |}];
  market_category_attributes :=
    [{| mca_id := 1; mca_category_id := 1; mca_attribute_id := 1;
        mca_required := true; mca_deleted := false |}];
  market_values := [];
  attribute_maps :=
    [{| am_id := 1; am_category_map_id := 1; am_feed_attribute_id := 1;
        am_marketplace_attribute_id := 1 |}];
  value_maps := [];
  value_unit_maps := []
|}.

(** C5 as stated fails: the feed attribute name contains the capital IO
    after uppercasing, the map is keyed by the name with the IO kept, and the
    name with IE substituted is not a key. *)
Lemma attribute_map_key_not_substituted :
  exists data,
    get_category_attribute_map volume_db 1 = Ok data /\
    In (u "Ёмкость")
       (map (fun row => fca_name (feed_attribute row))
            (attribute_map_queryset volume_db 1)) /\
    dict_keys data = [u "ЁМКОСТЬ"] /\
    dict_mem (u "ЕМКОСТЬ") data = false.
Proof.
  eexists. split; [vm_compute; reflexivity|].
  split; [left; reflexivity|]. split; reflexivity.
Qed.

(** C5, the defect. The fetcher of feed attributes holds "Ёмкость" and
    "Емкость" for one name, with the IE, and the attribute map does not:
    built for the stored "Ёмкость", its only key has the IO, and it has no
    entry for an offer that writes "Емкость", whose value is filed under
    [unmapped_attributes]. *)
Lemma io_spelling_is_not_matched :
  standardize_str (u "Ёмкость") = u "ЕМКОСТЬ" /\
  standardize_str (u "Емкость") = u "ЕМКОСТЬ" /\
  normalize_string (u "Ёмкость") = u "ЁМКОСТЬ" /\
  normalize_string (u "Емкость") = u "ЕМКОСТЬ" /\
  exists data stored result,
    get_category_attribute_map volume_db 1 = Ok data /\
    dict_keys data = [u "ЁМКОСТЬ"] /\
    dict_mem (u "ЕМКОСТЬ") data = false /\
    get_mapped_values [] data [(normalize_string (u "Ёмкость"), [u "5"])]
      = Ok stored /\
    map (fun item => (fst item, map value (snd item))) (values stored) =
      [(u "ЁМКОСТЬ", [u "5"])] /\
    unmapped_attributes stored = [] /\
    get_mapped_values [] data [(normalize_string (u "Емкость"), [u "5"])]
      = Ok result /\
    values result = [] /\
    unmapped_attributes result = [u "ЕМКОСТЬ"].
Proof.
  repeat (split; [reflexivity|]).
  eexists. eexists. eexists. split; [vm_compute; reflexivity|].
  split; [reflexivity|]. split; [reflexivity|].
  split; [vm_compute; reflexivity|].
  split; [reflexivity|]. split; [reflexivity|].
  split; [vm_compute; reflexivity|].
  split; reflexivity.
Qed.

Lemma attribute_map_keys_keep_io_witness :
  exists data,
    get_category_attribute_map volume_db 1 = Ok data /\
    forall row, In row (attribute_map_queryset volume_db 1) ->
      let name := fca_name (feed_attribute row) in
      dict_mem (replace 0xA0 (u " ") (upper (strip name))) data = true /\
      (In 0x401%N name -> In 0x401%N (replace 0xA0 (u " ") (upper (strip name)))).
Proof.
  apply (attribute_map_keys_keep_io volume_db 1).
  - reflexivity.
  - intros row Hrow. vm_compute in Hrow. contradiction.
Defined.


(** ** The equal-value auto-mapper on concrete inputs *)

#[local] Instance sql_upper_unicode : Sql := {| sql_upper := upper |}.

(** One attribute mapping with [map_equal_values] and a dictionary; the feed
    attribute has the two values "Red" and "RED", the dictionary the value
    "red"; no value is mapped yet. *)
Definition colour_db : database float := {|
  feed_categories := [{| fc_id := 1; fc_feed_id := 1 |}];
  feed_attributes :=
    [{| fca_id := 1; fca_category_id := 1; fca_name := u "Цвет";
        fca_unit_id := None |}];
  feed_values :=
    [{| fcav_id := 1; fcav_attribute_id := 1; fcav_value := u "Red" |};
     {| fcav_id := 2; fcav_attribute_id := 1; fcav_value := u "RED" |}];
  market_attributes :=
    [{| ma_id := 1; ma_name := u "Цвет товара"; ma_source_id := u "10096";
        ma_dictionary_id := Some 7%Z; ma_data_type := Some (u "String");
        ma_unit_id := None; ma_is_rich_content := false;
        ma_ignore_data_type := false; ma_disabled := false;
        ma_map_equal_values := true; ma_default_value_id := None |}];
  market_category_attributes :=
    [{| mca_id := 1; mca_category_id := 1; mca_attribute_id := 1;
        mca_required := true; mca_deleted := false |}];
  market_values :=
    [{| mav_id := 10; mav_dictionary_id := 7; mav_source_id := Some (u "900");
        mav_value := u "red"; mav_deleted := false |}];
  attribute_maps :=
    [{| am_id := 1; am_category_map_id := 1; am_feed_attribute_id := 1;
        am_marketplace_attribute_id := 1 |}];
  value_maps := [];
  value_unit_maps := []
|}.

Definition value_map (id feed_value_id : Z) : ValueMap :=
  {| vm_id := id; vm_attribute_map_id := 1;
     vm_feed_attribute_value_id := feed_value_id;
     vm_marketplace_attribute_value_id := Some 10%Z |}.

(** C2, on the code, single-mapping scope. The two feed values share their
    uppercased text, so the dictionary of unmapped feed values keeps one of
    them: the first call maps feed value 2 only, and a second call on the
    result maps feed value 1. Calling twice does not give what calling once
    gives. *)
Theorem map_attribute_equal_values_twice :
  exists once twice,
    map_attribute_equal_values colour_db 1 = Ok once /\
    map_attribute_equal_values once 1 = Ok twice /\
    value_maps once = [value_map 1 2] /\
    value_maps twice = [value_map 1 2; value_map 2 1] /\
    map triple (value_maps twice) <> map triple (value_maps once).
Proof.
  eexists. eexists. split; [vm_compute; reflexivity|].
  split; [vm_compute; reflexivity|].
  split; [reflexivity|]. split; [reflexivity|]. discriminate.
Qed.

(** The batch scope maps both feed values in one call, and a second call
    changes nothing. *)
Example map_attribute_equal_values_v2_twice :
  exists once,
    map_attribute_equal_values_v2 colour_db 1 = Ok once /\
    map_attribute_equal_values_v2 once 1 = Ok once /\
    value_maps once = [value_map 1 1; value_map 2 2].
Proof.
  eexists. split; [vm_compute; reflexivity|].
  split; [vm_compute; reflexivity | reflexivity].
Qed.

End MapperExamples.

(* ===================================================================== *)
(** * Properties of the offer attribute builder                           *)
(* ===================================================================== *)

Module OzonFacts.
Import Mapper MapperFacts Ozon.

Section Fallbacks.
Context `{Unicode} `{Numbers} `{Sql} `{External float}.

Lemma not_in_remove_required (m : manager float) (s : str) :
  ~ In s (_required_ozon_attributes (_remove_ozon_attribute_from_required m s)).
Proof.
  unfold _remove_ozon_attribute_from_required, with_required.
  cbn [_required_ozon_attributes]. intros Hin.
  apply filter_In in Hin. destruct Hin as [_ Hneq].
  rewrite keyb_refl in Hneq. discriminate.
Qed.

Lemma in_remove_required (m : manager float) (s s' : str) :
  In s' (_required_ozon_attributes (_remove_ozon_attribute_from_required m s))
  <-> In s' (_required_ozon_attributes m) /\ s' <> s.
Proof.
  unfold _remove_ozon_attribute_from_required, with_required.
  cbn [_required_ozon_attributes].
  rewrite filter_In. split; intros [Hin Hneq]; split; auto.
  - intros ->. rewrite keyb_refl in Hneq. discriminate.
  - apply negb_true_iff. apply keyb_neq. exact Hneq.
Qed.

(** What [_add_attribute_value] does with the default
    [dictionary_value_id]. *)
Lemma _add_attribute_value_default (m : manager float) (s : str) (key : Z)
  (v : pyval float) :
  int_of_str s = Some key ->
  _add_attribute_value m s v default_dictionary_value_id =
  Ok (_remove_ozon_attribute_from_required
        (with_attributes_values
           (dict_set key
              {| complex_id :=
                   match dict_get key (_attributes_values m) with
                   | Some e => complex_id e
                   | None => 0%Z
                   end;
                 id :=
                   match dict_get key (_attributes_values m) with
                   | Some e => id e
                   | None => key
                   end;
                 values_of :=
                   match dict_get key (_attributes_values m) with
                   | Some e => values_of e
                   | None => []
                   end ++
                   [{| item_value := v; item_dictionary_value_id := 0 |}] |}
              (_attributes_values m)) m) s).
Proof.
  intros Hkey. unfold _add_attribute_value, py_int. rewrite Hkey. simpl.
  destruct (dict_get key (_attributes_values m)); reflexivity.
Qed.

(** *** The fallback for one key *)

(** The ids of a key of [OZON_ATTRIBUTES_IDS], as the list that
    [add_if_exists] goes through. *)
Definition ids_of (ids : attribute_ids) : list str :=
  match ids with
  | OneId s => [s]
  | ManyIds l => l
  end.

(** The ids among [l] that are attributes of the category. *)
Definition in_category (m : manager float) (l : list str) : list str :=
  filter (fun s => dict_mem s (_ozon_attributes m)) l.

(** The attribute [s] of the category is flagged required. *)
Definition is_required (m : manager float) (s : str) : bool :=
  match dict_get s (_ozon_attributes m) with
  | Some data => oa_required data
  | None => false
  end.

(** [key] is the integer of one of the ids [l]. *)
Definition has_key (key : Z) (l : list str) : bool :=
  existsb (fun s => keyb (int_of_str s) (Some key)) l.

(** The entry of attribute [key] once [v] is appended to its values, with
    no dictionary value. *)
Definition with_value (m : manager float) (key : Z) (v : pyval float)
  : attribute_values float :=
  {| complex_id :=
       match dict_get key (_attributes_values m) with
       | Some e => complex_id e
       | None => 0%Z
       end;
     id :=
       match dict_get key (_attributes_values m) with
       | Some e => id e
       | None => key
       end;
     values_of :=
       match dict_get key (_attributes_values m) with
       | Some e => values_of e
       | None => []
       end ++ [{| item_value := v; item_dictionary_value_id := 0 |}] |}.

(** [m'] differs from [m] in the values of the attributes and in the
    outstanding attributes at most. *)
Definition same_but_values (m m' : manager float) : Prop :=
  ozon_category_id m' = ozon_category_id m /\
  market_category_deleted m' = market_category_deleted m /\
  _attribute_map m' = _attribute_map m /\
  _ozon_attributes m' = _ozon_attributes m /\
  _complex_attributes_values m' = _complex_attributes_values m /\
  _attributes_errors m' = _attributes_errors m /\
  _tags_errors m' = _tags_errors m.

Lemma filter_twice {A} (f g : A -> bool) (l : list A) :
  filter g (filter f l) = filter (fun x => f x && g x) l.
Proof.
  induction l as [|x l IH]; [reflexivity|]. cbn [filter].
  destruct (f x); cbn [filter andb]; [|exact IH].
  destruct (g x); rewrite IH; reflexivity.
Qed.

Lemma has_key_in (key : Z) (l : list str) (keys : list Z) (f : str -> bool) :
  map int_of_str l = map Some keys ->
  has_key key (filter f l) = true -> In key keys.
Proof.
  revert keys. induction l as [|s l IH]; intros [|k keys]; try discriminate.
  cbn [map filter]. intros [= Hs Hl].
  destruct (f s).
  - unfold has_key. cbn [existsb]. fold (has_key key (filter f l)).
    intros Hkey. apply orb_true_iff in Hkey. destruct Hkey as [Hkey|Hkey].
    + apply keyb_eq in Hkey. left. congruence.
    + right. apply (IH keys Hl Hkey).
  - intros Hkey. right. apply (IH keys Hl Hkey).
Qed.

(** The loop of [add_if_exists] with the empty string. *)
Lemma add_if_exists_ids_empty (l : list str) :
  forall (keys : list Z) (m : manager float) (errors : dict str str),
    map int_of_str l = map Some keys -> NoDup keys ->
    exists m',
      add_if_exists_ids m errors l (PStr []) =
        Ok (m', fold_left
                  (fun e s => if is_required m s
                              then dict_set s (u "empty") e else e)
                  (in_category m l) errors) /\
      same_but_values m m' /\
      _required_ozon_attributes m' =
        filter (fun s => negb (existsb (keyb s) (in_category m l)))
               (_required_ozon_attributes m) /\
      forall key,
        dict_get key (_attributes_values m') =
        if has_key key (in_category m l)
        then Some (with_value m key (PStr []))
        else dict_get key (_attributes_values m).
Proof.
  induction l as [|s l IH]; intros keys m errors Hkeys Hnodup.
  - exists m. cbn. split; [reflexivity|].
    split; [unfold same_but_values; tauto|]. split; [|reflexivity].
    induction (_required_ozon_attributes m) as [|x r IHr]; [reflexivity|].
    cbn [filter negb]. rewrite <- IHr. reflexivity.
  - destruct keys as [|k keys]; [discriminate Hkeys|].
    cbn [map] in Hkeys. injection Hkeys as Hs Hl.
    inversion Hnodup as [|k' keys' Hfresh Hrest]; subst.
    cbn [add_if_exists_ids]. unfold in_category. cbn [filter].
    fold (in_category m l).
    destruct (dict_mem s (_ozon_attributes m)) eqn:Emem; cbn [negb].
    + rewrite (_add_attribute_value_default _ _ _ _ Hs). cbn [bind].
      set (m1 := _remove_ozon_attribute_from_required _ s).
      set (errors1 := if eq_str (PStr []) [] then _ else errors).
      destruct (IH keys m1 errors1 Hl Hrest)
        as (m' & Hrun & Hsame & Hreq & Hvalues).
      assert (in_category m1 l = in_category m l) as Hcat by reflexivity.
      assert (forall x, is_required m1 x = is_required m x) as Hflag
          by reflexivity.
      rewrite Hcat in Hrun, Hreq, Hvalues.
      exists m'. split; [|split; [|split]].
      * rewrite Hrun. f_equal. f_equal. cbn [fold_left].
        assert (errors1 = if is_required m s
                          then dict_set s (u "empty") errors else errors)
          as ->.
        { unfold errors1, add_error, is_required, eq_str.
          rewrite keyb_refl. unfold dict_mem in Emem.
          destruct (dict_get s (_ozon_attributes m)); [reflexivity|].
          discriminate Emem. }
        reflexivity.
      * destruct Hsame as (A1 & A2 & A3 & A4 & A5 & A6 & A7).
        unfold same_but_values. repeat split; assumption.
      * rewrite Hreq. unfold m1. cbn [_remove_ozon_attribute_from_required
          with_required with_attributes_values _required_ozon_attributes].
        rewrite filter_twice. apply filter_ext. intros x. cbn [existsb].
        rewrite negb_orb. reflexivity.
      * intros key. rewrite Hvalues. unfold has_key at 2. cbn [existsb].
        fold (has_key key (in_category m l)). rewrite Hs.
        assert (dict_get key (_attributes_values m1) =
                if keyb key k then Some (with_value m k (PStr []))
                else dict_get key (_attributes_values m)) as Hm1.
        { unfold m1. cbn [_remove_ozon_attribute_from_required with_required
            with_attributes_values _attributes_values].
          apply dict_get_set. }
        destruct (keyb key k) eqn:Ek.
        -- apply keyb_eq in Ek. subst key.
           assert (keyb (Some k) (Some k) = true) as -> by apply keyb_refl.
           cbn [orb].
           destruct (has_key k (in_category m l)) eqn:Ehas; [|exact Hm1].
           exfalso. apply Hfresh.
           apply (has_key_in k l keys _ Hl Ehas).
        -- assert (keyb (Some k) (Some key) = false) as ->.
           { apply keyb_neq. intros [= Heq]. apply keyb_neq in Ek.
             apply Ek. symmetry. exact Heq. }
           cbn [orb].
           destruct (has_key key (in_category m l)); [|exact Hm1].
           unfold with_value. rewrite Hm1. reflexivity.
    + apply (IH keys m errors Hl Hrest).
Qed.

(** The loop of [add_if_exists] with [None]: it returns at the first id
    that is an attribute of the category. *)
Lemma add_if_exists_ids_none (l : list str) (m : manager float)
  (errors : dict str str) :
  add_if_exists_ids m errors l PNone =
  Ok (m, match in_category m l with
         | [] => errors
         | s :: _ => if is_required m s
                     then dict_set s (u "missing") errors else errors
         end).
Proof.
  induction l as [|s l IH]; [reflexivity|].
  cbn [add_if_exists_ids]. unfold in_category. cbn [filter].
  fold (in_category m l).
  destruct (dict_mem s (_ozon_attributes m)) eqn:Emem; cbn [negb];
    [|exact IH].
  unfold add_error, is_required. unfold dict_mem in Emem.
  destruct (dict_get s (_ozon_attributes m)); [reflexivity|].
  discriminate Emem.
Qed.

(** The ids of every key are written as different integers. *)
Lemma OZON_ATTRIBUTES_IDS_keys (attribute_key : str) (ids : attribute_ids) :
  dict_get attribute_key OZON_ATTRIBUTES_IDS = Some ids ->
  exists keys, map int_of_str (ids_of ids) = map Some keys /\ NoDup keys.
Proof.
  intros Hget. apply dict_get_In in Hget.
  exists (map (fun s => match int_of_str s with Some z => z | None => 0%Z end)
              (ids_of ids)).
  repeat (destruct Hget as [[= _ <-]|Hget];
          [split; [reflexivity|];
           vm_compute; repeat constructor; cbn; intuition discriminate|]).
  destruct Hget.
Qed.

(** C10, as the code has it. In the required-field fallback, for a key of
    [OZON_ATTRIBUTES_IDS] and those of its ids that are attributes of the
    category. An empty string, for each of these ids: records the error
    [empty] when the attribute is required, and is still appended to the
    values of the attribute, with no dictionary value, which takes the
    attribute, and nothing else, out of the outstanding attributes. [None]
    records [missing] for the first of these ids only, when that attribute
    is required, and returns: values and outstanding attributes are as they
    were, and the later ids of the key get no error. *)
Theorem add_if_exists_empty_or_none (m : manager float) (errors : dict str str)
  (attribute_key : str) (ids : attribute_ids) :
  dict_get attribute_key OZON_ATTRIBUTES_IDS = Some ids ->
  let present := in_category m (ids_of ids) in
  (exists m',
      add_if_exists (m, errors) attribute_key (PStr []) =
        Ok (m', fold_left
                  (fun e s => if is_required m s
                              then dict_set s (u "empty") e else e)
                  present errors) /\
      same_but_values m m' /\
      _required_ozon_attributes m' =
        filter (fun s => negb (existsb (keyb s) present))
               (_required_ozon_attributes m) /\
      forall key,
        dict_get key (_attributes_values m') =
        if has_key key present
        then Some (with_value m key (PStr []))
        else dict_get key (_attributes_values m)) /\
  add_if_exists (m, errors) attribute_key PNone =
    Ok (m, match present with
           | [] => errors
           | s :: _ => if is_required m s
                       then dict_set s (u "missing") errors else errors
           end).
Proof.
  intros Hkey present.
  destruct (OZON_ATTRIBUTES_IDS_keys attribute_key ids Hkey)
    as (keys & Hkeys & Hnodup).
  assert (forall v, add_if_exists (m, errors) attribute_key v =
                    add_if_exists_ids m errors (ids_of ids) v) as Hloop.
  { intros v. unfold add_if_exists. rewrite Hkey. destruct ids; reflexivity. }
  rewrite !Hloop. split.
  - apply (add_if_exists_ids_empty (ids_of ids) keys m errors Hkeys Hnodup).
  - apply add_if_exists_ids_none.
Qed.

End Fallbacks.

Section Consolidation.
Context `{Unicode} `{Numbers} `{Sql} `{External float}.

(** *** The [mappings] dictionary *)

(** The entries of the attribute map, flattened: feed attribute name,
    mapping id and mapping data. *)
Definition entries (attribute_map : attribute_map_type)
  : list (str * (Z * mapping_data)) :=
  flat_map (fun item : str * dict Z mapping_data =>
              map (fun inner => (fst item, inner)) (snd item))
           attribute_map.

Definition set_mapping (mappings : dict str (str * Z))
  (e : str * (Z * mapping_data)) : dict str (str * Z) :=
  dict_set (source_id (snd (snd e))) (fst e, fst (snd e)) mappings.

Lemma fold_left_over_map {A B C} (f : A -> B -> A) (g : C -> B) (l : list C)
  (a : A) : fold_left f (map g l) a = fold_left (fun a x => f a (g x)) l a.
Proof. revert a. induction l as [|x l IH]; intros a; simpl; auto. Qed.

Lemma mappings_of_entries (attribute_map : attribute_map_type) :
  mappings_of attribute_map = fold_left set_mapping (entries attribute_map) [].
Proof.
  unfold mappings_of, entries. generalize (@nil (str * (str * Z))).
  induction attribute_map as [|[name maps] rest IH]; intros acc; simpl.
  - reflexivity.
  - rewrite fold_left_app, fold_left_over_map. apply IH.
Qed.

Lemma fold_set_mapping_get (l : list (str * (Z * mapping_data))) :
  forall (acc : dict str (str * Z)) (s : str),
    (dict_get s (fold_left set_mapping l acc) = dict_get s acc /\
     forall e, In e l -> source_id (snd (snd e)) <> s) \/
    (exists e, In e l /\ source_id (snd (snd e)) = s /\
               dict_get s (fold_left set_mapping l acc)
                 = Some (fst e, fst (snd e))).
Proof.
  induction l as [|e l IH]; intros acc s; simpl.
  - left. split; [reflexivity | tauto].
  - destruct (IH (set_mapping acc e) s) as [[Hget Hnone]|[e' [Hin [Hs Hget]]]].
    + unfold set_mapping in Hget at 3. rewrite dict_get_set in Hget.
      destruct (keyb s (source_id (snd (snd e)))) eqn:E.
      * right. exists e. apply keyb_eq in E.
        split; [left; reflexivity|]. split; [congruence | exact Hget].
      * left. split; [exact Hget|]. apply keyb_neq in E.
        intros e0 [<-|Hin]; [congruence | auto].
    + right. exists e'. split; [right; exact Hin|]. split; assumption.
Qed.

(** A source id has no mapping exactly when no entry of the attribute map
    carries it, and a mapping names an entry that carries it. *)
Lemma mappings_of_get (attribute_map : attribute_map_type) (s : str) :
  match dict_get s (mappings_of attribute_map) with
  | None =>
    forall name maps id data,
      In (name, maps) attribute_map -> In (id, data) maps ->
      source_id data <> s
  | Some (name, id) =>
    exists maps data,
      In (name, maps) attribute_map /\ In (id, data) maps /\
      source_id data = s
  end.
Proof.
  rewrite mappings_of_entries.
  assert (Hentries : forall name id data,
             In (name, (id, data)) (entries attribute_map) <->
             exists maps, In (name, maps) attribute_map /\ In (id, data) maps).
  { intros name id data. unfold entries. rewrite in_flat_map. split.
    - intros [[name' maps] [Hin Hmap]]. simpl in Hmap.
      apply in_map_iff in Hmap. destruct Hmap as [inner [Heq Hinner]].
      injection Heq as <- <-. exists maps. split; assumption.
    - intros [maps [Hin Hinner]]. exists (name, maps). split; [exact Hin|].
      simpl. apply in_map_iff. exists (id, data). split; [reflexivity|].
      exact Hinner. }
  destruct (fold_set_mapping_get (entries attribute_map) [] s)
    as [[Hget Hnone]|[[name [id data]] [Hin [Hs Hget]]]].
  - rewrite Hget. simpl. intros name maps id data Hin Hinner.
    apply (Hnone (name, (id, data))). apply Hentries. eauto.
  - rewrite Hget. simpl in *. apply Hentries in Hin.
    destruct Hin as [maps [Hin Hinner]]. exists maps, data. auto.
Qed.

(** *** The loop over the outstanding required attributes *)

(** The error the consolidation gives to an attribute that has none yet. *)
Definition final_error (m : manager float)
  (feed_params_values : dict str (list str)) (s : str) : option str :=
  match dict_get s (_ozon_attributes m) with
  | None => None
  | Some data =>
    Some (if oa_disabled data then u "logical"
          else match dict_get s (mappings_of (_attribute_map m)) with
               | None => u "unmapped"
               | Some mapping =>
                 if dict_mem (fst mapping) feed_params_values
                 then u "unknown err" else u "missing"
               end)
  end.

Lemma consolidate_required_step (m : manager float)
  (feed_params_values : dict str (list str)) (errors : dict str str)
  (s : str) (e : str) :
  final_error m feed_params_values s = Some e ->
  consolidate_required m (mappings_of (_attribute_map m)) feed_params_values
                       errors s =
  Ok (if dict_mem s errors then errors else dict_set s e errors).
Proof.
  unfold final_error, consolidate_required.
  destruct (dict_mem s errors) eqn:Emem; [reflexivity|].
  destruct (dict_get s (_ozon_attributes m)) as [data|]; [|discriminate].
  apply dict_mem_get in Emem. rewrite Emem.
  destruct (oa_disabled data); [intros [= <-]; reflexivity|].
  destruct (dict_get s (mappings_of (_attribute_map m))) as [mapping|];
    [|intros [= <-]; reflexivity].
  destruct (dict_mem (fst mapping) feed_params_values); intros [= <-];
    reflexivity.
Qed.

Lemma consolidate_loop (m : manager float)
  (feed_params_values : dict str (list str)) (l : list str) :
  (forall s, In s l -> dict_mem s (_ozon_attributes m) = true) ->
  forall errors,
  exists errors',
    for_each (consolidate_required m (mappings_of (_attribute_map m))
                                   feed_params_values) l errors = Ok errors' /\
    forall s,
      dict_get s errors' =
      match dict_get s errors with
      | Some e => Some e
      | None => if existsb (keyb s) l
                then final_error m feed_params_values s else None
      end.
Proof.
  induction l as [|a l IH]; intros Hall errors.
  - exists errors. split; [reflexivity|]. intros s. simpl.
    destruct (dict_get s errors); reflexivity.
  - assert (exists e, final_error m feed_params_values a = Some e) as [e He].
    { unfold final_error. specialize (Hall a (or_introl eq_refl)).
      unfold dict_mem in Hall.
      destruct (dict_get a (_ozon_attributes m)); [eauto | discriminate]. }
    cbn [for_each]. rewrite (consolidate_required_step _ _ _ _ _ He).
    cbn [bind].
    destruct (IH (fun s Hs => Hall s (or_intror Hs))
                 (if dict_mem a errors then errors else dict_set a e errors))
      as [errors' [Hrun Hget]].
    exists errors'. split; [exact Hrun|].
    intros s. rewrite Hget. cbn [existsb].
    destruct (dict_mem a errors) eqn:Emem.
    + destruct (dict_get s errors) eqn:Es; [reflexivity|].
      destruct (keyb s a) eqn:Esa; [|reflexivity].
      apply keyb_eq in Esa. subst s. apply dict_mem_get in Es. congruence.
    + rewrite dict_get_set. destruct (keyb s a) eqn:Esa.
      * apply keyb_eq in Esa. subst s. apply dict_mem_get in Emem.
        rewrite Emem. cbn [orb]. symmetry. exact He.
      * cbn [orb]. reflexivity.
Qed.

(** The loop on its own. It returns when the outstanding required
    attributes are attributes of the category, and it classifies each of
    them that has no error yet; an attribute that already has an error
    keeps it. *)
Lemma consolidate_outstanding (m : manager float)
  (feed_params_values : dict str (list str)) (errors : dict str str) :
  (forall s, In s (_required_ozon_attributes m) ->
             dict_mem s (_ozon_attributes m) = true) ->
  exists errors',
    consolidate m feed_params_values errors = Ok errors' /\
    forall s data,
      In s (_required_ozon_attributes m) ->
      dict_get s (_ozon_attributes m) = Some data ->
      match dict_get s errors with
      | Some earlier => dict_get s errors' = Some earlier
      | None =>
        if oa_disabled data then dict_get s errors' = Some (u "logical")
        else
          match dict_get s (mappings_of (_attribute_map m)) with
          | None =>
            dict_get s errors' = Some (u "unmapped") /\
            (forall name maps id entry,
                In (name, maps) (_attribute_map m) -> In (id, entry) maps ->
                source_id entry <> s)
          | Some (name, id) =>
            (exists maps entry,
                In (name, maps) (_attribute_map m) /\ In (id, entry) maps /\
                source_id entry = s) /\
            dict_get s errors' =
              Some (if dict_mem name feed_params_values
                    then u "unknown err" else u "missing")
          end
      end.
Proof.
  intros Hall. unfold consolidate.
  destruct (consolidate_loop m feed_params_values
              (_required_ozon_attributes m) Hall errors)
    as [errors' [Hrun Hget]].
  exists errors'. split; [exact Hrun|].
  intros s data Hin Hdata. rewrite Hget.
  destruct (dict_get s errors) as [earlier|]; [reflexivity|].
  assert (existsb (keyb s) (_required_ozon_attributes m) = true) as ->.
  { apply existsb_exists. exists s. split; [exact Hin | apply keyb_refl]. }
  unfold final_error. rewrite Hdata.
  destruct (oa_disabled data); [reflexivity|].
  pose proof (mappings_of_get (_attribute_map m) s) as Hmap.
  destruct (dict_get s (mappings_of (_attribute_map m))) as [[name id]|].
  - split; [exact Hmap | reflexivity].
  - split; [reflexivity | exact Hmap].
Qed.

End Consolidation.

Section CustomsCodes.
Context `{Unicode} `{Numbers} `{Sql} `{External float}.

Lemma drop_last_take (n : nat) (s : str) :
  S n <= List.length s -> drop_last (take (S n) s) = take n s.
Proof. intros Hn. apply removelast_firstn. lia. Qed.

(** The loop stops at the longest prefix of at least four characters that
    is a key. *)
Lemma tn_ved_while_found (values_by_code : dict str code_value) (s : str)
  (k : nat) (v : code_value) (d : nat) :
  4 <= k -> k + d <= List.length s ->
  dict_get (take k s) values_by_code = Some v ->
  (forall j, k < j <= k + d -> dict_get (take j s) values_by_code = None) ->
  tn_ved_while values_by_code (take (k + d) s) (k + d - 3) = CodeFound v.
Proof.
  intros Hk. induction d as [|d IH]; intros Hlen Hget Hnone.
  - rewrite Nat.add_0_r. destruct (k - 3) as [|r] eqn:Er; [lia|].
    simpl. rewrite Hget. reflexivity.
  - replace (k + S d - 3) with (S (k + d - 3)) by lia.
    cbn [tn_ved_while]. rewrite (Hnone (k + S d)) by lia.
    replace (k + S d) with (S (k + d)) by lia.
    rewrite drop_last_take by lia.
    apply IH; [lia | exact Hget |]. intros j Hj. apply Hnone. lia.
Qed.

(** Without such a prefix it ends on the first three characters. *)
Lemma tn_ved_while_not_found (values_by_code : dict str code_value) (s : str)
  (n : nat) :
  n <= List.length s ->
  (forall j, 4 <= j <= n -> dict_get (take j s) values_by_code = None) ->
  tn_ved_while values_by_code (take n s) (n - 3) = CodeNotFound (take (min n 3) s).
Proof.
  induction n as [|n IH]; intros Hlen Hnone.
  - reflexivity.
  - destruct (le_lt_dec (S n) 3) as [Hsmall|Hbig].
    + replace (S n - 3) with 0 by lia. rewrite Nat.min_l by lia. reflexivity.
    + replace (S n - 3) with (S (n - 3)) by lia. cbn [tn_ved_while].
      rewrite (Hnone (S n)) by lia. rewrite drop_last_take by lia.
      rewrite IH; [|lia|intros j Hj; apply Hnone; lia].
      rewrite !Nat.min_r by lia. reflexivity.
Qed.

(** C6, as the code has it. The customs code of the offer is compared as it
    is written with the extracted codes of the dictionary: the longest
    prefix of at least four characters that is a key gives the value; when
    no such prefix is a key and the code has at least three characters, the
    first four characters followed by "00" are looked up; a shorter code
    finds nothing. *)
Theorem tn_ved_lookup_longest_prefix (values_by_code : dict str code_value)
  (s : str) :
  (forall k v,
      4 <= k <= List.length s ->
      dict_get (take k s) values_by_code = Some v ->
      (forall j, k < j <= List.length s ->
                 dict_get (take j s) values_by_code = None) ->
      tn_ved_lookup values_by_code (PStr s) = Ok (Some v)) /\
  ((forall j, 4 <= j <= List.length s ->
              dict_get (take j s) values_by_code = None) ->
   tn_ved_lookup values_by_code (PStr s) =
   Ok (if 3 <=? List.length s
       then dict_get (take 4 s ++ u "00") values_by_code else None)).
Proof.
  unfold tn_ved_lookup. cbn [py_str]. split.
  - intros k v Hk Hget Hnone.
    pose proof (tn_ved_while_found values_by_code s k v (List.length s - k))
      as Hfound.
    replace (k + (List.length s - k)) with (List.length s) in Hfound by lia.
    unfold take in *. rewrite firstn_all in Hfound.
    rewrite Hfound; [reflexivity | lia | lia | exact Hget | exact Hnone].
  - intros Hnone.
    pose proof (tn_ved_while_not_found values_by_code s (List.length s)
                  (le_n _) Hnone) as Hnot.
    unfold take in *. rewrite firstn_all in Hnot. rewrite Hnot.
    rewrite length_firstn.
    destruct (Nat.leb_spec 3 (List.length s)) as [Hlong|Hshort].
    + replace (min (min (List.length s) 3) (List.length s)) with 3 by lia.
      reflexivity.
    + replace (min (min (List.length s) 3) (List.length s) =? 3) with false
        by (symmetry; apply Nat.eqb_neq; lia).
      reflexivity.
Qed.

End CustomsCodes.

Section Outstanding.
Context `{Unicode} `{Numbers} `{Sql} `{External float}.

(** *** Values assigned during attribute collection *)

(** [key] is an attribute id under which [_add_attribute_value] or
    [_add_complex_attribute_value] stored a value. *)
Definition present (m : manager float) (key : Z) : Prop :=
  dict_mem key (_attributes_values m) = true \/
  exists d,
    dict_get VIDEO_COMPLEX_ID (_complex_attributes_values m) = Some d /\
    dict_mem (IntKey key) d = true.

(** The attribute with source id [s] was assigned a value. *)
Definition has_value (m : manager float) (s : str) : Prop :=
  exists key, int_of_str s = Some key /\ present m key.

(** The required attributes of the category, the initial value of
    [_required_ozon_attributes]. *)
Definition required_of (ozon_attributes : dict str ozon_attribute) : list str :=
  map fst (filter (fun item : str * ozon_attribute => oa_required (snd item))
                  ozon_attributes).

(** The bookkeeping of the outstanding required attributes, for the source
    ids [S] that may be assigned values: nothing enters the list, a
    required attribute leaves it only with a value, and every stored value
    belongs to a source id that has left it. *)
Definition bookkeeping (O : dict str ozon_attribute) (S : list str)
  (m : manager float) : Prop :=
  _ozon_attributes m = O /\
  (forall s, In s (_required_ozon_attributes m) -> In s (required_of O)) /\
  (forall s, In s (required_of O) ->
             In s (_required_ozon_attributes m) \/ has_value m s) /\
  (forall key, present m key ->
     exists s0, int_of_str s0 = Some key /\
                ~ In s0 (_required_ozon_attributes m) /\ In s0 S).

(** An assignment to [s0], whose integer id is [key]. *)
Lemma bookkeeping_step (O : dict str ozon_attribute) (S : list str)
  (m m' : manager float) (s0 : str) (key : Z) :
  bookkeeping O S m -> In s0 S -> int_of_str s0 = Some key ->
  _ozon_attributes m' = _ozon_attributes m ->
  _required_ozon_attributes m' =
    filter (fun s => negb (keyb s s0)) (_required_ozon_attributes m) ->
  (forall k, present m' k <-> present m k \/ k = key) ->
  bookkeeping O S m'.
Proof.
  intros [HO [Hsub [Hleft Hstored]]] HS Hkey Hozon Hreq Hpresent.
  assert (Hin : forall s, In s (_required_ozon_attributes m') <->
                          In s (_required_ozon_attributes m) /\ s <> s0).
  { intros s. rewrite Hreq, filter_In. split; intros [Hs Hne]; split; auto.
    - intros ->. rewrite keyb_refl in Hne. discriminate.
    - apply negb_true_iff. apply keyb_neq. exact Hne. }
  split; [congruence|]. split; [|split].
  - intros s Hs. apply Hsub. apply Hin in Hs. tauto.
  - intros s Hs. destruct (Hleft s Hs) as [Hout|[k [Hk Hp]]].
    + destruct (keyb s s0) eqn:E.
      * apply keyb_eq in E. subst s. right. exists key.
        split; [exact Hkey|]. apply Hpresent. right. reflexivity.
      * left. apply Hin. split; [exact Hout|]. apply keyb_neq. exact E.
    + right. exists k. split; [exact Hk|]. apply Hpresent. left. exact Hp.
  - intros k Hk. apply Hpresent in Hk. destruct Hk as [Hk| ->].
    + destruct (Hstored k Hk) as [s1 [Hs1 [Hnot HS1]]].
      exists s1. split; [exact Hs1|]. split; [|exact HS1].
      intros Hc. apply Hnot. apply Hin in Hc. tauto.
    + exists s0. split; [exact Hkey|]. split; [|exact HS].
      intros Hc. apply Hin in Hc. tauto.
Qed.

Lemma bookkeeping_add_attribute_value (O : dict str ozon_attribute)
  (S : list str) (m m' : manager float) (s0 : str) (v : pyval float)
  (dv : option value_id) :
  bookkeeping O S m -> In s0 S ->
  _add_attribute_value m s0 v dv = Ok m' -> bookkeeping O S m'.
Proof.
  intros Hb HS. unfold _add_attribute_value, py_int.
  destruct (int_of_str s0) as [key|] eqn:Ekey; [|discriminate].
  cbn [bind]. destruct (int_of_value_id dv) as [d|e]; [|discriminate].
  cbn [bind]. intros [= <-].
  apply (bookkeeping_step O S m _ s0 key Hb HS Ekey); try reflexivity.
  intros k. unfold present.
  cbn [_remove_ozon_attribute_from_required with_required
       with_attributes_values _attributes_values _complex_attributes_values].
  rewrite dict_mem_set.
  destruct (keyb k key) eqn:E; cbn [orb].
  - apply keyb_eq in E. tauto.
  - apply keyb_neq in E. tauto.
Qed.

Lemma bookkeeping_add_complex_attribute_value (O : dict str ozon_attribute)
  (S : list str) (m m' : manager float) (s0 : str) (v : pyval float) :
  bookkeeping O S m -> In s0 S ->
  _add_complex_attribute_value m s0 v VIDEO_COMPLEX_ID = Ok m' ->
  bookkeeping O S m'.
Proof.
  intros Hb HS. unfold _add_complex_attribute_value, py_int.
  destruct (int_of_str s0) as [key|] eqn:Ekey; [|discriminate].
  cbn [bind]. intros [= <-].
  apply (bookkeeping_step O S m _ s0 key Hb HS Ekey); try reflexivity.
  intros k. unfold present.
  cbn [_remove_ozon_attribute_from_required with_required
       with_complex_attributes_values _attributes_values
       _complex_attributes_values].
  rewrite dict_get_set_same. split.
  - intros [Hk|[d [[= <-] Hd]]]; [left; left; exact Hk|].
    rewrite dict_mem_set in Hd. apply orb_true_iff in Hd.
    destruct Hd as [Hd|Hd].
    + right. apply keyb_eq in Hd. congruence.
    + left. right.
      destruct (dict_get VIDEO_COMPLEX_ID (_complex_attributes_values m))
        as [d0|]; [eauto | discriminate].
  - intros [[Hk|[d [Hd Hk]]]| ->].
    + left. exact Hk.
    + right. eexists. split; [reflexivity|]. rewrite Hd, dict_mem_set, Hk.
      apply orb_true_r.
    + right. eexists. split; [reflexivity|]. rewrite dict_mem_set, keyb_refl.
      reflexivity.
Qed.

End Outstanding.

(** *** Entries of updated dictionaries *)

Lemma dict_set_In {K V} `{EqKey K} (k k' : K) (v v' : V) (d : dict K V) :
  In (k', v') (dict_set k v d) -> (k' = k /\ v' = v) \/ In (k', v') d.
Proof.
  induction d as [|[k0 v0] d IH]; simpl.
  - intros [[= <- <-]|[]]. left. split; reflexivity.
  - destruct (keyb k k0) eqn:E; simpl.
    + apply keyb_eq in E. subst k0.
      intros [[= <- <-]|Hin]; [left; split; reflexivity | right; right; exact Hin].
    + intros [Heq|Hin]; [right; left; exact Heq|].
      destruct (IH Hin) as [Hnew|Hold]; [left; exact Hnew | right; right; exact Hold].
Qed.

Lemma dict_pop_In {K V} `{EqKey K} (k : K) (x : K * V) (d : dict K V) :
  In x (dict_pop k d) -> In x d.
Proof.
  induction d as [|[k0 v0] d IH]; simpl; [tauto|].
  destruct (keyb k k0); simpl; [tauto|]. intros [Heq|Hin]; auto.
Qed.

Lemma dict_values_In {K V} (v : V) (d : dict K V) :
  In v (dict_values d) -> exists k, In (k, v) d.
Proof.
  unfold dict_values. intros Hin. apply in_map_iff in Hin.
  destruct Hin as [[k v'] [Heq Hin]]. simpl in Heq. subst v'. eauto.
Qed.

Section Sources.
Context `{Unicode} `{Numbers} `{Sql} `{External float}.

(** Some entry of the attribute map carries the source id [s]. *)
Definition carried (attribute_map : attribute_map_type) (s : str) : Prop :=
  exists name maps id data,
    In (name, maps) attribute_map /\ In (id, data) maps /\ source_id data = s.

(** Every resolved assignment belongs to a source id that the map carries. *)
Definition resolved_from (attribute_map : attribute_map_type)
  (r : mapped_values) : Prop :=
  forall name l data,
    In (name, l) (values r) -> In data l ->
    carried attribute_map (attribute_source_id data).

Lemma resolved_from_append (attribute_map : attribute_map_type)
  (r : mapped_values) (name : str) (x : mapped_value) :
  resolved_from attribute_map r ->
  carried attribute_map (attribute_source_id x) ->
  resolved_from attribute_map (with_values (setdefault_append name x) r).
Proof.
  intros Hr Hx name' l data Hin Hdata.
  unfold with_values in Hin. cbn [values] in Hin.
  rewrite setdefault_append_set in Hin.
  apply dict_set_In in Hin. destruct Hin as [[-> ->]|Hin].
  - apply in_app_or in Hdata. destruct Hdata as [Hold|[<-|[]]]; [|exact Hx].
    destruct (dict_get name (values r)) as [l0|] eqn:E; [|contradiction].
    apply (Hr name l0 data); [apply dict_get_In; exact E | exact Hold].
  - apply (Hr name' l data); assumption.
Qed.

Lemma resolved_from_same_values (attribute_map : attribute_map_type)
  (r r' : mapped_values) :
  values r' = values r ->
  resolved_from attribute_map r -> resolved_from attribute_map r'.
Proof. unfold resolved_from. intros ->. auto. Qed.

Lemma map_for_market_resolved_from (attribute_map : attribute_map_type)
  value_unit_map name raw up (r r' : mapped_values) (m : mapping_data) :
  carried attribute_map (source_id m) ->
  resolved_from attribute_map r ->
  map_for_market value_unit_map name raw up r m = Ok r' ->
  resolved_from attribute_map r'.
Proof.
  intros Hm Hr. unfold map_for_market.
  destruct (deleted m); [intros [= <-]; exact Hr|].
  destruct (keyb raw []);
    [intros [= <-]; apply (resolved_from_same_values _ r); auto|].
  destruct (id_true (dictionary_id m)).
  - destruct (values_map m) as [vm|]; [|discriminate].
    destruct (dict_get up vm) as [matching|];
      [|intros [= <-]; apply (resolved_from_same_values _ r); auto].
    assert (resolved_from attribute_map
              (fold_left (append_dictionary_value name m) matching r)) as Hfold.
    { clear - Hm Hr. revert r Hr.
      induction matching as [|e matching IH]; intros r Hr; simpl; [exact Hr|].
      apply IH. unfold append_dictionary_value.
      destruct (vd_deleted e); [exact Hr|].
      apply resolved_from_append; [exact Hr | exact Hm]. }
    match goal with
    | |- (if ?b then _ else _) = _ -> _ => destruct b
    end; intros [= <-]; [exact Hfold|].
    apply (resolved_from_same_values _ _ _ eq_refl Hfold).
  - destruct (usable_multiplier _) as [mult|].
    + destruct (float_parse _); intros [= <-].
      * apply resolved_from_append; [exact Hr | exact Hm].
      * apply (resolved_from_same_values _ r); auto.
    + intros [= <-]. apply resolved_from_append; [exact Hr | exact Hm].
Qed.

Lemma get_mapped_values_resolved_from rows
  (attribute_map : attribute_map_type) feed (r : mapped_values) :
  get_mapped_values rows attribute_map feed = Ok r ->
  resolved_from attribute_map r.
Proof.
  unfold get_mapped_values.
  destruct (get_unit_map rows) as [index|e]; [|discriminate]. cbn [bind].
  intros Hrun.
  apply (for_each_invariant (resolved_from attribute_map) _ _)
    with (3 := Hrun); [|intros name l data []].
  intros s [name raws] s' _ Hs Hstep. unfold map_attribute in Hstep.
  cbn [fst snd] in Hstep.
  apply (for_each_invariant (resolved_from attribute_map) _ _)
    with (3 := Hstep); [|exact Hs].
  intros s1 raw s2 _ Hs1 Hstep1. unfold map_value in Hstep1.
  destruct (dict_get name attribute_map) as [[|entry maps]|] eqn:Eget;
    try (injection Hstep1 as <-;
         apply (resolved_from_same_values _ s1); auto).
  apply (for_each_invariant (resolved_from attribute_map) _ _)
    with (3 := Hstep1); [|exact Hs1].
  intros s3 m s4 Hm Hs3 Hstep3.
  apply (map_for_market_resolved_from _ _ _ _ _ _ _ _ ) with (3 := Hstep3);
    [|exact Hs3].
  apply dict_values_In in Hm. destruct Hm as [id Hm].
  exists name, (entry :: maps), id, m.
  split; [apply dict_get_In; exact Eget|]. split; [exact Hm | reflexivity].
Qed.

(** Moving the model-year mappings brings no new source id. *)
Lemma move_model_year_mapping_carried (attribute_map moved : attribute_map_type)
  (mapping_id : Z) (s : str) :
  move_model_year_mapping attribute_map mapping_id = Ok moved ->
  carried moved s -> carried attribute_map s.
Proof.
  unfold move_model_year_mapping.
  destruct (dict_get MODEL_YEAR_PARAM attribute_map) as [by_mapping|] eqn:E1;
    [|discriminate].
  destruct (dict_get mapping_id by_mapping) as [md|] eqn:E2; [|discriminate].
  destruct (values_map md); [intros [= <-]; auto|].
  match goal with
  | |- context [dict_get MODEL_YEAR_PARAM (dict_set ?k ?v attribute_map)] =>
    set (stage := dict_set k v attribute_map);
    assert (Hstage : forall x, carried stage x -> carried attribute_map x)
  end.
  { intros x [name [maps [id [data [Hin [Hdata Hs]]]]]].
    apply dict_set_In in Hin. destruct Hin as [[-> ->]|Hin].
    - apply dict_set_In in Hdata. destruct Hdata as [[-> ->]|Hdata].
      + exists MODEL_YEAR_PARAM, by_mapping, mapping_id, md.
        split; [apply dict_get_In; exact E1|].
        split; [apply dict_get_In; exact E2 | exact Hs].
      + destruct (dict_get MODEL_YEAR_PARAM_INT attribute_map) as [d|] eqn:E3;
          [|contradiction].
        exists MODEL_YEAR_PARAM_INT, d, id, data.
        split; [apply dict_get_In; exact E3|]. split; assumption.
    - exists name, maps, id, data. split; [exact Hin|]. split; assumption. }
  destruct (dict_get MODEL_YEAR_PARAM stage) as [bm|] eqn:E4; [|discriminate].
  intros [= <-] [name [maps [id [data [Hin [Hdata Hs]]]]]].
  apply Hstage. apply dict_set_In in Hin. destruct Hin as [[-> ->]|Hin].
  - exists MODEL_YEAR_PARAM, bm, id, data.
    split; [apply dict_get_In; exact E4|].
    split; [apply (dict_pop_In _ _ _ Hdata) | exact Hs].
  - exists name, maps, id, data. split; [exact Hin|]. split; assumption.
Qed.

Lemma move_model_year_mappings_carried (attribute_map moved : attribute_map_type)
  (s : str) :
  move_model_year_mappings attribute_map = Ok moved ->
  carried moved s -> carried attribute_map s.
Proof.
  unfold move_model_year_mappings.
  destruct (dict_get MODEL_YEAR_PARAM attribute_map) as [by_mapping|];
    [|intros [= <-]; auto].
  intros Hrun.
  apply (for_each_invariant
           (fun a => carried a s -> carried attribute_map s) _ _)
    with (3 := Hrun); [|auto].
  intros a id a' _ Ha Hstep Hc. apply Ha.
  apply (move_model_year_mapping_carried _ _ _ _ Hstep Hc).
Qed.

End Sources.

Section Collection.
Context `{Unicode} `{Numbers} `{Sql} `{External float}.

Ltac bind_ok Hrun x E :=
  match type of Hrun with
  | bind ?c _ = Ok _ =>
    destruct c as [x|] eqn:E; [cbn [bind] in Hrun | discriminate Hrun]
  end.

Lemma bookkeeping_add_values_data (O : dict str ozon_attribute) (S : list str)
  (values_data : list mapped_value) :
  (forall data, In data values_data -> In (attribute_source_id data) S) ->
  forall (m : manager float) errors m' errors',
    bookkeeping O S m ->
    add_values_data m errors values_data = Ok (m', errors') ->
    bookkeeping O S m'.
Proof.
  induction values_data as [|data rest IH]; intros HS m errors m' errors' Hb;
    cbn [add_values_data].
  - intros [= <- _]. exact Hb.
  - assert (In (attribute_source_id data) S) as Hdata
        by (apply HS; left; reflexivity).
    assert (forall d, In d rest -> In (attribute_source_id d) S) as Hrest
        by (intros d Hd; apply HS; right; exact Hd).
    destruct (existsb _ COMPLEX_ATTRIBUTE_IDS).
    + intros Hrun. bind_ok Hrun m1 E1.
      apply (IH Hrest _ _ _ _
               (bookkeeping_add_complex_attribute_value _ _ _ _ _ _ Hb Hdata E1)
               Hrun).
    + destruct (is_zero_id _ && _ && _).
      * destruct (_convert_attribute_value _ _) as [v|e].
        -- intros Hrun. bind_ok Hrun m1 E1.
           apply (IH Hrest _ _ _ _
                    (bookkeeping_add_attribute_value _ _ _ _ _ _ _ Hb Hdata E1)
                    Hrun).
        -- destruct e; try discriminate. intros [= <- _]. exact Hb.
      * intros Hrun. bind_ok Hrun m1 E1.
        apply (IH Hrest _ _ _ _
                 (bookkeeping_add_attribute_value _ _ _ _ _ _ _ Hb Hdata E1)
                 Hrun).
Qed.

Lemma bookkeeping_add_if_exists_ids (O : dict str ozon_attribute)
  (S : list str) (ids : list str) (v : pyval float) :
  (forall s, In s (dict_keys O) -> In s S) ->
  forall (m : manager float) errors m' errors',
    bookkeeping O S m ->
    add_if_exists_ids m errors ids v = Ok (m', errors') ->
    bookkeeping O S m'.
Proof.
  intros HS. induction ids as [|s ids IH]; intros m errors m' errors' Hb;
    cbn [add_if_exists_ids].
  - intros [= <- _]. exact Hb.
  - destruct (dict_mem s (_ozon_attributes m)) eqn:Emem; cbn [negb].
    + assert (In s S) as Hs.
      { apply HS. apply dict_mem_keys. destruct Hb as [<- _]. exact Emem. }
      destruct v; try (intros [= <- _]; exact Hb);
        intros Hrun; bind_ok Hrun m1 E1;
        apply (IH _ _ _ _
                 (bookkeeping_add_attribute_value _ _ _ _ _ _ _ Hb Hs E1) Hrun).
    + apply IH. exact Hb.
Qed.

Lemma bookkeeping_add_if_exists (O : dict str ozon_attribute) (S : list str)
  (st st' : manager float * dict str str) (attribute_key : str)
  (v : pyval float) :
  (forall s, In s (dict_keys O) -> In s S) ->
  bookkeeping O S (fst st) ->
  add_if_exists st attribute_key v = Ok st' ->
  bookkeeping O S (fst st').
Proof.
  intros HS Hb. unfold add_if_exists. destruct st' as [m' errors'].
  destruct (dict_get attribute_key OZON_ATTRIBUTES_IDS) as [[s|l]|];
    [| |discriminate];
    apply (bookkeeping_add_if_exists_ids O S _ _ HS _ _ _ _ Hb).
Qed.

Lemma bookkeeping_add_weight (O : dict str ozon_attribute) (S : list str)
  (m : manager float) errors (offer : dict str (pyval float))
  (st' : manager float * dict str str) :
  (forall s, In s (dict_keys O) -> In s S) ->
  bookkeeping O S m ->
  add_weight m errors offer = Ok st' ->
  bookkeeping O S (fst st').
Proof.
  intros HS Hb. unfold add_weight.
  destruct (py_float _) as [x|e]; cbn [bind].
  - destruct (add_if_exists _ _ _) as [st1|e] eqn:E1.
    + intros [= <-].
      apply (bookkeeping_add_if_exists O S (m, errors) _ _ _ HS Hb E1).
    + destruct e; try discriminate.
      destruct (existsb _ _); intros [= <-]; exact Hb.
  - destruct e; try discriminate.
    destruct (existsb _ _); intros [= <-]; exact Hb.
Qed.

Lemma bookkeeping_add_tn_ved_codes (O : dict str ozon_attribute) (S : list str)
  (db : database float) (m : manager float) (offer : dict str (pyval float))
  (r : manager float * dict str str) :
  (forall s, In s (dict_keys O) -> In s S) ->
  bookkeeping O S m ->
  _add_tn_ved_codes db m offer = Ok r ->
  bookkeeping O S (fst r).
Proof.
  intros HS Hb. unfold _add_tn_ved_codes. intros Hrun.
  bind_ok Hrun m1 E1. injection Hrun as <-. cbn [fst].
  apply (for_each_invariant (bookkeeping O S) _ _) with (3 := E1); [|exact Hb].
  intros m2 item m3 Hitem Hm2 Hstep.
  apply (for_each_invariant (bookkeeping O S) _ _) with (3 := Hstep);
    [|exact Hm2].
  intros m4 code m5 _ Hm4. unfold add_tn_ved_code.
  destruct (tn_ved_lookup _ _) as [[v|]|e]; cbn [bind];
    [|intros [= <-]; exact Hm4|discriminate].
  apply (bookkeeping_add_attribute_value _ _ _ _ _ _ _ Hm4).
  apply HS. apply filter_In in Hitem. destruct Hitem as [Hitem _].
  destruct Hb as [<- _]. unfold dict_keys. apply in_map. exact Hitem.
Qed.

(** What attribute collection leaves: the bookkeeping, with the type
    attribute discharged whether or not it has a value. *)
Definition collected (O : dict str ozon_attribute) (S : list str)
  (m : manager float) : Prop :=
  _ozon_attributes m = O /\
  ~ In TYPE_SOURCE_ID (_required_ozon_attributes m) /\
  (forall s, In s (_required_ozon_attributes m) -> In s (required_of O)) /\
  (forall s, In s (required_of O) -> s <> TYPE_SOURCE_ID ->
             In s (_required_ozon_attributes m) \/ has_value m s) /\
  (forall key, present m key ->
     exists s0, int_of_str s0 = Some key /\
                ~ In s0 (_required_ozon_attributes m) /\ In s0 S).

Lemma collected_after_type (O : dict str ozon_attribute) (S : list str)
  (m : manager float) :
  bookkeeping O S m ->
  collected O S (_remove_ozon_attribute_from_required m TYPE_SOURCE_ID).
Proof.
  intros [HO [Hsub [Hleft Hstored]]].
  split; [exact HO|]. split; [apply not_in_remove_required|].
  split; [|split].
  - intros s Hs. apply in_remove_required in Hs. apply Hsub. tauto.
  - intros s Hs Hne. destruct (Hleft s Hs) as [Hout|Hval].
    + left. apply in_remove_required. tauto.
    + right. exact Hval.
  - intros key Hkey. destruct (Hstored key Hkey) as [s0 [Hs0 [Hnot HS0]]].
    exists s0. split; [exact Hs0|]. split; [|exact HS0].
    intros Hc. apply in_remove_required in Hc. tauto.
Qed.

Lemma _collect_attributes_collected (O : dict str ozon_attribute)
  (S : list str) (db : database float) (m m' : manager float)
  (offer : dict str (pyval float)) :
  (forall s, In s (dict_keys O) -> In s S) ->
  (forall s, carried (_attribute_map m) s -> In s S) ->
  bookkeeping O S m ->
  _collect_attributes db m offer = Ok m' ->
  collected O S m'.
Proof.
  intros HO HS Hb. unfold _collect_attributes. intros Hrun.
  bind_ok Hrun feed_params_values Efeed.
  bind_ok Hrun attribute_map Emove.
  bind_ok Hrun resolved Eresolved.
  bind_ok Hrun st0 Evalues.
  assert (bookkeeping O S (fst st0)) as Hb0.
  { apply (for_each_invariant (fun st => bookkeeping O S (fst st)) _ _)
      with (3 := Evalues); [|exact Hb].
    intros st values_data [m1 e1] Hin Hst Hstep. cbn [fst].
    apply (bookkeeping_add_values_data O S values_data) with (3 := Hstep);
      [|exact Hst].
    intros data Hdata. apply HS.
    apply (move_model_year_mappings_carried _ _ _ Emove).
    apply dict_values_In in Hin. destruct Hin as [name Hin].
    apply (get_mapped_values_resolved_from _ _ _ _ Eresolved name values_data);
      assumption. }
  bind_ok Hrun st1 E1.
  pose proof (bookkeeping_add_if_exists O S (fst st0, _) _ _ _ HO Hb0 E1)
    as Hb1.
  bind_ok Hrun st2 E2.
  pose proof (bookkeeping_add_if_exists O S _ _ _ _ HO Hb1 E2) as Hb2.
  bind_ok Hrun oid Eid.
  bind_ok Hrun st3 E3.
  pose proof (bookkeeping_add_if_exists O S _ _ _ _ HO Hb2 E3) as Hb3.
  destruct (parse_dimensions _) as [[length width] height].
  bind_ok Hrun st4 E4.
  pose proof (bookkeeping_add_if_exists O S _ _ _ _ HO Hb3 E4) as Hb4.
  bind_ok Hrun st5 E5.
  pose proof (bookkeeping_add_if_exists O S _ _ _ _ HO Hb4 E5) as Hb5.
  bind_ok Hrun st6 E6.
  pose proof (bookkeeping_add_if_exists O S _ _ _ _ HO Hb5 E6) as Hb6.
  bind_ok Hrun st7 E7.
  pose proof (bookkeeping_add_weight O S _ _ _ _ HO Hb6 E7) as Hb7.
  bind_ok Hrun st8 E8.
  pose proof (bookkeeping_add_if_exists O S _ _ _ _ HO Hb7 E8) as Hb8.
  bind_ok Hrun st9 E9.
  assert (bookkeeping O S (fst st9)) as Hb9.
  { revert E9.
    destruct (truthy (get offer (u "description")));
      [|intros [= <-]; exact Hb8].
    destruct (get offer (u "description")); try discriminate. intros E9.
    apply (bookkeeping_add_if_exists O S _ _ _ _ HO Hb8 E9). }
  bind_ok Hrun tn_ved_result Etn.
  pose proof (bookkeeping_add_tn_ved_codes O S _ _ _ _ HO Hb9 Etn) as Hbtn.
  bind_ok Hrun errors Econs.
  injection Hrun as <-.
  apply (collected_after_type O S _ Hbtn).
Qed.

End Collection.

(** *** Runs that agree up to a relation on their results *)

Definition related {A} (R : A -> A -> Prop) (r1 r2 : res A) : Prop :=
  match r1, r2 with
  | Ok a, Ok b => R a b
  | Raise e1, Raise e2 => e1 = e2
  | _, _ => False
  end.

Lemma related_refl {A} (r : res A) : related eq r r.
Proof. destruct r; reflexivity. Qed.

Lemma related_eq {A} (r1 r2 : res A) : related eq r1 r2 -> r1 = r2.
Proof.
  destruct r1, r2; cbn [related]; intros E; try contradiction; congruence.
Qed.

Lemma related_bind {A B} (R : A -> A -> Prop) (R' : B -> B -> Prop)
  (c1 c2 : res A) (k1 k2 : A -> res B) :
  related R c1 c2 ->
  (forall a b, R a b -> related R' (k1 a) (k2 b)) ->
  related R' (bind c1 k1) (bind c2 k2).
Proof.
  destruct c1, c2; cbn [related bind]; intros E Hk; try contradiction.
  - apply Hk. exact E.
  - exact E.
Qed.

Lemma related_for_each {A S} (R : S -> S -> Prop)
  (body1 body2 : S -> A -> res S) (l : list A) :
  (forall s1 s2 a, R s1 s2 -> related R (body1 s1 a) (body2 s2 a)) ->
  forall s1 s2, R s1 s2 ->
    related R (for_each body1 l s1) (for_each body2 l s2).
Proof.
  intros Hbody. induction l as [|a l IH]; intros s1 s2 Hs; cbn [for_each].
  - exact Hs.
  - apply (related_bind R R _ _ _ _ (Hbody s1 s2 a Hs)). exact IH.
Qed.

Section Independence.
Context `{Unicode} `{Numbers} `{Sql} `{External float}.

(** *** What an earlier offer leaves in the manager *)

(** Two managers that differ at most in [_attributes_errors]. *)
Definition same_but_errors (m1 m2 : manager float) : Prop :=
  ozon_category_id m1 = ozon_category_id m2 /\
  market_category_deleted m1 = market_category_deleted m2 /\
  _attribute_map m1 = _attribute_map m2 /\
  _ozon_attributes m1 = _ozon_attributes m2 /\
  _required_ozon_attributes m1 = _required_ozon_attributes m2 /\
  _attributes_values m1 = _attributes_values m2 /\
  _complex_attributes_values m1 = _complex_attributes_values m2 /\
  _tags_errors m1 = _tags_errors m2.

Definition same_state (st1 st2 : manager float * dict str str) : Prop :=
  same_but_errors (fst st1) (fst st2) /\ snd st1 = snd st2.

Ltac fields Hs :=
  destruct Hs as (Hcat & Hdel & Hmap & Hozon & Hreq & Hval & Hcx & Htags).

Lemma same_but_errors_set (m1 m2 : manager float) e :
  same_but_errors m1 m2 ->
  with_attributes_errors e m1 = with_attributes_errors e m2.
Proof.
  intros Hs. fields Hs. unfold with_attributes_errors. congruence.
Qed.

Lemma same_but_errors_tag_error (m1 m2 : manager float) tag error :
  same_but_errors m1 m2 ->
  same_but_errors (tag_error tag error m1) (tag_error tag error m2).
Proof.
  intros Hs. fields Hs. unfold same_but_errors, tag_error.
  cbn [with_tags_errors ozon_category_id market_category_deleted _attribute_map
       _ozon_attributes _required_ozon_attributes _attributes_values
       _complex_attributes_values _tags_errors].
  rewrite Htags. tauto.
Qed.

Lemma same_but_errors_add_attribute_value (m1 m2 : manager float) s v dv :
  same_but_errors m1 m2 ->
  related same_but_errors (_add_attribute_value m1 s v dv)
                          (_add_attribute_value m2 s v dv).
Proof.
  intros Hs. fields Hs. unfold _add_attribute_value.
  destruct (py_int s) as [key|e]; cbn [bind related]; [|reflexivity].
  destruct (int_of_value_id dv) as [d|e]; cbn [bind related]; [|reflexivity].
  unfold same_but_errors, _remove_ozon_attribute_from_required.
  cbn [with_required with_attributes_values ozon_category_id
       market_category_deleted _attribute_map
       _ozon_attributes _required_ozon_attributes _attributes_values
       _complex_attributes_values _tags_errors].
  rewrite Hreq, Hval. tauto.
Qed.

Lemma same_but_errors_add_complex_attribute_value (m1 m2 : manager float)
  s v complex :
  same_but_errors m1 m2 ->
  related same_but_errors (_add_complex_attribute_value m1 s v complex)
                          (_add_complex_attribute_value m2 s v complex).
Proof.
  intros Hs. fields Hs. unfold _add_complex_attribute_value.
  destruct (py_int s) as [key|e]; cbn [bind related]; [|reflexivity].
  unfold same_but_errors, _remove_ozon_attribute_from_required.
  cbn [with_required with_complex_attributes_values ozon_category_id
       market_category_deleted _attribute_map
       _ozon_attributes _required_ozon_attributes _attributes_values
       _complex_attributes_values _tags_errors].
  rewrite Hreq, Hcx. tauto.
Qed.

Lemma same_but_errors_add_error (m1 m2 : manager float) :
  same_but_errors m1 m2 -> add_error m1 = add_error m2.
Proof. intros Hs. fields Hs. unfold add_error. rewrite Hozon. reflexivity. Qed.

Lemma same_state_intro (m1 m2 : manager float) (errors : dict str str) :
  same_but_errors m1 m2 -> same_state (m1, errors) (m2, errors).
Proof. intros Hs. split; [exact Hs | reflexivity]. Qed.

Lemma same_state_add_values_data (values_data : list mapped_value) :
  forall (m1 m2 : manager float) errors,
    same_but_errors m1 m2 ->
    related same_state (add_values_data m1 errors values_data)
                       (add_values_data m2 errors values_data).
Proof.
  induction values_data as [|data rest IH]; intros m1 m2 errors Hs;
    cbn [add_values_data].
  - apply same_state_intro. exact Hs.
  - rewrite (same_but_errors_add_error m1 m2 Hs).
    destruct (existsb _ COMPLEX_ATTRIBUTE_IDS).
    + apply (related_bind same_but_errors same_state _ _ _ _
               (same_but_errors_add_complex_attribute_value _ _ _ _ _ Hs)).
      intros n1 n2 Hab. apply IH. exact Hab.
    + destruct (is_zero_id _ && _ && _).
      * destruct (_convert_attribute_value _ _) as [v|e].
        -- apply (related_bind same_but_errors same_state _ _ _ _
                    (same_but_errors_add_attribute_value _ _ _ _ _ Hs)).
           intros n1 n2 Hab. apply IH. exact Hab.
        -- destruct e; try reflexivity. apply same_state_intro. exact Hs.
      * apply (related_bind same_but_errors same_state _ _ _ _
                 (same_but_errors_add_attribute_value _ _ _ _ _ Hs)).
        intros n1 n2 Hab. apply IH. exact Hab.
Qed.

Lemma same_state_add_if_exists_ids (ids : list str) (v : pyval float) :
  forall (m1 m2 : manager float) errors,
    same_but_errors m1 m2 ->
    related same_state (add_if_exists_ids m1 errors ids v)
                       (add_if_exists_ids m2 errors ids v).
Proof.
  induction ids as [|s ids IH]; intros m1 m2 errors Hs;
    cbn [add_if_exists_ids].
  - apply same_state_intro. exact Hs.
  - rewrite (same_but_errors_add_error m1 m2 Hs).
    replace (_ozon_attributes m1) with (_ozon_attributes m2)
      by (symmetry; apply Hs).
    destruct (negb (dict_mem s (_ozon_attributes m2))); [apply IH; exact Hs|].
    destruct v; try (apply same_state_intro; exact Hs);
      apply (related_bind same_but_errors same_state _ _ _ _
               (same_but_errors_add_attribute_value _ _ _ _ _ Hs));
      intros n1 n2 Hab; apply IH; exact Hab.
Qed.

Lemma same_state_add_if_exists (st1 st2 : manager float * dict str str)
  (attribute_key : str) (v : pyval float) :
  same_state st1 st2 ->
  related same_state (add_if_exists st1 attribute_key v)
                     (add_if_exists st2 attribute_key v).
Proof.
  intros [Hs He]. unfold add_if_exists. rewrite He.
  destruct (dict_get attribute_key OZON_ATTRIBUTES_IDS) as [[s|l]|];
    [| |reflexivity]; apply same_state_add_if_exists_ids; exact Hs.
Qed.

Lemma same_state_add_weight (m1 m2 : manager float) errors
  (offer : dict str (pyval float)) :
  same_but_errors m1 m2 ->
  related same_state (add_weight m1 errors offer) (add_weight m2 errors offer).
Proof.
  intros Hs. unfold add_weight.
  replace (_required_ozon_attributes m1) with (_required_ozon_attributes m2)
    by (symmetry; apply Hs).
  destruct (py_float _) as [x|e]; cbn [bind].
  - pose proof (same_state_add_if_exists (m1, errors) (m2, errors)
                  (u "weight")
                  (PStr (float_str (float_mul x (float_of_Z 1000))))
                  (same_state_intro _ _ _ Hs)) as Hstep.
    destruct (add_if_exists (m1, errors) _ _) as [st1|e],
             (add_if_exists (m2, errors) _ _) as [st2|e'];
      cbn [related] in Hstep; try contradiction.
    + exact Hstep.
    + subst e'. destruct e; try reflexivity.
      destruct (existsb _ _); apply same_state_intro; exact Hs.
  - destruct e; try reflexivity.
    destruct (existsb _ _); apply same_state_intro; exact Hs.
Qed.

Lemma same_state_add_tn_ved_codes (db : database float)
  (m1 m2 : manager float) (offer : dict str (pyval float)) :
  same_but_errors m1 m2 ->
  related same_state (_add_tn_ved_codes db m1 offer)
                     (_add_tn_ved_codes db m2 offer).
Proof.
  intros Hs. unfold _add_tn_ved_codes.
  replace (_ozon_attributes m1) with (_ozon_attributes m2)
    by (symmetry; apply Hs).
  apply (related_bind same_but_errors same_state).
  - apply related_for_each; [|exact Hs].
    intros n1 n2 item Hab. apply related_for_each; [|exact Hab].
    intros n1' n2' code Hab'. unfold add_tn_ved_code.
    destruct (tn_ved_lookup _ _) as [[v|]|e]; cbn [bind related];
      [|exact Hab'|reflexivity].
    apply same_but_errors_add_attribute_value. exact Hab'.
  - intros n1 n2 Hab. cbn [related]. split; [exact Hab|]. cbn [snd].
    replace (_required_ozon_attributes n1) with (_required_ozon_attributes n2)
      by (symmetry; apply Hab).
    reflexivity.
Qed.

Lemma same_but_errors_remove (m1 m2 : manager float) (s : str) :
  same_but_errors m1 m2 ->
  same_but_errors (_remove_ozon_attribute_from_required m1 s)
                  (_remove_ozon_attribute_from_required m2 s).
Proof.
  intros Hs. fields Hs.
  unfold same_but_errors, _remove_ozon_attribute_from_required.
  cbn [with_required ozon_category_id market_category_deleted _attribute_map
       _ozon_attributes _required_ozon_attributes _attributes_values
       _complex_attributes_values _tags_errors].
  rewrite Hreq. tauto.
Qed.

Lemma same_but_errors_consolidate (m1 m2 : manager float) :
  same_but_errors m1 m2 -> consolidate m1 = consolidate m2.
Proof.
  intros Hs. fields Hs. unfold consolidate, consolidate_required.
  rewrite Hmap, Hozon, Hreq. reflexivity.
Qed.

Lemma same_state_fold_add_error (st1 st2 : manager float * dict str str)
  (error : str) (l : list str) (errors : dict str str) :
  same_state st1 st2 ->
  fold_left (fun e s => add_error (fst st1) e s error) l errors =
  fold_left (fun e s => add_error (fst st2) e s error) l errors.
Proof.
  intros [Hs _]. rewrite (same_but_errors_add_error _ _ Hs). reflexivity.
Qed.

(** Attribute collection does not read the errors of an earlier offer. *)
Lemma _collect_attributes_same_but_errors (db : database float)
  (m1 m2 : manager float) (offer : dict str (pyval float)) :
  same_but_errors m1 m2 ->
  _collect_attributes db m1 offer = _collect_attributes db m2 offer.
Proof.
  intros Hs. apply related_eq. unfold _collect_attributes.
  replace (_attribute_map m1) with (_attribute_map m2) by (symmetry; apply Hs).
  apply (related_bind eq eq _ _ _ _ (related_refl _)).
  intros feed_params_values ? <-.
  apply (related_bind eq eq _ _ _ _ (related_refl _)).
  intros attribute_map ? <-.
  apply (related_bind eq eq _ _ _ _ (related_refl _)).
  intros resolved ? <-.
  assert (same_but_errors (with_attribute_map attribute_map m1)
                          (with_attribute_map attribute_map m2)) as Hs0.
  { destruct Hs as (Hcat & Hdel & Hmap & Hozon & Hreq & Hval & Hcx & Htags).
    unfold same_but_errors. cbn. tauto. }
  apply (related_bind same_state eq).
  { apply related_for_each; [|apply same_state_intro; exact Hs0].
    intros st1 st2 values_data [Hst He]. rewrite He.
    apply same_state_add_values_data. exact Hst. }
  intros st1 st2 Hst. cbv zeta.
  rewrite !(same_state_fold_add_error st1 st2 _ _ _ Hst).
  replace (snd st1) with (snd st2) by (symmetry; apply Hst).
  apply (related_bind same_state eq).
  { apply same_state_add_if_exists. split; [apply Hst | reflexivity]. }
  clear st1 st2 Hst. intros st1 st2 Hst.
  apply (related_bind same_state eq _ _ _ _
           (same_state_add_if_exists _ _ _ _ Hst)).
  clear st1 st2 Hst. intros st1 st2 Hst.
  apply (related_bind eq eq _ _ _ _ (related_refl _)).
  intros oid ? <-.
  apply (related_bind same_state eq _ _ _ _
           (same_state_add_if_exists _ _ _ _ Hst)).
  clear st1 st2 Hst. intros st1 st2 Hst.
  destruct (parse_dimensions _) as [[length width] height].
  apply (related_bind same_state eq _ _ _ _
           (same_state_add_if_exists _ _ _ _ Hst)).
  clear st1 st2 Hst. intros st1 st2 Hst.
  apply (related_bind same_state eq _ _ _ _
           (same_state_add_if_exists _ _ _ _ Hst)).
  clear st1 st2 Hst. intros st1 st2 Hst.
  apply (related_bind same_state eq _ _ _ _
           (same_state_add_if_exists _ _ _ _ Hst)).
  clear st1 st2 Hst. intros st1 st2 Hst.
  apply (related_bind same_state eq).
  { replace (snd st1) with (snd st2) by (symmetry; apply Hst).
    apply same_state_add_weight. apply Hst. }
  clear st1 st2 Hst. intros st1 st2 Hst.
  apply (related_bind same_state eq _ _ _ _
           (same_state_add_if_exists _ _ _ _ Hst)).
  clear st1 st2 Hst. intros st1 st2 Hst.
  apply (related_bind same_state eq).
  { destruct (truthy (get offer (u "description"))); [|exact Hst].
    destruct (get offer (u "description")); try reflexivity.
    apply same_state_add_if_exists. exact Hst. }
  clear st1 st2 Hst. intros st1 st2 Hst.
  apply (related_bind same_state eq).
  { apply same_state_add_tn_ved_codes. apply Hst. }
  intros tn1 tn2 [Htn Herr]. cbv zeta.
  rewrite Herr. replace (snd st1) with (snd st2) by (symmetry; apply Hst).
  rewrite (same_but_errors_consolidate _ _
             (same_but_errors_remove _ _ TYPE_SOURCE_ID Htn)).
  apply (related_bind eq eq _ _ _ _ (related_refl _)).
  intros errors ? <-. cbn [related]. apply same_but_errors_set.
  apply same_but_errors_remove. exact Htn.
Qed.

(** The steps on the tags of the offer keep the two managers together. *)
Lemma collect_tags_same_but_errors (m1 m2 : manager float)
  (offer : dict str (pyval float)) :
  same_but_errors m1 m2 ->
  related (fun r1 r2 => fst r1 = fst r2 /\ same_but_errors (snd r1) (snd r2))
          (collect_tags m1 offer) (collect_tags m2 offer).
Proof.
  intros Hs. unfold collect_tags, offer_weight. cbv zeta.
  destruct (valid_name_of _) as [valid_name|e]; cbn [bind related];
    [|reflexivity].
  destruct (negb (truthy (offer_name offer)));
    destruct (truthy (get offer (u "dimensions")));
    try destruct (parse_dimensions _) as [[depth width] height];
    destruct (float_parse _);
    destruct (_get offer (u "picture") (PList [])) as [| | | | |[|first l]|];
    cbn [related fst snd]; try destruct (negb (truthy _));
    (split; [reflexivity|]);
    repeat apply same_but_errors_tag_error; exact Hs.
Qed.

(** The configuration of a manager: what its constructor sets and attribute
    collection reads. *)
Definition same_configuration (m1 m2 : manager float) : Prop :=
  ozon_category_id m1 = ozon_category_id m2 /\
  market_category_deleted m1 = market_category_deleted m2 /\
  _attribute_map m1 = _attribute_map m2 /\
  _ozon_attributes m1 = _ozon_attributes m2.

Lemma reset_offer_state_same_but_errors (m1 m2 : manager float) :
  same_configuration m1 m2 ->
  same_but_errors (reset_offer_state m1) (reset_offer_state m2).
Proof.
  intros (Hcat & Hdel & Hmap & Hozon). unfold same_but_errors. cbn.
  rewrite Hozon. tauto.
Qed.

(** The result for an offer depends on the configuration of the manager
    only: nothing an earlier offer left in it is read. *)
Lemma _collect_offer_parameters_configuration (db : database float)
  (m1 m2 : manager float) (offer : dict str (pyval float)) :
  same_configuration m1 m2 ->
  _collect_offer_parameters db m1 offer = _collect_offer_parameters db m2 offer.
Proof.
  intros Hc. apply related_eq. unfold _collect_offer_parameters. cbv zeta.
  apply (related_bind _ eq _ _ _ _
           (collect_tags_same_but_errors _ _ offer
              (reset_offer_state_same_but_errors _ _ Hc))).
  intros [tags1 n1] [tags2 n2] [Htags Hs]. cbn [fst snd] in *. subst tags2.
  rewrite (_collect_attributes_same_but_errors db n1 n2 offer Hs).
  apply related_refl.
Qed.

End Independence.
Section Readiness.
Context `{Unicode} `{Numbers} `{Sql} `{External float}.

(** *** The steps around attribute collection *)

(** The source ids that the attribute map carries, as a list. *)
Definition carried_ids (attribute_map : attribute_map_type) : list str :=
  flat_map (fun item : str * dict Z mapping_data =>
              map (fun inner : Z * mapping_data => source_id (snd inner))
                  (snd item))
           attribute_map.

Lemma carried_in_ids (attribute_map : attribute_map_type) (s : str) :
  carried attribute_map s -> In s (carried_ids attribute_map).
Proof.
  intros (name & maps & id & data & Hin & Hin' & <-).
  apply in_flat_map. exists (name, maps). split; [exact Hin|].
  apply (in_map (fun inner : Z * mapping_data => source_id (snd inner))
                maps (id, data)).
  exact Hin'.
Qed.

(** The source ids that an offer of this manager may be given values for:
    the attributes of the category and the targets of the mappings. *)
Definition source_ids (m : manager float) : list str :=
  dict_keys (_ozon_attributes m) ++ carried_ids (_attribute_map m).

(** Different source ids are different numbers ([int] reads ['85'] and
    ['085'] as the same key of [_attributes_values]). *)
Definition distinct_ids (m : manager float) : Prop :=
  forall s s' key,
    In s (source_ids m) -> In s' (source_ids m) ->
    int_of_str s = Some key -> int_of_str s' = Some key -> s = s'.

(** [m'] has the attribute state of [m]: only tag errors, or complex
    entries under other keys than attribute ids, may differ. *)
Definition same_attributes (m m' : manager float) : Prop :=
  _ozon_attributes m' = _ozon_attributes m /\
  _attribute_map m' = _attribute_map m /\
  _required_ozon_attributes m' = _required_ozon_attributes m /\
  _attributes_values m' = _attributes_values m /\
  _attributes_errors m' = _attributes_errors m /\
  (forall key, present m' key <-> present m key).

Lemma same_attributes_refl (m : manager float) : same_attributes m m.
Proof. unfold same_attributes. intuition. Qed.

Lemma same_attributes_trans (m1 m2 m3 : manager float) :
  same_attributes m1 m2 -> same_attributes m2 m3 -> same_attributes m1 m3.
Proof.
  intros (Ho & Hm & Hr & Hv & He & Hp) (Ho' & Hm' & Hr' & Hv' & He' & Hp').
  unfold same_attributes. repeat split; try congruence.
  - intros Hk. apply Hp, Hp'. exact Hk.
  - intros Hk. apply Hp', Hp. exact Hk.
Qed.

Lemma same_attributes_tag_error (m : manager float) (tag error : str) :
  same_attributes m (tag_error tag error m).
Proof. unfold same_attributes, present. cbn. intuition. Qed.

Lemma collect_tags_same_attributes (m : manager float)
  (offer : dict str (pyval float)) r :
  collect_tags m offer = Ok r -> same_attributes m (snd r).
Proof.
  unfold collect_tags, offer_weight. cbv zeta.
  destruct (valid_name_of _) as [valid_name|e]; cbn [bind]; [|discriminate].
  destruct (negb (truthy (offer_name offer)));
    destruct (truthy (get offer (u "dimensions")));
    try destruct (parse_dimensions _) as [[depth width] height];
    destruct (float_parse _);
    destruct (_get offer (u "picture") (PList [])) as [| | | | |[|first l]|];
    try destruct (negb (truthy _));
    intros [= <-]; cbn [snd];
    repeat (first [apply same_attributes_refl
                  |eapply same_attributes_trans;
                   [|apply same_attributes_tag_error]]).
Qed.

Lemma offer_vat_same_attributes (m : manager float)
  (offer : dict str (pyval float)) r :
  offer_vat m offer = Ok r -> same_attributes m (snd r).
Proof.
  unfold offer_vat. cbv zeta.
  destruct (eq_str _ []);
    [intros [= <-]; apply same_attributes_tag_error|].
  destruct (eq_str _ (u "NO_VAT"));
    [intros [= <-]; apply same_attributes_refl|].
  destruct (_get offer (u "vat") (PStr (u "VAT_20"))); try discriminate.
  destruct (dict_get s VAT_BY_CODE);
    [intros [= <-]; apply same_attributes_refl|].
  destruct (int_of_str _); intros [= <-];
    [apply same_attributes_refl | apply same_attributes_tag_error].
Qed.

Lemma add_name_to_complex_video_same_attributes (m m' : manager float)
  (name : str) :
  add_name_to_complex_video m name = Ok m' -> same_attributes m m'.
Proof.
  unfold add_name_to_complex_video.
  destruct (dict_get VIDEO_COMPLEX_ID (_complex_attributes_values m))
    as [by_id|] eqn:Eby; [|discriminate].
  destruct (py_int VIDEO_NAME_ID) as [key|e]; cbn [bind]; [|discriminate].
  intros [= <-]. unfold same_attributes, present.
  cbn [with_complex_attributes_values _ozon_attributes _attribute_map
       _required_ozon_attributes _attributes_values _attributes_errors
       _complex_attributes_values].
  repeat split; try tauto.
  - intros [Hk|[d [Hd Hk]]]; [left; exact Hk|right].
    rewrite dict_get_set_same in Hd. injection Hd as <-.
    rewrite dict_mem_set in Hk. exists by_id. split; [exact Eby | exact Hk].
  - intros [Hk|[d [Hd Hk]]]; [left; exact Hk|right].
    rewrite dict_get_set_same. eexists. split; [reflexivity|].
    rewrite dict_mem_set. rewrite Eby in Hd. injection Hd as <-. exact Hk.
Qed.

Lemma has_value_same_attributes (m m' : manager float) (s : str) :
  same_attributes m m' -> (has_value m' s <-> has_value m s).
Proof.
  intros (_ & _ & _ & _ & _ & Hp). unfold has_value.
  split; intros [key [Hkey Hk]]; exists key; (split; [exact Hkey|]);
    apply Hp; exact Hk.
Qed.

Lemma bookkeeping_same_attributes (O : dict str ozon_attribute) (S : list str)
  (m m' : manager float) :
  same_attributes m m' -> bookkeeping O S m -> bookkeeping O S m'.
Proof.
  intros Hsame (HO & Hsub & Hleft & Hstored).
  pose proof (has_value_same_attributes m m') as Hv.
  destruct Hsame as (Ho & Hm & Hr & Hva & He & Hp).
  unfold bookkeeping. rewrite Ho, Hr. repeat split; try assumption.
  - intros s Hs. destruct (Hleft s Hs) as [Hout|Hval]; [left; exact Hout|].
    right. apply Hv; [unfold same_attributes; tauto | exact Hval].
  - intros key Hkey. apply Hstored. apply Hp. exact Hkey.
Qed.

Lemma collected_same_attributes (O : dict str ozon_attribute) (S : list str)
  (m m' : manager float) :
  same_attributes m m' -> collected O S m -> collected O S m'.
Proof.
  intros Hsame (HO & Htype & Hsub & Hleft & Hstored).
  pose proof (has_value_same_attributes m m') as Hv.
  destruct Hsame as (Ho & Hm & Hr & Hva & He & Hp).
  unfold collected. rewrite Ho, Hr. repeat split; try assumption.
  - intros s Hs Hne. destruct (Hleft s Hs Hne) as [Hout|Hval];
      [left; exact Hout|].
    right. apply Hv; [unfold same_attributes; tauto | exact Hval].
  - intros key Hkey. apply Hstored. apply Hp. exact Hkey.
Qed.

(** At the start of an offer every required attribute is outstanding and
    nothing has a value. *)
Lemma bookkeeping_reset_offer_state (S : list str) (m : manager float) :
  bookkeeping (_ozon_attributes m) S (reset_offer_state m).
Proof.
  unfold bookkeeping, present.
  cbn [reset_offer_state _ozon_attributes _required_ozon_attributes
       _attributes_values _complex_attributes_values].
  split; [reflexivity|]. split; [intros s Hs; exact Hs|].
  split; [intros s Hs; left; exact Hs|].
  intros key [Hk|[d [Hd _]]]; discriminate.
Qed.

(** What the closing steps return. *)
Lemma build_info_returns (tags : offer_tags float) (m m' : manager float)
  (offer : dict str (pyval float)) (info : offer_info float) :
  build_info tags m offer = Ok (info, m') ->
  same_attributes m m' /\
  tags_errors info = _tags_errors m' /\
  attributes_errors info = _attributes_errors m' /\
  attributes info = dict_values (_attributes_values m') /\
  complex_attributes info = convert_complex_attributes m' /\
  ready_for_import info =
    match _required_ozon_attributes m', _tags_errors m' with
    | [], [] => true
    | _, _ => false
    end.
Proof.
  unfold build_info. intros Hrun.
  destruct (offer_vat m offer) as [[vat m1]|] eqn:Evat;
    [cbn [bind] in Hrun | discriminate Hrun].
  pose proof (offer_vat_same_attributes m offer _ Evat) as Hvat. cbn [snd] in Hvat.
  cbv zeta in Hrun.
  set (m2 := match get offer (u "price") with
             | PNone => tag_error (u "price") (u "missed") m1
             | _ => m1
             end) in Hrun.
  assert (same_attributes m1 m2) as Hprice.
  { unfold m2. destruct (get offer (u "price"));
      first [apply same_attributes_refl | apply same_attributes_tag_error]. }
  set (m3 := if market_category_deleted m2
             then tag_error (u "Категория") (u "mapped_with_deleted") m2
             else m2) in Hrun.
  assert (same_attributes m2 m3) as Hcategory.
  { unfold m3. destruct (market_category_deleted m2);
      first [apply same_attributes_refl | apply same_attributes_tag_error]. }
  destruct (py_int VIDEO_URL_ID) as [video_url_id|];
    [cbn [bind] in Hrun | discriminate Hrun].
  destruct (py_int VIDEO_NAME_ID) as [video_name_id|];
    [cbn [bind] in Hrun | discriminate Hrun].
  match type of Hrun with
  | bind ?c _ = Ok _ =>
    destruct c as [m4|] eqn:E4; [cbn [bind] in Hrun | discriminate Hrun]
  end.
  assert (same_attributes m3 m4) as Hvideo.
  { revert E4. destruct (_ && _).
    - apply add_name_to_complex_video_same_attributes.
    - intros [= <-]. apply same_attributes_refl. }
  match type of Hrun with
  | bind ?c _ = Ok _ =>
    destruct c as [oid|]; [cbn [bind] in Hrun | discriminate Hrun]
  end.
  injection Hrun as <- <-.
  split; [|repeat split].
  apply (same_attributes_trans _ _ _ Hvat).
  apply (same_attributes_trans _ _ _ Hprice).
  apply (same_attributes_trans _ _ _ Hcategory). exact Hvideo.
Qed.

(** C7, as the code has it. For an offer that [_collect_offer_parameters]
    processes, in a manager whose source ids are different numbers:
    [ready_for_import] is true exactly when the tag errors are empty and
    every required attribute of the category other than the type attribute
    8229 was assigned a value during attribute collection (8229 is
    discharged without one); the returned attributes, errors and tag errors
    are those of the manager after the offer; and the whole result is the
    same from any manager with the same configuration, whatever an earlier
    offer left in its lists of values and errors. *)
Theorem ready_for_import_outstanding (db : database float)
  (m m' : manager float) (offer : dict str (pyval float))
  (info : offer_info float) :
  distinct_ids m ->
  _collect_offer_parameters db m offer = Ok (info, m') ->
  (ready_for_import info = true <->
     tags_errors info = [] /\
     forall s, In s (required_of (_ozon_attributes m)) ->
               s <> TYPE_SOURCE_ID -> has_value m' s) /\
  tags_errors info = _tags_errors m' /\
  attributes_errors info = _attributes_errors m' /\
  attributes info = dict_values (_attributes_values m') /\
  complex_attributes info = convert_complex_attributes m' /\
  (forall m2, same_configuration m m2 ->
              _collect_offer_parameters db m2 offer = Ok (info, m')).
Proof.
  intros Hdistinct Hrun.
  assert (forall m2, same_configuration m m2 ->
            _collect_offer_parameters db m2 offer = Ok (info, m')) as Hany.
  { intros m2 Hc. rewrite <- Hrun. symmetry.
    apply _collect_offer_parameters_configuration. exact Hc. }
  unfold _collect_offer_parameters in Hrun. cbv zeta in Hrun.
  destruct (collect_tags (reset_offer_state m) offer) as [[tags m1]|] eqn:Etags;
    [cbn [bind fst snd] in Hrun | discriminate Hrun].
  destruct (_collect_attributes db m1 offer) as [m2|] eqn:Eattrs;
    [cbn [bind] in Hrun | discriminate Hrun].
  pose proof (collect_tags_same_attributes _ _ _ Etags) as Hstart.
  cbn [snd] in Hstart.
  pose proof (bookkeeping_same_attributes _ (source_ids m) _ _ Hstart
                (bookkeeping_reset_offer_state (source_ids m) m)) as Hb.
  assert (collected (_ozon_attributes m) (source_ids m) m2) as Hc2.
  { apply (_collect_attributes_collected _ _ db m1 m2 offer); try assumption.
    - intros s Hs. apply in_or_app. left. exact Hs.
    - intros s Hs. apply in_or_app. right. apply carried_in_ids.
      destruct Hstart as (_ & Hmap & _). rewrite Hmap in Hs. exact Hs. }
  destruct (build_info_returns tags m2 m' offer info Hrun)
    as (Hsame & Htags & Herrors & Hattrs & Hcomplex & Hready).
  pose proof (collected_same_attributes _ _ _ _ Hsame Hc2)
    as (HO & Htype & Hsub & Hleft & Hstored).
  split; [|tauto].
  rewrite Hready, Htags. split.
  - intros Hr.
    destruct (_required_ozon_attributes m') as [|s0 l] eqn:Ereq;
      [|discriminate].
    destruct (_tags_errors m'); [|discriminate].
    split; [reflexivity|]. intros s Hs Hne.
    destruct (Hleft s Hs Hne) as [[]|Hv]. exact Hv.
  - intros [-> Hall].
    destruct (_required_ozon_attributes m') as [|s l] eqn:Ereq;
      [reflexivity|exfalso].
    assert (In s (s :: l)) as Hin by (left; reflexivity).
    pose proof (Hsub s Hin) as Hs.
    assert (s <> TYPE_SOURCE_ID) as Hne by (intros ->; exact (Htype Hin)).
    destruct (Hall s Hs Hne) as [key [Hkey Hpresent]].
    destruct (Hstored key Hpresent) as [s0 [Hs0 [Hnot HS0]]].
    apply Hnot. replace s0 with s; [exact Hin|].
    apply (Hdistinct s s0 key); try assumption.
    apply in_or_app. left. unfold required_of in Hs.
    apply in_map_iff in Hs. destruct Hs as [[k a] [<- Hka]].
    apply filter_In in Hka. destruct Hka as [Hka _].
    unfold dict_keys. apply (in_map fst _ (k, a)). exact Hka.
Qed.

End Readiness.
Section Reporting.
Context `{Unicode} `{Numbers} `{Sql} `{External float}.

(** *** What attribute collection keeps, and what its errors name *)

Ltac run_ok Hrun x E :=
  match type of Hrun with
  | bind ?c _ = Ok _ =>
    destruct c as [x|] eqn:E; [cbn [bind] in Hrun | discriminate Hrun]
  end.

Lemma required_of_get (O : dict str ozon_attribute) (s : str)
  (data : ozon_attribute) :
  dict_get s O = Some data -> oa_required data = true -> In s (required_of O).
Proof.
  intros Hget Hreq. unfold required_of.
  apply (in_map fst _ (s, data)). apply filter_In.
  split; [apply dict_get_In; exact Hget | exact Hreq].
Qed.

Lemma required_of_keys (O : dict str ozon_attribute) (s : str) :
  In s (required_of O) -> dict_mem s O = true.
Proof.
  unfold required_of. intros Hs. apply in_map_iff in Hs.
  destruct Hs as [[k a] [<- Hka]]. apply filter_In in Hka.
  apply dict_mem_keys. unfold dict_keys. apply (in_map fst _ (k, a)).
  apply Hka.
Qed.

(** The state of attribute collection, against the manager [m0] it started
    from: the configuration and the tag errors are those of [m0], the
    outstanding attributes are required attributes of the category, and so
    are the attributes that have an error. *)
Definition kept (m0 : manager float) (st : manager float * dict str str)
  : Prop :=
  ozon_category_id (fst st) = ozon_category_id m0 /\
  market_category_deleted (fst st) = market_category_deleted m0 /\
  _attribute_map (fst st) = _attribute_map m0 /\
  _ozon_attributes (fst st) = _ozon_attributes m0 /\
  _tags_errors (fst st) = _tags_errors m0 /\
  (forall s, In s (_required_ozon_attributes (fst st)) ->
             In s (required_of (_ozon_attributes m0))) /\
  (forall s, dict_mem s (snd st) = true ->
             In s (required_of (_ozon_attributes m0))).

Lemma kept_required (m0 : manager float) (st : manager float * dict str str)
  (s : str) :
  kept m0 st -> In s (_required_ozon_attributes (fst st)) ->
  In s (required_of (_ozon_attributes m0)).
Proof. intros (_ & _ & _ & _ & _ & Hreq & _). apply Hreq. Qed.

Lemma kept_errors (m0 m : manager float) (errors errors' : dict str str) :
  kept m0 (m, errors) ->
  (forall s, dict_mem s errors' = true ->
             dict_mem s errors = true \/
             In s (required_of (_ozon_attributes m0))) ->
  kept m0 (m, errors').
Proof.
  intros (Hcat & Hdel & Hmap & Hozon & Htags & Hreq & Herr) Hnew.
  unfold kept. cbn [fst snd] in *. repeat split; try assumption.
  intros s Hs. destruct (Hnew s Hs) as [Hold|Hin]; [apply Herr; exact Hold|].
  exact Hin.
Qed.

Lemma kept_set_required (m0 m : manager float) (errors : dict str str)
  (s error : str) :
  kept m0 (m, errors) -> In s (required_of (_ozon_attributes m0)) ->
  kept m0 (m, dict_set s error errors).
Proof.
  intros Hk Hs. apply (kept_errors m0 m errors _ Hk).
  intros s' Hs'. rewrite dict_mem_set in Hs'. apply orb_true_iff in Hs'.
  destruct Hs' as [Heq|Hold]; [right|left; exact Hold].
  apply keyb_eq in Heq. subst s'. exact Hs.
Qed.

Lemma kept_add_error (m0 m : manager float) (errors : dict str str)
  (s error : str) :
  kept m0 (m, errors) -> kept m0 (m, add_error m errors s error).
Proof.
  intros Hk. unfold add_error.
  destruct (dict_get s (_ozon_attributes m)) as [data|] eqn:Edata;
    [|exact Hk].
  destruct (oa_required data) eqn:Ereq; [|exact Hk].
  apply kept_set_required; [exact Hk|].
  destruct Hk as (_ & _ & _ & Hozon & _). cbn [fst] in Hozon.
  rewrite <- Hozon. apply (required_of_get _ _ data); assumption.
Qed.

Lemma kept_fold_add_error (m0 m : manager float) (error : str)
  (l : list str) :
  forall errors,
    kept m0 (m, errors) ->
    kept m0 (m, fold_left (fun e s => add_error m e s error) l errors).
Proof.
  induction l as [|s l IH]; intros errors Hk; cbn [fold_left];
    [exact Hk|].
  apply IH. apply kept_add_error. exact Hk.
Qed.

Lemma kept_remove (m0 m : manager float) (errors : dict str str) (s : str) :
  kept m0 (m, errors) ->
  kept m0 (_remove_ozon_attribute_from_required m s, errors).
Proof.
  intros (Hcat & Hdel & Hmap & Hozon & Htags & Hreq & Herr).
  unfold kept. cbn [fst snd] in *. repeat split; try assumption.
  intros s' Hs'. apply in_remove_required in Hs'. apply Hreq. apply Hs'.
Qed.

Lemma kept_add_attribute_value (m0 m m' : manager float)
  (errors : dict str str) (s : str) (v : pyval float)
  (dv : option value_id) :
  kept m0 (m, errors) -> _add_attribute_value m s v dv = Ok m' ->
  kept m0 (m', errors).
Proof.
  intros Hk. unfold _add_attribute_value.
  destruct (py_int s) as [key|e]; cbn [bind]; [|discriminate].
  destruct (int_of_value_id dv) as [d|e]; cbn [bind]; [|discriminate].
  intros [= <-]. apply kept_remove. exact Hk.
Qed.

Lemma kept_add_complex_attribute_value (m0 m m' : manager float)
  (errors : dict str str) (s : str) (v : pyval float) (complex : Z) :
  kept m0 (m, errors) -> _add_complex_attribute_value m s v complex = Ok m' ->
  kept m0 (m', errors).
Proof.
  intros Hk. unfold _add_complex_attribute_value.
  destruct (py_int s) as [key|e]; cbn [bind]; [|discriminate].
  intros [= <-]. apply kept_remove. exact Hk.
Qed.

Lemma kept_add_values_data (m0 : manager float)
  (values_data : list mapped_value) :
  forall (m : manager float) errors st',
    kept m0 (m, errors) ->
    add_values_data m errors values_data = Ok st' -> kept m0 st'.
Proof.
  induction values_data as [|data rest IH]; intros m errors st' Hk;
    cbn [add_values_data].
  - intros [= <-]. exact Hk.
  - destruct (existsb _ COMPLEX_ATTRIBUTE_IDS).
    + intros Hrun. run_ok Hrun m1 E1.
      apply (IH _ _ _
               (kept_add_complex_attribute_value _ _ _ _ _ _ _ Hk E1) Hrun).
    + destruct (is_zero_id _ && _ && _).
      * destruct (_convert_attribute_value _ _) as [v|e].
        -- intros Hrun. run_ok Hrun m1 E1.
           apply (IH _ _ _
                    (kept_add_attribute_value _ _ _ _ _ _ _ Hk E1) Hrun).
        -- destruct e; try discriminate. intros [= <-].
           apply kept_add_error. exact Hk.
      * intros Hrun. run_ok Hrun m1 E1.
        apply (IH _ _ _ (kept_add_attribute_value _ _ _ _ _ _ _ Hk E1) Hrun).
Qed.

Lemma kept_add_if_exists_ids (m0 : manager float) (ids : list str)
  (v : pyval float) :
  forall (m : manager float) errors st',
    kept m0 (m, errors) ->
    add_if_exists_ids m errors ids v = Ok st' -> kept m0 st'.
Proof.
  induction ids as [|s ids IH]; intros m errors st' Hk;
    cbn [add_if_exists_ids].
  - intros [= <-]. exact Hk.
  - destruct (negb (dict_mem s (_ozon_attributes m))); [apply IH; exact Hk|].
    destruct v;
      try (intros [= <-]; apply kept_add_error; exact Hk);
      intros Hrun; run_ok Hrun m1 E1;
      refine (IH _ _ _ (kept_add_attribute_value _ _ _ _ _ _ _ _ E1) Hrun);
      try exact Hk.
    destruct (eq_str _ _); [apply kept_add_error|]; exact Hk.
Qed.

Lemma kept_add_if_exists (m0 : manager float)
  (st st' : manager float * dict str str) (attribute_key : str)
  (v : pyval float) :
  kept m0 st -> add_if_exists st attribute_key v = Ok st' -> kept m0 st'.
Proof.
  intros Hk. unfold add_if_exists. destruct st as [m errors].
  destruct (dict_get attribute_key OZON_ATTRIBUTES_IDS) as [[s|l]|];
    [| |discriminate]; apply (kept_add_if_exists_ids m0 _ _ _ _ _ Hk).
Qed.

Lemma kept_add_weight (m0 m : manager float) (errors : dict str str)
  (offer : dict str (pyval float)) (st' : manager float * dict str str) :
  kept m0 (m, errors) -> add_weight m errors offer = Ok st' -> kept m0 st'.
Proof.
  intros Hk. unfold add_weight.
  assert (forall st'',
             (if existsb (keyb (u "4497")) (_required_ozon_attributes m)
              then Ok (m, dict_set (u "4497") (u "bad_value") errors)
              else Ok (m, errors)) = Ok st'' -> kept m0 st'') as Hbad.
  { intros st''.
    destruct (existsb _ _) eqn:Ereq; intros [= <-]; [|exact Hk].
    apply kept_set_required; [exact Hk|].
    apply existsb_exists in Ereq. destruct Ereq as [s [Hs Heq]].
    apply keyb_eq in Heq. subst s.
    apply (kept_required m0 (m, errors) _ Hk). exact Hs. }
  destruct (py_float _) as [x|e]; cbn [bind].
  - destruct (add_if_exists _ _ _) as [st1|e] eqn:E1.
    + intros [= <-]. apply (kept_add_if_exists m0 _ _ _ _ Hk E1).
    + destruct e; try discriminate. apply Hbad.
  - destruct e; try discriminate. apply Hbad.
Qed.

Lemma kept_add_tn_ved_codes (m0 m : manager float) (errors : dict str str)
  (db : database float) (offer : dict str (pyval float))
  (r : manager float * dict str str) :
  kept m0 (m, errors) -> _add_tn_ved_codes db m offer = Ok r ->
  kept m0 (fst r, errors) /\
  (forall s, dict_mem s (snd r) = true ->
             In s (required_of (_ozon_attributes m0))).
Proof.
  intros Hk. unfold _add_tn_ved_codes. intros Hrun.
  run_ok Hrun m1 E1. injection Hrun as <-. cbn [fst snd].
  assert (kept m0 (m1, errors)) as Hk1.
  { apply (for_each_invariant (fun n => kept m0 (n, errors)) _ _)
      with (3 := E1); [|exact Hk].
    intros m2 item m3 _ Hm2 Hstep.
    apply (for_each_invariant (fun n => kept m0 (n, errors)) _ _)
      with (3 := Hstep); [|exact Hm2].
    intros m4 code m5 _ Hm4. unfold add_tn_ved_code.
    destruct (tn_ved_lookup _ _) as [[v|]|e]; cbn [bind];
      [|intros [= <-]; exact Hm4|discriminate].
    apply (kept_add_attribute_value _ _ _ _ _ _ _ Hm4). }
  split; [exact Hk1|].
  set (attrs := filter _ (_ozon_attributes m)). clearbody attrs.
  assert (forall acc : dict str str,
             (forall s, dict_mem s acc = true ->
                        In s (required_of (_ozon_attributes m0))) ->
             forall s,
               dict_mem s
                 (fold_left
                    (fun (errors0 : dict str str)
                         (item : str * ozon_attribute) =>
                       if negb (existsb (keyb (fst item))
                                        (_required_ozon_attributes m1))
                       then errors0
                       else match tn_ved_codes_of offer with
                            | [] => dict_set (fst item) (u "missing") errors0
                            | _ :: _ =>
                              dict_set (fst item) (u "not_found") errors0
                            end) attrs acc) = true ->
               In s (required_of (_ozon_attributes m0))) as Hfold.
  { induction attrs as [|item attrs IH]; intros acc Hacc; cbn [fold_left];
      [exact Hacc|].
    apply IH.
    destruct (existsb _ _) eqn:Ereq; cbn [negb]; [|exact Hacc].
    assert (In (fst item) (required_of (_ozon_attributes m0))) as Hitem.
    { apply existsb_exists in Ereq. destruct Ereq as [s [Hs Heq]].
      apply keyb_eq in Heq. subst s.
      apply (kept_required m0 (m1, errors) _ Hk1). exact Hs. }
    intros s Hs.
    assert (keyb s (fst item) || dict_mem s acc = true) as Hor
        by (destruct (tn_ved_codes_of offer); rewrite dict_mem_set in Hs;
            exact Hs).
    apply orb_true_iff in Hor. destruct Hor as [Heq|Hold];
      [|apply Hacc; exact Hold].
    apply keyb_eq in Heq. subst s. exact Hitem. }
  apply Hfold. intros s Hs. discriminate.
Qed.

Lemma dict_update_mem (errors other : dict str str) (s : str) :
  dict_mem s (dict_update errors other) = true ->
  dict_mem s errors = true \/ dict_mem s other = true.
Proof.
  unfold dict_update. revert errors.
  induction other as [|[k v] other IH]; intros errors; cbn [fold_left fst snd].
  - intros Hs. left. exact Hs.
  - intros Hs. destruct (IH _ Hs) as [Hset|Hother].
    + rewrite dict_mem_set in Hset. apply orb_true_iff in Hset.
      destruct Hset as [Heq|Hold]; [right|left; exact Hold].
      apply keyb_eq in Heq. subst k. unfold dict_mem. cbn [dict_get].
      rewrite keyb_refl. reflexivity.
    + right. unfold dict_mem in *. cbn [dict_get].
      destruct (keyb s k); [reflexivity | exact Hother].
Qed.

(** What [_collect_attributes] returns. *)
Lemma _collect_attributes_returns (db : database float)
  (m m' : manager float) (offer : dict str (pyval float)) :
  (forall s, In s (_required_ozon_attributes m) ->
             In s (required_of (_ozon_attributes m))) ->
  _collect_attributes db m offer = Ok m' ->
  exists errors,
    _attributes_errors m' = Some errors /\
    move_model_year_mappings (_attribute_map m) = Ok (_attribute_map m') /\
    ozon_category_id m' = ozon_category_id m /\
    market_category_deleted m' = market_category_deleted m /\
    _ozon_attributes m' = _ozon_attributes m /\
    _tags_errors m' = _tags_errors m /\
    (forall s, dict_mem s errors = true ->
               In s (required_of (_ozon_attributes m))) /\
    (forall s, In s (_required_ozon_attributes m') ->
               dict_mem s errors = true).
Proof.
  intros Hreq. unfold _collect_attributes. intros Hrun.
  run_ok Hrun feed_params_values Efeed.
  run_ok Hrun attribute_map Emove.
  set (m0 := with_attribute_map attribute_map m) in *.
  assert (kept m0 (m0, [])) as Hk.
  { unfold kept. cbn [fst snd]. repeat split; try assumption.
    intros s Hs. discriminate. }
  run_ok Hrun resolved Eresolved.
  run_ok Hrun st0 Evalues.
  assert (kept m0 st0) as Hk0.
  { apply (for_each_invariant (kept m0) _ _) with (3 := Evalues); [|exact Hk].
    intros [m1 e1] values_data st' _ Hst Hstep. cbn [fst snd] in Hstep.
    apply (kept_add_values_data m0 values_data _ _ _ Hst Hstep). }
  cbv zeta in Hrun.
  match type of Hrun with
  | bind (add_if_exists (_, ?e) _ _) _ = _ =>
    assert (kept m0 (fst st0, e)) as Hke
  end.
  { repeat apply kept_fold_add_error. destruct st0 as [m1 e1]. exact Hk0. }
  run_ok Hrun st1 E1.
  pose proof (kept_add_if_exists m0 _ _ _ _ Hke E1) as Hk1.
  run_ok Hrun st2 E2.
  pose proof (kept_add_if_exists m0 _ _ _ _ Hk1 E2) as Hk2.
  run_ok Hrun oid Eid.
  run_ok Hrun st3 E3.
  pose proof (kept_add_if_exists m0 _ _ _ _ Hk2 E3) as Hk3.
  destruct (parse_dimensions _) as [[length width] height].
  run_ok Hrun st4 E4.
  pose proof (kept_add_if_exists m0 _ _ _ _ Hk3 E4) as Hk4.
  run_ok Hrun st5 E5.
  pose proof (kept_add_if_exists m0 _ _ _ _ Hk4 E5) as Hk5.
  run_ok Hrun st6 E6.
  pose proof (kept_add_if_exists m0 _ _ _ _ Hk5 E6) as Hk6.
  run_ok Hrun st7 E7.
  assert (kept m0 st7) as Hk7.
  { destruct st6 as [m6 e6]. apply (kept_add_weight m0 _ _ _ _ Hk6 E7). }
  run_ok Hrun st8 E8.
  pose proof (kept_add_if_exists m0 _ _ _ _ Hk7 E8) as Hk8.
  run_ok Hrun st9 E9.
  assert (kept m0 st9) as Hk9.
  { revert E9.
    destruct (truthy (get offer (u "description")));
      [|intros [= <-]; exact Hk8].
    destruct (get offer (u "description")); try discriminate. intros E9.
    apply (kept_add_if_exists m0 _ _ _ _ Hk8 E9). }
  run_ok Hrun tn_ved_result Etn.
  destruct st9 as [m9 e9]. cbn [fst snd] in *.
  destruct (kept_add_tn_ved_codes m0 _ _ db offer _ Hk9 Etn) as [Hktn Htn].
  match type of Hrun with
  | bind (consolidate ?mc _ ?e) _ = _ =>
    assert (kept m0 (mc, e)) as Hkc
  end.
  { apply kept_remove. apply (kept_errors m0 _ e9 _ Hktn).
    intros s Hs. destruct (snd tn_ved_result) as [|x l] eqn:Eerr;
      [left; exact Hs|].
    apply dict_update_mem in Hs. destruct Hs as [Hs|Hs];
      [left; exact Hs | right; apply Htn; exact Hs]. }
  run_ok Hrun errors Econs. injection Hrun as <-.
  destruct Hkc as (Hcat & Hdel & Hmap & Hozon & Htags & Hreqc & Herrc).
  cbn [fst snd] in *.
  unfold consolidate in Econs.
  match type of Econs with
  | for_each _ ?l ?e = _ =>
    destruct (consolidate_loop
                (_remove_ozon_attribute_from_required (fst tn_ved_result)
                                                      TYPE_SOURCE_ID)
                feed_params_values l) with (errors := e)
      as [errors' [Hrun' Hget]]
  end.
  { intros s Hs. rewrite Hozon. apply required_of_keys. apply Hreqc.
    exact Hs. }
  rewrite Hrun' in Econs. injection Econs as Heq. subst errors'.
  exists errors. cbn [with_attributes_errors _attributes_errors _attribute_map
                      ozon_category_id market_category_deleted
                      _ozon_attributes _tags_errors _required_ozon_attributes].
  split; [reflexivity|]. split; [rewrite Hmap; reflexivity|].
  split; [exact Hcat|]. split; [exact Hdel|]. split; [exact Hozon|].
  split; [exact Htags|]. split.
  - intros s Hs. unfold dict_mem in Hs. rewrite Hget in Hs.
    match type of Hs with
    | context [dict_get s ?e] => destruct (dict_get s e) eqn:Eold
    end.
    + apply Herrc. unfold dict_mem. rewrite Eold. reflexivity.
    + destruct (existsb _ _) eqn:Ein; [|discriminate].
      apply existsb_exists in Ein. destruct Ein as [s' [Hs' Heq]].
      apply keyb_eq in Heq. subst s'. apply Hreqc. exact Hs'.
  - intros s Hs. unfold dict_mem. rewrite Hget.
    match goal with
    | |- context [dict_get s ?e] => destruct (dict_get s e) eqn:Eold
    end; [reflexivity|].
    assert (existsb (keyb s)
              (_required_ozon_attributes
                 (_remove_ozon_attribute_from_required (fst tn_ved_result)
                                                       TYPE_SOURCE_ID))
            = true) as ->.
    { apply existsb_exists. exists s. split; [exact Hs | apply keyb_refl]. }
    unfold final_error.
    assert (dict_mem s
              (_ozon_attributes
                 (_remove_ozon_attribute_from_required (fst tn_ved_result)
                                                       TYPE_SOURCE_ID))
            = true) as Hmem.
    { rewrite Hozon. apply required_of_keys. apply Hreqc. exact Hs. }
    unfold dict_mem in Hmem.
    match type of Hmem with
    | match ?g with _ => _ end = true =>
      destruct g; [reflexivity | discriminate]
    end.
Qed.

End Reporting.
Section OfferResult.
Context `{Unicode} `{Numbers} `{Sql} `{External float}.

(** *** The three parts of [_collect_offer_parameters] *)

Lemma _collect_offer_parameters_parts (db : database float)
  (m m' : manager float) (offer : dict str (pyval float))
  (info : offer_info float) :
  _collect_offer_parameters db m offer = Ok (info, m') ->
  exists tags m1 m2,
    collect_tags (reset_offer_state m) offer = Ok (tags, m1) /\
    _collect_attributes db m1 offer = Ok m2 /\
    build_info tags m2 offer = Ok (info, m').
Proof.
  unfold _collect_offer_parameters. cbv zeta. intros Hrun.
  destruct (collect_tags (reset_offer_state m) offer) as [[tags m1]|] eqn:Etags;
    [cbn [bind fst snd] in Hrun | discriminate Hrun].
  destruct (_collect_attributes db m1 offer) as [m2|] eqn:Eattrs;
    [cbn [bind] in Hrun | discriminate Hrun].
  exists tags, m1, m2. repeat split; assumption.
Qed.

(** The steps on the tags change the tag errors only. *)
Lemma collect_tags_manager (m : manager float)
  (offer : dict str (pyval float)) r :
  collect_tags m offer = Ok r -> exists e, snd r = with_tags_errors e m.
Proof.
  destruct m. unfold collect_tags, offer_weight, tag_error. cbv zeta.
  destruct (valid_name_of _) as [valid_name|e]; cbn [bind]; [|discriminate].
  destruct (negb (truthy (offer_name offer)));
    destruct (truthy (get offer (u "dimensions")));
    try destruct (parse_dimensions _) as [[depth width] height];
    destruct (float_parse _);
    destruct (_get offer (u "picture") (PList [])) as [| | | | |[|first l]|];
    try destruct (negb (truthy _));
    intros [= <-]; cbn [snd]; eexists; reflexivity.
Qed.

(** The closing steps change the tag errors and the complex values only. *)
Definition closes (m m' : manager float) : Prop :=
  ozon_category_id m' = ozon_category_id m /\
  market_category_deleted m' = market_category_deleted m /\
  _attribute_map m' = _attribute_map m /\
  _ozon_attributes m' = _ozon_attributes m /\
  _required_ozon_attributes m' = _required_ozon_attributes m /\
  _attributes_values m' = _attributes_values m /\
  _attributes_errors m' = _attributes_errors m.

Lemma closes_refl (m : manager float) : closes m m.
Proof. unfold closes. tauto. Qed.

Lemma closes_trans (m1 m2 m3 : manager float) :
  closes m1 m2 -> closes m2 m3 -> closes m1 m3.
Proof. unfold closes. intuition congruence. Qed.

Lemma closes_tag_error (m : manager float) (tag error : str) :
  closes m (tag_error tag error m).
Proof. unfold closes. cbn. tauto. Qed.

Lemma offer_vat_closes (m : manager float) (offer : dict str (pyval float)) r :
  offer_vat m offer = Ok r -> closes m (snd r).
Proof.
  unfold offer_vat. cbv zeta.
  destruct (eq_str _ []); [intros [= <-]; apply closes_tag_error|].
  destruct (eq_str _ (u "NO_VAT")); [intros [= <-]; apply closes_refl|].
  destruct (_get offer (u "vat") (PStr (u "VAT_20"))); try discriminate.
  destruct (dict_get s VAT_BY_CODE); [intros [= <-]; apply closes_refl|].
  destruct (int_of_str _); intros [= <-];
    [apply closes_refl | apply closes_tag_error].
Qed.

Lemma build_info_closes (tags : offer_tags float) (m m' : manager float)
  (offer : dict str (pyval float)) (info : offer_info float) :
  build_info tags m offer = Ok (info, m') -> closes m m'.
Proof.
  unfold build_info. intros Hrun.
  destruct (offer_vat m offer) as [[vat m1]|] eqn:Evat;
    [cbn [bind] in Hrun | discriminate Hrun].
  pose proof (offer_vat_closes m offer _ Evat) as Hvat. cbn [snd] in Hvat.
  cbv zeta in Hrun.
  set (m2 := match get offer (u "price") with
             | PNone => tag_error (u "price") (u "missed") m1
             | _ => m1
             end) in Hrun.
  assert (closes m1 m2) as Hprice.
  { unfold m2. destruct (get offer (u "price"));
      first [apply closes_refl | apply closes_tag_error]. }
  set (m3 := if market_category_deleted m2
             then tag_error (u "Категория") (u "mapped_with_deleted") m2
             else m2) in Hrun.
  assert (closes m2 m3) as Hcategory.
  { unfold m3. destruct (market_category_deleted m2);
      first [apply closes_refl | apply closes_tag_error]. }
  destruct (py_int VIDEO_URL_ID) as [video_url_id|];
    [cbn [bind] in Hrun | discriminate Hrun].
  destruct (py_int VIDEO_NAME_ID) as [video_name_id|];
    [cbn [bind] in Hrun | discriminate Hrun].
  match type of Hrun with
  | bind ?c _ = Ok _ =>
    destruct c as [m4|] eqn:E4; [cbn [bind] in Hrun | discriminate Hrun]
  end.
  assert (closes m3 m4) as Hvideo.
  { revert E4. destruct (_ && _); [|intros [= <-]; apply closes_refl].
    unfold add_name_to_complex_video.
    destruct (dict_get VIDEO_COMPLEX_ID _); [|discriminate].
    destruct (py_int VIDEO_NAME_ID); cbn [bind]; [|discriminate].
    intros [= <-]. unfold closes. cbn. tauto. }
  match type of Hrun with
  | bind ?c _ = Ok _ =>
    destruct c as [oid|]; [cbn [bind] in Hrun | discriminate Hrun]
  end.
  injection Hrun as _ <-.
  apply (closes_trans _ _ _ Hvat).
  apply (closes_trans _ _ _ Hprice).
  apply (closes_trans _ _ _ Hcategory). exact Hvideo.
Qed.

(** What attribute collection leaves for an offer, put together. *)
Lemma _collect_offer_parameters_errors (db : database float)
  (m m' : manager float) (offer : dict str (pyval float))
  (info : offer_info float) :
  _collect_offer_parameters db m offer = Ok (info, m') ->
  exists errors,
    attributes_errors info = Some errors /\
    (forall s, dict_mem s errors = true ->
               In s (required_of (_ozon_attributes m))) /\
    (forall s, In s (_required_ozon_attributes m') ->
               dict_mem s errors = true).
Proof.
  intros Hrun.
  destruct (_collect_offer_parameters_parts db m m' offer info Hrun)
    as (tags & m1 & m2 & Etags & Eattrs & Einfo).
  destruct (collect_tags_manager _ _ _ Etags) as [e He]. cbn [snd] in He.
  subst m1.
  destruct (_collect_attributes_returns db
              (with_tags_errors e (reset_offer_state m)) m2 offer
              (fun s Hs => Hs) Eattrs)
    as (errors & Herrors & _ & _ & _ & _ & _ & Hsound & Hcomplete).
  destruct (build_info_closes tags m2 m' offer info Einfo)
    as (_ & _ & _ & _ & Hreq & _ & Herr).
  destruct (build_info_returns tags m2 m' offer info Einfo)
    as (_ & _ & Hinfo & _).
  exists errors. split; [congruence|]. split; [exact Hsound|].
  intros s Hs. apply Hcomplete. rewrite <- Hreq. exact Hs.
Qed.

(** Every required attribute that is still outstanding when an offer has
    been processed has an entry in the returned attribute errors; an offer
    that is not ready although its tags gave no error has at least one. *)
Theorem outstanding_attributes_are_reported (db : database float)
  (m m' : manager float) (offer : dict str (pyval float))
  (info : offer_info float) :
  _collect_offer_parameters db m offer = Ok (info, m') ->
  exists errors,
    attributes_errors info = Some errors /\
    (forall s, In s (_required_ozon_attributes m') ->
               dict_mem s errors = true) /\
    (ready_for_import info = false -> tags_errors info = [] -> errors <> []).
Proof.
  intros Hrun.
  destruct (_collect_offer_parameters_errors db m m' offer info Hrun)
    as (errors & Herrors & _ & Hcomplete).
  destruct (_collect_offer_parameters_parts db m m' offer info Hrun)
    as (tags & m1 & m2 & _ & _ & Einfo).
  destruct (build_info_returns tags m2 m' offer info Einfo)
    as (_ & Htags & _ & _ & _ & Hready).
  exists errors. split; [exact Herrors|]. split; [exact Hcomplete|].
  rewrite Hready, Htags. intros Hnot Hclean Hnone. rewrite Hclean in Hnot.
  destruct (_required_ozon_attributes m') as [|s l]; [discriminate|].
  specialize (Hcomplete s (or_introl eq_refl)). rewrite Hnone in Hcomplete.
  discriminate.
Qed.

(** The returned attribute errors name required attributes of the category
    only: an attribute that is not required never has an error, whatever
    the offer holds for it. *)
Theorem attributes_errors_name_required_attributes (db : database float)
  (m m' : manager float) (offer : dict str (pyval float))
  (info : offer_info float) :
  _collect_offer_parameters db m offer = Ok (info, m') ->
  exists errors,
    attributes_errors info = Some errors /\
    forall s, dict_mem s errors = true ->
      exists data, In (s, data) (_ozon_attributes m) /\
                   oa_required data = true.
Proof.
  intros Hrun.
  destruct (_collect_offer_parameters_errors db m m' offer info Hrun)
    as (errors & Herrors & Hsound & _).
  exists errors. split; [exact Herrors|].
  intros s Hs. specialize (Hsound s Hs). unfold required_of in Hsound.
  apply in_map_iff in Hsound. destruct Hsound as [[k data] [<- Hin]].
  apply filter_In in Hin. exists data. exact Hin.
Qed.

(** *** Tag errors *)

Lemma dict_set_nonempty {K V} `{EqKey K} (k : K) (v : V) (d : dict K V) :
  dict_set k v d <> [].
Proof. destruct d as [|[k' v'] d]; cbn; [|destruct (keyb k k')]; discriminate. Qed.

Lemma tag_error_nonempty (m : manager float) (tag error : str) :
  _tags_errors (tag_error tag error m) <> [].
Proof. unfold tag_error. cbn. apply dict_set_nonempty. Qed.

Lemma collect_tags_clean (m : manager float)
  (offer : dict str (pyval float)) tags m1 :
  collect_tags m offer = Ok (tags, m1) -> _tags_errors m1 = [] ->
  truthy (offer_name offer) = true /\
  truthy (get offer (u "dimensions")) = true /\
  float_parse (replace 0x2C (u ".")
                       (py_str (_get offer (u "weight") (PInt 0)))) <> None /\
  truthy match tags_images tags with first :: _ => first | [] => PStr [] end
    = true.
Proof.
  unfold collect_tags, offer_weight. cbv zeta.
  destruct (valid_name_of _) as [valid_name|e]; cbn [bind]; [|discriminate].
  set (images := match _get offer (u "picture") (PList []) with
                 | PList l => l
                 | v => [v]
                 end).
  destruct (truthy (offer_name offer)) eqn:Ename; cbn [negb];
    destruct (truthy (get offer (u "dimensions"))) eqn:Edims;
    try destruct (parse_dimensions _) as [[depth width] height];
    destruct (float_parse _) eqn:Eweight;
    (destruct images as [|first l];
     [|destruct (truthy first) eqn:Efirst; cbn [negb]]);
    intros [= <- <-] Hclean;
    try (exfalso; exact (tag_error_nonempty _ _ _ Hclean));
    cbn [tags_images]; repeat split; try discriminate; try assumption.
Qed.

Lemma build_info_clean (tags : offer_tags float) (m m' : manager float)
  (offer : dict str (pyval float)) (info : offer_info float) :
  build_info tags m offer = Ok (info, m') -> _tags_errors m' = [] ->
  _tags_errors m = [] /\
  price info <> PNone /\
  market_category_deleted m = false /\
  primary_image info =
    match tags_images tags with first :: _ => first | [] => PStr [] end /\
  exists s,
    _get offer (u "vat") (PStr (u "VAT_20")) = PStr s /\ s <> [] /\
    (s = u "NO_VAT" \/ dict_mem s VAT_BY_CODE = true \/
     int_of_str (after_last 0x5F s) <> None).
Proof.
  unfold build_info. intros Hrun Hclean.
  destruct (offer_vat m offer) as [[vat m1]|] eqn:Evat;
    [cbn [bind] in Hrun | discriminate Hrun].
  cbv zeta in Hrun.
  destruct (py_int VIDEO_URL_ID) as [video_url_id|];
    [cbn [bind] in Hrun | discriminate Hrun].
  destruct (py_int VIDEO_NAME_ID) as [video_name_id|];
    [cbn [bind] in Hrun | discriminate Hrun].
  match type of Hrun with
  | bind ?c _ = Ok _ =>
    destruct c as [m4|] eqn:E4; [cbn [bind] in Hrun | discriminate Hrun]
  end.
  match type of Hrun with
  | bind ?c _ = Ok _ =>
    destruct c as [oid|]; [cbn [bind] in Hrun | discriminate Hrun]
  end.
  injection Hrun as <- <-. cbn [price primary_image].
  assert (_tags_errors
            (if market_category_deleted
                  match get offer (u "price") with
                  | PNone => tag_error (u "price") (u "missed") m1
                  | _ => m1
                  end
             then tag_error (u "Категория") (u "mapped_with_deleted")
                    match get offer (u "price") with
                    | PNone => tag_error (u "price") (u "missed") m1
                    | _ => m1
                    end
             else match get offer (u "price") with
                  | PNone => tag_error (u "price") (u "missed") m1
                  | _ => m1
                  end) = []) as Hclean3.
  { revert E4. destruct (_ && _); [|intros [= <-]; exact Hclean].
    unfold add_name_to_complex_video.
    destruct (dict_get VIDEO_COMPLEX_ID _); [|discriminate].
    destruct (py_int VIDEO_NAME_ID); cbn [bind]; [|discriminate].
    intros [= <-]. exact Hclean. }
  clear E4 Hclean.
  assert (market_category_deleted m1 = market_category_deleted m) as Hdel
      by (apply (offer_vat_closes m offer _ Evat)).
  assert (get offer (u "price") <> PNone /\
          market_category_deleted m1 = false /\ _tags_errors m1 = [])
    as (Hprice & Hcategory & Hclean1).
  { revert Hclean3.
    destruct (get offer (u "price")) eqn:Eprice;
      match goal with
      | |- context [if ?c then _ else _] => destruct c eqn:Ec
      end; intros Hclean3;
      try (exfalso; exact (tag_error_nonempty _ _ _ Hclean3));
      repeat split; try discriminate; try assumption;
      cbn in Ec; exact Ec. }
  split; [|split; [exact Hprice|split; [congruence|split; [reflexivity|]]]].
  - revert Evat Hclean1. unfold offer_vat. cbv zeta.
    destruct (eq_str _ []);
      [intros [= _ <-] Hc; exfalso; exact (tag_error_nonempty _ _ _ Hc)|].
    destruct (eq_str _ (u "NO_VAT")); [intros [= _ <-] Hc; exact Hc|].
    destruct (_get offer (u "vat") (PStr (u "VAT_20"))); try discriminate.
    destruct (dict_get s VAT_BY_CODE); [intros [= _ <-] Hc; exact Hc|].
    destruct (int_of_str _); intros [= _ <-] Hc; [exact Hc|].
    exfalso. exact (tag_error_nonempty _ _ _ Hc).
  - unfold offer_vat in Evat. cbv zeta in Evat.
    destruct (_get offer (u "vat") (PStr (u "VAT_20"))) as [| | | |s| |];
      cbn [eq_str] in Evat; try discriminate Evat.
    exists s. split; [reflexivity|].
    destruct (keyb s []) eqn:Eempty.
    { injection Evat as _ <-. exfalso.
      exact (tag_error_nonempty _ _ _ Hclean1). }
    split; [apply keyb_neq; exact Eempty|].
    destruct (keyb s (u "NO_VAT")) eqn:Eno;
      [left; apply keyb_eq; exact Eno|].
    right. unfold dict_mem.
    destruct (dict_get s VAT_BY_CODE); [left; reflexivity|].
    right.
    destruct (int_of_str _); [discriminate|].
    injection Evat as _ <-. exfalso.
    exact (tag_error_nonempty _ _ _ Hclean1).
Qed.

(** An offer that is ready for import has a name, dimensions, a weight that
    reads as a number, a first picture, a price and a usable VAT code, and
    its marketplace category is not deleted. *)
Theorem ready_offer_has_its_tags (db : database float)
  (m m' : manager float) (offer : dict str (pyval float))
  (info : offer_info float) :
  _collect_offer_parameters db m offer = Ok (info, m') ->
  ready_for_import info = true ->
  truthy (offer_name offer) = true /\
  truthy (get offer (u "dimensions")) = true /\
  float_parse (replace 0x2C (u ".")
                       (py_str (_get offer (u "weight") (PInt 0)))) <> None /\
  truthy (primary_image info) = true /\
  price info <> PNone /\
  market_category_deleted m = false /\
  exists s,
    _get offer (u "vat") (PStr (u "VAT_20")) = PStr s /\ s <> [] /\
    (s = u "NO_VAT" \/ dict_mem s VAT_BY_CODE = true \/
     int_of_str (after_last 0x5F s) <> None).
Proof.
  intros Hrun Hready.
  destruct (_collect_offer_parameters_parts db m m' offer info Hrun)
    as (tags & m1 & m2 & Etags & Eattrs & Einfo).
  destruct (build_info_returns tags m2 m' offer info Einfo)
    as (_ & _ & _ & _ & _ & Hr).
  assert (_tags_errors m' = []) as Hclean.
  { rewrite Hr in Hready.
    destruct (_required_ozon_attributes m'); [|discriminate].
    destruct (_tags_errors m'); [reflexivity | discriminate]. }
  destruct (build_info_clean tags m2 m' offer info Einfo Hclean)
    as (Hclean2 & Hprice & Hdel & Himage & Hvat).
  destruct (collect_tags_manager _ _ _ Etags) as [e He]. cbn [snd] in He.
  destruct (_collect_attributes_returns db m1 m2 offer) as
      (errors & _ & _ & _ & Hdel2 & _ & Htags2 & _).
  { subst m1. intros s Hs. exact Hs. }
  { exact Eattrs. }
  destruct (collect_tags_clean _ offer tags m1 Etags) as
      (Hname & Hdims & Hweight & Hpicture); [congruence|].
  split; [exact Hname|]. split; [exact Hdims|]. split; [exact Hweight|].
  split; [rewrite Himage; exact Hpicture|]. split; [exact Hprice|].
  split; [|exact Hvat].
  rewrite <- Hdel, Hdel2. subst m1. reflexivity.
Qed.

End OfferResult.
Section Video.
Context `{Unicode} `{Numbers} `{Sql} `{External float}.

(** *** Properties of the manager that attribute collection preserves *)

Ltac run_ok Hrun x E :=
  match type of Hrun with
  | bind ?c _ = Ok _ =>
    destruct c as [x|] eqn:E; [cbn [bind] in Hrun | discriminate Hrun]
  end.

Section Preserved.
Variable P : manager float -> Prop.
Hypothesis P_add_attribute_value :
  forall m s v dv m', P m -> _add_attribute_value m s v dv = Ok m' -> P m'.
Hypothesis P_add_complex_attribute_value :
  forall m s v m',
    P m -> _add_complex_attribute_value m s v VIDEO_COMPLEX_ID = Ok m' -> P m'.
Hypothesis P_remove :
  forall m s, P m -> P (_remove_ozon_attribute_from_required m s).
Hypothesis P_attribute_map : forall m a, P m -> P (with_attribute_map a m).
Hypothesis P_attributes_errors :
  forall m e, P m -> P (with_attributes_errors e m).

Lemma add_values_data_preserves (values_data : list mapped_value) :
  forall (m : manager float) errors st',
    P m -> add_values_data m errors values_data = Ok st' -> P (fst st').
Proof.
  induction values_data as [|data rest IH]; intros m errors st' Hm;
    cbn [add_values_data].
  - intros [= <-]. exact Hm.
  - destruct (existsb _ COMPLEX_ATTRIBUTE_IDS).
    + intros Hrun. run_ok Hrun m1 E1.
      apply (IH _ _ _ (P_add_complex_attribute_value _ _ _ _ Hm E1) Hrun).
    + destruct (is_zero_id _ && _ && _).
      * destruct (_convert_attribute_value _ _) as [v|e].
        -- intros Hrun. run_ok Hrun m1 E1.
           apply (IH _ _ _ (P_add_attribute_value _ _ _ _ _ Hm E1) Hrun).
        -- destruct e; try discriminate. intros [= <-]. exact Hm.
      * intros Hrun. run_ok Hrun m1 E1.
        apply (IH _ _ _ (P_add_attribute_value _ _ _ _ _ Hm E1) Hrun).
Qed.

Lemma add_if_exists_ids_preserves (ids : list str) (v : pyval float) :
  forall (m : manager float) errors st',
    P m -> add_if_exists_ids m errors ids v = Ok st' -> P (fst st').
Proof.
  induction ids as [|s ids IH]; intros m errors st' Hm;
    cbn [add_if_exists_ids].
  - intros [= <-]. exact Hm.
  - destruct (negb (dict_mem s (_ozon_attributes m))); [apply IH; exact Hm|].
    destruct v; try (intros [= <-]; exact Hm);
      intros Hrun; run_ok Hrun m1 E1;
      apply (IH _ _ _ (P_add_attribute_value _ _ _ _ _ Hm E1) Hrun).
Qed.

Lemma add_if_exists_preserves (st st' : manager float * dict str str)
  (attribute_key : str) (v : pyval float) :
  P (fst st) -> add_if_exists st attribute_key v = Ok st' -> P (fst st').
Proof.
  intros Hm. unfold add_if_exists.
  destruct (dict_get attribute_key OZON_ATTRIBUTES_IDS) as [[s|l]|];
    [| |discriminate]; apply (add_if_exists_ids_preserves _ _ _ _ _ Hm).
Qed.

Lemma add_weight_preserves (m : manager float) (errors : dict str str)
  (offer : dict str (pyval float)) (st' : manager float * dict str str) :
  P m -> add_weight m errors offer = Ok st' -> P (fst st').
Proof.
  intros Hm. unfold add_weight.
  destruct (py_float _) as [x|e]; cbn [bind].
  - destruct (add_if_exists _ _ _) as [st1|e] eqn:E1.
    + intros [= <-]. apply (add_if_exists_preserves (m, errors) _ _ _ Hm E1).
    + destruct e; try discriminate.
      destruct (existsb _ _); intros [= <-]; exact Hm.
  - destruct e; try discriminate.
    destruct (existsb _ _); intros [= <-]; exact Hm.
Qed.

Lemma _add_tn_ved_codes_preserves (db : database float) (m : manager float)
  (offer : dict str (pyval float)) (r : manager float * dict str str) :
  P m -> _add_tn_ved_codes db m offer = Ok r -> P (fst r).
Proof.
  intros Hm. unfold _add_tn_ved_codes. intros Hrun.
  run_ok Hrun m1 E1. injection Hrun as <-. cbn [fst].
  apply (for_each_invariant P _ _) with (3 := E1); [|exact Hm].
  intros m2 item m3 _ Hm2 Hstep.
  apply (for_each_invariant P _ _) with (3 := Hstep); [|exact Hm2].
  intros m4 code m5 _ Hm4. unfold add_tn_ved_code.
  destruct (tn_ved_lookup _ _) as [[v|]|e]; cbn [bind];
    [|intros [= <-]; exact Hm4|discriminate].
  apply (P_add_attribute_value _ _ _ _ _ Hm4).
Qed.

Lemma _collect_attributes_preserves (db : database float)
  (m m' : manager float) (offer : dict str (pyval float)) :
  P m -> _collect_attributes db m offer = Ok m' -> P m'.
Proof.
  intros Hm. unfold _collect_attributes. intros Hrun.
  run_ok Hrun feed_params_values Efeed.
  run_ok Hrun attribute_map Emove.
  run_ok Hrun resolved Eresolved.
  run_ok Hrun st0 Evalues.
  assert (P (fst st0)) as H0'.
  { apply (for_each_invariant (fun st => P (fst st)) _ _) with (3 := Evalues);
      [|apply P_attribute_map; exact Hm].
    intros st values_data st' _ Hst Hstep.
    apply (add_values_data_preserves values_data _ _ _ Hst Hstep). }
  run_ok Hrun st1 E1.
  pose proof (add_if_exists_preserves (fst st0, _) _ _ _ H0' E1) as H1'.
  run_ok Hrun st2 E2.
  pose proof (add_if_exists_preserves _ _ _ _ H1' E2) as H2'.
  run_ok Hrun oid Eid.
  run_ok Hrun st3 E3.
  pose proof (add_if_exists_preserves _ _ _ _ H2' E3) as H3'.
  destruct (parse_dimensions _) as [[length width] height].
  run_ok Hrun st4 E4.
  pose proof (add_if_exists_preserves _ _ _ _ H3' E4) as H4'.
  run_ok Hrun st5 E5.
  pose proof (add_if_exists_preserves _ _ _ _ H4' E5) as H5'.
  run_ok Hrun st6 E6.
  pose proof (add_if_exists_preserves _ _ _ _ H5' E6) as H6'.
  run_ok Hrun st7 E7.
  pose proof (add_weight_preserves _ _ _ _ H6' E7) as H7'.
  run_ok Hrun st8 E8.
  pose proof (add_if_exists_preserves _ _ _ _ H7' E8) as H8'.
  run_ok Hrun st9 E9.
  assert (P (fst st9)) as H9'.
  { revert E9.
    destruct (truthy (get offer (u "description")));
      [|intros [= <-]; exact H8'].
    destruct (get offer (u "description")); try discriminate. intros E9.
    apply (add_if_exists_preserves _ _ _ _ H8' E9). }
  run_ok Hrun tn_ved_result Etn.
  pose proof (_add_tn_ved_codes_preserves db _ offer _ H9' Etn) as Htn.
  run_ok Hrun errors Econs. injection Hrun as <-.
  apply P_attributes_errors. apply P_remove. exact Htn.
Qed.

End Preserved.

(** *** The video group of the complex attributes *)

(** The complex values hold at most the video group, and the attribute
    collected under a key of the group has that key as its id. *)
Definition video_group_only (m : manager float) : Prop :=
  _complex_attributes_values m = [] \/
  exists d,
    _complex_attributes_values m = [(VIDEO_COMPLEX_ID, d)] /\
    forall key e, In (key, e) d -> key = IntKey (cx_id e).

Lemma video_group_only_same (m m' : manager float) :
  _complex_attributes_values m' = _complex_attributes_values m ->
  video_group_only m -> video_group_only m'.
Proof. unfold video_group_only. intros ->. tauto. Qed.

Lemma video_group_only_add (m m' : manager float) (s : str)
  (v : pyval float) :
  video_group_only m ->
  _add_complex_attribute_value m s v VIDEO_COMPLEX_ID = Ok m' ->
  video_group_only m'.
Proof.
  intros Hm. unfold _add_complex_attribute_value.
  destruct (py_int s) as [key|e]; cbn [bind]; [|discriminate].
  intros [= <-]. right.
  cbn [_remove_ozon_attribute_from_required with_required
       with_complex_attributes_values _complex_attributes_values].
  destruct Hm as [-> |[d [-> Hd]]].
  - eexists. split; [reflexivity|]. cbn [dict_get dict_set].
    intros k e [[= <- <-]|[]]. reflexivity.
  - eexists. split; [cbn [dict_get dict_set]; rewrite keyb_refl; reflexivity|].
    intros k e Hin. cbn [dict_get] in Hin. rewrite ?keyb_refl in Hin.
    apply dict_set_In in Hin. destruct Hin as [[-> ->]|Hin];
      [|apply Hd; exact Hin].
    cbn [cx_id]. destruct (dict_get (IntKey key) d) as [e0|] eqn:E0;
      [|reflexivity].
    apply dict_get_In in E0. apply Hd in E0. exact E0.
Qed.

Lemma _collect_attributes_video_group_only (db : database float)
  (m m' : manager float) (offer : dict str (pyval float)) :
  video_group_only m -> _collect_attributes db m offer = Ok m' ->
  video_group_only m'.
Proof.
  apply (_collect_attributes_preserves video_group_only).
  - intros n s v dv n' Hn. unfold _add_attribute_value.
    destruct (py_int s) as [key|e]; cbn [bind]; [|discriminate].
    destruct (int_of_value_id dv) as [d|e]; cbn [bind]; [|discriminate].
    intros [= <-]. apply (video_group_only_same n); [reflexivity | exact Hn].
  - intros n s v n' Hn. apply (video_group_only_add n n' s v Hn).
  - intros n s Hn. apply (video_group_only_same n); [reflexivity | exact Hn].
  - intros n a Hn. apply (video_group_only_same n); [reflexivity | exact Hn].
  - intros n e Hn. apply (video_group_only_same n); [reflexivity | exact Hn].
Qed.

Lemma in_dict_values {K V} (v : V) (d : dict K V) :
  In v (dict_values d) -> exists k, In (k, v) d.
Proof.
  unfold dict_values. intros Hin. apply in_map_iff in Hin.
  destruct Hin as [[k v'] [<- Hin]]. exists k. exact Hin.
Qed.

(** A video link is never returned without a video name: in every group of
    the returned complex attributes that holds a value for attribute 21841
    there is a value for attribute 21837. *)
Theorem video_link_comes_with_a_name (db : database float)
  (m m' : manager float) (offer : dict str (pyval float))
  (info : offer_info float) :
  _collect_offer_parameters db m offer = Ok (info, m') ->
  forall group e,
    In group (complex_attributes info) -> In e group ->
    cx_id e = 21841%Z ->
    exists e', In e' group /\ cx_id e' = 21837%Z.
Proof.
  intros Hrun.
  destruct (_collect_offer_parameters_parts db m m' offer info Hrun)
    as (tags & m1 & m2 & Etags & Eattrs & Einfo).
  destruct (collect_tags_manager _ _ _ Etags) as [te He]. cbn [snd] in He.
  assert (video_group_only m2) as Hgroup.
  { apply (_collect_attributes_video_group_only db m1 m2 offer);
      [|exact Eattrs].
    subst m1. left. reflexivity. }
  clear Hrun Etags Eattrs He.
  unfold build_info in Einfo.
  destruct (offer_vat m2 offer) as [[vat m3]|] eqn:Evat;
    [cbn [bind] in Einfo | discriminate Einfo].
  cbv zeta in Einfo.
  set (m4 := match get offer (u "price") with
             | PNone => tag_error (u "price") (u "missed") m3
             | _ => m3
             end) in Einfo.
  set (m5 := if market_category_deleted m4
             then tag_error (u "Категория") (u "mapped_with_deleted") m4
             else m4) in Einfo.
  assert (video_group_only m5) as Hgroup5.
  { apply (video_group_only_same m2); [|exact Hgroup].
    assert (_complex_attributes_values m3 = _complex_attributes_values m2)
      as <-.
    { revert Evat. unfold offer_vat. cbv zeta.
      repeat match goal with
             | |- context [if ?c then _ else _] => destruct c
             | |- context [match ?c with _ => _ end] => destruct c
             end; try discriminate; intros [= _ <-]; reflexivity. }
    unfold m5, m4.
    destruct (get offer (u "price")); destruct (market_category_deleted _);
      reflexivity. }
  clearbody m5. clear m4 Evat Hgroup.
  assert (py_int VIDEO_URL_ID = Ok 21841%Z) as Hlink by reflexivity.
  assert (py_int VIDEO_NAME_ID = Ok 21837%Z) as Hname by reflexivity.
  rewrite Hlink, Hname in Einfo. cbn [bind] in Einfo.
  match type of Einfo with
  | bind ?c _ = Ok _ =>
    destruct c as [m6|] eqn:E6; [cbn [bind] in Einfo | discriminate Einfo]
  end.
  match type of Einfo with
  | bind ?c _ = Ok _ =>
    destruct c as [oid|]; [cbn [bind] in Einfo | discriminate Einfo]
  end.
  injection Einfo as <- <-. cbn [complex_attributes].
  unfold convert_complex_attributes.
  intros group e Hgroup He Hid.
  apply in_map_iff in Hgroup. destruct Hgroup as [[c d] [<- Hcd]].
  cbn [snd] in *.
  destruct Hgroup5 as [Hnone|[d5 [Hd5 Hkeys]]].
  - rewrite Hnone in E6. cbn in E6. injection E6 as <-.
    rewrite Hnone in Hcd. destruct Hcd.
  - rewrite Hd5 in E6. cbn [dict_get] in E6. rewrite keyb_refl in E6.
    destruct (dict_mem (IntKey 21841) d5
              && negb (dict_mem (IntKey 21837) d5)) eqn:Econd.
    + unfold add_name_to_complex_video in E6. rewrite Hd5, Hname in E6.
      cbn [dict_get bind] in E6. rewrite keyb_refl in E6.
      injection E6 as <-.
      cbn [with_complex_attributes_values _complex_attributes_values
           dict_set] in Hcd.
      rewrite ?keyb_refl in Hcd. destruct Hcd as [[= <- <-]|[]].
      exists {| cx_complex_id := VIDEO_COMPLEX_ID; cx_id := 21837;
                cx_values := [PStr (tags_valid_name tags)] |}.
      split; [|reflexivity].
      unfold dict_values.
      apply (in_map snd _
               (StrKey VIDEO_NAME_ID,
                {| cx_complex_id := VIDEO_COMPLEX_ID; cx_id := 21837;
                   cx_values := [PStr (tags_valid_name tags)] |})).
      apply dict_get_In. apply dict_get_set_same.
    + injection E6 as <-. rewrite Hd5 in Hcd.
      destruct Hcd as [[= <- <-]|[]].
      apply in_dict_values in He. destruct He as [key He].
      pose proof (Hkeys key e He) as Hkey. rewrite Hid in Hkey. subst key.
      assert (dict_mem (IntKey 21841) d5 = true) as Hurl.
      { apply dict_mem_keys. unfold dict_keys.
        apply (in_map fst _ (IntKey 21841, e)). exact He. }
      rewrite Hurl in Econd. cbn [andb] in Econd.
      apply negb_false_iff in Econd. unfold dict_mem in Econd.
      destruct (dict_get (IntKey 21837) d5) as [e'|] eqn:Ename;
        [|discriminate].
      apply dict_get_In in Ename. exists e'. split.
      * unfold dict_values. apply (in_map snd _ (IntKey 21837, e')).
        exact Ename.
      * pose proof (Hkeys _ _ Ename) as Hkey. injection Hkey as Hkey.
        symmetry. exact Hkey.
Qed.

End Video.
Section ModelYear.
Context `{Unicode} `{Numbers} `{Sql} `{External float}.

(** *** Moving the model-year mappings *)

Lemma model_year_names_differ :
  keyb MODEL_YEAR_PARAM MODEL_YEAR_PARAM_INT = false.
Proof.
  apply keyb_neq. unfold MODEL_YEAR_PARAM_INT. intros Heq.
  apply (f_equal (@List.length N)) in Heq. rewrite length_app in Heq.
  cbn in Heq. lia.
Qed.

Lemma dict_get_pop_other {V} (k k' : Z) (d : dict Z V) :
  k' <> k -> dict_get k' (dict_pop k d) = dict_get k' d.
Proof.
  intros Hne. induction d as [|[k0 v0] d IH]; cbn [dict_pop dict_get];
    [reflexivity|].
  destruct (keyb k k0) eqn:E; cbn [dict_get].
  - apply keyb_eq in E. subst k0.
    rewrite (proj2 (keyb_neq k' k) Hne). reflexivity.
  - rewrite IH. reflexivity.
Qed.

Lemma count_pop_other {V} (k k' : Z) (d : dict Z V) :
  k' <> k ->
  count_occ Z.eq_dec (dict_keys (dict_pop k d)) k' =
  count_occ Z.eq_dec (dict_keys d) k'.
Proof.
  intros Hne. unfold dict_keys.
  induction d as [|[k0 v0] d IH]; cbn [dict_pop map]; [reflexivity|].
  destruct (keyb k k0) eqn:E.
  - apply keyb_eq in E. subst k0. cbn [count_occ fst].
    destruct (Z.eq_dec k k'); [congruence | reflexivity].
  - cbn [map count_occ fst].
    destruct (Z.eq_dec k0 k'); rewrite IH; reflexivity.
Qed.

Lemma count_pop_same {V} (k : Z) (v : V) (d : dict Z V) :
  dict_get k d = Some v ->
  S (count_occ Z.eq_dec (dict_keys (dict_pop k d)) k) =
  count_occ Z.eq_dec (dict_keys d) k.
Proof.
  unfold dict_keys.
  induction d as [|[k0 v0] d IH]; cbn [dict_pop dict_get map];
    [discriminate|].
  destruct (keyb k k0) eqn:E.
  - apply keyb_eq in E. subst k0. intros _. cbn [count_occ fst].
    destruct (Z.eq_dec k k); [reflexivity | congruence].
  - intros Hget. apply keyb_neq in E. cbn [map count_occ fst].
    destruct (Z.eq_dec k0 k); [congruence|]. apply IH. exact Hget.
Qed.

(** Every mapping of the bucket that a lookup finds has a [values_map]. *)
Definition settled_bucket (by_mapping : dict Z mapping_data) : Prop :=
  forall id, In id (dict_keys by_mapping) ->
    exists data v,
      dict_get id by_mapping = Some data /\ values_map data = Some v.

(** Nothing is left to move under [MODEL_YEAR_PARAM]. *)
Definition settled (attribute_map : attribute_map_type) : Prop :=
  forall by_mapping,
    dict_get MODEL_YEAR_PARAM attribute_map = Some by_mapping ->
    settled_bucket by_mapping.

Lemma settled_fixed (attribute_map : attribute_map_type) :
  settled attribute_map ->
  move_model_year_mappings attribute_map = Ok attribute_map.
Proof.
  intros Hsettled. unfold move_model_year_mappings.
  destruct (dict_get MODEL_YEAR_PARAM attribute_map) as [by_mapping|] eqn:Eb;
    [|reflexivity].
  specialize (Hsettled by_mapping Eb).
  assert (forall l, (forall id, In id l -> In id (dict_keys by_mapping)) ->
                    for_each move_model_year_mapping l attribute_map
                    = Ok attribute_map) as Hloop.
  { induction l as [|id l IH]; intros Hl; cbn [for_each]; [reflexivity|].
    destruct (Hsettled id (Hl id (or_introl eq_refl)))
      as (data & v & Hget & Hv).
    unfold move_model_year_mapping at 1. rewrite Eb, Hget, Hv. cbn [bind].
    apply IH. intros id' Hid'. apply Hl. right. exact Hid'. }
  apply Hloop. intros id Hid. exact Hid.
Qed.

(** During the loop: a mapping under [id] that a lookup finds either has a
    [values_map], or the loop has as many visits to [id] left as the bucket
    has entries under it. *)
Definition moving (rest : list Z) (attribute_map : attribute_map_type)
  : Prop :=
  exists by_mapping,
    dict_get MODEL_YEAR_PARAM attribute_map = Some by_mapping /\
    forall id,
      (exists data v,
          dict_get id by_mapping = Some data /\ values_map data = Some v) \/
      count_occ Z.eq_dec (dict_keys by_mapping) id
      <= count_occ Z.eq_dec rest id.

Lemma moving_step (id0 : Z) (rest : list Z)
  (attribute_map moved : attribute_map_type) :
  moving (id0 :: rest) attribute_map ->
  move_model_year_mapping attribute_map id0 = Ok moved ->
  moving rest moved.
Proof.
  intros (by_mapping & Eb & Hall). unfold move_model_year_mapping.
  rewrite Eb.
  destruct (dict_get id0 by_mapping) as [data|] eqn:Eid0; [|discriminate].
  destruct (values_map data) as [v|] eqn:Ev.
  - intros [= <-]. exists by_mapping. split; [exact Eb|].
    intros id. destruct (Z.eq_dec id0 id) as [<-|Hne].
    + left. exists data, v. split; assumption.
    + destruct (Hall id) as [Hleft|Hcount]; [left; exact Hleft|].
      right. cbn [count_occ] in Hcount.
      destruct (Z.eq_dec id0 id); [congruence | exact Hcount].
  - rewrite dict_get_set, model_year_names_differ, Eb.
    intros [= <-]. exists (dict_pop id0 by_mapping).
    split; [apply dict_get_set_same|].
    intros id. destruct (Z.eq_dec id0 id) as [<-|Hne].
    + right. destruct (Hall id0) as [(data' & v' & Hget & Hv)|Hcount].
      * rewrite Eid0 in Hget. injection Hget as <-. congruence.
      * cbn [count_occ] in Hcount.
        destruct (Z.eq_dec id0 id0); [|congruence].
        pose proof (count_pop_same id0 data by_mapping Eid0). lia.
    + assert (id <> id0) as Hne' by congruence.
      rewrite (dict_get_pop_other id0 id by_mapping Hne').
      rewrite (count_pop_other id0 id by_mapping Hne').
      destruct (Hall id) as [Hleft|Hcount]; [left; exact Hleft|].
      right. cbn [count_occ] in Hcount.
      destruct (Z.eq_dec id0 id); [congruence | exact Hcount].
Qed.

Lemma moving_loop (rest : list Z) :
  forall attribute_map moved,
    moving rest attribute_map ->
    for_each move_model_year_mapping rest attribute_map = Ok moved ->
    moving [] moved.
Proof.
  induction rest as [|id0 rest IH]; intros attribute_map moved Hm;
    cbn [for_each].
  - intros [= <-]. exact Hm.
  - destruct (move_model_year_mapping attribute_map id0) as [a1|] eqn:E1;
      cbn [bind]; [|discriminate].
    apply IH. apply (moving_step id0 rest attribute_map a1 Hm E1).
Qed.

Lemma moved_settled (attribute_map moved : attribute_map_type) :
  move_model_year_mappings attribute_map = Ok moved -> settled moved.
Proof.
  unfold move_model_year_mappings.
  destruct (dict_get MODEL_YEAR_PARAM attribute_map) as [by_mapping|] eqn:Eb.
  - intros Hrun.
    destruct (moving_loop (dict_keys by_mapping) attribute_map moved)
      as (final & Efinal & Hall); [|exact Hrun|].
    + exists by_mapping. split; [exact Eb|]. intros id. right. lia.
    + intros bm Hbm id Hid. rewrite Efinal in Hbm. injection Hbm as <-.
      destruct (Hall id) as [Hleft|Hcount]; [exact Hleft|].
      cbn [count_occ] in Hcount.
      apply (count_occ_In Z.eq_dec) in Hid. lia.
  - intros [= <-] bm Hbm. congruence.
Qed.

(** Moving the model-year mappings a second time changes nothing. *)
Lemma move_model_year_mappings_twice (attribute_map moved : attribute_map_type) :
  move_model_year_mappings attribute_map = Ok moved ->
  move_model_year_mappings moved = Ok moved.
Proof. intros Hrun. apply settled_fixed. apply (moved_settled _ _ Hrun). Qed.

End ModelYear.
Section Batch.
Context `{Unicode} `{Numbers} `{Sql} `{External float}.

(** *** One offer after another *)

Lemma collect_tags_attribute_map (n : manager float)
  (a : attribute_map_type) (offer : dict str (pyval float)) :
  related (fun r1 r2 => fst r1 = fst r2 /\
                        snd r1 = with_attribute_map a (snd r2) /\
                        _attribute_map (snd r2) = _attribute_map n)
          (collect_tags (with_attribute_map a n) offer)
          (collect_tags n offer).
Proof.
  unfold collect_tags, offer_weight. cbv zeta.
  destruct (valid_name_of _) as [valid_name|e]; cbn [bind related];
    [|reflexivity].
  destruct (negb (truthy (offer_name offer)));
    destruct (truthy (get offer (u "dimensions")));
    try destruct (parse_dimensions _) as [[depth width] height];
    destruct (float_parse _);
    destruct (_get offer (u "picture") (PList [])) as [| | | | |[|first l]|];
    cbn [related fst snd]; try destruct (negb (truthy _));
    repeat split; reflexivity.
Qed.

Lemma _collect_attributes_moved (db : database float) (n : manager float)
  (a : attribute_map_type) (offer : dict str (pyval float)) :
  move_model_year_mappings (_attribute_map n) = Ok a ->
  _collect_attributes db (with_attribute_map a n) offer =
  _collect_attributes db n offer.
Proof.
  intros Hmove. unfold _collect_attributes.
  destruct (feed_params_values_of offer) as [feed_params_values|e];
    cbn [bind]; [|reflexivity].
  cbn [with_attribute_map _attribute_map].
  rewrite (move_model_year_mappings_twice _ _ Hmove), Hmove. cbn [bind].
  reflexivity.
Qed.

Lemma _collect_offer_parameters_moved (db : database float)
  (m : manager float) (a : attribute_map_type)
  (offer : dict str (pyval float)) :
  move_model_year_mappings (_attribute_map m) = Ok a ->
  _collect_offer_parameters db (with_attribute_map a m) offer =
  _collect_offer_parameters db m offer.
Proof.
  intros Hmove. apply related_eq. unfold _collect_offer_parameters. cbv zeta.
  apply (related_bind _ eq _ _ _ _
           (collect_tags_attribute_map (reset_offer_state m) a offer)).
  intros [tags1 n1] [tags2 n2] (Htags & Hn & Hmap). cbn [fst snd] in *.
  subst tags2 n1.
  rewrite (_collect_attributes_moved db n2 a offer)
    by (rewrite Hmap; exact Hmove).
  apply related_refl.
Qed.

(** What an offer leaves in the manager for the next one. *)
Lemma _collect_offer_parameters_leaves (db : database float)
  (m m1 : manager float) (offer : dict str (pyval float))
  (info : offer_info float) :
  _collect_offer_parameters db m offer = Ok (info, m1) ->
  exists a,
    move_model_year_mappings (_attribute_map m) = Ok a /\
    same_configuration m1 (with_attribute_map a m).
Proof.
  intros Hrun.
  destruct (_collect_offer_parameters_parts db m m1 offer info Hrun)
    as (tags & n1 & n2 & Etags & Eattrs & Einfo).
  destruct (collect_tags_manager _ _ _ Etags) as [e He]. cbn [snd] in He.
  subst n1.
  destruct (_collect_attributes_returns db
              (with_tags_errors e (reset_offer_state m)) n2 offer
              (fun s Hs => Hs) Eattrs)
    as (errors & _ & Hmove & Hcat & Hdel & Hozon & _).
  destruct (build_info_closes tags n2 m1 offer info Einfo)
    as (Hcat' & Hdel' & Hmap' & Hozon' & _).
  exists (_attribute_map n2). split; [exact Hmove|].
  unfold same_configuration. cbn in *. repeat split; congruence.
Qed.

Lemma _collect_offer_parameters_next (db : database float)
  (m m1 : manager float) (offer offer' : dict str (pyval float))
  (info : offer_info float) :
  _collect_offer_parameters db m offer = Ok (info, m1) ->
  _collect_offer_parameters db m1 offer' =
  _collect_offer_parameters db m offer'.
Proof.
  intros Hrun.
  destruct (_collect_offer_parameters_leaves db m m1 offer info Hrun)
    as (a & Hmove & Hsame).
  rewrite (_collect_offer_parameters_configuration db m1
             (with_attribute_map a m) offer' Hsame).
  apply _collect_offer_parameters_moved. exact Hmove.
Qed.

(** The dictionaries that a batch of offers returns are those that each
    offer gives when it is processed alone by the same manager: no offer
    changes what a later one returns. *)
Theorem collect_offers_one_by_one (db : database float)
  (offers : list (dict str (pyval float))) :
  forall (m m' : manager float) (infos : list (offer_info float)),
    collect_offers db m offers = Ok (infos, m') ->
    Forall2 (fun offer info =>
               exists m1, _collect_offer_parameters db m offer = Ok (info, m1))
            offers infos.
Proof.
  induction offers as [|offer rest IH]; intros m m' infos;
    cbn [collect_offers].
  - intros [= <- _]. constructor.
  - destruct (_collect_offer_parameters db m offer) as [[info m1]|] eqn:E1;
      cbn [bind fst snd]; [|discriminate].
    destruct (collect_offers db m1 rest) as [[infos' m2]|] eqn:Erest;
      cbn [bind fst snd]; [|discriminate].
    intros [= <- <-]. constructor; [exists m1; exact E1|].
    refine (Forall2_impl _ _ (IH m1 m2 infos' Erest)).
    intros offer' info' [m3 Hm3]. exists m3.
    rewrite <- (_collect_offer_parameters_next db m m1 offer offer' info E1).
    exact Hm3.
Qed.

End Batch.
Section ExtractedCode.
Context `{Unicode} `{Numbers} `{Sql} `{External float}.

(** *** The code that [_extract_tn_ved_code] takes from a dictionary value *)

Lemma take_while_In (p : N -> bool) (s : str) (c : N) :
  In c (take_while p s) -> p c = true.
Proof.
  induction s as [|x s IH]; cbn [take_while]; [intros []|].
  destruct (p x) eqn:Ex; [|intros []].
  intros [<-|Hin]; [exact Ex | apply IH; exact Hin].
Qed.

Lemma take_while_all (p : N -> bool) (s : str) :
  (forall c, In c s -> p c = true) -> take_while p s = s.
Proof.
  induction s as [|x s IH]; intros Hall; cbn [take_while]; [reflexivity|].
  rewrite (Hall x (or_introl eq_refl)). rewrite IH; [reflexivity|].
  intros c Hc. apply Hall. right. exact Hc.
Qed.

Lemma drop_while_In (p : N -> bool) (s : str) (c : N) :
  In c (drop_while p s) -> In c s.
Proof.
  induction s as [|x s IH]; cbn [drop_while]; [intros []|].
  destruct (p x); [intros Hin; right; apply IH; exact Hin|].
  intros Hin. exact Hin.
Qed.

Lemma drop_while_head (p : N -> bool) (s : str) :
  match drop_while p s with
  | [] => True
  | x :: _ => p x = false
  end.
Proof.
  induction s as [|x s IH]; cbn [drop_while]; [exact I|].
  destruct (p x) eqn:Ex; [exact IH | exact Ex].
Qed.

Lemma replace_app (old : N) (new s t : str) :
  replace old new (s ++ t) = replace old new s ++ replace old new t.
Proof. unfold replace. apply flat_map_app. Qed.

Lemma replace_In (old : N) (s : str) (c : N) :
  In c (replace old [] s) -> In c s /\ c <> old.
Proof.
  unfold replace. intros Hin. apply in_flat_map in Hin.
  destruct Hin as [x [Hx Hc]]. destruct (N.eqb_spec x old); [destruct Hc|].
  destruct Hc as [<-|[]]. split; assumption.
Qed.

Lemma replace_absent (old : N) (new s : str) :
  ~ In old s -> replace old new s = s.
Proof.
  unfold replace. induction s as [|x s IH]; intros Hn; cbn [flat_map];
    [reflexivity|].
  destruct (N.eqb_spec x old) as [->|Hne];
    [exfalso; apply Hn; left; reflexivity|].
  cbn [app]. rewrite IH; [reflexivity|].
  intros Hin. apply Hn. right. exact Hin.
Qed.

(** What a match of the pattern looks like. *)
Lemma search_code_found (s found : str) :
  search_code s = Some found ->
  exists c middle d,
    found = c :: middle ++ [d] /\
    is_digit c = true /\ is_digit d = true /\
    2 <= List.length middle /\
    forall x, In x middle -> is_code_char x = true.
Proof.
  induction s as [|c s IH]; cbn [search_code]; [discriminate|].
  destruct (is_digit c) eqn:Ec; [|exact IH].
  set (trimmed := drop_while (fun d => negb (is_digit d))
                             (rev (take_while is_code_char s))).
  destruct (3 <=? List.length (rev trimmed))%nat eqn:Elen; [|exact IH].
  intros [= <-]. apply Nat.leb_le in Elen. rewrite length_rev in Elen.
  pose proof (drop_while_head (fun d => negb (is_digit d))
                              (rev (take_while is_code_char s))) as Hhead.
  fold trimmed in Hhead.
  assert (forall x, In x trimmed -> is_code_char x = true) as Hchars.
  { intros x Hx. apply drop_while_In in Hx. apply in_rev in Hx.
    apply (take_while_In _ _ _ Hx). }
  destruct trimmed as [|d rest]; [cbn in Elen; lia|].
  exists c, (rev rest), d. cbn [rev]. split; [reflexivity|].
  split; [exact Ec|]. split; [apply negb_false_iff; exact Hhead|].
  split; [rewrite length_rev; cbn in Elen; lia|].
  intros x Hx. apply Hchars. right. apply in_rev. exact Hx.
Qed.

Lemma is_digit_not_space (c : N) : is_digit c = true -> c <> 0x20%N.
Proof. intros Hc ->. discriminate. Qed.

(** The extracted code is made of digits and points, has no space, and
    when it is not empty it begins and ends with a digit. *)
Theorem _extract_tn_ved_code_shape (code : str) :
  (forall c, In c (_extract_tn_ved_code code) ->
             is_digit c = true \/ c = 0x2E%N) /\
  (_extract_tn_ved_code code = [] \/
   exists c middle d,
     _extract_tn_ved_code code = c :: middle ++ [d] /\
     is_digit c = true /\ is_digit d = true).
Proof.
  unfold _extract_tn_ved_code.
  destruct (search_code code) as [found|] eqn:Efound;
    [|split; [intros c []|left; reflexivity]].
  destruct (search_code_found code found Efound)
    as (c & middle & d & -> & Hc & Hd & _ & Hmiddle).
  assert (replace 0x20 [] (c :: middle ++ [d])
          = c :: replace 0x20 [] middle ++ [d]) as ->.
  { change (c :: middle ++ [d]) with ([c] ++ middle ++ [d]).
    rewrite !replace_app.
    rewrite (replace_absent 0x20 [] [c]), (replace_absent 0x20 [] [d]);
      [reflexivity| |];
      intros [Heq|[]];
      first [exact (is_digit_not_space d Hd Heq)
            |exact (is_digit_not_space c Hc Heq)]. }
  split.
  - intros x [<-|Hx]; [left; exact Hc|].
    apply in_app_or in Hx. destruct Hx as [Hx|[<-|[]]]; [|left; exact Hd].
    apply replace_In in Hx. destruct Hx as [Hx Hne].
    specialize (Hmiddle x Hx). unfold is_code_char in Hmiddle.
    apply orb_true_iff in Hmiddle. destruct Hmiddle as [Hm|Hm];
      [|right; apply N.eqb_eq; exact Hm].
    apply orb_true_iff in Hm. destruct Hm as [Hm|Hm]; [left; exact Hm|].
    apply N.eqb_eq in Hm. contradiction.
  - right. exists c, (replace 0x20 [] middle), d.
    split; [reflexivity|]. split; assumption.
Qed.

(** A dictionary value that is a plain code, four digits or more and
    nothing else, is filed under itself. *)
Theorem _extract_tn_ved_code_digits (code : str) :
  (forall c, In c code -> is_digit c = true) ->
  4 <= List.length code ->
  _extract_tn_ved_code code = code.
Proof.
  intros Hdigits Hlen. unfold _extract_tn_ved_code.
  destruct code as [|c s]; [cbn in Hlen; lia|].
  cbn [search_code]. rewrite (Hdigits c (or_introl eq_refl)).
  assert (forall x, In x s -> is_digit x = true) as Hs
      by (intros x Hx; apply Hdigits; right; exact Hx).
  rewrite (take_while_all is_code_char s)
    by (intros x Hx; unfold is_code_char; rewrite (Hs x Hx); reflexivity).
  assert (drop_while (fun d => negb (is_digit d)) (rev s) = rev s) as ->.
  { destruct (rev s) as [|x l] eqn:Erev; [reflexivity|].
    cbn [drop_while]. rewrite Hs; [reflexivity|].
    apply in_rev. rewrite Erev. left. reflexivity. }
  rewrite rev_involutive.
  assert ((3 <=? List.length s)%nat = true) as ->
      by (apply Nat.leb_le; cbn in Hlen; lia).
  apply replace_absent. intros Hin.
  apply (is_digit_not_space 0x20 (Hdigits _ Hin)). reflexivity.
Qed.

End ExtractedCode.
Section Integers.
Context `{Unicode} `{Numbers} `{Sql} `{External float}.

(** *** [int] of [str] of an integer *)

Lemma digit_char (d : N) :
  (d < 10)%N ->
  is_digit (0x30 + d) = true /\ Z.of_N (0x30 + d - 0x30) = Z.of_N d.
Proof.
  intros Hd. unfold is_digit. split.
  - apply andb_true_iff. split; apply N.leb_le; lia.
  - f_equal. lia.
Qed.

Lemma digits_fuel_S (f : nat) (n : N) (rest : str) :
  digits_fuel (S f) n rest =
  if (n <? 10)%N then (0x30 + n mod 10)%N :: rest
  else digits_fuel f (n / 10)%N ((0x30 + n mod 10)%N :: rest).
Proof. reflexivity. Qed.

Lemma digits_fuel_value (f : nat) :
  forall (n : N) (rest : str) (a : Z) (b : bool),
    (n < 2 ^ N.of_nat (S f))%N ->
    exists k : Z,
      int_digits a b (digits_fuel (S f) n rest) =
      int_digits (a * 10 ^ k + Z.of_N n) true rest /\ (0 <= k)%Z.
Proof.
  induction f as [|f IH]; intros n rest a b Hn; rewrite digits_fuel_S.
  - assert (n < 10)%N as Hsmall by (cbn in Hn; lia).
    rewrite (proj2 (N.ltb_lt n 10) Hsmall).
    rewrite (N.mod_small n 10 Hsmall).
    destruct (digit_char n Hsmall) as [Hdigit Hval].
    cbn [int_digits]. rewrite Hdigit, Hval. exists 1%Z.
    split; [f_equal; lia | lia].
  - destruct (N.ltb_spec n 10) as [Hsmall|Hbig].
    + rewrite (N.mod_small n 10 Hsmall).
      destruct (digit_char n Hsmall) as [Hdigit Hval].
      cbn [int_digits]. rewrite Hdigit, Hval. exists 1%Z.
      split; [f_equal; lia | lia].
    + assert (n / 10 < 2 ^ N.of_nat (S f))%N as Hdiv.
      { apply N.Div0.div_lt_upper_bound.
        replace (N.of_nat (S (S f))) with (N.succ (N.of_nat (S f))) in Hn
          by lia.
        rewrite N.pow_succ_r' in Hn. lia. }
      destruct (IH (n / 10)%N ((0x30 + n mod 10)%N :: rest) a b Hdiv)
        as [k [Hrun Hk]].
      rewrite Hrun.
      assert (n mod 10 < 10)%N as Hmod by (apply N.mod_lt; lia).
      destruct (digit_char (n mod 10) Hmod) as [Hdigit Hval].
      cbn [int_digits]. rewrite Hdigit, Hval. exists (k + 1)%Z.
      split; [|lia]. f_equal.
      rewrite Z.pow_add_r by lia.
      pose proof (N.div_mod n 10) as Hdm.
      assert (Z.of_N n = 10 * Z.of_N (n / 10) + Z.of_N (n mod 10))%Z by lia.
      lia.
Qed.

Lemma digits_fuel_digits (f : nat) :
  forall (n : N) (rest : str),
    (forall c, In c rest -> is_digit c = true) ->
    forall c, In c (digits_fuel f n rest) -> is_digit c = true.
Proof.
  induction f as [|f IH]; intros n rest Hrest; [exact Hrest|].
  rewrite digits_fuel_S.
  assert (forall c, In c ((0x30 + n mod 10)%N :: rest) -> is_digit c = true)
    as Hrest'.
  { intros c [<-|Hc]; [|apply Hrest; exact Hc].
    apply digit_char. apply N.mod_lt. lia. }
  destruct (n <? 10)%N; [exact Hrest'|]. apply IH. exact Hrest'.
Qed.

Lemma str_of_N_value (n : N) :
  int_digits 0 false (str_of_N n) = Some (Z.of_N n).
Proof.
  unfold str_of_N.
  destruct (digits_fuel_value (N.to_nat (N.log2 n)) n [] 0%Z false)
    as [k [Hrun _]].
  - replace (N.of_nat (S (N.to_nat (N.log2 n)))) with (N.succ (N.log2 n))
      by lia.
    destruct n as [|p]; [reflexivity|]. apply N.log2_spec. reflexivity.
  - rewrite Hrun. reflexivity.
Qed.

Lemma str_of_N_digits (n : N) (c : N) :
  In c (str_of_N n) -> is_digit c = true.
Proof. apply digits_fuel_digits. intros x []. Qed.

Lemma is_digit_is_space (c : N) : is_digit c = true -> is_space c = false.
Proof.
  unfold is_digit. intros Hc. apply andb_true_iff in Hc.
  destruct Hc as [Hlo Hhi]. apply N.leb_le in Hlo, Hhi.
  assert (c = 48 \/ c = 49 \/ c = 50 \/ c = 51 \/ c = 52 \/ c = 53 \/
          c = 54 \/ c = 55 \/ c = 56 \/ c = 57)%N as Hcases by lia.
  repeat (destruct Hcases as [->|Hcases]; [reflexivity|]). subst c.
  reflexivity.
Qed.

Lemma strip_no_space (s : str) :
  (forall c, In c s -> is_space c = false) -> strip s = s.
Proof.
  assert (forall t, (forall c, In c t -> is_space c = false) -> lstrip t = t)
    as Hl.
  { intros [|c t] Ht; [reflexivity|]. cbn [lstrip].
    rewrite (Ht c (or_introl eq_refl)). reflexivity. }
  intros Hs. unfold strip, rstrip. rewrite (Hl s Hs).
  rewrite Hl; [apply rev_involutive|].
  intros c Hc. apply Hs. apply in_rev. exact Hc.
Qed.

(** [int(str(z)) == z] *)
Lemma int_of_str_of_Z (z : Z) : int_of_str (str_of_Z z) = Some z.
Proof.
  destruct z as [|p|p]; [reflexivity| |].
  - unfold int_of_str, str_of_Z.
    rewrite strip_no_space
      by (intros c Hc; apply is_digit_is_space;
          apply (str_of_N_digits _ _ Hc)).
    pose proof (str_of_N_value (Npos p)) as Hvalue.
    pose proof (str_of_N_digits (Npos p)) as Hdigits.
    destruct (str_of_N (Npos p)) as [|c s]; [discriminate|].
    specialize (Hdigits c (or_introl eq_refl)).
    destruct (N.eqb_spec c 0x2D) as [->|_]; [discriminate|].
    destruct (N.eqb_spec c 0x2B) as [->|_]; [discriminate|].
    exact Hvalue.
  - unfold int_of_str, str_of_Z.
    rewrite strip_no_space.
    + cbn [N.eqb Pos.eqb]. rewrite (str_of_N_value (Npos p)). reflexivity.
    + intros c [<-|Hc]; [reflexivity|]. apply is_digit_is_space.
      apply (str_of_N_digits _ _ Hc).
Qed.

(** The conversion of a value of an [Integer] attribute gives the decimal
    writing of the number that [int] reads, and converting that again
    leaves it as it is. *)
Theorem _convert_attribute_value_integer (v v' : str) :
  _convert_attribute_value v (Some (u "Integer")) = Ok v' ->
  (exists z, int_of_str v = Some z /\ v' = str_of_Z z) /\
  _convert_attribute_value v' (Some (u "Integer")) = Ok v'.
Proof.
  unfold _convert_attribute_value.
  assert (keyb (Some (u "Integer")) (Some (u "Decimal")) = false) as ->
      by reflexivity.
  assert (keyb (Some (u "Integer")) (Some (u "Integer")) = true) as ->
      by reflexivity.
  unfold py_int. destruct (int_of_str v) as [z|]; cbn [bind]; [|discriminate].
  intros [= <-]. split; [exists z; split; reflexivity|].
  rewrite int_of_str_of_Z. reflexivity.
Qed.

(** Source ids that are written as [str] writes integers are different
    numbers when they are different strings. *)
Theorem canonical_ids_are_distinct (m : manager float) :
  (forall s, In s (source_ids m) -> exists z, s = str_of_Z z) ->
  distinct_ids m.
Proof.
  intros Hcanonical s s' key Hs Hs' Hkey Hkey'.
  destruct (Hcanonical s Hs) as [z ->].
  destruct (Hcanonical s' Hs') as [z' ->].
  rewrite int_of_str_of_Z in Hkey, Hkey'. congruence.
Qed.

End Integers.
Section Dimensions.
Context `{Unicode} `{Numbers} `{Sql} `{External float}.

(** *** The dimensions of an offer *)

(** The tag error recorded for the dimensions. *)
Definition dimensions_error (m : manager float) : option str :=
  dict_get (u "dimensions") (_tags_errors m).

Lemma tag_error_other (tag error : str) (m : manager float) :
  keyb (u "dimensions") tag = false ->
  dimensions_error (tag_error tag error m) = dimensions_error m.
Proof.
  intros Hk. unfold dimensions_error, tag_error. cbn [_tags_errors with_tags_errors].
  rewrite dict_get_set, Hk. reflexivity.
Qed.

Lemma dimension_part_integer (v part : str) :
  dimension_part v = Some part -> exists z : Z, part = str_of_Z z.
Proof.
  unfold dimension_part.
  destruct (float_parse _) as [x|]; [|discriminate].
  destruct (float_to_Z _) as [z|]; [|discriminate].
  intros [= <-]. exists z. reflexivity.
Qed.

(** Whatever it is given, [parse_dimensions] returns three integers in
    decimal writing. *)
Lemma parse_dimensions_integers (dimensions : pyval float) :
  exists d w h : Z,
    parse_dimensions dimensions = (str_of_Z d, str_of_Z w, str_of_Z h).
Proof.
  assert (exists d w h : Z,
             zero_dimensions = (str_of_Z d, str_of_Z w, str_of_Z h)) as Hzero
      by (exists 0%Z, 0%Z, 0%Z; reflexivity).
  unfold parse_dimensions.
  destruct dimensions as [| | | |s| |]; try exact Hzero.
  destruct (map dimension_part _) as [|[a|] [|[b|] [|[c|] [|x l]]]] eqn:Eparts;
    try exact Hzero.
  destruct (split (u "/") (replace 0x2C (u ".") s)) as [|p1 [|p2 [|p3 l]]];
    try discriminate Eparts.
  cbn [map] in Eparts. injection Eparts as Ea Eb Ec _.
  destruct (dimension_part_integer _ _ Ea) as [d ->].
  destruct (dimension_part_integer _ _ Eb) as [w ->].
  destruct (dimension_part_integer _ _ Ec) as [h ->].
  exists d, w, h. reflexivity.
Qed.

Lemma collect_tags_dimensions (m : manager float)
  (offer : dict str (pyval float)) tags m1 :
  collect_tags m offer = Ok (tags, m1) ->
  if truthy (get offer (u "dimensions"))
  then dimensions_error m1 = dimensions_error m /\
       parse_dimensions (get offer (u "dimensions")) =
       (match tags_depth tags with Some s => s | None => [] end,
        match tags_width tags with Some s => s | None => [] end,
        match tags_height tags with Some s => s | None => [] end) /\
       tags_depth tags <> None /\ tags_width tags <> None /\
       tags_height tags <> None
  else dimensions_error m1 = Some (u "missing") /\
       tags_depth tags = None /\ tags_width tags = None /\
       tags_height tags = None.
Proof.
  unfold collect_tags, offer_weight. cbv zeta.
  destruct (valid_name_of _) as [valid_name|e]; cbn [bind]; [|discriminate].
  set (images := match _get offer (u "picture") (PList []) with
                 | PList l => l
                 | v => [v]
                 end).
  set (m0 := if negb (truthy (offer_name offer))
             then tag_error (u "@name/name/model") (u "missing") m else m).
  assert (dimensions_error m0 = dimensions_error m) as Hname.
  { unfold m0. destruct (negb _); [|reflexivity].
    apply tag_error_other. reflexivity. }
  assert (forall m2, dimensions_error
                       (tag_error (u "dimensions") (u "missing") m2)
                     = Some (u "missing")) as Hmissing.
  { intros m2. unfold dimensions_error, tag_error.
    cbn [_tags_errors with_tags_errors]. apply dict_get_set_same. }
  destruct (truthy (get offer (u "dimensions"))) eqn:Edims.
  - destruct (parse_dimensions _) as [[depth width] height].
    destruct (float_parse _);
      (destruct images as [|first l]; [|destruct (negb (truthy first))]);
      intros [= <- <-]; cbn [tags_depth tags_width tags_height];
      rewrite ?tag_error_other by reflexivity;
      (split; [exact Hname|]); repeat split; discriminate.
  - destruct (float_parse _);
      (destruct images as [|first l]; [|destruct (negb (truthy first))]);
      intros [= <- <-]; cbn [tags_depth tags_width tags_height];
      rewrite ?tag_error_other by reflexivity;
      rewrite Hmissing; repeat split.
Qed.

Lemma offer_vat_dimensions (m : manager float)
  (offer : dict str (pyval float)) r :
  offer_vat m offer = Ok r -> dimensions_error (snd r) = dimensions_error m.
Proof.
  unfold offer_vat. cbv zeta.
  destruct (eq_str _ []);
    [intros [= <-]; apply tag_error_other; reflexivity|].
  destruct (eq_str _ (u "NO_VAT")); [intros [= <-]; reflexivity|].
  destruct (_get offer (u "vat") (PStr (u "VAT_20"))); try discriminate.
  destruct (dict_get s VAT_BY_CODE); [intros [= <-]; reflexivity|].
  destruct (int_of_str _); intros [= <-];
    [reflexivity | apply tag_error_other; reflexivity].
Qed.

Lemma build_info_dimensions (tags : offer_tags float) (m m' : manager float)
  (offer : dict str (pyval float)) (info : offer_info float) :
  build_info tags m offer = Ok (info, m') ->
  dimensions_error m' = dimensions_error m /\
  depth info = tags_depth tags /\ width info = tags_width tags /\
  height info = tags_height tags.
Proof.
  unfold build_info. intros Hrun.
  destruct (offer_vat m offer) as [[vat m1]|] eqn:Evat;
    [cbn [bind] in Hrun | discriminate Hrun].
  pose proof (offer_vat_dimensions m offer _ Evat) as Hvat. cbn [snd] in Hvat.
  cbv zeta in Hrun.
  set (m2 := match get offer (u "price") with
             | PNone => tag_error (u "price") (u "missed") m1
             | _ => m1
             end) in Hrun.
  assert (dimensions_error m2 = dimensions_error m1) as Hprice.
  { unfold m2. destruct (get offer (u "price"));
      first [reflexivity | apply tag_error_other; reflexivity]. }
  set (m3 := if market_category_deleted m2
             then tag_error (u "Категория") (u "mapped_with_deleted") m2
             else m2) in Hrun.
  assert (dimensions_error m3 = dimensions_error m2) as Hcategory.
  { unfold m3. destruct (market_category_deleted m2);
      first [reflexivity | apply tag_error_other; reflexivity]. }
  destruct (py_int VIDEO_URL_ID) as [video_url_id|];
    [cbn [bind] in Hrun | discriminate Hrun].
  destruct (py_int VIDEO_NAME_ID) as [video_name_id|];
    [cbn [bind] in Hrun | discriminate Hrun].
  match type of Hrun with
  | bind ?c _ = Ok _ =>
    destruct c as [m4|] eqn:E4; [cbn [bind] in Hrun | discriminate Hrun]
  end.
  assert (dimensions_error m4 = dimensions_error m3) as Hvideo.
  { revert E4. destruct (_ && _); [|intros [= <-]; reflexivity].
    unfold add_name_to_complex_video.
    destruct (dict_get VIDEO_COMPLEX_ID _); [|discriminate].
    destruct (py_int VIDEO_NAME_ID); cbn [bind]; [|discriminate].
    intros [= <-]. reflexivity. }
  match type of Hrun with
  | bind ?c _ = Ok _ =>
    destruct c as [oid|]; [cbn [bind] in Hrun | discriminate Hrun]
  end.
  injection Hrun as <- <-. cbn [depth width height].
  split; [congruence|]. repeat split.
Qed.

(** *** What [parse_dimensions] can read *)

(** The parts of the dimensions: commas are points, and [/] separates. *)
Definition dimension_parts (s : str) : list str :=
  split (u "/") (replace 0x2C (u ".") s).

(** Dimensions that cannot be read: a value that is not a string, or a
    string that is not three parts, or with a part that is not a number
    with an integer part. *)
Definition unreadable (dimensions : pyval float) : Prop :=
  match dimensions with
  | PStr s =>
    List.length (dimension_parts s) <> 3%nat \/
    exists part, In part (dimension_parts s) /\ dimension_part part = None
  | _ => True
  end.

Lemma parse_dimensions_unreadable (dimensions : pyval float) :
  unreadable dimensions -> parse_dimensions dimensions = zero_dimensions.
Proof.
  unfold parse_dimensions, unreadable.
  destruct dimensions as [| | | |s| |]; try reflexivity.
  fold (dimension_parts s).
  destruct (dimension_parts s) as [|p1 [|p2 [|p3 [|p4 l]]]];
    intros [Hlength|(part & Hin & Hpart)]; cbn [map];
    try reflexivity; try (destruct Hin; fail);
    try (exfalso; apply Hlength; reflexivity);
    repeat match goal with
           | |- context [match dimension_part ?p with _ => _ end] =>
             destruct (dimension_part p) eqn:?; try reflexivity
           end.
  exfalso. cbn [In] in Hin.
  destruct Hin as [<-|[<-|[<-|[]]]]; congruence.
Qed.

Lemma parse_dimensions_readable (s length width height : str) :
  map dimension_part (dimension_parts s) =
    [Some length; Some width; Some height] ->
  parse_dimensions (PStr s) = (length, width, height).
Proof.
  unfold parse_dimensions. fold (dimension_parts s).
  intros ->. reflexivity.
Qed.

(** A string is read or it is not. *)
Lemma readable_or_unreadable (dimensions : pyval float) :
  unreadable dimensions \/
  exists s length width height,
    dimensions = PStr s /\
    map dimension_part (dimension_parts s) =
      [Some length; Some width; Some height].
Proof.
  destruct dimensions as [| | | |s| |]; try (left; exact I).
  unfold unreadable.
  destruct (dimension_parts s) as [|p1 [|p2 [|p3 [|p4 l]]]] eqn:Eparts;
    try (left; left; discriminate).
  cbn [map In].
  destruct (dimension_part p1) as [a|] eqn:E1;
    [|left; right; exists p1; split; [left; reflexivity|exact E1]].
  destruct (dimension_part p2) as [b|] eqn:E2;
    [|left; right; exists p2; split; [right; left; reflexivity|exact E2]].
  destruct (dimension_part p3) as [c|] eqn:E3;
    [|left; right; exists p3; split;
      [right; right; left; reflexivity|exact E3]].
  right. exists s, a, b, c. split; [reflexivity|].
  rewrite Eparts. cbn [map]. rewrite E1, E2, E3. reflexivity.
Qed.

(** Dimensions are reported only when the tag is missing or empty. A
    [dimensions] value that cannot be read (not three parts, not numbers,
    not a string) raises no tag error: the offer is given the dimensions
    that [parse_dimensions] returns, three integers in decimal writing.
    They are three zeros when the value cannot be read, and the three parts
    as integers when it can. *)
Theorem unreadable_dimensions_are_not_reported (db : database float)
  (m m' : manager float) (offer : dict str (pyval float))
  (info : offer_info float) :
  _collect_offer_parameters db m offer = Ok (info, m') ->
  if truthy (get offer (u "dimensions"))
  then dict_get (u "dimensions") (tags_errors info) = None /\
       (exists d w h : Z,
           parse_dimensions (get offer (u "dimensions")) =
           (str_of_Z d, str_of_Z w, str_of_Z h) /\
           depth info = Some (str_of_Z d) /\
           width info = Some (str_of_Z w) /\
           height info = Some (str_of_Z h)) /\
       (unreadable (get offer (u "dimensions")) ->
        depth info = Some (u "0") /\
        width info = Some (u "0") /\
        height info = Some (u "0")) /\
       (forall s length width' height',
           get offer (u "dimensions") = PStr s ->
           map dimension_part (dimension_parts s) =
             [Some length; Some width'; Some height'] ->
           depth info = Some length /\
           width info = Some width' /\
           height info = Some height')
  else dict_get (u "dimensions") (tags_errors info) = Some (u "missing") /\
       depth info = None /\ width info = None /\ height info = None.
Proof.
  intros Hrun.
  destruct (_collect_offer_parameters_parts db m m' offer info Hrun)
    as (tags & m1 & m2 & Etags & Eattrs & Einfo).
  destruct (build_info_returns tags m2 m' offer info Einfo)
    as (_ & Htags & _).
  destruct (build_info_dimensions tags m2 m' offer info Einfo)
    as (Hdims & Hdepth & Hwidth & Hheight).
  destruct (collect_tags_manager _ _ _ Etags) as [e He]. cbn [snd] in He.
  assert (_tags_errors m2 = _tags_errors m1) as Hkept.
  { destruct (_collect_attributes_returns db m1 m2 offer) as
        (errors & _ & _ & _ & _ & _ & Hkept & _).
    - subst m1. intros s Hs. exact Hs.
    - exact Eattrs.
    - exact Hkept. }
  pose proof (collect_tags_dimensions _ offer tags m1 Etags) as Hcollected.
  assert (dict_get (u "dimensions") (tags_errors info) = dimensions_error m1)
    as Herror.
  { rewrite Htags. fold (dimensions_error m'). rewrite Hdims.
    unfold dimensions_error. rewrite Hkept. reflexivity. }
  rewrite Herror, Hdepth, Hwidth, Hheight.
  destruct (truthy (get offer (u "dimensions"))).
  - destruct Hcollected as (Hsame & Hparse & Hd & Hw & Hh).
    split; [rewrite Hsame; reflexivity|].
    destruct (tags_depth tags) as [d'|]; [|contradiction].
    destruct (tags_width tags) as [w'|]; [|contradiction].
    destruct (tags_height tags) as [h'|]; [|contradiction].
    split; [|split].
    + destruct (parse_dimensions_integers (get offer (u "dimensions")))
        as (d & w & h & Hint).
      exists d, w, h. split; [exact Hint|].
      rewrite Hint in Hparse. injection Hparse as Ed Ew Eh.
      subst. repeat split.
    + intros Hunreadable.
      rewrite (parse_dimensions_unreadable _ Hunreadable) in Hparse.
      injection Hparse as Ed Ew Eh. subst. repeat split.
    + intros s length width' height' Hstr Hparts. rewrite Hstr in Hparse.
      rewrite (parse_dimensions_readable _ _ _ _ Hparts) in Hparse.
      injection Hparse as Ed Ew Eh. subst. repeat split.
  - exact Hcollected.
Qed.

End Dimensions.
Section VideoUrl.

(** *** Substrings and the pieces of [split] *)

Lemma starts_with_app (p r : str) : starts_with p (p ++ r) = true.
Proof.
  induction p as [|a p IH]; [reflexivity|].
  cbn [starts_with app]. rewrite N.eqb_refl. exact IH.
Qed.

Lemma starts_with_more (p s b : str) :
  starts_with p s = true -> starts_with p (s ++ b) = true.
Proof.
  revert s. induction p as [|a p IH]; intros s; [reflexivity|].
  destruct s as [|c s]; [discriminate|]. cbn [starts_with app].
  intros Hs. apply andb_true_iff in Hs. destruct Hs as [Hc Hs].
  rewrite Hc. exact (IH s Hs).
Qed.

Lemma starts_with_skipn (p s : str) :
  starts_with p s = true -> s = p ++ skipn (List.length p) s.
Proof.
  revert s. induction p as [|a p IH]; intros s; [reflexivity|].
  destruct s as [|c s]; [discriminate|]. cbn [starts_with app List.length skipn].
  intros Hs. apply andb_true_iff in Hs. destruct Hs as [Hc Hs].
  apply N.eqb_eq in Hc. subst c. f_equal. exact (IH s Hs).
Qed.

Lemma contains_app_r (t a s : str) :
  contains t s = true -> contains t (a ++ s) = true.
Proof.
  intros Hs. induction a as [|c a IH]; [exact Hs|].
  cbn [app contains]. rewrite IH. apply orb_true_r.
Qed.

Lemma contains_app_l (t s b : str) :
  contains t s = true -> contains t (s ++ b) = true.
Proof.
  induction s as [|c s IH].
  - cbn [contains]. rewrite orb_false_r. intros Hs.
    destruct t as [|a t]; [|discriminate].
    destruct b; reflexivity.
  - cbn [contains]. intros Hs. apply orb_true_iff in Hs.
    change ((c :: s) ++ b) with (c :: (s ++ b)). cbn [contains].
    apply orb_true_iff. destruct Hs as [Hs|Hs].
    + left. exact (starts_with_more t (c :: s) b Hs).
    + right. exact (IH Hs).
Qed.

Lemma contains_parts (t s : str) :
  contains t s = true -> exists a b, s = a ++ t ++ b.
Proof.
  induction s as [|c s IH]; cbn [contains]; intros Hs;
    apply orb_true_iff in Hs; destruct Hs as [Hs|Hs].
  - exists [], (skipn (List.length t) []). exact (starts_with_skipn t [] Hs).
  - discriminate.
  - exists [], (skipn (List.length t) (c :: s)).
    exact (starts_with_skipn t (c :: s) Hs).
  - destruct (IH Hs) as (a & b & ->). exists (c :: a), b. reflexivity.
Qed.

Lemma contains_inside (t' t s : str) :
  contains t' t = true -> contains t s = true -> contains t' s = true.
Proof.
  intros Ht Hs. destruct (contains_parts t s Hs) as (a & b & ->).
  apply contains_app_r. apply contains_app_l. exact Ht.
Qed.

(** The first occurrence of [sep] in [s]: what is before it and what is
    after it. *)
Fixpoint cut (sep s : str) : option (str * str) :=
  match s with
  | [] => None
  | c :: s' =>
    if starts_with sep s then Some ([], skipn (List.length sep - 1) s')
    else
      match cut sep s' with
      | Some (a, b) => Some (c :: a, b)
      | None => None
      end
  end.

Lemma split_from_skip (sep : str) (s : str) :
  forall k, split_from sep k [] s = split_from sep 0 [] (skipn k s).
Proof.
  induction s as [|c s IH]; intros [|k]; try reflexivity.
  cbn [split_from skipn]. apply IH.
Qed.

Lemma split_from_cut (sep : str) (s : str) :
  forall cur,
    split_from sep 0 cur s =
    match cut sep s with
    | None => [rev cur ++ s]
    | Some (a, b) => (rev cur ++ a) :: split sep b
    end.
Proof.
  induction s as [|c s IH]; intros cur.
  - cbn [split_from cut]. rewrite app_nil_r. reflexivity.
  - cbn [split_from cut]. destruct (starts_with sep (c :: s)).
    + rewrite app_nil_r, split_from_skip. reflexivity.
    + rewrite IH. cbn [rev]. destruct (cut sep s) as [[a b]|];
        rewrite <- app_assoc; reflexivity.
Qed.

Lemma cut_none (sep s : str) :
  contains sep s = false -> cut sep s = None.
Proof.
  induction s as [|c s IH]; [reflexivity|]. cbn [contains cut].
  intros Hs. apply orb_false_iff in Hs. destruct Hs as [Hstart Hs].
  rewrite Hstart, (IH Hs). reflexivity.
Qed.

Lemma cut_some (sep s : str) :
  sep <> [] -> contains sep s = true ->
  exists a b, cut sep s = Some (a, b) /\ s = a ++ sep ++ b /\
              contains sep a = false.
Proof.
  intros Hsep. induction s as [|c s IH].
  - destruct sep; [contradiction | discriminate].
  - cbn [contains cut]. destruct (starts_with sep (c :: s)) eqn:Hstart.
    + intros _. exists [], (skipn (List.length sep - 1) s).
      split; [reflexivity|]. split.
      * rewrite (starts_with_skipn sep (c :: s) Hstart) at 1.
        destruct sep as [|a sep]; [contradiction|].
        cbn [List.length skipn app Nat.sub]. rewrite Nat.sub_0_r. reflexivity.
      * destruct sep; [contradiction | reflexivity].
    + cbn [orb]. intros Hs. destruct (IH Hs) as (a & b & Hcut & -> & Hno).
      exists (c :: a), b. rewrite Hcut. split; [reflexivity|].
      split; [reflexivity|]. cbn [contains]. rewrite Hno, orb_false_r.
      destruct (starts_with sep (c :: a)) eqn:Ha; [|reflexivity].
      rewrite <- Hstart.
      exact (eq_sym (starts_with_more sep (c :: a) (sep ++ b) Ha)).
Qed.

(** The piece of [s] before the first [sep]. *)
Definition first_piece (sep s : str) : str :=
  match cut sep s with
  | None => s
  | Some (a, _) => a
  end.

Lemma first_piece_whole (sep s : str) :
  contains sep s = false -> first_piece sep s = s.
Proof. intros Hs. unfold first_piece. rewrite (cut_none sep s Hs). reflexivity. Qed.

Lemma first_piece_clean (sep s : str) :
  sep <> [] -> contains sep (first_piece sep s) = false.
Proof.
  intros Hsep. unfold first_piece.
  destruct (contains sep s) eqn:Hs.
  - destruct (cut_some sep s Hsep Hs) as (a & b & -> & _ & Hno). exact Hno.
  - rewrite (cut_none sep s Hs). exact Hs.
Qed.

Lemma first_piece_inside (t sep s : str) :
  sep <> [] ->
  contains t (first_piece sep s) = true -> contains t s = true.
Proof.
  intros Hsep. unfold first_piece.
  destruct (contains sep s) eqn:Hs.
  - destruct (cut_some sep s Hsep Hs) as (a & b & -> & -> & _).
    apply contains_app_l.
  - rewrite (cut_none sep s Hs). tauto.
Qed.

Lemma second_piece (sep s : str) :
  sep <> [] -> contains sep s = true ->
  exists a b, s = a ++ sep ++ b /\
              nth 1 (split sep s) [] = first_piece sep b.
Proof.
  intros Hsep Hs. destruct (cut_some sep s Hsep Hs) as (a & b & Hcut & Heq & _).
  exists a, b. split; [exact Heq|].
  unfold split at 1. rewrite split_from_cut, Hcut. cbn [nth].
  unfold split. rewrite split_from_cut. unfold first_piece.
  destruct (cut sep b) as [[a' b']|]; reflexivity.
Qed.

(** *** The video link *)

(** A link that [process_video_url] has rewritten: the full address of the
    video page, then a piece that does not hold the address again. *)
Lemma process_video_url_full (code : str) :
  contains (u "youtube.com/watch?v=") code = false ->
  process_video_url (u "https://www.youtube.com/watch?v=" ++ code) =
  u "https://www.youtube.com/watch?v=" ++ code.
Proof.
  intros Hcode. unfold process_video_url. cbv zeta.
  rewrite (contains_app_l (u ".") (u "https://www.youtube.com/watch?v=") code
                          eq_refl).
  rewrite (contains_app_l (u "youtube.com/watch?v=")
                          (u "https://www.youtube.com/watch?v=") code eq_refl).
  cbn [negb]. f_equal.
  unfold split. rewrite split_from_cut.
  change (cut (u "youtube.com/watch?v=")
              (u "https://www.youtube.com/watch?v=" ++ code))
    with (Some (u "https://www.", code)).
  cbn [nth]. unfold split. rewrite split_from_cut.
  rewrite (cut_none _ _ Hcode). reflexivity.
Qed.

(** Rewriting a video link a second time changes nothing. *)
Theorem process_video_url_twice (attr_url : str) :
  process_video_url (process_video_url attr_url) = process_video_url attr_url.
Proof.
  assert (u "youtube.com/watch?v=" <> []) as Hbase by discriminate.
  assert (u "youtu.be/" <> []) as Hshort by discriminate.
  unfold process_video_url at 2 3. cbv zeta.
  destruct (contains (u ".") attr_url) eqn:Hdot; cbn [negb].
  - destruct (contains (u "youtube.com/watch?v=") attr_url) eqn:Hlong.
    + destruct (second_piece _ attr_url Hbase Hlong) as (a & b & _ & ->).
      apply process_video_url_full. apply first_piece_clean. exact Hbase.
    + destruct (contains (u "youtu.be/") attr_url) eqn:Hlink.
      * destruct (second_piece _ attr_url Hshort Hlink) as (a & b & Heq & ->).
        apply process_video_url_full.
        destruct (contains (u "youtube.com/watch?v=")
                           (first_piece (u "youtu.be/") b)) eqn:Hin;
          [|reflexivity].
        apply (first_piece_inside _ _ _ Hshort) in Hin.
        rewrite <- Hlong, Heq. symmetry.
        apply contains_app_r, contains_app_r. exact Hin.
      * unfold process_video_url. cbv zeta. rewrite Hdot, Hlong, Hlink.
        reflexivity.
  - apply process_video_url_full.
    destruct (contains (u "youtube.com/watch?v=") attr_url) eqn:Hlong;
      [|reflexivity].
    rewrite <- Hdot. symmetry.
    exact (contains_inside (u ".") (u "youtube.com/watch?v=") attr_url
                           eq_refl Hlong).
Qed.

End VideoUrl.
Section DimensionAttributes.
Context `{Unicode} `{Numbers} `{Sql} `{External float}.

(** *** The attributes for length, width and height *)

Ltac run_ok Hrun x E :=
  match type of Hrun with
  | bind ?c _ = Ok _ =>
    destruct c as [x|] eqn:E; [cbn [bind] in Hrun | discriminate Hrun]
  end.

(** The attribute [s], whose integer id is [key], has left the outstanding
    attributes and holds the text [v], with no dictionary value. *)
Definition settled_with (m : manager float) (triple : str * Z * str) : Prop :=
  let '(s, key, v) := triple in
  ~ In s (_required_ozon_attributes m) /\
  exists entry,
    dict_get key (_attributes_values m) = Some entry /\
    In {| item_value := PStr v; item_dictionary_value_id := 0 |}
       (values_of entry).

(** The state of attribute collection once the attributes of [triples] had
    their turn: those that the category has are settled, and every
    collected attribute is filed under its id. *)
Definition filled (O : dict str ozon_attribute)
  (triples : list (str * Z * str)) (m : manager float) : Prop :=
  _ozon_attributes m = O /\
  (forall k entry, dict_get k (_attributes_values m) = Some entry ->
                   id entry = k) /\
  forall s key v,
    In (s, key, v) triples -> dict_mem s O = true ->
    settled_with m (s, key, v).

Lemma filled_add_attribute_value (O : dict str ozon_attribute)
  (triples : list (str * Z * str)) (m : manager float) (s : str)
  (v : pyval float) (dv : option value_id) (m' : manager float) :
  filled O triples m -> _add_attribute_value m s v dv = Ok m' ->
  filled O triples m'.
Proof.
  intros (HO & Hids & Hall). unfold _add_attribute_value.
  destruct (py_int s) as [key|]; cbn [bind]; [|discriminate].
  destruct (int_of_value_id dv) as [d|]; cbn [bind]; [|discriminate].
  intros [= <-]. split; [exact HO|]. split.
  - cbn. intros k entry. rewrite dict_get_set.
    destruct (keyb k key) eqn:Ek; [|apply Hids].
    apply keyb_eq in Ek. subst k. intros [= <-]. cbn [id].
    destruct (dict_get key (_attributes_values m)) as [old|] eqn:Eold;
      [apply Hids; exact Eold | reflexivity].
  - intros s0 key0 v0 Hin Hmem.
    destruct (Hall s0 key0 v0 Hin Hmem) as [Hnot (entry & Hentry & Hitem)].
    split.
    + cbn. intros Hc. apply filter_In in Hc. apply Hnot. apply Hc.
    + cbn. rewrite dict_get_set. destruct (keyb key0 key) eqn:Ek;
        [|exists entry; split; assumption].
      apply keyb_eq in Ek. subst key0. rewrite Hentry.
      eexists. split; [reflexivity|]. cbn [values_of].
      apply in_or_app. left. exact Hitem.
Qed.

Lemma filled_add_complex_attribute_value (O : dict str ozon_attribute)
  (triples : list (str * Z * str)) (m : manager float) (s : str)
  (v : pyval float) (m' : manager float) :
  filled O triples m ->
  _add_complex_attribute_value m s v VIDEO_COMPLEX_ID = Ok m' ->
  filled O triples m'.
Proof.
  intros (HO & Hids & Hall). unfold _add_complex_attribute_value.
  destruct (py_int s) as [key|]; cbn [bind]; [|discriminate].
  intros [= <-]. split; [exact HO|]. split; [exact Hids|].
  intros s0 key0 v0 Hin Hmem.
  destruct (Hall s0 key0 v0 Hin Hmem) as [Hnot Hentry].
  split; [|exact Hentry].
  cbn. intros Hc. apply filter_In in Hc. apply Hnot. apply Hc.
Qed.

Lemma filled_remove (O : dict str ozon_attribute)
  (triples : list (str * Z * str)) (m : manager float) (s : str) :
  filled O triples m ->
  filled O triples (_remove_ozon_attribute_from_required m s).
Proof.
  intros (HO & Hids & Hall). split; [exact HO|]. split; [exact Hids|].
  intros s0 key0 v0 Hin Hmem.
  destruct (Hall s0 key0 v0 Hin Hmem) as [Hnot Hentry].
  split; [|exact Hentry].
  cbn. intros Hc. apply filter_In in Hc. apply Hnot. apply Hc.
Qed.

Lemma filled_more (O : dict str ozon_attribute)
  (triples : list (str * Z * str)) (m m' : manager float) :
  _ozon_attributes m' = _ozon_attributes m ->
  _required_ozon_attributes m' = _required_ozon_attributes m ->
  _attributes_values m' = _attributes_values m ->
  filled O triples m -> filled O triples m'.
Proof.
  intros Hozon Hreq Hvalues. unfold filled, settled_with.
  rewrite Hozon, Hreq, Hvalues. tauto.
Qed.

(** The fallback for a key with one id files its text. *)
Lemma add_if_exists_fills (O : dict str ozon_attribute)
  (triples : list (str * Z * str)) (st st' : manager float * dict str str)
  (attribute_key s : str) (key : Z) (v : str) :
  dict_get attribute_key OZON_ATTRIBUTES_IDS = Some (OneId s) ->
  int_of_str s = Some key ->
  filled O triples (fst st) ->
  add_if_exists st attribute_key (PStr v) = Ok st' ->
  filled O ((s, key, v) :: triples) (fst st').
Proof.
  intros Hkey Hint Hfilled Hrun.
  pose proof (add_if_exists_preserves (filled O triples)
                (filled_add_attribute_value O triples)
                st st' attribute_key (PStr v) Hfilled Hrun)
    as (HO & Hids & Hall).
  split; [exact HO|]. split; [exact Hids|].
  intros s0 key0 v0 [[= <- <- <-]|Hin] Hmem; [|apply Hall; assumption].
  revert Hrun. unfold add_if_exists. rewrite Hkey. cbn [add_if_exists_ids].
  destruct Hfilled as (HO1 & Hids1 & _). rewrite HO1, Hmem. cbn [negb].
  destruct (_add_attribute_value (fst st) s (PStr v)
                                 default_dictionary_value_id)
    as [m1|] eqn:E1; cbn [bind]; [|discriminate].
  intros [= <-]. cbn [fst]. revert E1. unfold _add_attribute_value, py_int.
  rewrite Hint. cbn [bind int_of_value_id default_dictionary_value_id].
  change (int_of_str (u "0")) with (Some 0%Z). cbn [bind].
  intros [= <-]. split.
  - cbn [_required_ozon_attributes _remove_ozon_attribute_from_required
         with_required].
    intros Hc. apply filter_In in Hc. destruct Hc as [_ Hc].
    rewrite keyb_refl in Hc. discriminate.
  - cbn. rewrite dict_get_set_same. eexists. split; [reflexivity|].
    cbn [values_of]. apply in_or_app. right. left. reflexivity.
Qed.

Lemma _collect_attributes_fills (db : database float)
  (m m' : manager float) (offer : dict str (pyval float)) :
  filled (_ozon_attributes m) [] m ->
  _collect_attributes db m offer = Ok m' ->
  filled (_ozon_attributes m)
         (let '(length, width, height) :=
            parse_dimensions (get offer (u "dimensions")) in
          [(u "9456", 9456%Z, height); (u "9455", 9455%Z, width);
           (u "9454", 9454%Z, length)])
         m'.
Proof.
  intros Hm. unfold _collect_attributes. intros Hrun.
  set (O := _ozon_attributes m) in *.
  run_ok Hrun feed_params_values Efeed.
  run_ok Hrun attribute_map Emove.
  run_ok Hrun resolved Eresolved.
  run_ok Hrun st0 Evalues.
  assert (filled O [] (fst st0)) as H0'.
  { apply (for_each_invariant (fun st => filled O [] (fst st)) _ _)
      with (3 := Evalues);
      [|apply (filled_more O [] m); try reflexivity; exact Hm].
    intros st values_data st' _ Hst Hstep.
    apply (add_values_data_preserves (filled O [])
             (filled_add_attribute_value O [])
             (filled_add_complex_attribute_value O [])
             values_data _ _ _ Hst Hstep). }
  run_ok Hrun st1 E1.
  pose proof (add_if_exists_preserves _ (filled_add_attribute_value O [])
                (fst st0, _) _ _ _ H0' E1) as H1'.
  run_ok Hrun st2 E2.
  pose proof (add_if_exists_preserves _ (filled_add_attribute_value O [])
                _ _ _ _ H1' E2) as H2'.
  run_ok Hrun oid Eid.
  run_ok Hrun st3 E3.
  pose proof (add_if_exists_preserves _ (filled_add_attribute_value O [])
                _ _ _ _ H2' E3) as H3'.
  destruct (parse_dimensions _) as [[length width] height].
  run_ok Hrun st4 E4.
  pose proof (add_if_exists_fills O _ _ _ (u "length") (u "9454") 9454%Z length
                eq_refl eq_refl H3' E4) as H4'.
  run_ok Hrun st5 E5.
  pose proof (add_if_exists_fills O _ _ _ (u "width") (u "9455") 9455%Z width
                eq_refl eq_refl H4' E5) as H5'.
  run_ok Hrun st6 E6.
  pose proof (add_if_exists_fills O _ _ _ (u "height") (u "9456") 9456%Z height
                eq_refl eq_refl H5' E6) as H6'.
  set (triples := [(u "9456", 9456%Z, height); (u "9455", 9455%Z, width);
                   (u "9454", 9454%Z, length)]) in *.
  run_ok Hrun st7 E7.
  pose proof (add_weight_preserves _ (filled_add_attribute_value O triples)
                _ _ _ _ H6' E7) as H7'.
  run_ok Hrun st8 E8.
  pose proof (add_if_exists_preserves _ (filled_add_attribute_value O triples)
                _ _ _ _ H7' E8) as H8'.
  run_ok Hrun st9 E9.
  assert (filled O triples (fst st9)) as H9'.
  { revert E9.
    destruct (truthy (get offer (u "description")));
      [|intros [= <-]; exact H8'].
    destruct (get offer (u "description")); try discriminate. intros E9.
    apply (add_if_exists_preserves _ (filled_add_attribute_value O triples)
             _ _ _ _ H8' E9). }
  run_ok Hrun tn_ved_result Etn.
  pose proof (_add_tn_ved_codes_preserves _
                (filled_add_attribute_value O triples) db _ offer _ H9' Etn)
    as Htn.
  run_ok Hrun errors Econs. injection Hrun as <-.
  apply (filled_more O triples (_remove_ozon_attribute_from_required
                                  (fst tn_ved_result) TYPE_SOURCE_ID));
    try reflexivity.
  apply filled_remove. exact Htn.
Qed.

(** The attributes for length (9454), width (9455) and height (9456) are
    never left outstanding: when the category has one of them, the offer is
    given the dimension that [parse_dimensions] returns for it, with no
    dictionary value, whether the dimensions could be read or not. *)
Theorem dimension_attributes_are_filled (db : database float)
  (m m' : manager float) (offer : dict str (pyval float))
  (info : offer_info float) :
  _collect_offer_parameters db m offer = Ok (info, m') ->
  forall s key dimension,
    In (s, key, dimension)
       (let '(length, width, height) :=
          parse_dimensions (get offer (u "dimensions")) in
        [(u "9454", 9454%Z, length); (u "9455", 9455%Z, width);
         (u "9456", 9456%Z, height)]) ->
    dict_mem s (_ozon_attributes m) = true ->
    ~ In s (_required_ozon_attributes m') /\
    exists entry,
      In entry (attributes info) /\ id entry = key /\
      In {| item_value := PStr dimension; item_dictionary_value_id := 0 |}
         (values_of entry).
Proof.
  intros Hrun s key dimension Hin Hmem.
  destruct (_collect_offer_parameters_parts db m m' offer info Hrun)
    as (tags & m1 & m2 & Etags & Eattrs & Einfo).
  destruct (collect_tags_manager _ _ _ Etags) as [e He]. cbn [snd] in He.
  assert (filled (_ozon_attributes m1) [] m1) as Hstart.
  { subst m1. split; [reflexivity|]. split; [|intros ? ? ? []].
    cbn. intros k entry Hk. discriminate Hk. }
  pose proof (_collect_attributes_fills db m1 m2 offer Hstart Eattrs)
    as (HO & Hids & Hall).
  assert (_ozon_attributes m1 = _ozon_attributes m) as Hozon
      by (subst m1; reflexivity).
  destruct (build_info_closes tags m2 m' offer info Einfo)
    as (_ & _ & _ & _ & Hreq & Hvalues & _).
  destruct (build_info_returns tags m2 m' offer info Einfo)
    as (_ & _ & _ & Hattributes & _).
  destruct (Hall s key dimension) as [Hnot (entry & Hentry & Hitem)].
  - destruct (parse_dimensions _) as [[length width] height].
    destruct Hin as [Heq|[Heq|[Heq|[]]]]; rewrite <- Heq; cbn; tauto.
  - rewrite Hozon. exact Hmem.
  - split; [rewrite Hreq; exact Hnot|].
    exists entry. split; [|split; [apply Hids; exact Hentry | exact Hitem]].
    rewrite Hattributes, Hvalues. unfold dict_values.
    apply (in_map snd _ (key, entry)). exact (dict_get_In _ _ Hentry).
Qed.

End DimensionAttributes.
Section Params.
Context `{Unicode} `{Numbers} `{Sql} `{External float}.

(** *** The parameters the resolver is given *)

(** [x] is one of the values collected under [key]. *)
Definition collected_under (key x : str) (d : dict str (list str)) : Prop :=
  exists values, dict_get key d = Some values /\ In x values.

Lemma append_param_keeps (key x k' x' : str) (d : dict str (list str)) :
  collected_under key x d -> collected_under key x (append_param k' x' d).
Proof.
  intros (values & Hget & Hin). unfold append_param, setdefault_append.
  destruct (keyb key k') eqn:Ek.
  - apply keyb_eq in Ek. subst k'. rewrite Hget.
    exists (values ++ [x']). split; [apply dict_get_set_same|].
    apply in_or_app. left. exact Hin.
  - exists values. split; [|exact Hin].
    destruct (dict_get k' d); rewrite dict_get_set, Ek; exact Hget.
Qed.

Lemma append_param_adds (k x : str) (d : dict str (list str)) :
  collected_under k x (append_param k x d).
Proof.
  unfold append_param, setdefault_append.
  destruct (dict_get k d) as [values|]; eexists;
    (split; [apply dict_get_set_same|]).
  - apply in_or_app. right. left. reflexivity.
  - left. reflexivity.
Qed.

Lemma collect_tag_keeps (key x : str) (d : dict str (list str))
  (item : str * pyval float) :
  collected_under key x d -> collected_under key x (collect_tag d item).
Proof.
  intros Hd. unfold collect_tag. cbv zeta.
  destruct (snd item); try exact Hd; apply append_param_keeps; exact Hd.
Qed.

Lemma collect_tags_keep (key x : str) (offer : list (str * pyval float)) :
  forall d,
    collected_under key x d ->
    collected_under key x (fold_left collect_tag offer d).
Proof.
  induction offer as [|item offer IH]; intros d Hd; cbn [fold_left];
    [exact Hd|].
  apply IH. apply collect_tag_keeps. exact Hd.
Qed.

Lemma collect_tags_add (tag s : str) (offer : list (str * pyval float)) :
  In (tag, PStr s) offer ->
  forall d,
    collected_under (upper (strip tag)) (strip s)
                    (fold_left collect_tag offer d).
Proof.
  induction offer as [|item offer IH]; intros Hin d; [destruct Hin|].
  cbn [fold_left]. destruct Hin as [->|Hin]; [|apply IH; exact Hin].
  apply collect_tags_keep. unfold collect_tag. cbn [fst snd].
  apply append_param_adds.
Qed.

Lemma collect_param_keeps (key x : str) (d d' : dict str (list str))
  (param : pyval float) :
  collected_under key x d -> collect_param d param = Ok d' ->
  collected_under key x d'.
Proof.
  intros Hd. unfold collect_param.
  destruct (negb (truthy param)); [intros [= <-]; exact Hd|].
  destruct param as [| | | | | |fields]; try discriminate.
  destruct (dict_get (u "@name") fields) as [[| | | |name| |]|];
    try discriminate.
  destruct (dict_get (u "#text") fields) as [[| | | |text| |]|];
    try discriminate; intros [= <-]; apply append_param_keeps; exact Hd.
Qed.

Lemma collect_params_add (name text : str) (fields : dict str (pyval float))
  (params : list (pyval float)) :
  In (PDict fields) params -> truthy (PDict fields) = true ->
  dict_get (u "@name") fields = Some (PStr name) ->
  dict_get (u "#text") fields = Some (PStr text) ->
  forall d d',
    for_each collect_param params d = Ok d' ->
    collected_under (normalize_string name) (strip text) d'.
Proof.
  intros Hin Htruthy Hname Htext.
  induction params as [|param params IH]; intros d d'; [destruct Hin|].
  cbn [for_each].
  destruct (collect_param d param) as [d1|] eqn:E1; cbn [bind];
    [|discriminate].
  destruct Hin as [->|Hin]; [|apply IH; exact Hin].
  intros Hrest.
  apply (for_each_invariant
           (collected_under (normalize_string name) (strip text)) _ _)
    with (3 := Hrest).
  - intros d2 p d3 _ Hd2 Hstep. apply (collect_param_keeps _ _ _ _ _ Hd2 Hstep).
  - revert E1. unfold collect_param. rewrite Htruthy, Hname, Htext.
    cbn [negb]. intros [= <-]. apply append_param_adds.
Qed.

Lemma model_year_keys_differ : MODEL_YEAR_PARAM <> MODEL_YEAR_PARAM_INT.
Proof. apply keyb_neq. exact model_year_names_differ. Qed.

(** Nothing the offer holds is lost on the way to the resolver. A
    parameter with a name and a text is found under its normalized name, and
    a tag with a string value under its trimmed, uppercased name, each with
    its trimmed text; only the list under the key of the integer model year
    is replaced, by the model years rewritten, whenever the offer gives a
    model year. *)
Theorem feed_params_values_of_keeps (offer : dict str (pyval float))
  (feed_params_values : dict str (list str)) :
  feed_params_values_of offer = Ok feed_params_values ->
  (forall fields name text,
     In (PDict fields)
        match _get offer (u "param") (PList []) with
        | PList l => l
        | v => [v]
        end ->
     truthy (PDict fields) = true ->
     dict_get (u "@name") fields = Some (PStr name) ->
     dict_get (u "#text") fields = Some (PStr text) ->
     normalize_string name <> MODEL_YEAR_PARAM_INT ->
     collected_under (normalize_string name) (strip text)
                     feed_params_values) /\
  (forall tag s,
     In (tag, PStr s) offer ->
     upper (strip tag) <> MODEL_YEAR_PARAM_INT ->
     collected_under (upper (strip tag)) (strip s) feed_params_values) /\
  (forall model_years,
     dict_get MODEL_YEAR_PARAM feed_params_values = Some model_years ->
     dict_get MODEL_YEAR_PARAM_INT feed_params_values
     = Some (map ozon_model_year model_years)).
Proof.
  unfold feed_params_values_of. cbv zeta.
  destruct (for_each collect_param _ []) as [d0|] eqn:E0; cbn [bind];
    [|discriminate].
  set (d1 := fold_left collect_tag offer d0).
  assert (forall key x,
             key <> MODEL_YEAR_PARAM_INT -> collected_under key x d1 ->
             forall f,
               match dict_get MODEL_YEAR_PARAM d1 with
               | Some model_years =>
                 Ok (dict_set MODEL_YEAR_PARAM_INT
                              (map ozon_model_year model_years) d1)
               | None => Ok d1
               end = Ok f ->
               collected_under key x f) as Hlast.
  { intros key x Hkey Hd1 f.
    destruct (dict_get MODEL_YEAR_PARAM d1); intros [= <-]; [|exact Hd1].
    destruct Hd1 as (values & Hget & Hin). exists values.
    split; [|exact Hin]. rewrite (dict_get_set_other _ _ Hkey). exact Hget. }
  intros Hrun. split; [|split].
  - intros fields name text Hin Htruthy Hname Htext Hkey.
    apply (Hlast _ _ Hkey); [|exact Hrun].
    apply collect_tags_keep.
    apply (collect_params_add name text fields _ Hin Htruthy Hname Htext
             [] d0 E0).
  - intros tag s Hin Hkey.
    apply (Hlast _ _ Hkey); [|exact Hrun].
    apply collect_tags_add. exact Hin.
  - intros model_years. revert Hrun.
    destruct (dict_get MODEL_YEAR_PARAM d1) as [years|] eqn:Eyears;
      intros [= <-].
    + rewrite (dict_get_set_other _ _ model_year_keys_differ), Eyears.
      intros [= <-]. apply dict_get_set_same.
    + rewrite Eyears. discriminate.
Qed.

End Params.
Section Classification.
Context `{Unicode} `{Numbers} `{Sql} `{External float}.

(** *** The consolidation of an offer *)

(** [_collect_attributes] up to its consolidation: the parameters of the
    offer, the manager with the type attribute taken off the outstanding
    attributes, and the errors that the steps so far recorded. *)
Definition before_consolidation (db : database float) (m : manager float)
  (offer : dict str (pyval float))
  : res (dict str (list str) * manager float * dict str str) :=
  let errors : dict str str := [] in
  feed_params_values <- feed_params_values_of offer ;;
  attribute_map <- move_model_year_mappings (_attribute_map m) ;;
  let m := with_attribute_map attribute_map m in
  marketplace_attributes_values <-
    get_mapped_values (value_unit_maps db) (_attribute_map m)
                      feed_params_values ;;
  st <- for_each
          (fun st (values_data : list mapped_value) =>
             add_values_data (fst st) (snd st) values_data)
          (dict_values (values marketplace_attributes_values)) (m, errors) ;;
  let m := fst st in
  let errors := snd st in
  let errors :=
    fold_left (fun e s => add_error m e s (u "mapped_with_deleted_value"))
              (mapped_with_deleted_value marketplace_attributes_values)
              errors in
  let errors :=
    fold_left (fun e s => add_error m e s (u "unmapped_val"))
              (unmapped_value_attributes marketplace_attributes_values)
              errors in
  let errors :=
    fold_left (fun e s => add_error m e s (u "empty"))
              (empty_value_attributes marketplace_attributes_values) errors in
  let errors :=
    fold_left (fun e s => add_error m e s (u "bad_value"))
              (type_error_attributes marketplace_attributes_values) errors in
  st <- add_if_exists (m, errors) (u "name") (fallback_name offer) ;;
  st <- add_if_exists st (u "vendorCode") (get offer (u "vendorCode")) ;;
  offer_id <- match dict_get (u "@id") offer with
              | Some v => Ok v
              | None => Raise KeyError
              end ;;
  st <- add_if_exists st (u "group")
          (match dict_get (u "@group_id") offer with
           | Some v => v
           | None => PStr (u "b2b-" ++ py_str offer_id)
           end) ;;
  let '(length, width, height) :=
    parse_dimensions (get offer (u "dimensions")) in
  st <- add_if_exists st (u "length") (PStr length) ;;
  st <- add_if_exists st (u "width") (PStr width) ;;
  st <- add_if_exists st (u "height") (PStr height) ;;
  st <- add_weight (fst st) (snd st) offer ;;
  st <- add_if_exists st (u "model") (get offer (u "model")) ;;
  st <- (if truthy (get offer (u "description")) then
           match get offer (u "description") with
           | PStr description =>
             add_if_exists st (u "annotation")
               (PStr (_clear_annotation_tags
                        (remove_prohibited_characters description)))
           | _ => Raise TypeError
           end
         else Ok st) ;;
  tn_ved_result <- _add_tn_ved_codes db (fst st) offer ;;
  let m := fst tn_ved_result in
  let errors :=
    match snd tn_ved_result with
    | [] => snd st
    | tn_ved_errors => dict_update (snd st) tn_ved_errors
    end in
  let m := _remove_ozon_attribute_from_required m TYPE_SOURCE_ID in
  Ok (feed_params_values, m, errors).

Lemma _collect_attributes_consolidates (db : database float)
  (m : manager float) (offer : dict str (pyval float)) :
  _collect_attributes db m offer =
  (r <- before_consolidation db m offer ;;
   errors <- consolidate (snd (fst r)) (fst (fst r)) (snd r) ;;
   Ok (with_attributes_errors (Some errors) (snd (fst r)))).
Proof.
  unfold _collect_attributes, before_consolidation. cbv zeta.
  repeat match goal with
         | |- bind ?c _ = bind (bind ?c _) _ =>
           destruct c; cbn [bind]; [|reflexivity]
         | |- match ?c with (_, _) => _ end = _ =>
           destruct c as [[? ?] ?]
         end.
  reflexivity.
Qed.


(** The error the consolidation gives to the attribute [s], whose data in
    the category is [data]. *)
Definition classified (attribute_map : attribute_map_type)
  (feed_params_values : dict str (list str)) (data : ozon_attribute)
  (s error : str) : Prop :=
  if oa_disabled data then error = u "logical"
  else
    match dict_get s (mappings_of attribute_map) with
    | None =>
      error = u "unmapped" /\
      (forall name maps id entry,
          In (name, maps) attribute_map -> In (id, entry) maps ->
          source_id entry <> s)
    | Some (name, id) =>
      (exists maps entry,
          In (name, maps) attribute_map /\ In (id, entry) maps /\
          source_id entry = s) /\
      error = (if dict_mem name feed_params_values
               then u "unknown err" else u "missing")
    end.

(** C3, as the code has it. For an offer that [_collect_offer_parameters]
    processes, in a manager whose source ids are different numbers. The
    consolidation runs over the outstanding attributes: the required
    attributes of the category, other than the type attribute 8229, that
    received no value. It leaves each of them that has an error from an
    earlier step with that error, whatever the attribute is, and classifies
    each of the others: [logical] when the marketplace attribute is
    disabled; otherwise [unmapped] when no entry of the attribute map
    carries its source id; otherwise [missing] when the feed attribute name
    of its mapping is absent from the parameters and tags of the offer, and
    [unknown err] when it is present. The type attribute is taken off the
    outstanding attributes before the consolidation, with or without a
    value: the consolidation gives no error to it, nor to any attribute
    that received a value. *)
Theorem consolidation_classifies_outstanding (db : database float)
  (m m' : manager float) (offer : dict str (pyval float))
  (info : offer_info float) :
  distinct_ids m ->
  _collect_offer_parameters db m offer = Ok (info, m') ->
  exists tags m0 feed_params_values m1 earlier errors,
    collect_tags (reset_offer_state m) offer = Ok (tags, m0) /\
    before_consolidation db m0 offer = Ok (feed_params_values, m1, earlier) /\
    attributes_errors info = Some errors /\
    (forall s,
        In s (_required_ozon_attributes m1) <->
        In s (required_of (_ozon_attributes m)) /\ s <> TYPE_SOURCE_ID /\
        ~ has_value m' s) /\
    (forall s,
        In s (_required_ozon_attributes m1) ->
        exists data,
          dict_get s (_ozon_attributes m) = Some data /\
          match dict_get s earlier with
          | Some e => dict_get s errors = Some e
          | None =>
            exists e,
              dict_get s errors = Some e /\
              classified (_attribute_map m') feed_params_values data s e
          end) /\
    (forall s,
        ~ In s (_required_ozon_attributes m1) ->
        dict_get s errors = dict_get s earlier).
Proof.
  intros Hdistinct Hrun.
  destruct (_collect_offer_parameters_parts db m m' offer info Hrun)
    as (tags & m0 & m2 & Etags & Eattrs & Einfo).
  pose proof (collect_tags_same_attributes _ _ _ Etags) as Hstart.
  cbn [snd] in Hstart.
  pose proof (bookkeeping_same_attributes _ (source_ids m) _ _ Hstart
                (bookkeeping_reset_offer_state (source_ids m) m)) as Hb.
  assert (collected (_ozon_attributes m) (source_ids m) m2) as Hc2.
  { apply (_collect_attributes_collected _ _ db m0 m2 offer); try assumption.
    - intros s Hs. apply in_or_app. left. exact Hs.
    - intros s Hs. apply in_or_app. right. apply carried_in_ids.
      destruct Hstart as (_ & Hmap & _). rewrite Hmap in Hs. exact Hs. }
  destruct (build_info_returns tags m2 m' offer info Einfo)
    as (Hsame & _ & Herrors & _).
  pose proof (collected_same_attributes _ _ _ _ Hsame Hc2)
    as (HO & Htype & Hsub & Hleft & Hstored).
  destruct Hsame as (_ & Hmap' & Hreq' & _ & Herr' & _).
  rewrite _collect_attributes_consolidates in Eattrs.
  destruct (before_consolidation db m0 offer)
    as [[[feed_params_values m1] earlier]|] eqn:Ebefore;
    [cbn [bind fst snd] in Eattrs | discriminate Eattrs].
  destruct (consolidate m1 feed_params_values earlier) as [errors|] eqn:Econs;
    [cbn [bind] in Eattrs | discriminate Eattrs].
  injection Eattrs as <-.
  cbn [with_attributes_errors _attribute_map _required_ozon_attributes
       _attributes_errors] in Hmap', Hreq', Herr'.
  assert (_ozon_attributes m1 = _ozon_attributes m) as Hozon
      by (destruct Hc2 as (Hozon & _); exact Hozon).
  rewrite Hreq' in Htype, Hsub, Hleft, Hstored.
  assert (forall s,
             dict_get s errors =
             match dict_get s earlier with
             | Some e => Some e
             | None => if existsb (keyb s) (_required_ozon_attributes m1)
                       then final_error m1 feed_params_values s else None
             end) as Hget.
  { destruct (consolidate_loop m1 feed_params_values
                (_required_ozon_attributes m1)) with (errors := earlier)
      as [errors' [Eloop Hget]].
    - intros s Hs. rewrite Hozon. apply required_of_keys. apply Hsub.
      exact Hs.
    - unfold consolidate in Econs. rewrite Eloop in Econs.
      injection Econs as <-. exact Hget. }
  exists tags, m0, feed_params_values, m1, earlier, errors.
  split; [exact Etags|]. split; [exact Ebefore|].
  split; [congruence|]. split; [|split].
  - intros s. split.
    + intros Hs. split; [apply Hsub; exact Hs|].
      split; [intros ->; exact (Htype Hs)|].
      intros [key [Hkey Hpresent]].
      destruct (Hstored key Hpresent) as [s0 [Hs0 [Hnot HS0]]].
      apply Hnot. replace s0 with s; [exact Hs|].
      apply (Hdistinct s s0 key); try assumption.
      apply in_or_app. left. apply dict_mem_keys. apply required_of_keys.
      apply Hsub. exact Hs.
    + intros (Hs & Hne & Hnone).
      destruct (Hleft s Hs Hne) as [Hout|Hval]; [exact Hout | contradiction].
  - intros s Hs.
    pose proof (required_of_keys _ _ (Hsub s Hs)) as Hmem.
    unfold dict_mem in Hmem.
    destruct (dict_get s (_ozon_attributes m)) as [data|] eqn:Edata;
      [|discriminate Hmem].
    exists data. split; [reflexivity|].
    rewrite Hget. destruct (dict_get s earlier) as [e|]; [reflexivity|].
    assert (existsb (keyb s) (_required_ozon_attributes m1) = true) as ->.
    { apply existsb_exists. exists s. split; [exact Hs | apply keyb_refl]. }
    unfold final_error, classified. rewrite Hozon, Edata, Hmap'.
    eexists. split; [reflexivity|].
    destruct (oa_disabled data); [reflexivity|].
    pose proof (mappings_of_get (_attribute_map m1) s) as Hmappings.
    destruct (dict_get s (mappings_of (_attribute_map m1))) as [[name id]|].
    + split; [exact Hmappings | reflexivity].
    + split; [reflexivity | exact Hmappings].
  - intros s Hs. rewrite Hget.
    destruct (dict_get s earlier) as [e|]; [reflexivity|].
    destruct (existsb (keyb s) (_required_ozon_attributes m1)) eqn:Ein;
      [|reflexivity].
    exfalso. apply Hs. apply existsb_exists in Ein.
    destruct Ein as [x [Hx Hkey]]. apply keyb_eq in Hkey. subst x. exact Hx.
Qed.
End Classification.
End OzonFacts.

(* ===================================================================== *)
(** * More on the mapping graph: index, reader, resolver, value maps      *)
(* ===================================================================== *)

Module MappingFacts.
Import Mapper MapperFacts.

Section UnitKeys.
Context `{Numbers}.

(** *** The keys of the unit index *)

Definition row_keys (r : ValueUnitMap float) (k : unit_key) : Prop :=
  k = unit_key_of (value_unit_from_id r) (value_unit_to_id r) \/
  k = unit_key_of (value_unit_to_id r) (value_unit_from_id r).

Lemma unit_rows_keys (rows : list (ValueUnitMap float)) :
  forall result index,
    for_each get_unit_map_row rows result = Ok index ->
    forall k, dict_mem k index = true <->
              dict_mem k result = true \/
              exists r, In r rows /\ row_keys r k.
Proof.
  induction rows as [|r rows IH]; intros result index; cbn [for_each].
  - intros [= <-] k. split; [tauto|]. intros [Hk|[r [[] _]]]. exact Hk.
  - unfold get_unit_map_row at 1.
    destruct (truediv (float_of_Z 1) (multiplier r)) as [inverse|e];
      cbn [bind]; [|discriminate].
    intros Hrun k. rewrite (IH _ _ Hrun k). rewrite !dict_mem_set.
    unfold row_keys. split.
    + intros [Hk|[r' [Hr' Hk]]].
      * apply orb_true_iff in Hk. destruct Hk as [Hk|Hk].
        -- right. exists r. split; [left; reflexivity|]. right.
           apply keyb_eq. exact Hk.
        -- apply orb_true_iff in Hk. destruct Hk as [Hk|Hk]; [|left; exact Hk].
           right. exists r. split; [left; reflexivity|]. left.
           apply keyb_eq. exact Hk.
      * right. exists r'. split; [right; exact Hr' | exact Hk].
    + intros [Hk|[r' [[<-|Hr'] Hk]]].
      * left. rewrite Hk, !orb_true_r. reflexivity.
      * left. destruct Hk as [->| ->]; rewrite keyb_refl;
          [rewrite orb_true_r|]; reflexivity.
      * right. exists r'. split; assumption.
Qed.

(** The index has an entry for a pair of units exactly when a stored
    conversion relates the two, in either order; so a pair can be looked up
    whenever the reversed pair can. *)
Theorem get_unit_map_keys (rows : list (ValueUnitMap float))
  (index : dict unit_key float) :
  get_unit_map rows = Ok index ->
  (forall k, dict_mem k index = true <->
             exists r, In r rows /\ row_keys r k) /\
  (forall a b, dict_mem (a, b) index = true -> dict_mem (b, a) index = true).
Proof.
  intros Hrun.
  assert (forall k, dict_mem k index = true <->
                    exists r, In r rows /\ row_keys r k) as Hkeys.
  { intros k. rewrite (unit_rows_keys rows [] index Hrun k).
    split; [intros [Hk|Hk]; [discriminate | exact Hk] | intros Hk; right;
                                                          exact Hk]. }
  split; [exact Hkeys|].
  intros a b Hab. apply Hkeys in Hab. destruct Hab as [r [Hr Hk]].
  apply Hkeys. exists r. split; [exact Hr|].
  unfold row_keys, unit_key_of in *.
  destruct Hk as [[= -> ->]|[= -> ->]]; [right | left]; reflexivity.
Qed.

End UnitKeys.

(** *** Entries of updated dictionaries *)

Lemma dict_set_entries {K V} `{EqKey K} (k k' : K) (v v' : V) (d : dict K V) :
  In (k', v') (dict_set k v d) -> (k' = k /\ v' = v) \/ In (k', v') d.
Proof.
  induction d as [|[k0 v0] d IH]; cbn [dict_set].
  - intros [[= <- <-]|[]]. left. split; reflexivity.
  - destruct (keyb k k0) eqn:E.
    + apply keyb_eq in E. subst k0.
      intros [[= <- <-]|Hin]; [left; split; reflexivity|].
      right. right. exact Hin.
    + intros [Heq|Hin]; [right; left; exact Heq|].
      destruct (IH Hin) as [Hnew|Hold]; [left; exact Hnew|].
      right. right. exact Hold.
Qed.

Section ReaderShape.
Context `{Unicode} `{Numbers} `{Sql}.

(** *** The value maps of the attribute map *)

(** A mapping has a [values_map] exactly when its marketplace attribute has
    a dictionary. *)
Definition values_map_iff_dictionary (attribute_map : attribute_map_type)
  : Prop :=
  forall name maps id m,
    In (name, maps) attribute_map -> In (id, m) maps ->
    (values_map m <> None <-> id_true (dictionary_id m) = true).

Lemma add_attribute_mapping_shape (data : attribute_map_type)
  (row : attribute_map_row) :
  values_map_iff_dictionary data ->
  values_map_iff_dictionary (add_attribute_mapping data row).
Proof.
  intros Hdata name maps id m Hin Him. unfold add_attribute_mapping in Hin.
  cbv zeta in Hin. apply dict_set_entries in Hin.
  destruct Hin as [[-> ->]|Hin]; [|apply (Hdata name maps id m Hin Him)].
  apply dict_set_entries in Him.
  set (name := normalize_string (fca_name (feed_attribute row))) in *.
  destruct Him as [[-> ->]|Him].
  - destruct (dict_get name data) as [bucket|] eqn:Ebucket.
    + destruct (dict_get (am_id (attr_map row)) bucket) as [old|] eqn:Eold.
      * destruct (id_true (dictionary_id old)) eqn:Edict.
        -- cbn [with_values_map values_map dictionary_id].
           split; [intros _; exact Edict | discriminate].
        -- rewrite (Hdata name bucket _ old (dict_get_In _ _ Ebucket)
                          (dict_get_In _ _ Eold)).
           rewrite Edict. tauto.
      * cbn [dict_get].
        destruct (id_true (dictionary_id (new_mapping_data row))) eqn:Edict.
        -- cbn [with_values_map values_map dictionary_id] in *.
           split; [intros _; exact Edict | discriminate].
        -- rewrite Edict. cbn [new_mapping_data values_map].
           split; [intros Hn; exfalso; apply Hn; reflexivity | discriminate].
    + cbn [dict_get].
      destruct (id_true (dictionary_id (new_mapping_data row))) eqn:Edict.
      * cbn [with_values_map values_map dictionary_id] in *.
        split; [intros _; exact Edict | discriminate].
      * rewrite Edict. cbn [new_mapping_data values_map].
        split; [intros Hn; exfalso; apply Hn; reflexivity | discriminate].
  - destruct (dict_get name data) as [bucket|] eqn:Ebucket; [|destruct Him].
    apply (Hdata name bucket id m (dict_get_In _ _ Ebucket) Him).
Qed.

Lemma add_value_mapping_shape (data data' : attribute_map_type)
  (row : value_map_row) :
  values_map_iff_dictionary data ->
  add_value_mapping data row = Ok data' ->
  values_map_iff_dictionary data'.
Proof.
  intros Hdata. unfold add_value_mapping. cbv zeta.
  set (name := normalize_string (fca_name (feed_value_attribute row))).
  destruct (dict_get name data) as [bucket|] eqn:Ebucket; [|discriminate].
  destruct (dict_get (vm_attribute_map_id (val_map row)) bucket)
    as [old|] eqn:Eold; [|discriminate].
  destruct (values_map old) as [attr_values|] eqn:Evalues;
    [|intros [= <-]; exact Hdata].
  destruct (market_value row) as [mv|]; [|discriminate].
  intros [= <-] name' maps id m Hin Him.
  apply dict_set_entries in Hin.
  destruct Hin as [[-> ->]|Hin]; [|apply (Hdata name' maps id m Hin Him)].
  apply dict_set_entries in Him.
  destruct Him as [[-> ->]|Him];
    [|apply (Hdata name bucket id m (dict_get_In _ _ Ebucket) Him)].
  cbn [with_values_map values_map dictionary_id].
  split; [intros _|discriminate].
  apply (Hdata name bucket _ old (dict_get_In _ _ Ebucket)
               (dict_get_In _ _ Eold)).
  rewrite Evalues. discriminate.
Qed.

Lemma get_category_attribute_map_shape (db : database float)
  (category_mapping_id : Z) (attribute_map : attribute_map_type) :
  get_category_attribute_map db category_mapping_id = Ok attribute_map ->
  values_map_iff_dictionary attribute_map.
Proof.
  unfold get_category_attribute_map. cbv zeta. intros Hrun.
  apply (for_each_invariant values_map_iff_dictionary _ _) with (3 := Hrun).
  - intros s row s' _ Hs Hstep. apply (add_value_mapping_shape s s' row Hs Hstep).
  - generalize (attribute_map_queryset db category_mapping_id).
    intros rows.
    assert (values_map_iff_dictionary []) as Hnil
        by (intros name maps id m []).
    revert Hnil. generalize (@nil (str * dict Z mapping_data)).
    induction rows as [|row rows IH]; intros data Hdata; cbn [fold_left];
      [exact Hdata|].
    apply IH. apply add_attribute_mapping_shape. exact Hdata.
Qed.

(** In the attribute map that [get_category_attribute_map] builds, a
    mapping has a [values_map] exactly when its marketplace attribute has a
    dictionary; so [get_mapped_values] finds the value map of every
    dictionary-backed mapping and returns for every offer, unless a stored
    unit multiplier is zero. *)
Theorem get_mapped_values_reads_the_attribute_map (db : database float)
  (category_mapping_id : Z) (attribute_map : attribute_map_type) :
  get_category_attribute_map db category_mapping_id = Ok attribute_map ->
  values_map_iff_dictionary attribute_map /\
  (nonzero_multipliers (value_unit_maps db) ->
   forall feed, exists r,
     get_mapped_values (value_unit_maps db) attribute_map feed = Ok r).
Proof.
  intros Hrun.
  pose proof (get_category_attribute_map_shape _ _ _ Hrun) as Hshape.
  split; [exact Hshape|].
  intros Hnz feed. unfold get_mapped_values.
  destruct (get_unit_map_returns _ Hnz) as [index ->]. cbn [bind].
  apply for_each_returns. intros s [name raws] _. unfold map_attribute.
  apply for_each_returns. intros s1 raw _.
  apply map_value_returns.
  intros name' maps id m Hin Him Hdict.
  apply (Hshape name' maps id m Hin Him). exact Hdict.
Qed.

End ReaderShape.

Section Resolved.
Context `{Unicode} `{Numbers}.

(** *** What the resolver puts under [values] *)

(** The assignment [data] under the feed attribute [name] comes from a
    mapping of that name that is not deleted, and, on the dictionary path,
    from a value-map entry of the raw value's text that is not deleted. *)
Definition from_live_mapping (attribute_map : attribute_map_type)
  (name : str) (data : mapped_value) : Prop :=
  exists maps id m,
    dict_get name attribute_map = Some maps /\ In (id, m) maps /\
    deleted m = false /\
    attribute_source_id data = source_id m /\
    mv_data_type data = data_type m /\
    (if id_true (dictionary_id m)
     then exists values_maps text entry,
         values_map m = Some values_maps /\
         In (text, entry) values_maps /\
         exists e, In e entry /\ vd_deleted e = false /\
                   data = dictionary_value m e
     else mv_deleted data = None /\ dictionary_value_id data = IntId 0).

Definition all_live (attribute_map : attribute_map_type) (r : mapped_values)
  : Prop :=
  forall name l data,
    In (name, l) (values r) -> In data l ->
    from_live_mapping attribute_map name data.

Lemma all_live_same_values (attribute_map : attribute_map_type)
  (r r' : mapped_values) :
  values r' = values r -> all_live attribute_map r -> all_live attribute_map r'.
Proof. unfold all_live. intros ->. auto. Qed.

Lemma all_live_append (attribute_map : attribute_map_type)
  (r : mapped_values) (name : str) (x : mapped_value) :
  all_live attribute_map r ->
  from_live_mapping attribute_map name x ->
  all_live attribute_map (with_values (setdefault_append name x) r).
Proof.
  intros Hr Hx name' l data Hin Hdata.
  unfold with_values in Hin. cbn [values] in Hin.
  rewrite setdefault_append_set in Hin.
  apply dict_set_entries in Hin. destruct Hin as [[-> ->]|Hin].
  - apply in_app_or in Hdata. destruct Hdata as [Hold|[<-|[]]]; [|exact Hx].
    destruct (dict_get name (values r)) as [l0|] eqn:E; [|contradiction].
    apply (Hr name l0 data); [apply dict_get_In; exact E | exact Hold].
  - apply (Hr name' l data); assumption.
Qed.

Lemma map_for_market_all_live (attribute_map : attribute_map_type)
  value_unit_map name raw up (r r' : mapped_values)
  (maps : dict Z mapping_data) (id : Z) (m : mapping_data) :
  dict_get name attribute_map = Some maps -> In (id, m) maps ->
  all_live attribute_map r ->
  map_for_market value_unit_map name raw up r m = Ok r' ->
  all_live attribute_map r'.
Proof.
  intros Hmaps Hm Hr. unfold map_for_market.
  destruct (deleted m) eqn:Edel; [intros [= <-]; exact Hr|].
  destruct (keyb raw []);
    [intros [= <-]; apply (all_live_same_values _ r); auto|].
  destruct (id_true (dictionary_id m)) eqn:Edict.
  - destruct (values_map m) as [vm|] eqn:Evm; [|discriminate].
    destruct (dict_get up vm) as [matching|] eqn:Eup;
      [|intros [= <-]; apply (all_live_same_values _ r); auto].
    assert (forall part,
               (forall e, In e part -> In e matching) ->
               forall r0, all_live attribute_map r0 ->
               all_live attribute_map
                 (fold_left (append_dictionary_value name m) part r0))
      as Hfold.
    { induction part as [|e part IH]; intros Hpart r0 Hr0; cbn [fold_left];
        [exact Hr0|].
      apply IH; [intros e' He'; apply Hpart; right; exact He'|].
      unfold append_dictionary_value.
      destruct (vd_deleted e) eqn:Ee; [exact Hr0|].
      apply all_live_append; [exact Hr0|].
      exists maps, id, m. split; [exact Hmaps|]. split; [exact Hm|].
      split; [exact Edel|]. split; [reflexivity|]. split; [reflexivity|].
      rewrite Edict. exists vm, up, matching. split; [exact Evm|].
      split; [apply dict_get_In; exact Eup|].
      exists e. split; [apply Hpart; left; reflexivity|].
      split; [exact Ee | reflexivity]. }
    specialize (Hfold matching (fun e He => He) r Hr).
    match goal with
    | |- (if ?b then _ else _) = _ -> _ => destruct b
    end; intros [= <-]; [exact Hfold|].
    apply (all_live_same_values _ _ _ eq_refl Hfold).
  - assert (forall v, from_live_mapping attribute_map name (plain_value m v))
      as Hplain.
    { intros v. exists maps, id, m. split; [exact Hmaps|]. split; [exact Hm|].
      split; [exact Edel|]. split; [reflexivity|]. split; [reflexivity|].
      rewrite Edict. split; reflexivity. }
    destruct (usable_multiplier _) as [mult|].
    + destruct (float_parse _); intros [= <-].
      * apply all_live_append; [exact Hr | apply Hplain].
      * apply (all_live_same_values _ r); auto.
    + intros [= <-]. apply all_live_append; [exact Hr | apply Hplain].
Qed.

(** Every assignment that [get_mapped_values] returns under a feed
    attribute name comes from a mapping of that name that is not deleted;
    on the dictionary path it copies a value-map entry that is not
    deleted, so no deleted marketplace value is ever returned. *)
Theorem get_mapped_values_returns_live_values
  (rows : list (ValueUnitMap float)) (attribute_map : attribute_map_type)
  (feed : dict str (list str)) (r : mapped_values) :
  get_mapped_values rows attribute_map feed = Ok r ->
  forall name l data,
    In (name, l) (values r) -> In data l ->
    from_live_mapping attribute_map name data /\
    mv_deleted data <> Some true.
Proof.
  intros Hrun.
  assert (all_live attribute_map r) as Hlive.
  { revert Hrun. unfold get_mapped_values.
    destruct (get_unit_map rows) as [index|e]; [|discriminate]. cbn [bind].
    intros Hrun.
    apply (for_each_invariant (all_live attribute_map) _ _)
      with (3 := Hrun); [|intros name l data []].
    intros s [name raws] s' _ Hs Hstep. unfold map_attribute in Hstep.
    cbn [fst snd] in Hstep.
    apply (for_each_invariant (all_live attribute_map) _ _)
      with (3 := Hstep); [|exact Hs].
    intros s1 raw s2 _ Hs1 Hstep1. unfold map_value in Hstep1.
    destruct (dict_get name attribute_map) as [[|entry maps]|] eqn:Eget;
      try (injection Hstep1 as <-;
           apply (all_live_same_values _ s1); auto).
    apply (for_each_invariant (all_live attribute_map) _ _)
      with (3 := Hstep1); [|exact Hs1].
    intros s3 m s4 Hm Hs3 Hstep3.
    unfold dict_values in Hm. apply in_map_iff in Hm.
    destruct Hm as [[id m'] [Heq Hm]]. cbn [snd] in Heq. subst m'.
    apply (map_for_market_all_live attribute_map _ _ _ _ _ _ _ id m Eget Hm
             Hs3 Hstep3). }
  intros name l data Hin Hdata.
  pose proof (Hlive name l data Hin Hdata) as Hfrom.
  split; [exact Hfrom|].
  destruct Hfrom as (maps & id & m & _ & _ & _ & _ & _ & Hpath).
  destruct (id_true (dictionary_id m)).
  - destruct Hpath as (vm & text & entry & _ & _ & e & _ & He & ->).
    cbn [dictionary_value mv_deleted]. rewrite He. discriminate.
  - destruct Hpath as [-> _]. discriminate.
Qed.

End Resolved.

Section EqualValues.
Context `{Unicode} `{Numbers} `{Sql}.

(** *** Equal values *)

Lemma first_equal_found (mp_values : list (Z * str)) (feed_value mp : Z * str) :
  first_equal mp_values feed_value = Some mp ->
  In mp mp_values /\ snd mp = snd feed_value.
Proof.
  unfold first_equal. intros Hfind. apply find_some in Hfind.
  destruct Hfind as [Hin Heq]. apply keyb_eq in Heq. split; congruence.
Qed.

(** Every pair of the result comes from the lists of its attribute map. *)
Definition equal_pairs (unmapped_dict : dict Z unmapped_entry)
  (mapping : dict Z (dict Z Z)) : Prop :=
  forall attribute_map_id inner feed_id mp_id,
    In (attribute_map_id, inner) mapping -> In (feed_id, mp_id) inner ->
    exists entry mp_values text,
      In (attribute_map_id, entry) unmapped_dict /\
      entry_mp_values entry = Some mp_values /\
      In (feed_id, text) (entry_unmapped_feed_values entry) /\
      In (mp_id, text) mp_values.

Lemma equal_values_of_pairs (unmapped_dict : dict Z unmapped_entry)
  (attribute_map_id : Z) (entry : unmapped_entry) (mp_values : list (Z * str))
  (mapping : dict Z (dict Z Z)) (feed_value : Z * str) :
  In (attribute_map_id, entry) unmapped_dict ->
  entry_mp_values entry = Some mp_values ->
  In feed_value (entry_unmapped_feed_values entry) ->
  equal_pairs unmapped_dict mapping ->
  equal_pairs unmapped_dict
    (equal_values_of attribute_map_id mp_values mapping feed_value).
Proof.
  intros Hentry Hmp Hfeed Hmapping. unfold equal_values_of.
  destruct (first_equal mp_values feed_value) as [mp|] eqn:Efirst;
    [|exact Hmapping].
  apply first_equal_found in Efirst. destruct Efirst as [Hin Htext].
  intros a inner f m Ha Hf. apply dict_set_entries in Ha.
  destruct Ha as [[-> ->]|Ha]; [|apply (Hmapping a inner f m Ha Hf)].
  apply dict_set_entries in Hf. destruct Hf as [[-> ->]|Hf].
  - exists entry, mp_values, (snd feed_value).
    split; [exact Hentry|]. split; [exact Hmp|].
    split; [destruct feed_value; exact Hfeed|].
    rewrite <- Htext. destruct mp. exact Hin.
  - destruct (dict_get attribute_map_id mapping) as [old|] eqn:Eold;
      [|destruct Hf].
    apply (Hmapping attribute_map_id old f m (dict_get_In _ _ Eold) Hf).
Qed.

(** [get_equal_values] pairs a feed value only with a marketplace value of
    the same attribute map whose text is equal to its own. *)
Theorem get_equal_values_pairs_equal_texts
  (unmapped_dict : dict Z unmapped_entry) :
  forall attribute_map_id inner feed_id mp_id,
    In (attribute_map_id, inner) (get_equal_values unmapped_dict) ->
    In (feed_id, mp_id) inner ->
    exists entry mp_values text,
      In (attribute_map_id, entry) unmapped_dict /\
      entry_mp_values entry = Some mp_values /\
      In (feed_id, text) (entry_unmapped_feed_values entry) /\
      In (mp_id, text) mp_values.
Proof.
  unfold get_equal_values.
  assert (forall part,
             (forall item, In item part -> In item unmapped_dict) ->
             forall mapping, equal_pairs unmapped_dict mapping ->
             equal_pairs unmapped_dict
               (fold_left
                  (fun mapping (item : Z * unmapped_entry) =>
                     match entry_mp_values (snd item),
                           entry_unmapped_feed_values (snd item) with
                     | Some (mp :: mps), fv :: fvs =>
                       fold_left (equal_values_of (fst item) (mp :: mps))
                                 (fv :: fvs) mapping
                     | _, _ => mapping
                     end) part mapping)) as Hfold.
  { induction part as [|[a entry] part IH]; intros Hpart mapping Hmapping;
      cbn [fold_left]; [exact Hmapping|].
    apply IH; [intros item Hitem; apply Hpart; right; exact Hitem|].
    cbn [fst snd].
    destruct (entry_mp_values entry) as [[|mp mps]|] eqn:Emp;
      try exact Hmapping.
    destruct (entry_unmapped_feed_values entry) as [|fv fvs] eqn:Efeed;
      [exact Hmapping|].
    assert (forall feed,
               (forall x, In x feed -> In x (fv :: fvs)) ->
               forall acc, equal_pairs unmapped_dict acc ->
               equal_pairs unmapped_dict
                 (fold_left (equal_values_of a (mp :: mps)) feed acc))
      as Hinner.
    { induction feed as [|x feed IHf]; intros Hfeed acc Hacc; cbn [fold_left];
        [exact Hacc|].
      apply IHf; [intros y Hy; apply Hfeed; right; exact Hy|].
      apply (equal_values_of_pairs unmapped_dict a entry (mp :: mps) acc x);
        [apply Hpart; left; reflexivity | exact Emp | | exact Hacc].
      rewrite Efeed. apply Hfeed. left. reflexivity. }
    apply (Hinner (fv :: fvs) (fun x Hx => Hx) mapping Hmapping). }
  apply (Hfold unmapped_dict (fun item Hitem => Hitem) []).
  intros a inner f m [].
Qed.

End EqualValues.

Section ValueMaps.
Context `{Unicode} `{Numbers} `{Sql}.

(** *** Rows that [create_val_mappings] adds *)

(** [db'] has the rows of [db] and more [ValueMap] rows after them. *)
Definition more_value_maps (db db' : database float) : Prop :=
  feed_categories db' = feed_categories db /\
  feed_attributes db' = feed_attributes db /\
  feed_values db' = feed_values db /\
  market_attributes db' = market_attributes db /\
  market_category_attributes db' = market_category_attributes db /\
  market_values db' = market_values db /\
  attribute_maps db' = attribute_maps db /\
  value_unit_maps db' = value_unit_maps db /\
  exists new, value_maps db' = value_maps db ++ new.

Lemma more_value_maps_refl (db : database float) : more_value_maps db db.
Proof.
  unfold more_value_maps. repeat split. exists []. symmetry. apply app_nil_r.
Qed.

Lemma more_value_maps_trans (db1 db2 db3 : database float) :
  more_value_maps db1 db2 -> more_value_maps db2 db3 ->
  more_value_maps db1 db3.
Proof.
  intros (A1 & A2 & A3 & A4 & A5 & A6 & A7 & A8 & new & Hnew)
         (B1 & B2 & B3 & B4 & B5 & B6 & B7 & B8 & new' & Hnew').
  unfold more_value_maps. repeat split; try congruence.
  exists (new ++ new'). rewrite Hnew', Hnew. symmetry. apply app_assoc.
Qed.

Definition unique_triples (db : database float) : Prop :=
  NoDup (map triple (value_maps db)).

Definition has_triple (db : database float) (a f mp : Z) : Prop :=
  exists row, In row (value_maps db) /\ triple row = (a, f, Some mp).

Lemma has_triple_more (db db' : database float) (a f mp : Z) :
  more_value_maps db db' -> has_triple db a f mp -> has_triple db' a f mp.
Proof.
  intros (_ & _ & _ & _ & _ & _ & _ & _ & new & Hnew) [row [Hrow Htriple]].
  exists row. split; [|exact Htriple]. rewrite Hnew. apply in_or_app.
  left. exact Hrow.
Qed.

Lemma same_triple_spec (a f mp : Z) (row : ValueMap) :
  same_triple a f mp row = true <-> triple row = (a, f, Some mp).
Proof. unfold same_triple. apply keyb_eq. Qed.

(** One [get_or_create]. *)
Lemma get_or_create_value_map_step (db db' : database float) (a f mp : Z) :
  get_or_create_value_map db a f mp = Ok db' ->
  more_value_maps db db' /\ has_triple db' a f mp /\
  (unique_triples db -> unique_triples db') /\
  (forall row, In row (value_maps db') -> ~ In row (value_maps db) ->
               triple row = (a, f, Some mp)).
Proof.
  unfold get_or_create_value_map.
  destruct (filter (same_triple a f mp) (value_maps db)) as [|row [|row' l]]
    eqn:Efilter; [| |discriminate].
  - unfold create_value_map.
    destruct (by_id am_id (attribute_maps db) a) as [attribute_map|];
      [|discriminate].
    destruct (by_id fcav_id (feed_values db) f) as [feed_value|];
      [|discriminate].
    destruct (negb _); [discriminate|].
    destruct (by_id mav_id (market_values db) mp) as [mv|]; [|discriminate].
    destruct (existsb _ _) eqn:Eexists; [discriminate|].
    intros [= <-]. cbn [with_value_maps value_maps].
    split; [|split; [|split]].
    + unfold more_value_maps. cbn. repeat split. eexists. reflexivity.
    + eexists. split; [apply in_or_app; right; left; reflexivity|].
      reflexivity.
    + unfold unique_triples. cbn [with_value_maps value_maps].
      intros Hunique. rewrite map_app. cbn [map triple vm_attribute_map_id
        vm_feed_attribute_value_id vm_marketplace_attribute_value_id].
      apply NoDup_app; [exact Hunique | repeat constructor; intros [] |].
      intros t Ht [<-|[]]. apply in_map_iff in Ht.
      destruct Ht as [row [Htriple Hrow]].
      assert (existsb (same_triple a f mp) (value_maps db) = true) as Hex.
      { apply existsb_exists. exists row. split; [exact Hrow|].
        apply same_triple_spec. exact Htriple. }
      congruence.
    + intros row Hrow Hnew. apply in_app_or in Hrow.
      destruct Hrow as [Hrow|[<-|[]]]; [contradiction | reflexivity].
  - intros [= <-]. split; [apply more_value_maps_refl|].
    split; [|split; [tauto|intros r Hr Hn; contradiction]].
    exists row.
    assert (In row (filter (same_triple a f mp) (value_maps db))) as Hin
        by (rewrite Efilter; left; reflexivity).
    apply filter_In in Hin. destruct Hin as [Hin Hsame].
    split; [exact Hin | apply same_triple_spec; exact Hsame].
Qed.

(** What the loops keep, for a mapping [val_mappings]. *)
Definition created_from (val_mappings : dict Z (dict Z Z))
  (db db' : database float) : Prop :=
  more_value_maps db db' /\
  (unique_triples db -> unique_triples db') /\
  (forall row, In row (value_maps db') -> ~ In row (value_maps db) ->
     exists inner mp,
       In (vm_attribute_map_id row, inner) val_mappings /\
       In (vm_feed_attribute_value_id row, mp) inner /\
       vm_marketplace_attribute_value_id row = Some mp).

Lemma created_from_step (val_mappings : dict Z (dict Z Z))
  (db db1 db2 : database float) (a : Z) (inner : dict Z Z) (f mp : Z) :
  In (a, inner) val_mappings -> In (f, mp) inner ->
  created_from val_mappings db db1 ->
  get_or_create_value_map db1 a f mp = Ok db2 ->
  created_from val_mappings db db2.
Proof.
  intros Ha Hf (Hmore & Hunique & Hrows) Hstep.
  destruct (get_or_create_value_map_step db1 db2 a f mp Hstep)
    as (Hmore2 & _ & Hunique2 & Hnew2).
  split; [apply (more_value_maps_trans _ _ _ Hmore Hmore2)|].
  split; [tauto|].
  intros row Hrow Hnot.
  destruct (in_dec (fun x y : ValueMap =>
                      ltac:(decide equality; try apply Z.eq_dec;
                            decide equality; apply Z.eq_dec))
                   row (value_maps db1)) as [Hold|Hfresh].
  - apply (Hrows row Hold Hnot).
  - specialize (Hnew2 row Hrow Hfresh). unfold triple in Hnew2.
    injection Hnew2 as -> -> ->. exists inner, mp. repeat split; assumption.
Qed.

Lemma create_val_mappings_created_from (val_mappings : dict Z (dict Z Z))
  (db db' : database float) :
  create_val_mappings db val_mappings = Ok db' ->
  created_from val_mappings db db'.
Proof.
  unfold create_val_mappings. intros Hrun.
  apply (for_each_invariant (created_from val_mappings db) _ _)
    with (3 := Hrun).
  - intros db1 [a inner] db2 Ha Hdb1 Hstep. cbn [fst snd] in Hstep.
    apply (for_each_invariant (created_from val_mappings db) _ _)
      with (3 := Hstep); [|exact Hdb1].
    intros db3 [f mp] db4 Hf Hdb3 Hstep'. cbn [fst snd] in Hstep'.
    apply (created_from_step val_mappings db db3 db4 a inner f mp Ha Hf Hdb3
             Hstep').
  - split; [apply more_value_maps_refl|]. split; [tauto|].
    intros row Hrow Hnot. contradiction.
Qed.

(** [create_val_mappings] only appends [ValueMap] rows: the rows that were
    there stay first and unchanged, the other tables are untouched, every
    new row is a pair of the mapping it was given, and no triple
    (attribute map, feed value, marketplace value) becomes duplicated. *)
Theorem create_val_mappings_appends_unique_rows
  (val_mappings : dict Z (dict Z Z)) (db db' : database float) :
  create_val_mappings db val_mappings = Ok db' ->
  more_value_maps db db' /\
  (NoDup (map triple (value_maps db)) ->
   NoDup (map triple (value_maps db'))) /\
  (forall row, In row (value_maps db') -> ~ In row (value_maps db) ->
     exists inner mp,
       In (vm_attribute_map_id row, inner) val_mappings /\
       In (vm_feed_attribute_value_id row, mp) inner /\
       vm_marketplace_attribute_value_id row = Some mp).
Proof. apply create_val_mappings_created_from. Qed.

(** *** Creating the same mappings again *)

Lemma filter_unique_triple (rows : list ValueMap) (row : ValueMap) :
  NoDup (map triple rows) -> In row rows ->
  filter (fun r => keyb (triple r) (triple row)) rows = [row].
Proof.
  induction rows as [|r rows IH]; intros Hunique Hin; [destruct Hin|].
  cbn [map] in Hunique. inversion Hunique as [|t ts Hnot Hrest]; subst.
  cbn [filter]. destruct Hin as [->|Hin].
  - rewrite keyb_refl. f_equal.
    assert (forall l, ~ In (triple row) (map triple l) ->
                      filter (fun r => keyb (triple r) (triple row)) l = [])
      as Hnone.
    { induction l as [|x l IHl]; intros Hx; cbn [filter]; [reflexivity|].
      destruct (keyb (triple x) (triple row)) eqn:E.
      - apply keyb_eq in E. exfalso. apply Hx. left. exact E.
      - apply IHl. intros Hl. apply Hx. right. exact Hl. }
    apply Hnone. exact Hnot.
  - destruct (keyb (triple r) (triple row)) eqn:E.
    + apply keyb_eq in E. exfalso. apply Hnot. rewrite E.
      apply in_map. exact Hin.
    + apply IH; assumption.
Qed.

Lemma get_or_create_value_map_again (db : database float) (a f mp : Z) :
  unique_triples db -> has_triple db a f mp ->
  get_or_create_value_map db a f mp = Ok db.
Proof.
  intros Hunique [row [Hrow Htriple]]. unfold get_or_create_value_map.
  assert (filter (same_triple a f mp) (value_maps db) = [row]) as ->;
    [|reflexivity].
  rewrite <- (filter_unique_triple _ row Hunique Hrow).
  unfold same_triple. rewrite Htriple. reflexivity.
Qed.

Lemma pairs_have_triples (a : Z) (inner : dict Z Z) :
  forall db db',
    for_each (fun db (pair : Z * Z) =>
                get_or_create_value_map db a (fst pair) (snd pair))
             inner db = Ok db' ->
    more_value_maps db db' /\ (unique_triples db -> unique_triples db') /\
    forall f mp, In (f, mp) inner -> has_triple db' a f mp.
Proof.
  induction inner as [|[f0 mp0] inner IH]; intros db db'; cbn [for_each].
  - intros [= <-]. split; [apply more_value_maps_refl|]. split; [tauto|].
    intros f mp [].
  - cbn [fst snd].
    destruct (get_or_create_value_map db a f0 mp0) as [db1|] eqn:E1;
      cbn [bind]; [|discriminate].
    intros Hrest.
    destruct (get_or_create_value_map_step db db1 a f0 mp0 E1)
      as (Hmore1 & Hhas1 & Hunique1 & _).
    destruct (IH db1 db' Hrest) as (Hmore & Hunique & Hall).
    split; [apply (more_value_maps_trans _ _ _ Hmore1 Hmore)|].
    split; [tauto|].
    intros f mp [[= <- <-]|Hin]; [|apply Hall; exact Hin].
    apply (has_triple_more db1 db' a f0 mp0 Hmore Hhas1).
Qed.

Lemma mappings_have_triples (val_mappings : dict Z (dict Z Z)) :
  forall db db',
    create_val_mappings db val_mappings = Ok db' ->
    more_value_maps db db' /\ (unique_triples db -> unique_triples db') /\
    forall a inner f mp,
      In (a, inner) val_mappings -> In (f, mp) inner ->
      has_triple db' a f mp.
Proof.
  unfold create_val_mappings.
  induction val_mappings as [|[a0 inner0] rest IH]; intros db db';
    cbn [for_each].
  - intros [= <-]. split; [apply more_value_maps_refl|]. split; [tauto|].
    intros a inner f mp [].
  - cbn [fst snd].
    match goal with
    | |- bind ?c _ = _ -> _ => destruct c as [db1|] eqn:E1
    end; cbn [bind]; [|discriminate].
    intros Hrest.
    destruct (pairs_have_triples a0 inner0 db db1 E1)
      as (Hmore1 & Hunique1 & Hall1).
    destruct (IH db1 db' Hrest) as (Hmore & Hunique & Hall).
    split; [apply (more_value_maps_trans _ _ _ Hmore1 Hmore)|].
    split; [tauto|].
    intros a inner f mp [[= <- <-]|Hin] Hf; [|apply (Hall a inner f mp Hin Hf)].
    apply (has_triple_more db1 db' a0 f mp Hmore). apply Hall1. exact Hf.
Qed.

(** Creating the same value mappings a second time changes nothing, when
    the table held no duplicated triple to begin with. *)
Theorem create_val_mappings_twice (val_mappings : dict Z (dict Z Z))
  (db db' : database float) :
  NoDup (map triple (value_maps db)) ->
  create_val_mappings db val_mappings = Ok db' ->
  create_val_mappings db' val_mappings = Ok db'.
Proof.
  intros Hunique Hrun.
  destruct (mappings_have_triples val_mappings db db' Hrun)
    as (_ & Hunique' & Hall).
  specialize (Hunique' Hunique). unfold create_val_mappings.
  assert (forall part,
             (forall item, In item part -> In item val_mappings) ->
             for_each
               (fun db0 (item : Z * dict Z Z) =>
                  for_each
                    (fun db1 (pair : Z * Z) =>
                       get_or_create_value_map db1 (fst item) (fst pair)
                                               (snd pair))
                    (snd item) db0)
               part db' = Ok db') as Hloop.
  { induction part as [|[a inner] part IH]; intros Hpart; cbn [for_each];
      [reflexivity|].
    cbn [fst snd].
    assert (forall pairs,
               (forall pair, In pair pairs -> In pair inner) ->
               for_each
                 (fun db1 (pair : Z * Z) =>
                    get_or_create_value_map db1 a (fst pair) (snd pair))
                 pairs db' = Ok db') as Hinner.
    { induction pairs as [|[f mp] pairs IHp]; intros Hpairs; cbn [for_each];
        [reflexivity|].
      cbn [fst snd].
      rewrite (get_or_create_value_map_again db' a f mp Hunique').
      - cbn [bind]. apply IHp. intros pair Hpair. apply Hpairs. right.
        exact Hpair.
      - apply (Hall a inner f mp).
        + apply Hpart. left. reflexivity.
        + apply Hpairs. left. reflexivity. }
    rewrite (Hinner inner (fun pair Hpair => Hpair)). cbn [bind].
    apply IH. intros item Hitem. apply Hpart. right. exact Hitem. }
  apply Hloop. intros item Hitem. exact Hitem.
Qed.

End ValueMaps.

Section BatchScope.
Context `{Unicode} `{Numbers} `{Sql}.

(** *** The parts of [get_both_values_for_unmapped] *)

(** [mp_attributes_dict_ids] *)
Definition dictionary_ids (attr_maps : list attribute_map_row)
  : dict Z (option Z) :=
  fold_left
    (fun d row =>
       dict_set (am_id (attr_map row)) (ma_dictionary_id (market_attribute row))
                d)
    attr_maps [].

(** [mapped_feed_values_ids] *)
Definition mapped_ids (rows : list ValueMap) (ids : dict Z (option Z))
  : list Z :=
  map vm_feed_attribute_value_id
      (filter (fun vm => mem_Z (vm_attribute_map_id vm) (dict_keys ids)) rows).

(** [unmapped_feed_values] *)
Definition unmapped_rows (db : database float)
  (attr_maps : list attribute_map_row) (mapped : list Z)
  : list (Z * Z * str) :=
  map (fun fv => (fcav_attribute_id fv, fcav_id fv, sql_upper (fcav_value fv)))
      (filter (fun fv =>
                 mem_Z (fcav_attribute_id fv)
                       (map (fun row => am_feed_attribute_id (attr_map row))
                            attr_maps)
                 && negb (mem_Z (fcav_id fv) mapped))
              (feed_values db)).

(** [unmapped_feed_attribute_values] of one mapping *)
Definition unmapped_of (unmapped : list (Z * Z * str))
  (row : attribute_map_row) : list (Z * str) :=
  filter_map
    (fun v : Z * Z * str =>
       if (fst (fst v) =? am_feed_attribute_id (attr_map row))%Z
       then Some (snd (fst v), snd v) else None)
    unmapped.

Definition add_unmapped (unmapped : list (Z * Z * str))
  (d : dict Z unmapped_entry) (row : attribute_map_row)
  : dict Z unmapped_entry :=
  match unmapped_of unmapped row with
  | [] => d
  | _ :: _ =>
    dict_set (am_id (attr_map row))
             {| entry_unmapped_feed_values := unmapped_of unmapped row;
                entry_mp_values := None |} d
  end.

(** [marketplace_values] *)
Definition marketplace_rows (db : database float) (ids : dict Z (option Z))
  : list (Z * Z * str) :=
  map (fun mv => (mav_dictionary_id mv, mav_id mv, sql_upper (mav_value mv)))
      (filter (fun mv => existsb (keyb (Some (mav_dictionary_id mv)))
                                 (dict_values ids)
                         && negb (mav_deleted mv))
              (market_values db)).

(** [mp_attribute_values] of one dictionary *)
Definition mp_values_of (marketplace_values : list (Z * Z * str))
  (dictionary_id : option Z) : list (Z * str) :=
  filter_map
    (fun v : Z * Z * str =>
       if keyb (Some (fst (fst v))) dictionary_id
       then Some (snd (fst v), snd v) else None)
    marketplace_values.

(** The entry of a mapping once its marketplace values are known. *)
Definition with_mp_values (ids : dict Z (option Z))
  (marketplace_values : list (Z * Z * str)) (k : Z) (entry : unmapped_entry)
  : unmapped_entry :=
  match dict_get k ids with
  | Some dictionary_id =>
    match mp_values_of marketplace_values dictionary_id with
    | [] => entry
    | _ :: _ =>
      {| entry_unmapped_feed_values := entry_unmapped_feed_values entry;
         entry_mp_values :=
           Some (mp_values_of marketplace_values dictionary_id) |}
    end
  | None => entry
  end.

(** The body of the last loop. *)
Definition add_mp_values (ids : dict Z (option Z))
  (marketplace_values : list (Z * Z * str))
  (d : dict Z unmapped_entry) (attribute_map_id : Z)
  : res (dict Z unmapped_entry) :=
  match dict_get attribute_map_id ids, dict_get attribute_map_id d with
  | Some dictionary_id, Some entry =>
    match mp_values_of marketplace_values dictionary_id with
    | [] => Ok d
    | _ :: _ =>
      Ok (dict_set attribute_map_id
            {| entry_unmapped_feed_values := entry_unmapped_feed_values entry;
               entry_mp_values :=
                 Some (mp_values_of marketplace_values dictionary_id) |} d)
    end
  | _, _ => Raise KeyError
  end.

Lemma get_both_values_for_unmapped_parts (db : database float) (feed_id : Z) :
  get_both_values_for_unmapped db feed_id =
  let attr_maps := equal_values_attr_maps db feed_id in
  let ids := dictionary_ids attr_maps in
  let unmapped :=
    unmapped_rows db attr_maps (mapped_ids (value_maps db) ids) in
  let d := fold_left (add_unmapped unmapped) attr_maps [] in
  for_each (add_mp_values ids (marketplace_rows db ids)) (dict_keys d) d.
Proof. reflexivity. Qed.


(** *** What the dictionaries hold *)

Lemma dictionary_ids_has (attr_maps : list attribute_map_row)
  (row : attribute_map_row) :
  In row attr_maps ->
  dict_mem (am_id (attr_map row)) (dictionary_ids attr_maps) = true.
Proof.
  unfold dictionary_ids.
  assert (forall part acc,
             In row part \/ dict_mem (am_id (attr_map row)) acc = true ->
             dict_mem (am_id (attr_map row))
               (fold_left
                  (fun d r =>
                     dict_set (am_id (attr_map r))
                              (ma_dictionary_id (market_attribute r)) d)
                  part acc) = true) as Hfold.
  { induction part as [|r part IH]; intros acc; cbn [fold_left].
    - intros [[]|Hacc]. exact Hacc.
    - intros Hor. apply IH. rewrite dict_mem_set.
      destruct Hor as [[->|Hin]|Hacc].
      + right. rewrite keyb_refl. reflexivity.
      + left. exact Hin.
      + right. rewrite Hacc. apply orb_true_r. }
  intros Hin. apply Hfold. left. exact Hin.
Qed.

(** An entry of the dictionary of unmapped values belongs to a mapping. *)
Definition entry_of (attr_maps : list attribute_map_row)
  (unmapped : list (Z * Z * str)) (k : Z) (entry : unmapped_entry) : Prop :=
  exists row,
    In row attr_maps /\ am_id (attr_map row) = k /\
    entry_unmapped_feed_values entry = unmapped_of unmapped row /\
    unmapped_of unmapped row <> [].

Lemma add_unmapped_entries (attr_maps : list attribute_map_row)
  (unmapped : list (Z * Z * str)) :
  forall k entry,
    In (k, entry) (fold_left (add_unmapped unmapped) attr_maps []) ->
    entry_of attr_maps unmapped k entry /\ entry_mp_values entry = None.
Proof.
  assert (forall part acc,
             (forall row, In row part -> In row attr_maps) ->
             (forall k entry, In (k, entry) acc ->
                entry_of attr_maps unmapped k entry /\
                entry_mp_values entry = None) ->
             forall k entry,
               In (k, entry) (fold_left (add_unmapped unmapped) part acc) ->
               entry_of attr_maps unmapped k entry /\
               entry_mp_values entry = None) as Hfold.
  { induction part as [|r part IH]; intros acc Hpart Hacc; cbn [fold_left];
      [exact Hacc|].
    apply IH; [intros row Hrow; apply Hpart; right; exact Hrow|].
    intros k entry. unfold add_unmapped.
    destruct (unmapped_of unmapped r) as [|x l] eqn:Er; [apply Hacc|].
    intros Hin. apply dict_set_entries in Hin.
    destruct Hin as [[-> ->]|Hin]; [|apply Hacc; exact Hin].
    split; [|reflexivity]. exists r.
    split; [apply Hpart; left; reflexivity|]. split; [reflexivity|].
    cbn [entry_unmapped_feed_values]. rewrite Er.
    split; [reflexivity | discriminate]. }
  apply Hfold; [tauto|]. intros k entry [].
Qed.

Lemma add_unmapped_has (attr_maps : list attribute_map_row)
  (unmapped : list (Z * Z * str)) (row : attribute_map_row) :
  In row attr_maps -> unmapped_of unmapped row <> [] ->
  dict_mem (am_id (attr_map row))
           (fold_left (add_unmapped unmapped) attr_maps []) = true.
Proof.
  intros Hrow Hsome.
  assert (forall part acc,
             In row part \/ dict_mem (am_id (attr_map row)) acc = true ->
             dict_mem (am_id (attr_map row))
                      (fold_left (add_unmapped unmapped) part acc) = true)
    as Hfold.
  { induction part as [|r part IH]; intros acc; cbn [fold_left].
    - intros [[]|Hacc]. exact Hacc.
    - intros Hor. apply IH. unfold add_unmapped.
      destruct Hor as [[->|Hin]|Hacc].
      + right. destruct (unmapped_of unmapped row); [contradiction|].
        rewrite dict_mem_set, keyb_refl. reflexivity.
      + left. exact Hin.
      + right. destruct (unmapped_of unmapped r); [exact Hacc|].
        rewrite dict_mem_set, Hacc. apply orb_true_r. }
  apply Hfold. left. exact Hrow.
Qed.

(** *** The last loop *)

Lemma add_mp_values_step (ids : dict Z (option Z))
  (marketplace_values : list (Z * Z * str))
  (d d' : dict Z unmapped_entry) (k0 : Z) :
  add_mp_values ids marketplace_values d k0 = Ok d' ->
  forall k,
    dict_get k d' =
    option_map (fun entry =>
                  if (k =? k0)%Z
                  then with_mp_values ids marketplace_values k entry
                  else entry)
               (dict_get k d).
Proof.
  unfold add_mp_values.
  destruct (dict_get k0 ids) as [dictionary_id|] eqn:Eid; [|discriminate].
  destruct (dict_get k0 d) as [entry|] eqn:Eentry; [|discriminate].
  destruct (mp_values_of marketplace_values dictionary_id) as [|x l] eqn:Emp;
    intros [= <-] k; destruct (Z.eqb_spec k k0) as [->|Hne].
  - rewrite Eentry. cbn [option_map]. unfold with_mp_values.
    rewrite Eid, Emp. reflexivity.
  - destruct (dict_get k d); reflexivity.
  - rewrite Eentry, dict_get_set_same. cbn [option_map].
    unfold with_mp_values. rewrite Eid, Emp. reflexivity.
  - rewrite (dict_get_set_other _ _ Hne).
    destruct (dict_get k d); reflexivity.
Qed.

Lemma with_mp_values_twice (ids : dict Z (option Z))
  (marketplace_values : list (Z * Z * str)) (k : Z) (entry : unmapped_entry) :
  with_mp_values ids marketplace_values k
                 (with_mp_values ids marketplace_values k entry)
  = with_mp_values ids marketplace_values k entry.
Proof.
  unfold with_mp_values. destruct (dict_get k ids) as [dictionary_id|];
    [|reflexivity].
  destruct (mp_values_of marketplace_values dictionary_id); reflexivity.
Qed.

Lemma add_mp_values_loop (ids : dict Z (option Z))
  (marketplace_values : list (Z * Z * str)) (keys : list Z) :
  forall d d',
    for_each (add_mp_values ids marketplace_values) keys d = Ok d' ->
    forall k,
      dict_get k d' =
      option_map (fun entry =>
                    if mem_Z k keys
                    then with_mp_values ids marketplace_values k entry
                    else entry)
                 (dict_get k d).
Proof.
  induction keys as [|k0 keys IH]; intros d d'; cbn [for_each].
  - intros [= <-] k. destruct (dict_get k d); reflexivity.
  - destruct (add_mp_values ids marketplace_values d k0) as [d1|] eqn:E1;
      cbn [bind]; [|discriminate].
    intros Hrest k. rewrite (IH d1 d' Hrest k).
    rewrite (add_mp_values_step ids marketplace_values d d1 k0 E1 k).
    destruct (dict_get k d) as [entry|]; [|reflexivity]. cbn [option_map].
    unfold mem_Z. cbn [existsb]. fold (mem_Z k keys).
    destruct (k =? k0)%Z; cbn [orb]; [|reflexivity].
    destruct (mem_Z k keys); [|reflexivity].
    rewrite with_mp_values_twice. reflexivity.
Qed.

Lemma add_mp_values_returns (ids : dict Z (option Z))
  (marketplace_values : list (Z * Z * str)) (keys : list Z) :
  forall d,
    (forall k, In k keys ->
               dict_get k ids <> None /\ dict_get k d <> None) ->
    exists d', for_each (add_mp_values ids marketplace_values) keys d = Ok d'.
Proof.
  induction keys as [|k0 keys IH]; intros d Hkeys; cbn [for_each].
  - exists d. reflexivity.
  - destruct (add_mp_values ids marketplace_values d k0) as [d1|e] eqn:E1.
    + cbn [bind]. apply IH. intros k Hk.
      destruct (Hkeys k (or_intror Hk)) as [Hid Hentry].
      split; [exact Hid|].
      rewrite (add_mp_values_step ids marketplace_values d d1 k0 E1 k).
      destruct (dict_get k d); [discriminate | contradiction].
    + exfalso. destruct (Hkeys k0 (or_introl eq_refl)) as [Hid Hentry].
      unfold add_mp_values in E1.
      destruct (dict_get k0 ids); [|contradiction].
      destruct (dict_get k0 d); [|contradiction].
      destruct (mp_values_of marketplace_values o); discriminate.
Qed.

(** [get_both_values_for_unmapped] raises no [KeyError]: every key of the
    dictionary of unmapped values is the id of one of the mappings, which
    has a dictionary id. *)
Lemma get_both_values_for_unmapped_returns (db : database float)
  (feed_id : Z) :
  exists d, get_both_values_for_unmapped db feed_id = Ok d.
Proof.
  rewrite get_both_values_for_unmapped_parts. cbv zeta.
  apply add_mp_values_returns. intros k Hk.
  apply dict_mem_keys in Hk. unfold dict_mem in Hk.
  match type of Hk with
  | match ?g with _ => _ end = true =>
    destruct g as [entry|] eqn:Eentry; [|discriminate]
  end.
  split; [|discriminate].
  destruct (add_unmapped_entries _ _ k entry (dict_get_In _ _ Eentry))
    as [(row & Hrow & <- & _) _].
  pose proof (dictionary_ids_has _ row Hrow) as Hmem.
  apply not_false_iff_true in Hmem. intros Hnone. apply Hmem.
  apply dict_mem_get. exact Hnone.
Qed.

(** *** The entries that are returned *)

Lemma add_mp_values_entries (attr_maps : list attribute_map_row)
  (unmapped marketplace_values : list (Z * Z * str)) (keys : list Z)
  (d0 d : dict Z unmapped_entry) :
  for_each (add_mp_values (dictionary_ids attr_maps) marketplace_values)
           keys d0 = Ok d ->
  (forall k entry, In (k, entry) d0 ->
     entry_of attr_maps unmapped k entry /\ entry_mp_values entry = None) ->
  forall k entry,
    In (k, entry) d ->
    entry_of attr_maps unmapped k entry /\
    forall mp_values,
      entry_mp_values entry = Some mp_values ->
      exists dictionary_id,
        dict_get k (dictionary_ids attr_maps) = Some dictionary_id /\
        mp_values = mp_values_of marketplace_values dictionary_id /\
        mp_values <> [].
Proof.
  intros Hrun Hstart.
  apply (for_each_invariant
           (fun d => forall k entry,
                In (k, entry) d ->
                entry_of attr_maps unmapped k entry /\
                forall mp_values,
                  entry_mp_values entry = Some mp_values ->
                  exists dictionary_id,
                    dict_get k (dictionary_ids attr_maps)
                    = Some dictionary_id /\
                    mp_values = mp_values_of marketplace_values dictionary_id
                    /\ mp_values <> [])
           _ _) with (3 := Hrun).
  - intros d1 k0 d2 _ Hd1. unfold add_mp_values.
    destruct (dict_get k0 (dictionary_ids attr_maps)) as [dictionary_id|]
      eqn:Eid; [|discriminate].
    destruct (dict_get k0 d1) as [old|] eqn:Eold; [|discriminate].
    destruct (mp_values_of marketplace_values dictionary_id) as [|x l] eqn:Emp;
      intros [= <-]; [exact Hd1|].
    intros k entry Hin. apply dict_set_entries in Hin.
    destruct Hin as [[-> ->]|Hin]; [|apply Hd1; exact Hin].
    destruct (Hd1 k0 old (dict_get_In _ _ Eold)) as [Hold _].
    split; [exact Hold|].
    cbn [entry_mp_values]. intros mp_values [= <-].
    exists dictionary_id. split; [exact Eid|].
    split; [symmetry; exact Emp | discriminate].
  - intros k entry Hin. destruct (Hstart k entry Hin) as [Hentry Hnone].
    split; [exact Hentry|]. rewrite Hnone. discriminate.
Qed.

Lemma mem_Z_In (x : Z) (l : list Z) : mem_Z x l = true <-> In x l.
Proof.
  unfold mem_Z. rewrite existsb_exists. split.
  - intros [y [Hy Heq]]. apply Z.eqb_eq in Heq. subst y. exact Hy.
  - intros Hx. exists x. split; [exact Hx | apply Z.eqb_refl].
Qed.

(** The unmapped values of a mapping are the values of its feed attribute
    that no row of [ValueMap] of the mappings at hand names. *)
Lemma unmapped_of_spec (db : database float)
  (attr_maps : list attribute_map_row) (mapped : list Z)
  (row : attribute_map_row) (feed_value_id : Z) (text : str) :
  In row attr_maps ->
  In (feed_value_id, text)
     (unmapped_of (unmapped_rows db attr_maps mapped) row) <->
  exists fv,
    In fv (feed_values db) /\
    fcav_attribute_id fv = am_feed_attribute_id (attr_map row) /\
    fcav_id fv = feed_value_id /\ sql_upper (fcav_value fv) = text /\
    mem_Z feed_value_id mapped = false.
Proof.
  intros Hrow. unfold unmapped_of, unmapped_rows, filter_map. split.
  - intros Hin. apply in_flat_map in Hin.
    destruct Hin as [[[a i] t] [Hin Hsome]]. cbn [fst snd] in Hsome.
    apply in_map_iff in Hin. destruct Hin as [fv [[= <- <- <-] Hin]].
    apply filter_In in Hin. destruct Hin as [Hin Hkeep].
    apply andb_true_iff in Hkeep. destruct Hkeep as [_ Hnot].
    apply negb_true_iff in Hnot.
    destruct (Z.eqb_spec (fcav_attribute_id fv)
                         (am_feed_attribute_id (attr_map row))) as [Heq|Hne];
      [|destruct Hsome].
    destruct Hsome as [[= <- <-]|[]].
    exists fv. repeat split; assumption.
  - intros (fv & Hin & Hattr & <- & <- & Hnot).
    apply in_flat_map.
    exists (fcav_attribute_id fv, fcav_id fv, sql_upper (fcav_value fv)).
    split.
    + apply (in_map (fun fv => (fcav_attribute_id fv, fcav_id fv,
                                sql_upper (fcav_value fv)))).
      apply filter_In. split; [exact Hin|].
      apply andb_true_iff. split; [|rewrite Hnot; reflexivity].
      apply mem_Z_In. rewrite Hattr.
      apply (in_map (fun r => am_feed_attribute_id (attr_map r))).
      exact Hrow.
    + cbn [fst snd]. rewrite Hattr, Z.eqb_refl. left. reflexivity.
Qed.

(** *** What [get_equal_values] finds *)

Lemma get_equal_values_has (d : dict Z unmapped_entry) (k : Z)
  (entry : unmapped_entry) (mp_values : list (Z * str))
  (feed_value mp : Z * str) :
  In (k, entry) d -> entry_mp_values entry = Some mp_values ->
  In feed_value (entry_unmapped_feed_values entry) ->
  first_equal mp_values feed_value = Some mp ->
  exists inner mp_id,
    In (k, inner) (get_equal_values d) /\ In (fst feed_value, mp_id) inner.
Proof.
  intros Hentry Hmp Hfeed Hfirst.
  set (has := fun mapping : dict Z (dict Z Z) =>
                exists inner, dict_get k mapping = Some inner /\
                              dict_mem (fst feed_value) inner = true).
  assert (forall a mps mapping fv,
             has mapping -> has (equal_values_of a mps mapping fv)) as Hkeep.
  { intros a mps mapping fv [inner [Hinner Hmem]]. unfold equal_values_of.
    destruct (first_equal mps fv) as [found|]; [|exists inner; tauto].
    destruct (Z.eqb_spec k a) as [<-|Hne].
    - rewrite Hinner. eexists. split; [apply dict_get_set_same|].
      rewrite dict_mem_set, Hmem. apply orb_true_r.
    - exists inner. split; [|exact Hmem].
      rewrite (dict_get_set_other _ _ Hne). exact Hinner. }
  assert (forall a mps l mapping,
             has mapping -> has (fold_left (equal_values_of a mps) l mapping))
    as Hkeeps.
  { induction l as [|fv l IH]; intros mapping Hm; cbn [fold_left];
      [exact Hm|]. apply IH. apply Hkeep. exact Hm. }
  assert (forall l mapping,
             In feed_value l ->
             has (fold_left (equal_values_of k mp_values) l mapping))
    as Hfound.
  { induction l as [|fv l IH]; intros mapping; [intros []|].
    cbn [fold_left]. intros [->|Hin]; [|apply IH; exact Hin].
    apply Hkeeps. unfold equal_values_of. rewrite Hfirst.
    eexists. split; [apply dict_get_set_same|].
    rewrite dict_mem_set, keyb_refl. reflexivity. }
  assert (forall part mapping,
             In (k, entry) part \/ has mapping ->
             has (fold_left
                    (fun mapping (item : Z * unmapped_entry) =>
                       match entry_mp_values (snd item),
                             entry_unmapped_feed_values (snd item) with
                       | Some (mp :: mps), fv :: fvs =>
                         fold_left (equal_values_of (fst item) (mp :: mps))
                                   (fv :: fvs) mapping
                       | _, _ => mapping
                       end) part mapping)) as Hfold.
  { induction part as [|[a e] part IH]; intros mapping; cbn [fold_left].
    - intros [[]|Hm]. exact Hm.
    - intros Hor. apply IH. cbn [fst snd].
      destruct Hor as [[[= -> ->]|Hin]|Hm].
      + right. rewrite Hmp.
        destruct mp_values as [|mp0 mps]; [discriminate Hfirst|].
        destruct (entry_unmapped_feed_values entry) as [|fv fvs];
          [destruct Hfeed|].
        apply (Hfound (fv :: fvs) mapping). exact Hfeed.
      + left. exact Hin.
      + right. destruct (entry_mp_values e) as [[|mp0 mps]|]; try exact Hm.
        destruct (entry_unmapped_feed_values e) as [|fv fvs]; [exact Hm|].
        apply (Hkeeps a (mp0 :: mps) (fv :: fvs) mapping). exact Hm. }
  destruct (Hfold d [] (or_introl Hentry)) as [inner [Hinner Hmem]].
  fold (get_equal_values d) in Hinner.
  unfold dict_mem in Hmem.
  destruct (dict_get (fst feed_value) inner) as [mp_id|] eqn:Eid;
    [|discriminate].
  exists inner, mp_id.
  split; [exact (dict_get_In _ _ Hinner) | exact (dict_get_In _ _ Eid)].
Qed.

Lemma get_equal_values_none (d : dict Z unmapped_entry) :
  (forall k entry mp_values feed_value,
     In (k, entry) d -> entry_mp_values entry = Some mp_values ->
     In feed_value (entry_unmapped_feed_values entry) ->
     first_equal mp_values feed_value = None) ->
  get_equal_values d = [].
Proof.
  intros Hnone. unfold get_equal_values.
  set (body := fun mapping (item : Z * unmapped_entry) =>
                 match entry_mp_values (snd item),
                       entry_unmapped_feed_values (snd item) with
                 | Some (mp :: mps), fv :: fvs =>
                   fold_left (equal_values_of (fst item) (mp :: mps))
                             (fv :: fvs) mapping
                 | _, _ => mapping
                 end).
  assert (forall a mps l (mapping : dict Z (dict Z Z)),
             (forall x, In x l -> first_equal mps x = None) ->
             fold_left (equal_values_of a mps) l mapping = mapping) as Hinner.
  { induction l as [|x l IHl]; intros mapping Hl; [reflexivity|].
    change (fold_left (equal_values_of a mps) l
                      (equal_values_of a mps mapping x) = mapping).
    unfold equal_values_of at 2. rewrite (Hl x (or_introl eq_refl)).
    apply IHl. intros y Hy. apply Hl. right. exact Hy. }
  assert (forall item mapping, In item d -> body mapping item = mapping)
    as Hbody.
  { intros [a e] mapping Hitem. unfold body. cbn [fst snd].
    destruct (entry_mp_values e) as [[|mp0 mps]|] eqn:Emp; try reflexivity.
    destruct (entry_unmapped_feed_values e) as [|fv fvs] eqn:Efeed;
      [reflexivity|].
    apply Hinner. intros x Hx.
    apply (Hnone a e (mp0 :: mps) x Hitem Emp). rewrite Efeed. exact Hx. }
  assert (forall part mapping,
             (forall item, In item part -> In item d) ->
             fold_left body part mapping = mapping) as Hfold.
  { induction part as [|item part IH]; intros mapping Hpart; [reflexivity|].
    change (fold_left body part (body mapping item) = mapping).
    rewrite (Hbody item mapping (Hpart item (or_introl eq_refl))).
    apply IH. intros x Hx. apply Hpart. right. exact Hx. }
  apply Hfold. tauto.
Qed.

(** *** Mappings with different ids *)

Lemma select_attribute_map_attr_map (db : database float) (am : AttributeMap)
  (row : attribute_map_row) :
  select_attribute_map db am = Some row -> attr_map row = am.
Proof.
  unfold select_attribute_map.
  destruct (by_id fca_id _ _); [|discriminate].
  destruct (by_id mca_id _ _) as [mca|]; [|discriminate].
  destruct (by_id ma_id _ _); [|discriminate].
  intros [= <-]. reflexivity.
Qed.

Lemma equal_values_attr_maps_unique (db : database float) (feed_id : Z)
  (row row' : attribute_map_row) :
  NoDup (map am_id (attribute_maps db)) ->
  In row (equal_values_attr_maps db feed_id) ->
  In row' (equal_values_attr_maps db feed_id) ->
  am_id (attr_map row) = am_id (attr_map row') -> row = row'.
Proof.
  intros Hunique Hrow Hrow' Hid.
  assert (forall r, In r (equal_values_attr_maps db feed_id) ->
                    In (attr_map r) (attribute_maps db) /\
                    select_attribute_map db (attr_map r) = Some r) as Hsel.
  { intros r Hr. unfold equal_values_attr_maps in Hr.
    apply filter_In in Hr. destruct Hr as [Hr _].
    apply filter_In in Hr. destruct Hr as [Hr _].
    unfold filter_map in Hr. apply in_flat_map in Hr.
    destruct Hr as [am [Ham Hr]].
    destruct (select_attribute_map db am) as [r'|] eqn:Esel; [|destruct Hr].
    destruct Hr as [<-|[]].
    rewrite (select_attribute_map_attr_map db am r' Esel).
    split; assumption. }
  destruct (Hsel row Hrow) as [Hin Hs]. destruct (Hsel row' Hrow') as [Hin' Hs'].
  assert (attr_map row = attr_map row') as Heq.
  { revert Hunique Hin Hin' Hid.
    generalize (attr_map row) (attr_map row') (attribute_maps db).
    intros x y l. induction l as [|a l IH]; [intros _ []|].
    cbn [map]. intros Hnd. inversion Hnd as [|i ids Hnot Hrest]; subst.
    intros [->|Hx] [->|Hy] Hxy.
    - reflexivity.
    - exfalso. apply Hnot. rewrite Hxy. apply in_map. exact Hy.
    - exfalso. apply Hnot. rewrite <- Hxy. apply in_map. exact Hx.
    - apply IH; assumption. }
  rewrite Heq in Hs. congruence.
Qed.

(** *** The tables that stay *)

Lemma equal_values_attr_maps_more (db db' : database float) (feed_id : Z) :
  more_value_maps db db' ->
  equal_values_attr_maps db' feed_id = equal_values_attr_maps db feed_id.
Proof.
  destruct db, db'. unfold more_value_maps. cbn.
  intros (-> & -> & -> & -> & -> & -> & -> & -> & _). reflexivity.
Qed.

Lemma unmapped_rows_more (db db' : database float)
  (attr_maps : list attribute_map_row) (mapped : list Z) :
  more_value_maps db db' ->
  unmapped_rows db' attr_maps mapped = unmapped_rows db attr_maps mapped.
Proof.
  intros (_ & _ & Hfeed & _). unfold unmapped_rows. rewrite Hfeed.
  reflexivity.
Qed.

Lemma marketplace_rows_more (db db' : database float)
  (ids : dict Z (option Z)) :
  more_value_maps db db' ->
  marketplace_rows db' ids = marketplace_rows db ids.
Proof.
  intros (_ & _ & _ & _ & _ & Hmarket & _). unfold marketplace_rows.
  rewrite Hmarket. reflexivity.
Qed.

Lemma mapped_ids_more (db db' : database float) (ids : dict Z (option Z))
  (feed_value_id : Z) :
  more_value_maps db db' ->
  In feed_value_id (mapped_ids (value_maps db) ids) ->
  In feed_value_id (mapped_ids (value_maps db') ids).
Proof.
  intros (_ & _ & _ & _ & _ & _ & _ & _ & new & Hnew). unfold mapped_ids.
  rewrite Hnew, filter_app, map_app. intros Hin. apply in_or_app. left.
  exact Hin.
Qed.

Lemma mapped_ids_has_triple (db : database float) (ids : dict Z (option Z))
  (a f mp : Z) :
  has_triple db a f mp -> dict_mem a ids = true ->
  In f (mapped_ids (value_maps db) ids).
Proof.
  intros [row [Hrow Htriple]] Hmem. unfold triple in Htriple.
  injection Htriple as Ha Hf _. unfold mapped_ids. rewrite <- Hf.
  apply in_map. apply filter_In. split; [exact Hrow|].
  apply mem_Z_In. rewrite Ha. apply dict_mem_keys. exact Hmem.
Qed.

(** *** The batch scope, twice *)

(** A second call of [map_attribute_equal_values_v2] for the same feed
    finds nothing left to map: it returns and leaves every table as the
    first call left it. The ids of the attribute mappings are taken to be
    different, as a primary key is. *)
Theorem map_attribute_equal_values_v2_again (db db' : database float)
  (feed_id : Z) :
  NoDup (map am_id (attribute_maps db)) ->
  map_attribute_equal_values_v2 db feed_id = Ok db' ->
  map_attribute_equal_values_v2 db' feed_id = Ok db'.
Proof.
  intros Hunique Hrun. unfold map_attribute_equal_values_v2 in Hrun.
  destruct (get_both_values_for_unmapped db feed_id) as [d1|] eqn:E1;
    [cbn [bind] in Hrun | discriminate Hrun].
  destruct (mappings_have_triples _ db db' Hrun) as (Hmore & _ & Hall).
  destruct (get_both_values_for_unmapped_returns db' feed_id) as [d2 E2].
  unfold map_attribute_equal_values_v2. rewrite E2. cbn [bind].
  assert (get_equal_values d2 = []) as ->; [|reflexivity].
  rewrite get_both_values_for_unmapped_parts in E1, E2. cbv zeta in E1, E2.
  rewrite (equal_values_attr_maps_more db db' feed_id Hmore) in E2.
  rewrite (marketplace_rows_more db db' _ Hmore) in E2.
  rewrite (unmapped_rows_more db db' _ _ Hmore) in E2.
  set (attr_maps := equal_values_attr_maps db feed_id) in *.
  set (ids := dictionary_ids attr_maps) in *.
  set (marketplace_values := marketplace_rows db ids) in *.
  set (unmapped1 := unmapped_rows db attr_maps
                                  (mapped_ids (value_maps db) ids)) in *.
  set (unmapped2 := unmapped_rows db attr_maps
                                  (mapped_ids (value_maps db') ids)) in *.
  apply get_equal_values_none.
  intros k entry mp_values [feed_value_id text] Hentry Hmp Hfeed.
  destruct (first_equal mp_values (feed_value_id, text)) as [mp|] eqn:Efirst;
    [exfalso | reflexivity].
  destruct (add_mp_values_entries attr_maps unmapped2 marketplace_values _ _ _
              E2 (add_unmapped_entries attr_maps unmapped2) k entry Hentry)
    as [(row & Hrow & Hk & Hvalues & _) Hdictionary].
  destruct (Hdictionary mp_values Hmp) as (dictionary_id & Hid & Hmps & _).
  fold ids in Hid.
  rewrite Hvalues in Hfeed.
  apply (unmapped_of_spec db attr_maps _ row feed_value_id text Hrow)
    in Hfeed.
  destruct Hfeed as (fv & Hfv & Hattr & Hfvid & Htext & Hnot2).
  assert (mem_Z feed_value_id (mapped_ids (value_maps db) ids) = false)
    as Hnot1.
  { destruct (mem_Z feed_value_id (mapped_ids (value_maps db) ids)) eqn:Em;
      [|reflexivity].
    apply mem_Z_In in Em. apply (mapped_ids_more db db' ids _ Hmore) in Em.
    apply mem_Z_In in Em. congruence. }
  assert (In (feed_value_id, text) (unmapped_of unmapped1 row)) as Hfirst.
  { apply (unmapped_of_spec db attr_maps _ row feed_value_id text Hrow).
    exists fv. repeat split; assumption. }
  assert (unmapped_of unmapped1 row <> []) as Hsome
      by (intros Hnil; rewrite Hnil in Hfirst; destruct Hfirst).
  pose proof (add_unmapped_has attr_maps unmapped1 row Hrow Hsome) as Hmem.
  rewrite Hk in Hmem.
  assert (mem_Z k (dict_keys (fold_left (add_unmapped unmapped1) attr_maps []))
          = true) as Hkey by (apply mem_Z_In, dict_mem_keys; exact Hmem).
  unfold dict_mem in Hmem.
  destruct (dict_get k (fold_left (add_unmapped unmapped1) attr_maps []))
    as [e0|] eqn:E0; [|discriminate Hmem].
  destruct (add_unmapped_entries attr_maps unmapped1 k e0
              (dict_get_In _ _ E0)) as [(row' & Hrow' & Hk' & Hvalues' & _) _].
  assert (row' = row) as ->.
  { apply (equal_values_attr_maps_unique db feed_id row' row Hunique Hrow' Hrow).
    congruence. }
  pose proof (add_mp_values_loop ids marketplace_values _ _ _ E1 k) as Hd1.
  rewrite E0, Hkey in Hd1. cbn [option_map] in Hd1.
  assert (mp_values <> []) as Hmpsome
      by (intros ->; discriminate Efirst).
  unfold with_mp_values in Hd1. rewrite Hid, <- Hmps in Hd1.
  destruct mp_values as [|mp0 mps]; [contradiction|].
  destruct (get_equal_values_has d1 k _ (mp0 :: mps) (feed_value_id, text) mp
              (dict_get_In _ _ Hd1) eq_refl)
    as (inner & mp_id & Hinner & Hpair).
  { cbn [entry_unmapped_feed_values]. rewrite Hvalues'. exact Hfirst. }
  { exact Efirst. }
  cbn [fst] in Hpair.
  pose proof (Hall k inner feed_value_id mp_id Hinner Hpair) as Htriple.
  assert (dict_mem k ids = true) as Hids.
  { rewrite <- Hk. apply dictionary_ids_has. exact Hrow. }
  pose proof (mapped_ids_has_triple db' ids k feed_value_id mp_id Htriple Hids)
    as Hmapped.
  apply mem_Z_In in Hmapped. congruence.
Qed.

(** *** The lists of [get_both_values_for_unmapped] *)





End BatchScope.
Section SingleScope.
Context `{Unicode} `{Numbers} `{Sql}.

(** *** The rows that [map_attribute_equal_values] creates *)






End SingleScope.
End MappingFacts.

(* ===================================================================== *)
(** * Properties of the category tree                                     *)
(* ===================================================================== *)

Module TreeFacts.
Import CategoryTree.

Section Shape.
Context {V : Type} `{EqKey V}.
Variable none : V.

(** The categories of the input whose [parent] is [p], in their order. *)
Definition has_parent (p : V) (c : category) : bool :=
  match dict_get (u "parent") c with
  | Some q => keyb q p
  | None => false
  end.

Definition under (categories : list category) (p : V) : list category :=
  filter (has_parent p) categories.

(** A node is a category of the input, and its children are the categories
    whose [parent] is its [id], in the order of the input. *)
Inductive shaped (categories : list category) : tree -> Prop :=
| shaped_node (c : category) (children : list tree) (id : V) :
    dict_get (u "id") c = Some id ->
    map fields_of children = under categories id ->
    Forall (shaped categories) children ->
    shaped categories (Node c children).

Lemma keyb_sym (a b : V) : keyb a b = keyb b a.
Proof.
  destruct (keyb a b) eqn:Eab; destruct (keyb b a) eqn:Eba; try reflexivity.
  - apply keyb_eq in Eab. subst b. rewrite keyb_refl in Eba. discriminate.
  - apply keyb_eq in Eba. subst b. rewrite keyb_refl in Eab. discriminate.
Qed.

Lemma lookup_append_to (q p : V) (c : category) (d : dict V (list category)) :
  lookup (append_to q c d) p =
  if keyb q p then lookup d p ++ [c] else lookup d p.
Proof.
  unfold lookup, append_to.
  destruct (dict_get q d) as [l|] eqn:Eq; rewrite dict_get_set, keyb_sym;
    destruct (keyb q p) eqn:Eqp; try reflexivity;
    apply keyb_eq in Eqp; subst p; rewrite Eq; reflexivity.
Qed.

(** The dictionary by parent holds, under each key, the categories with
    that parent. *)
Lemma by_parent_lookup (categories : list category) :
  forall d d',
    by_parent categories d = Built d' ->
    forall p, lookup d' p = lookup d p ++ under categories p.
Proof.
  induction categories as [|c rest IH]; intros d d'; cbn [by_parent].
  - intros [= <-] p. symmetry. apply app_nil_r.
  - destruct (dict_get (u "parent") c) as [q|] eqn:Eq; [|discriminate].
    intros Hrest p. rewrite (IH _ _ Hrest p), lookup_append_to.
    unfold under. cbn [filter]. unfold has_parent at 2. rewrite Eq.
    destruct (keyb q p); [|reflexivity].
    rewrite <- app_assoc. reflexivity.
Qed.

Lemma _make_tree_shaped (categories : list category)
  (d : dict V (list category)) :
  (forall p, lookup d p = under categories p) ->
  forall limit p forest,
    _make_tree limit d p = Built forest ->
    map fields_of forest = under categories p /\
    Forall (shaped categories) forest.
Proof.
  intros Hd. induction limit as [|limit IH]; intros p forest;
    cbn [_make_tree]; [discriminate|].
  rewrite <- (Hd p). generalize (lookup d p). intros l. revert forest.
  induction l as [|c rest IHl]; intros forest.
  - intros [= <-]. split; [reflexivity | constructor].
  - destruct (dict_get (u "id") c) as [id|] eqn:Eid; [|discriminate].
    destruct (_make_tree limit d id) as [children| |] eqn:Echildren;
      try discriminate.
    match goal with
    | |- match ?e with _ => _ end = _ -> _ =>
      destruct e as [trees| |] eqn:Etrees; try discriminate
    end.
    intros [= <-]. destruct (IHl trees eq_refl) as [Hfields Hshaped].
    destruct (IH id children Echildren) as [Hsub Hsubs].
    split; [cbn [map fields_of]; rewrite Hfields; reflexivity|].
    constructor; [|exact Hshaped].
    apply (shaped_node categories c children id Eid Hsub Hsubs).
Qed.

(** The tree that [make_marketplace_category_tree] returns: its roots are
    the categories whose [parent] is [None], and the children of every node
    are the categories whose [parent] is the [id] of the node, all in the
    order of the input. A category that no chain of parents links to
    [None] is in no tree. *)
Theorem make_marketplace_category_tree_shape (limit : nat)
  (categories : list category) (forest : list tree) :
  make_marketplace_category_tree none limit categories = Built forest ->
  map fields_of forest = under categories none /\
  Forall (shaped categories) forest.
Proof.
  unfold make_marketplace_category_tree.
  destruct (by_parent categories []) as [d| |] eqn:Ed; try discriminate.
  apply _make_tree_shaped. intros p.
  rewrite (by_parent_lookup categories [] d Ed p). reflexivity.
Qed.

(** *** When the tree is built *)

Lemma by_parent_built (categories : list category) :
  (forall c, In c categories -> dict_get (u "parent") c <> None) ->
  forall d, exists d', by_parent categories d = Built d'.
Proof.
  induction categories as [|c rest IH]; intros Hkeys d; cbn [by_parent].
  - exists d. reflexivity.
  - destruct (dict_get (u "parent") c) as [q|] eqn:Eq.
    + apply IH. intros c' Hc'. apply Hkeys. right. exact Hc'.
    + exfalso. apply (Hkeys c); [left; reflexivity | exact Eq].
Qed.

Lemma _make_tree_built (categories : list category)
  (d : dict V (list category)) (level : V -> nat) :
  (forall p, lookup d p = under categories p) ->
  (forall c, In c categories -> dict_get (u "id") c <> None) ->
  (forall c id p,
     In c categories -> dict_get (u "id") c = Some id ->
     dict_get (u "parent") c = Some p -> level id < level p) ->
  forall limit p,
    level p < limit -> exists forest, _make_tree limit d p = Built forest.
Proof.
  intros Hd Hkeys Hlevel.
  induction limit as [|limit IH]; intros p Hp; [inversion Hp|].
  cbn [_make_tree].
  assert (forall c, In c (lookup d p) ->
                    In c categories /\ has_parent p c = true) as Hl.
  { intros c Hc. rewrite Hd in Hc. apply filter_In in Hc. exact Hc. }
  revert Hl. generalize (lookup d p). intros l.
  induction l as [|c rest IHl]; intros Hl.
  - exists []. reflexivity.
  - destruct (Hl c (or_introl eq_refl)) as [Hc Hparent].
    destruct (dict_get (u "id") c) as [id|] eqn:Eid;
      [|exfalso; exact (Hkeys c Hc Eid)].
    unfold has_parent in Hparent.
    destruct (dict_get (u "parent") c) as [q|] eqn:Eq; [|discriminate].
    apply keyb_eq in Hparent. subst q.
    pose proof (Hlevel c id p Hc Eid Eq) as Hlt.
    destruct (IH id) as [children ->]; [lia|].
    destruct IHl as [trees ->];
      [intros c' Hc'; apply Hl; right; exact Hc'|].
    eexists. reflexivity.
Qed.

(** The tree is built when every category has the keys [parent] and [id],
    the parents rank above their children, so that no chain of parents
    comes back to a category, and the nesting that the rank of [None]
    allows is within the limit. *)
Theorem make_marketplace_category_tree_built (limit : nat)
  (categories : list category) (level : V -> nat) :
  (forall c, In c categories ->
             dict_get (u "parent") c <> None /\ dict_get (u "id") c <> None) ->
  (forall c id p,
     In c categories -> dict_get (u "id") c = Some id ->
     dict_get (u "parent") c = Some p -> level id < level p) ->
  level none < limit ->
  exists forest,
    make_marketplace_category_tree none limit categories = Built forest.
Proof.
  intros Hkeys Hlevel Hlimit. unfold make_marketplace_category_tree.
  destruct (by_parent_built categories
              (fun c Hc => proj1 (Hkeys c Hc)) []) as [d Ed].
  rewrite Ed.
  apply (_make_tree_built categories d level); try assumption.
  - intros p. rewrite (by_parent_lookup categories [] d Ed p). reflexivity.
  - intros c Hc. apply (Hkeys c Hc).
Qed.

End Shape.
End TreeFacts.

(** ** The builder on concrete inputs *)

Module OzonExamples.
Import Mapper MapperFacts Ozon OzonFacts.
Local Open Scope Q_scope.
#[local] Existing Instance Decimal.numbers.
#[local] Instance sql_upper_unicode : Sql := {| sql_upper := upper |}.

(** Stand-ins for the functions outside the sources: texts are left as they
    are. *)
#[local] Instance plain_text : External float := {|
  remove_prohibited_characters := fun s => s;
  _clear_annotation_tags := fun s => s;
  container_str := fun _ => u "[]"
|}.

Definition tables (values : list MarketAttributeValue) : database float := {|
  feed_categories := [];
  feed_attributes := [];
  feed_values := [];
  market_attributes := [];
  market_category_attributes := [];
  market_values := values;
  attribute_maps := [];
  value_maps := [];
  value_unit_maps := []
|}.

(** A manager before its first offer. *)
Definition manager_of (attribute_map : attribute_map_type)
  (ozon_attributes : dict str ozon_attribute) : manager float := {|
  ozon_category_id := u "17028922";
  market_category_deleted := false;
  _attribute_map := attribute_map;
  _ozon_attributes := ozon_attributes;
  _required_ozon_attributes := [];
  _attributes_values := [];
  _complex_attributes_values := [];
  _attributes_errors := None;
  _tags_errors := []
|}.

Definition attribute (required disabled : bool) (dictionary : option Z)
  (name : str) : ozon_attribute :=
  {| oa_required := required; oa_disabled := disabled;
     oa_dictionary_id := dictionary; oa_name := name |}.

(** An offer with every tag the builder checks. *)
Definition phone : dict str (pyval float) := [
  (u "@id", PStr (u "1001"));
  (u "name", PStr (u "Phone"));
  (u "dimensions", PStr (u "10/20/30"));
  (u "weight", PStr (u "0.5"));
  (u "picture", PStr (u "http://shop/1.jpg"));
  (u "price", PStr (u "100"))
].

(** *** Required-field fallback *)

(** Both attributes that group offers on one card are required, with the
    vendor code. *)
Definition with_groups : manager float :=
  with_required [u "8292"; u "9024"; u "10289"]
    (manager_of []
       [(u "8292", attribute true false None (u "Объединить на одной карточке"));
        (u "9024", attribute true false None (u "Артикул"));
        (u "10289", attribute true false None (u "Объединить на одной карточке"))]).

Lemma add_if_exists_empty_or_none_witness :
  dict_get (u "group") OZON_ATTRIBUTES_IDS =
    Some (ManyIds [u "8292"; u "10289"]) /\
  (exists m',
      add_if_exists (with_groups, []) (u "group") (PStr []) =
        Ok (m', [(u "8292", u "empty"); (u "10289", u "empty")]) /\
      same_but_values with_groups m' /\
      _required_ozon_attributes m' = [u "9024"] /\
      forall key,
        dict_get key (_attributes_values m') =
        if has_key key [u "8292"; u "10289"]
        then Some {| complex_id := 0; id := key;
                     values_of := [{| item_value := PStr [];
                                      item_dictionary_value_id := 0 |}] |}
        else None) /\
  add_if_exists (with_groups, []) (u "group") PNone =
    Ok (with_groups, [(u "8292", u "missing")]).
Proof.
  split; [reflexivity|].
  exact (add_if_exists_empty_or_none with_groups [] (u "group")
           (ManyIds [u "8292"; u "10289"]) eq_refl).
Defined.

(** C10 as stated fails for the key [group], which has two ids: with
    [None] the fallback returns at the first attribute, so the required
    attribute 10289 of the category gets no [missing]. *)
Lemma group_none_reports_first_id_only :
  dict_get (u "group") OZON_ATTRIBUTES_IDS =
    Some (ManyIds [u "8292"; u "10289"]) /\
  dict_get (u "10289") (_ozon_attributes with_groups) =
    Some (attribute true false None (u "Объединить на одной карточке")) /\
  exists errors,
    add_if_exists (with_groups, []) (u "group") PNone =
      Ok (with_groups, errors) /\
    dict_get (u "8292") errors = Some (u "missing") /\
    dict_get (u "10289") errors = None.
Proof.
  split; [reflexivity|]. split; [reflexivity|].
  eexists. split; [vm_compute; reflexivity|].
  split; reflexivity.
Qed.

(** *** Consolidation *)

(** The model attribute is required and disabled, and the offer has no
    [model] tag. *)
Definition disabled_model : manager float :=
  manager_of [] [(u "9048", attribute true true None (u "Название модели"))].

(** C3 as stated fails: the disabled required attribute 9048 received no
    value, and its final error is the [missing] of the fallback, not
    [logical]. *)
Lemma disabled_attribute_keeps_earlier_error :
  exists info m',
    _collect_offer_parameters (tables []) disabled_model phone = Ok (info, m') /\
    dict_get (u "9048") (ozon_attributes_data info)
      = Some (attribute true true None (u "Название модели")) /\
    attributes info = [] /\
    _required_ozon_attributes m' = [u "9048"] /\
    attributes_errors info = Some [(u "9048", u "missing")].
Proof. eexists. eexists. split; [vm_compute; reflexivity|]. repeat split. Qed.

(** Three outstanding required attributes without an earlier error: one
    disabled, one that no mapping carries, one mapped from a feed attribute
    that the offer lacks. *)
Definition brand_mapping : mapping_data := {|
  source_id := u "85";
  dictionary_id := Some 28732849%Z;
  data_type := Some (u "String");
  mapping_id := 3;
  from_unit_id := None;
  to_unit_id := None;
  is_rich_content := false;
  ignore_data_type := false;
  deleted := false;
  values_map := Some []
|}.

Definition three_outstanding : manager float :=
  with_required [u "9048"; u "10096"; u "85"]
    (manager_of
       [(u "БРЕНД", [(3%Z, brand_mapping)])]
       [(u "9048", attribute true true None (u "Название модели"));
        (u "10096", attribute true false (Some 5%Z) (u "Цвет товара"));
        (u "85", attribute true false (Some 28732849%Z) (u "Бренд"))]).

Example three_outstanding_errors :
  consolidate three_outstanding [(u "NAME", [u "Phone"])] [] =
  Ok [(u "9048", u "logical"); (u "10096", u "unmapped");
      (u "85", u "missing")].
Proof. vm_compute. reflexivity. Qed.

Example consolidate_outstanding_on_three :
  exists errors',
    consolidate three_outstanding [(u "NAME", [u "Phone"])] [] = Ok errors' /\
    dict_get (u "9048") errors' = Some (u "logical").
Proof.
  destruct (consolidate_outstanding three_outstanding
              [(u "NAME", [u "Phone"])] []) as [errors' [Hrun Hclass]].
  - intros s [<-|[<-|[<-|[]]]]; reflexivity.
  - exists errors'. split; [exact Hrun|].
    apply (Hclass (u "9048")
                  (attribute true true None (u "Название модели"))).
    + left. reflexivity.
    + reflexivity.
Qed.

(** *** Customs codes *)

Definition laptops : MarketAttributeValue :=
  {| mav_id := 1; mav_dictionary_id := 5; mav_source_id := Some (u "971");
     mav_value := u "8471 30 - Портативные машины"; mav_deleted := false |}.

Definition with_customs_code : manager float :=
  with_required [u "22232"]
    (manager_of [] [(u "22232", attribute true false (Some 5%Z) (u "Код ТН ВЭД"))]).

Definition customs_offer (code : string) : dict str (pyval float) :=
  [(u "tn-ved-codes", PDict [(u "tn-ved-code", PStr (u code))])].

Example laptops_code : _extract_tn_ved_code (mav_value laptops) = u "847130".
Proof. reflexivity. Qed.

(** C6 as stated fails: the dictionary holds an entry whose extracted code
    is 847130, the offer carries the code "8471 30 000 0", and no value is
    assigned; the attribute is reported [not_found]. *)
Lemma spaced_customs_code_not_resolved :
  In (u "847130") (dict_keys (values_by_code_of (tables [laptops]) (Some 5%Z)))
  /\ tn_ved_lookup (values_by_code_of (tables [laptops]) (Some 5%Z))
                   (PStr (u "8471 30 000 0")) = Ok None
  /\ _add_tn_ved_codes (tables [laptops]) with_customs_code
                       (customs_offer "8471 30 000 0")
     = Ok (with_customs_code, [(u "22232", u "not_found")]).
Proof. vm_compute. repeat split. left. reflexivity. Qed.

(** Written without spaces the code resolves. *)
Example plain_customs_code_resolved :
  option_map (fun r : manager float * dict str str =>
                (map (@values_of float) (dict_values (_attributes_values (fst r))),
                 _required_ozon_attributes (fst r), snd r))
    (match _add_tn_ved_codes (tables [laptops]) with_customs_code
                             (customs_offer "8471300000") with
     | Ok r => Some r
     | Raise _ => None
     end)
  = Some ([[{| item_value := PStr (u "8471 30 - Портативные машины");
               item_dictionary_value_id := 971 |}]], [], []).
Proof. vm_compute. reflexivity. Qed.

Lemma tn_ved_lookup_longest_prefix_witness :
  tn_ved_lookup (values_by_code_of (tables [laptops]) (Some 5%Z))
                (PStr (u "8471300000"))
  = Ok (Some {| cv_value := u "8471 30 - Портативные машины";
                cv_dictionary_value_id := Some (u "971") |}).
Proof.
  apply (proj1 (tn_ved_lookup_longest_prefix
                  (values_by_code_of (tables [laptops]) (Some 5%Z))
                  (u "8471300000")) 6%nat).
  - vm_compute. lia.
  - vm_compute. reflexivity.
  - intros j Hj.
    assert (j = 7 \/ j = 8 \/ j = 9 \/ j = 10)%nat as Hcases
        by (vm_compute in Hj; lia).
    destruct Hcases as [->|[->|[->| ->]]]; vm_compute; reflexivity.
Defined.


(** *** Readiness *)

(** A category whose only required attribute is the type attribute. *)
Definition type_only : manager float :=
  manager_of [] [(u "8229", attribute true false (Some 1%Z) (u "Тип"))].

(** C7 as stated fails: the required attribute 8229 receives no value, so
    the set of required attributes without a value is not empty, and the
    offer is ready for import. *)
Lemma type_attribute_ready_without_value :
  exists info m',
    _collect_offer_parameters (tables []) type_only phone = Ok (info, m') /\
    In (u "8229") (required_of (_ozon_attributes type_only)) /\
    ~ has_value m' (u "8229") /\
    attributes info = [] /\
    complex_attributes info = [] /\
    tags_errors info = [] /\
    ready_for_import info = true.
Proof.
  eexists. eexists. split; [vm_compute; reflexivity|].
  split; [left; reflexivity|]. split; [|repeat split].
  intros [key [_ [Hk|[d [Hd _]]]]]; discriminate.
Qed.

(** The name attribute and the type attribute are required; the offer has
    a name. *)
Definition name_and_type : manager float :=
  manager_of []
    [(u "4180", attribute true false None (u "Название"));
     (u "8229", attribute true false (Some 1%Z) (u "Тип"))].

(** What the previous offer may have left in the manager. *)
Definition after_an_offer : manager float :=
  with_attributes_values
    [(85%Z, {| complex_id := 0; id := 85;
               values_of := [{| item_value := PStr (u "Acme");
                                item_dictionary_value_id := 0 |}] |})]
    (with_attributes_errors (Some [(u "9048", u "missing")])
       (tag_error (u "price") (u "missed")
          (with_required [u "9048"] name_and_type))).

(** The video name is added after attribute collection, next to a mapped
    video link: the returned complex attributes hold a name for 21837,
    which stays outstanding, is reported [unmapped], and the offer is not
    ready. *)
Definition video_mapping : mapping_data := {|
  source_id := u "21841";
  dictionary_id := None;
  data_type := Some (u "URL");
  mapping_id := 9;
  from_unit_id := None;
  to_unit_id := None;
  is_rich_content := false;
  ignore_data_type := false;
  deleted := false;
  values_map := None
|}.

Definition with_video : manager float :=
  manager_of [(u "VIDEO", [(9%Z, video_mapping)])]
    [(u "21841", attribute false false None (u "Видео: ссылка"));
     (u "21837", attribute true false None (u "Видео: название"))].

Definition phone_with_video : dict str (pyval float) :=
  phone ++ [(u "param", PList [PDict [(u "@name", PStr (u "Video"));
                                      (u "#text", PStr (u "abc123"))]])].

Example video_name_added_after_collection :
  exists info m',
    _collect_offer_parameters (tables []) with_video phone_with_video
      = Ok (info, m') /\
    map (map (fun e : complex_values float => (cx_id e, cx_values e)))
        (complex_attributes info)
      = [[(21841%Z, [PStr (u "https://www.youtube.com/watch?v=abc123")]);
          (21837%Z, [PStr (u "Phone")])]] /\
    _required_ozon_attributes m' = [u "21837"] /\
    ~ has_value m' (u "21837") /\
    attributes_errors info = Some [(u "21837", u "unmapped")] /\
    tags_errors info = [] /\
    ready_for_import info = false.
Proof.
  eexists. eexists. split; [vm_compute; reflexivity|].
  split; [reflexivity|]. split; [reflexivity|]. split; [|repeat split].
  intros [key [Hkey [Hk|[d [Hd Hk]]]]]; [discriminate|].
  vm_compute in Hkey. injection Hkey as <-.
  vm_compute in Hd. injection Hd as <-. discriminate.
Qed.

Lemma ready_for_import_outstanding_witness :
  exists info m',
    _collect_offer_parameters (tables []) name_and_type phone = Ok (info, m') /\
    ready_for_import info = true /\
    (ready_for_import info = true <->
       tags_errors info = [] /\
       forall s, In s [u "4180"; u "8229"] -> s <> u "8229" ->
                 has_value m' s) /\
    _collect_offer_parameters (tables []) after_an_offer phone = Ok (info, m').
Proof.
  eexists. eexists. split; [vm_compute; reflexivity|].
  split; [reflexivity|].
  match goal with
  | |- (ready_for_import ?info = true <-> _) /\ _ = Ok (_, ?m') =>
    destruct (ready_for_import_outstanding (tables []) name_and_type m' phone
                info) as (Hready & _ & _ & _ & _ & Hany)
  end.
  - intros s s' key Hs Hs'.
    destruct Hs as [<-|[<-|[]]]; destruct Hs' as [<-|[<-|[]]];
      vm_compute; congruence.
  - vm_compute. reflexivity.
  - split; [exact Hready|]. apply Hany. repeat split.
Defined.


(** *** Errors, tags and the video group of a processed offer *)

Lemma outstanding_attributes_are_reported_witness :
  exists info m',
    _collect_offer_parameters (tables []) disabled_model phone = Ok (info, m') /\
    exists errors,
      attributes_errors info = Some errors /\
      (forall s, In s (_required_ozon_attributes m') ->
                 dict_mem s errors = true) /\
      (ready_for_import info = false -> tags_errors info = [] ->
       errors <> []).
Proof.
  eexists. eexists. split; [vm_compute; reflexivity|].
  apply (outstanding_attributes_are_reported (tables []) disabled_model _
                                             phone _).
  vm_compute. reflexivity.
Defined.

(** The brand is not required and has an unmapped value; the model is
    required and missing. *)
Definition optional_brand : manager float :=
  manager_of
    [(u "BRAND", [(3%Z, brand_mapping)])]
    [(u "85", attribute false false (Some 28732849%Z) (u "Бренд"));
     (u "9048", attribute true false None (u "Название модели"))].

Definition phone_with_brand : dict str (pyval float) :=
  phone ++ [(u "brand", PStr (u "Acme"))].

Lemma attributes_errors_name_required_attributes_witness :
  exists info m',
    _collect_offer_parameters (tables []) optional_brand phone_with_brand
      = Ok (info, m') /\
    attributes_errors info = Some [(u "9048", u "missing")] /\
    exists errors,
      attributes_errors info = Some errors /\
      forall s, dict_mem s errors = true ->
        exists data, In (s, data) (_ozon_attributes optional_brand) /\
                     oa_required data = true.
Proof.
  eexists. eexists. split; [vm_compute; reflexivity|].
  split; [reflexivity|].
  eapply (attributes_errors_name_required_attributes
            (tables []) optional_brand _ phone_with_brand).
  vm_compute. reflexivity.
Defined.

Lemma ready_offer_has_its_tags_witness :
  exists info m',
    _collect_offer_parameters (tables []) name_and_type phone = Ok (info, m') /\
    truthy (offer_name phone) = true /\
    truthy (get phone (u "dimensions")) = true /\
    float_parse (replace 0x2C (u ".")
                         (py_str (_get phone (u "weight") (PInt 0)))) <> None /\
    truthy (primary_image info) = true /\
    price info <> PNone /\
    market_category_deleted name_and_type = false /\
    exists s,
      _get phone (u "vat") (PStr (u "VAT_20")) = PStr s /\ s <> [] /\
      (s = u "NO_VAT" \/ dict_mem s VAT_BY_CODE = true \/
       int_of_str (after_last 0x5F s) <> None).
Proof.
  eexists. eexists. split; [vm_compute; reflexivity|].
  eapply (ready_offer_has_its_tags (tables []) name_and_type _ phone).
  - vm_compute. reflexivity.
  - reflexivity.
Defined.

Lemma video_link_comes_with_a_name_witness :
  exists info m',
    _collect_offer_parameters (tables []) with_video phone_with_video
      = Ok (info, m') /\
    forall group e,
      In group (complex_attributes info) -> In e group ->
      cx_id e = 21841%Z ->
      exists e', In e' group /\ cx_id e' = 21837%Z.
Proof.
  eexists. eexists. split; [vm_compute; reflexivity|].
  eapply (video_link_comes_with_a_name (tables []) with_video _
                                       phone_with_video).
  vm_compute. reflexivity.
Defined.

(** *** A batch of offers *)

(** The model year is mapped to an attribute without a dictionary: the
    first offer moves the mapping to [MODEL_YEAR_PARAM_INT]. *)
Definition year_mapping : mapping_data := {|
  source_id := u "4385";
  dictionary_id := None;
  data_type := Some (u "Integer");
  mapping_id := 5;
  from_unit_id := None;
  to_unit_id := None;
  is_rich_content := false;
  ignore_data_type := false;
  deleted := false;
  values_map := None
|}.

Definition with_model_year : manager float :=
  manager_of [(MODEL_YEAR_PARAM, [(5%Z, year_mapping)])]
    [(u "4385", attribute true false None (u "Год"));
     (u "4180", attribute true false None (u "Название"))].

Definition bike (year : string) : dict str (pyval float) :=
  phone ++ [(u "param", PList [PDict [(u "@name", PStr (u "Модельный год"));
                                      (u "#text", PStr (u year))]])].

Example model_years_of_a_batch :
  option_map
    (fun r : list (offer_info float) * manager float =>
       map (fun info : offer_info float =>
              (ready_for_import info,
               map (fun a : attribute_values float =>
                      (id a, map (@item_value float) (values_of a)))
                   (attributes info)))
           (fst r))
    (match collect_offers (tables []) with_model_year
                          [bike "2019-20"; bike "21"; phone] with
     | Ok r => Some r
     | Raise _ => None
     end)
  = Some [(true, [(4385%Z, [PStr (u "2020")]); (4180%Z, [PStr (u "Phone")])]);
          (true, [(4385%Z, [PStr (u "2021")]); (4180%Z, [PStr (u "Phone")])]);
          (false, [(4180%Z, [PStr (u "Phone")])])].
Proof. vm_compute. reflexivity. Qed.

Lemma collect_offers_one_by_one_witness :
  exists infos m',
    collect_offers (tables []) with_model_year
                   [bike "2019-20"; bike "21"; phone] = Ok (infos, m') /\
    Forall2 (fun offer info =>
               exists m1,
                 _collect_offer_parameters (tables []) with_model_year offer
                 = Ok (info, m1))
            [bike "2019-20"; bike "21"; phone] infos.
Proof.
  eexists. eexists. split; [vm_compute; reflexivity|].
  eapply (collect_offers_one_by_one (tables []) _ with_model_year).
  vm_compute. reflexivity.
Defined.

(** *** Codes and integers *)

Lemma _extract_tn_ved_code_digits_witness :
  _extract_tn_ved_code (u "8471300000") = u "8471300000".
Proof.
  apply (_extract_tn_ved_code_digits (u "8471300000")).
  - intros c Hc. vm_compute in Hc.
    repeat (destruct Hc as [<-|Hc]; [reflexivity|]). destruct Hc.
  - vm_compute. lia.
Defined.

Lemma _convert_attribute_value_integer_witness :
  _convert_attribute_value (u " +0042 ") (Some (u "Integer")) = Ok (u "42") /\
  (exists z, int_of_str (u " +0042 ") = Some z /\ u "42" = str_of_Z z) /\
  _convert_attribute_value (u "42") (Some (u "Integer")) = Ok (u "42").
Proof.
  split; [reflexivity|].
  apply (_convert_attribute_value_integer (u " +0042 ") (u "42")).
  reflexivity.
Defined.

Lemma canonical_ids_are_distinct_witness : distinct_ids name_and_type.
Proof.
  apply (canonical_ids_are_distinct name_and_type).
  intros s Hs. vm_compute in Hs.
  destruct Hs as [<-|[<-|[]]]; [exists 4180%Z | exists 8229%Z]; reflexivity.
Defined.

(** *** Dimensions that cannot be read *)

(** The phone with its dimensions written with another separator. *)
Definition unmeasured_phone : dict str (pyval float) :=
  dict_set (u "dimensions") (PStr (u "10x20x30")) phone.

Lemma unreadable_dimensions_are_not_reported_witness :
  exists info m',
    _collect_offer_parameters (tables []) name_and_type unmeasured_phone
      = Ok (info, m') /\
    ready_for_import info = true /\
    unreadable (get unmeasured_phone (u "dimensions")) /\
    dict_get (u "dimensions") (tags_errors info) = None /\
    (exists d w h : Z,
        parse_dimensions (get unmeasured_phone (u "dimensions")) =
        (str_of_Z d, str_of_Z w, str_of_Z h) /\
        depth info = Some (str_of_Z d) /\
        width info = Some (str_of_Z w) /\
        height info = Some (str_of_Z h)) /\
    (unreadable (get unmeasured_phone (u "dimensions")) ->
     depth info = Some (u "0") /\
     width info = Some (u "0") /\
     height info = Some (u "0")) /\
    (forall s length width' height',
        get unmeasured_phone (u "dimensions") = PStr s ->
        map dimension_part (dimension_parts s) =
          [Some length; Some width'; Some height'] ->
        depth info = Some length /\
        width info = Some width' /\
        height info = Some height').
Proof.
  eexists. eexists. split; [vm_compute; reflexivity|].
  split; [reflexivity|].
  split; [left; vm_compute; discriminate|].
  eapply (unreadable_dimensions_are_not_reported
            (tables []) name_and_type _ unmeasured_phone).
  vm_compute. reflexivity.
Defined.

(** A category that requires the length of the product. *)
Definition with_length : manager float :=
  manager_of [] [(u "9454", attribute true false None (u "Длина"))].

Lemma dimension_attributes_are_filled_witness :
  exists info m',
    _collect_offer_parameters (tables []) with_length unmeasured_phone
      = Ok (info, m') /\
    ready_for_import info = true /\
    ~ In (u "9454") (_required_ozon_attributes m') /\
    exists entry,
      In entry (attributes info) /\ id entry = 9454%Z /\
      In {| item_value := PStr (u "0"); item_dictionary_value_id := 0 |}
         (values_of entry).
Proof.
  eexists. eexists. split; [vm_compute; reflexivity|].
  split; [reflexivity|].
  refine (dimension_attributes_are_filled
            (tables []) with_length _ unmeasured_phone _ _
            (u "9454") 9454%Z (u "0") _ _).
  - vm_compute. reflexivity.
  - left. reflexivity.
  - reflexivity.
Defined.

(** *** The parameters of an offer *)

Lemma feed_params_values_of_keeps_witness :
  exists feed_params_values,
    feed_params_values_of (bike "2019-20") = Ok feed_params_values /\
    dict_get (u "МОДЕЛЬНЫЙ ГОД INT") feed_params_values = Some [u "2020"] /\
    collected_under (upper (strip (u "name"))) (strip (u "Phone"))
                    feed_params_values.
Proof.
  eexists. split; [vm_compute; reflexivity|]. split; [reflexivity|].
  refine (proj1 (proj2 (feed_params_values_of_keeps (bike "2019-20") _ _))
                (u "name") (u "Phone") _ _).
  - vm_compute. reflexivity.
  - right. left. reflexivity.
  - discriminate.
Defined.

(** *** The consolidation of an offer *)

(** A mapping from the tag [name] that is deleted. *)
Definition deleted_mapping : mapping_data := {|
  source_id := u "4389";
  dictionary_id := None;
  data_type := Some (u "String");
  mapping_id := 4;
  from_unit_id := None;
  to_unit_id := None;
  is_rich_content := false;
  ignore_data_type := false;
  deleted := true;
  values_map := None
|}.

(** Seven required attributes: the name, which the offer gives; the model,
    disabled, which the fallback reports; the type; and four that no step
    before the consolidation touches: one disabled, one that no mapping
    carries, one mapped from a parameter the offer lacks, one whose mapping
    from a tag of the offer is deleted. *)
Definition seven_required : manager float :=
  manager_of
    [(u "БРЕНД", [(3%Z, brand_mapping)]);
     (u "NAME", [(4%Z, deleted_mapping)])]
    [(u "4180", attribute true false None (u "Название"));
     (u "9048", attribute true true None (u "Название модели"));
     (u "8229", attribute true false (Some 1%Z) (u "Тип"));
     (u "10096", attribute true true (Some 5%Z) (u "Цвет товара"));
     (u "9461", attribute true false None (u "Комплектация"));
     (u "85", attribute true false (Some 28732849%Z) (u "Бренд"));
     (u "4389", attribute true false None (u "Страна-изготовитель"))].

Lemma consolidation_classifies_outstanding_witness :
  exists info m',
    _collect_offer_parameters (tables []) seven_required phone
      = Ok (info, m') /\
    attributes_errors info =
      Some [(u "9048", u "missing"); (u "10096", u "logical");
            (u "9461", u "unmapped"); (u "85", u "missing");
            (u "4389", u "unknown err")] /\
    exists tags m0 feed_params_values m1 earlier errors,
      collect_tags (reset_offer_state seven_required) phone = Ok (tags, m0) /\
      before_consolidation (tables []) m0 phone
        = Ok (feed_params_values, m1, earlier) /\
      attributes_errors info = Some errors /\
      (forall s,
          In s (_required_ozon_attributes m1) <->
          In s (required_of (_ozon_attributes seven_required)) /\
          s <> TYPE_SOURCE_ID /\ ~ has_value m' s) /\
      (forall s,
          In s (_required_ozon_attributes m1) ->
          exists data,
            dict_get s (_ozon_attributes seven_required) = Some data /\
            match dict_get s earlier with
            | Some e => dict_get s errors = Some e
            | None =>
              exists e,
                dict_get s errors = Some e /\
                classified (_attribute_map m') feed_params_values data s e
            end) /\
      (forall s,
          ~ In s (_required_ozon_attributes m1) ->
          dict_get s errors = dict_get s earlier).
Proof.
  eexists. eexists. split; [vm_compute; reflexivity|].
  split; [reflexivity|].
  refine (consolidation_classifies_outstanding
            (tables []) seven_required _ phone _ _ _).
  - intros s s' key Hs Hs'.
    repeat (destruct Hs as [<-|Hs]; [|]); try destruct Hs;
      repeat (destruct Hs' as [<-|Hs']; [|]); try destruct Hs';
      vm_compute; congruence.
  - vm_compute. reflexivity.
Defined.
End OzonExamples.

(* ===================================================================== *)
(** * The mapping graph on concrete inputs, continued                     *)
(* ===================================================================== *)

Module MappingExamples.
Import Mapper MapperFacts MapperExamples MappingFacts.
Local Open Scope Q_scope.
#[local] Existing Instance Decimal.numbers.
#[local] Existing Instance MapperExamples.sql_upper_unicode.

Lemma get_unit_map_keys_witness :
  exists index,
    get_unit_map [conversion 1 2 (10 # 1); conversion 3 4 (5 # 2)] = Ok index /\
    (forall k, dict_mem k index = true <->
               exists r,
                 In r [conversion 1 2 (10 # 1); conversion 3 4 (5 # 2)] /\
                 row_keys r k) /\
    (forall a b, dict_mem (a, b) index = true ->
                 dict_mem (b, a) index = true).
Proof.
  eexists. split; [reflexivity|].
  apply (get_unit_map_keys [conversion 1 2 (10 # 1); conversion 3 4 (5 # 2)]).
  reflexivity.
Defined.

Lemma get_mapped_values_reads_the_attribute_map_witness :
  exists attribute_map,
    get_category_attribute_map colour_db 1 = Ok attribute_map /\
    values_map_iff_dictionary attribute_map /\
    (nonzero_multipliers (value_unit_maps colour_db) ->
     forall feed, exists r,
       get_mapped_values (value_unit_maps colour_db) attribute_map feed
       = Ok r).
Proof.
  eexists. split; [vm_compute; reflexivity|].
  apply (get_mapped_values_reads_the_attribute_map colour_db 1).
  vm_compute. reflexivity.
Defined.

Lemma get_mapped_values_returns_live_values_witness :
  exists r,
    get_mapped_values [] two_colour_mappings [(u "COLOR", [u "red"])] = Ok r /\
    values r = [(u "COLOR", [dictionary_value first_mapping red_alive])] /\
    from_live_mapping two_colour_mappings (u "COLOR")
                      (dictionary_value first_mapping red_alive) /\
    mv_deleted (dictionary_value first_mapping red_alive) <> Some true.
Proof.
  eexists. split; [vm_compute; reflexivity|]. split; [reflexivity|].
  eapply (get_mapped_values_returns_live_values
            [] two_colour_mappings [(u "COLOR", [u "red"])]).
  - vm_compute. reflexivity.
  - left. reflexivity.
  - left. reflexivity.
Defined.

(** Feed values 1 "RED" and 2 "BLUE" of attribute map 1, whose dictionary
    holds 10 "RED" and 11 "GREEN". *)
Definition red_and_blue : dict Z unmapped_entry :=
  [(1%Z, {| entry_unmapped_feed_values := [(1%Z, u "RED"); (2%Z, u "BLUE")];
            entry_mp_values := Some [(10%Z, u "RED"); (11%Z, u "GREEN")] |})].

Lemma get_equal_values_pairs_equal_texts_witness :
  get_equal_values red_and_blue = [(1%Z, [(1%Z, 10%Z)])] /\
  exists entry mp_values text,
    In (1%Z, entry) red_and_blue /\
    entry_mp_values entry = Some mp_values /\
    In (1%Z, text) (entry_unmapped_feed_values entry) /\
    In (10%Z, text) mp_values.
Proof.
  split; [reflexivity|].
  apply (get_equal_values_pairs_equal_texts red_and_blue 1%Z [(1%Z, 10%Z)]
                                            1%Z 10%Z).
  - left. reflexivity.
  - left. reflexivity.
Defined.

Lemma create_val_mappings_appends_unique_rows_witness :
  exists db',
    create_val_mappings colour_db [(1%Z, [(1%Z, 10%Z); (2%Z, 10%Z)])] = Ok db' /\
    value_maps db' = [value_map 1 1; value_map 2 2] /\
    more_value_maps colour_db db' /\
    (NoDup (map triple (value_maps colour_db)) ->
     NoDup (map triple (value_maps db'))) /\
    (forall row, In row (value_maps db') -> ~ In row (value_maps colour_db) ->
       exists inner mp,
         In (vm_attribute_map_id row, inner)
            [(1%Z, [(1%Z, 10%Z); (2%Z, 10%Z)])] /\
         In (vm_feed_attribute_value_id row, mp) inner /\
         vm_marketplace_attribute_value_id row = Some mp).
Proof.
  eexists. split; [vm_compute; reflexivity|]. split; [reflexivity|].
  apply (create_val_mappings_appends_unique_rows
           [(1%Z, [(1%Z, 10%Z); (2%Z, 10%Z)])] colour_db).
  vm_compute. reflexivity.
Defined.

Lemma create_val_mappings_twice_witness :
  exists db',
    create_val_mappings colour_db [(1%Z, [(1%Z, 10%Z); (2%Z, 10%Z)])] = Ok db' /\
    create_val_mappings db' [(1%Z, [(1%Z, 10%Z); (2%Z, 10%Z)])] = Ok db'.
Proof.
  eexists. split; [vm_compute; reflexivity|].
  apply (create_val_mappings_twice [(1%Z, [(1%Z, 10%Z); (2%Z, 10%Z)])]
                                   colour_db).
  - constructor.
  - vm_compute. reflexivity.
Defined.


Lemma map_attribute_equal_values_v2_again_witness :
  exists db',
    map_attribute_equal_values_v2 colour_db 1 = Ok db' /\
    value_maps db' = [value_map 1 1; value_map 2 2] /\
    map_attribute_equal_values_v2 db' 1 = Ok db'.
Proof.
  eexists. split; [vm_compute; reflexivity|]. split; [reflexivity|].
  apply (map_attribute_equal_values_v2_again colour_db _ 1).
  - constructor; [intros [] | constructor].
  - vm_compute. reflexivity.
Defined.


End MappingExamples.

(* ===================================================================== *)
(** * The category tree on concrete inputs                                *)
(* ===================================================================== *)

Module TreeExamples.
Import CategoryTree TreeFacts.

(** Serialized categories with integer ids; [None] is the parent of a
    root. *)
Definition serialized (id : Z) (parent : option Z) : category :=
  [(u "id", Some id); (u "parent", parent)].

(** A root with two children, and a category whose parent is not among
    the categories. *)
Definition electronics : list category :=
  [serialized 1 None; serialized 2 (Some 1%Z); serialized 4 (Some 9%Z);
   serialized 3 (Some 1%Z)].

Lemma make_marketplace_category_tree_shape_witness :
  make_marketplace_category_tree None 3 electronics =
  Built [Node (serialized 1 None)
              [Node (serialized 2 (Some 1%Z)) [];
               Node (serialized 3 (Some 1%Z)) []]] /\
  map fields_of
      [Node (serialized 1 None)
            [Node (serialized 2 (Some 1%Z)) [];
             Node (serialized 3 (Some 1%Z)) []]]
  = under electronics None /\
  Forall (shaped electronics)
         [Node (serialized 1 None)
               [Node (serialized 2 (Some 1%Z)) [];
                Node (serialized 3 (Some 1%Z)) []]].
Proof.
  split; [reflexivity|].
  apply (make_marketplace_category_tree_shape None 3 electronics).
  reflexivity.
Defined.

Definition rank (v : option Z) : nat :=
  match v with
  | None => 2
  | Some 1%Z | Some 9%Z => 1
  | Some _ => 0
  end.

Lemma make_marketplace_category_tree_built_witness :
  exists forest,
    make_marketplace_category_tree None 3 electronics = Built forest.
Proof.
  apply (make_marketplace_category_tree_built None 3 electronics rank).
  - intros c Hc.
    repeat (destruct Hc as [<-|Hc]; [split; discriminate|]). destruct Hc.
  - intros c id p Hc.
    repeat (destruct Hc as [<-|Hc];
            [intros [= <-] [= <-]; cbn; lia|]).
    destruct Hc.
  - cbn. lia.
Defined.

End TreeExamples.
